(** * A shallow embedding of the storefront backend

    The development follows the layout of the repository:

    - [utils/cache.py]      : [CacheManager] (named TTL tiers, key
                              construction, exception-swallowing wrappers);
    - [orders/models.py]    : [Cart], [CartItem], [Order], [OrderItem],
                              [OrderStatusHistory] and their [save] methods;
    - [orders/serializers.py], [orders/views.py] : cart operations, checkout,
                              single and bulk status update;
    - [orders/signals.py]   : the [post_save] handler of [Order];
    - [ecommerce_api/views.py] : the AJAX views of the HTML front end that
                              repeat the cart operations, the checkout and
                              the status update.

    Conventions.  Money ([DecimalField] with two decimal places) is an
    integer number of cents in [Z].  A text is a [string] that holds the bytes
    of its UTF-8 encoding; [len] and slicing count characters, not bytes
    ([str_len], [str_slice_to]).  The relational store is a record of row
    lists, one per
    table, in row order.  Python exceptions are values of [exn]; code that can
    raise lives in the monad [M], and [try]/[except] and
    [transaction.atomic] are combinators of that monad.  Clock values
    ([created_at], [updated_at]) are not part of the model.  A request is
    given as its view reads it, after authentication and after the body was
    parsed. *)

From Stdlib Require Import ZArith NArith List String Ascii Bool Lia.
From Stdlib Require Import Permutation Sorted DecimalString.
Import ListNotations.

Open Scope string_scope.
Open Scope Z_scope.

(** ** Python values and formatting helpers *)

(** [str(z)] for an integer. *)
Definition str_Z (z : Z) : string := NilZero.string_of_int (Z.to_int z).

(** [s.rjust(width, c)]. *)
Fixpoint replicate (n : nat) (c : ascii) : string :=
  match n with
  | O => ""
  | S k => String c (replicate k c)
  end.

Definition rjust (width : nat) (c : ascii) (s : string) : string :=
  replicate (width - String.length s) c ++ s.

(** [f"{z:06d}"]: the sign, when there is one, counts in the width and the
    zeros go between it and the digits. *)
Definition format_06d (z : Z) : string :=
  if z <? 0 then "-" ++ rjust 5 "0"%char (str_Z (- z))
  else rjust 6 "0"%char (str_Z z).

(** [str(d)] for a [Decimal] with two decimal places, given in cents. *)
Definition str_Decimal (cents : Z) : string :=
  let a := Z.abs cents in
  (if cents <? 0 then "-" else "")
    ++ str_Z (a / 100) ++ "." ++ rjust 2 "0"%char (str_Z (a mod 100)).

(** A character of a text starts at every byte that is not a continuation
    byte (10xxxxxx) of the encoding.  (A lone surrogate has no UTF-8
    encoding, so a text of the model holds none.) *)
Definition is_continuation (c : ascii) : bool :=
  let n := N_of_ascii c in ((128 <=? n) && (n <? 192))%N.

(** [len(s)]: the number of characters. *)
Fixpoint str_len (s : string) : nat :=
  match s with
  | EmptyString => O
  | String c r => if is_continuation c then str_len r else S (str_len r)
  end.

(** [s[:n]]: the first [n] characters, each with all its bytes. *)
Fixpoint str_slice_to (n : nat) (s : string) : string :=
  match s with
  | EmptyString => EmptyString
  | String c r =>
    if is_continuation c then String c (str_slice_to n r)
    else match n with
         | O => EmptyString
         | S k => String c (str_slice_to k r)
         end
  end.

(** The white space characters of [str.strip]: U+0009 to U+000D, U+001C to
    U+0020, and, on two and three bytes, U+0085, U+00A0, U+1680, U+2000 to
    U+200A, U+2028, U+2029, U+202F, U+205F and U+3000. *)
Definition is_space (c : ascii) : bool :=
  let n := N_of_ascii c in
  (((9 <=? n) && (n <=? 13)) || ((28 <=? n) && (n <=? 32)))%N.

Definition is_space2 (c d : ascii) : bool :=
  let m := N_of_ascii d in
  ((N_of_ascii c =? 194) && ((m =? 133) || (m =? 160)))%N.

Definition is_space3 (c d e : ascii) : bool :=
  let a := N_of_ascii c in
  let b := N_of_ascii d in
  let n := N_of_ascii e in
  (((a =? 225) && (b =? 154) && (n =? 128))
   || ((a =? 226) && (b =? 128)
       && (((128 <=? n) && (n <=? 138)) || (n =? 168) || (n =? 169) || (n =? 175)))
   || ((a =? 226) && (b =? 129) && (n =? 159))
   || ((a =? 227) && (b =? 128) && (n =? 128)))%N.

(** [s.lstrip()]. *)
Fixpoint lstrip (s : string) : string :=
  match s with
  | EmptyString => EmptyString
  | String c r =>
    if is_space c then lstrip r
    else match r with
         | EmptyString => s
         | String d r1 =>
           if is_space2 c d then lstrip r1
           else match r1 with
                | EmptyString => s
                | String e r2 => if is_space3 c d e then lstrip r2 else s
                end
         end
  end.

(** [s.rstrip()]: the text up to the point from which only white space
    follows. *)
Fixpoint rstrip (s : string) : string :=
  match s with
  | EmptyString => EmptyString
  | String c r =>
    match lstrip s with
    | EmptyString => EmptyString
    | String _ _ => String c (rstrip r)
    end
  end.

(** [s.strip()]. *)
Definition strip (s : string) : string := rstrip (lstrip s).

(** The double quote character, as a string. *)
Definition dquote : string := String (ascii_of_nat 34) EmptyString.

(** [a or b] on strings: the first operand unless it is empty. *)
Definition str_or (a b : string) : string :=
  match a with
  | EmptyString => b
  | _ => a
  end.

(** [needle in haystack] on strings. *)
Definition str_in (needle haystack : string) : bool :=
  match String.index 0 needle haystack with
  | Some _ => true
  | None => false
  end.

(** [s.lower()] on the ASCII range. *)
Definition lower_ascii (c : ascii) : ascii :=
  let n := N_of_ascii c in
  if ((65 <=? n) && (n <=? 90))%N then ascii_of_N (n + 32) else c.

Fixpoint lower (s : string) : string :=
  match s with
  | EmptyString => EmptyString
  | String c r => String (lower_ascii c) (lower r)
  end.

(** [d.get(k, default)] on a dict literal, kept as an association list. *)
Fixpoint dict_get {V : Type} (d : list (string * V)) (k : string) (default : V) : V :=
  match d with
  | [] => default
  | (k', v) :: r => if String.eqb k' k then v else dict_get r k default
  end.

(** [x in xs] for a list of strings. *)
Definition str_mem (x : string) (xs : list string) : bool :=
  existsb (String.eqb x) xs.

(** ** Exceptions *)

(** The exception classes the modelled code raises or catches.
    [KeyboardInterrupt] stands for the classes that derive from
    [BaseException] only, which an [except Exception] clause lets through;
    [BackendError] is any [Exception] raised by an external service (cache
    backend, channel layer). *)
Inductive exn : Type :=
| ValidationError (detail : list (string * string))
| DoesNotExist (model : string)
| MultipleObjectsReturned (model : string)
| ValueError (msg : string)
| KeyError (key : string)
| DatabaseError (msg : string)
| BackendError (msg : string)
| Http404
| KeyboardInterrupt.

(** [isinstance(e, Exception)]. *)
Definition is_Exception (e : exn) : bool :=
  match e with
  | KeyboardInterrupt => false
  | _ => true
  end.

(** [str(e)]. *)
Definition exn_str (e : exn) : string :=
  match e with
  | ValidationError d => String.concat "; " (map snd d)
  | DoesNotExist m => m ++ " matching query does not exist."
  | MultipleObjectsReturned m => "get() returned more than one " ++ m
  | ValueError m => m
  | KeyError k => "'" ++ k ++ "'"
  | DatabaseError m => m
  | BackendError m => m
  | Http404 => "Not found."
  | KeyboardInterrupt => ""
  end.

(** The outcome of running a Python call. *)
Inductive pyres (A : Type) : Type :=
| Returned (a : A)
| Raised (e : exn).
Arguments Returned {A} a.
Arguments Raised {A} e.

(** * utils/cache.py *)

Module Cache.

(** [CacheManager.TIMEOUTS]. *)
Definition TIMEOUTS : list (string * Z) :=
  [ ("short", 300); ("medium", 1800); ("long", 3600);
    ("very_long", 21600); ("daily", 86400) ].

(** [CacheManager.PREFIXES]. *)
Definition PREFIXES : list (string * string) :=
  [ ("product", "product"); ("category", "category"); ("user", "user");
    ("order", "order"); ("cart", "cart"); ("stats", "stats");
    ("search", "search"); ("api", "api") ].

(** The arguments [generate_key] receives: a model instance (class name,
    primary key already printed, and its [str]) or any other value, given by
    its [str]. *)
Inductive arg : Type :=
| AModel (class_name : string) (pk : string) (repr : string)
| AValue (repr : string).

(** [str(a)], also what an f-string prints for [a]. *)
Definition arg_str (a : arg) : string :=
  match a with
  | AModel _ _ r => r
  | AValue r => r
  end.

(** The part a positional argument contributes to the key. *)
Definition positional_part (a : arg) : string :=
  match a with
  | AModel cls pk _ => cls ++ "_" ++ pk
  | AValue r => r
  end.

(** The part a keyword argument contributes: [f"{k}_{v}"]. *)
Definition keyword_part (kv : string * arg) : string :=
  fst kv ++ "_" ++ arg_str (snd kv).

(** [sorted(kwargs.items())]: a dict has no two equal keys, so the order of
    the items is decided by the keys. *)
Fixpoint insert_item (kv : string * arg) (l : list (string * arg)) : list (string * arg) :=
  match l with
  | [] => [kv]
  | h :: t => if String.leb (fst kv) (fst h) then kv :: h :: t
              else h :: insert_item kv t
  end.

Fixpoint sorted_items (kwargs : list (string * arg)) : list (string * arg) :=
  match kwargs with
  | [] => []
  | kv :: r => insert_item kv (sorted_items r)
  end.

(** The order [sorted] puts the items in. *)
Definition key_le (a b : string * arg) : Prop :=
  String.leb (fst a) (fst b) = true.

(** [CacheManager.generate_key(prefix, *args, **kwargs)]. *)
Definition generate_key (prefix : string) (args : list arg)
           (kwargs : list (string * arg)) : string :=
  let key_parts :=
      (dict_get PREFIXES prefix prefix
         :: map positional_part args
         ++ map keyword_part (sorted_items kwargs))%list in
  String.concat ":" key_parts.

(** The cache backend ([django.core.cache.cache]) is outside the repository:
    it is a record of operations over its own state [S], each of which may
    raise.  [V] is the type of cached values. *)
Record Backend (S V : Type) : Type := {
  backend_get : string -> V -> S -> pyres V;
  backend_set : string -> V -> Z -> S -> pyres S;
  backend_delete : string -> S -> pyres S;
  has_delete_pattern : bool;
  backend_delete_pattern : string -> S -> pyres (Z * S);
  backend_keys : string -> S -> pyres (list string);
  backend_delete_many : list string -> S -> pyres S
}.
Arguments backend_get {S V}.
Arguments backend_set {S V}.
Arguments backend_delete {S V}.
Arguments has_delete_pattern {S V}.
Arguments backend_delete_pattern {S V}.
Arguments backend_keys {S V}.
Arguments backend_delete_many {S V}.

(** [try: body  except Exception as e: handler]: the handler replaces the
    outcome, from the state the body started in, only for an exception that
    is an [Exception]. *)
Definition try_except {S A : Type} (body : pyres (A * S)) (handler : A * S)
  : pyres (A * S) :=
  match body with
  | Returned r => Returned r
  | Raised e => if is_Exception e then Returned handler else Raised e
  end.

(** The [timeout] argument of [set]: a tier name or a number of seconds. *)
Inductive timeout_arg : Type :=
| Tier (name : string)
| Seconds (n : Z).

Section CacheManager.

Context {S V : Type}.
Variable cache : Backend S V.
(** [settings.CACHES['default']['BACKEND']], [None] when the setting is
    missing. *)
Variable CACHES_default_BACKEND : option string.

(** [CacheManager.get]. *)
Definition get (key : string) (default : V) (s : S) : pyres (V * S) :=
  try_except
    (match backend_get cache key default s with
     | Returned v => Returned (v, s)
     | Raised e => Raised e
     end)
    (default, s).

(** The timeout [set] hands to the backend. *)
Definition resolve_timeout (timeout : timeout_arg) : Z :=
  match timeout with
  | Tier name => dict_get TIMEOUTS name (dict_get TIMEOUTS "medium" 0)
  | Seconds n => n
  end.

(** [CacheManager.set]. *)
Definition set (key : string) (value : V) (timeout : timeout_arg) (s : S)
  : pyres (bool * S) :=
  try_except
    (let timeout := resolve_timeout timeout in
     match backend_set cache key value timeout s with
     | Returned s' => Returned (true, s')
     | Raised e => Raised e
     end)
    (false, s).

(** [CacheManager.delete]. *)
Definition delete (key : string) (s : S) : pyres (bool * S) :=
  try_except
    (match backend_delete cache key s with
     | Returned s' => Returned (true, s')
     | Raised e => Raised e
     end)
    (false, s).

(** [CacheManager.delete_pattern]. *)
Definition delete_pattern (pattern : string) (s : S) : pyres (Z * S) :=
  try_except
    (match CACHES_default_BACKEND with
     | None => Raised (KeyError "default")
     | Some cache_backend =>
       if str_in "redis" (lower cache_backend) then
         if has_delete_pattern cache then
           backend_delete_pattern cache pattern s
         else
           match backend_keys cache pattern s with
           | Raised e => Raised e
           | Returned keys =>
             match keys with
             | [] => Returned (0, s)
             | _ :: _ =>
               match backend_delete_many cache keys s with
               | Raised e => Raised e
               | Returned s' => Returned (Z.of_nat (List.length keys), s')
               end
             end
           end
       else Returned (0, s)
     end)
    (0, s).

End CacheManager.

End Cache.

(** * orders/models.py, products/models.py: rows and tables *)

(** The fields of the user model that the orders code reads. *)
Module User.
Record t : Type := {
  id : Z;
  username : string;
  email : string;
  first_name : string;
  last_name : string;
  phone : string
}.
End User.

Module Product.
Record t : Type := {
  id : Z;
  name : string;
  sku : string;
  price : Z;
  stock : Z;
  is_active : bool
}.

Definition with_stock (p : t) (s : Z) : t :=
  {| id := id p; name := name p; sku := sku p; price := price p;
     stock := s; is_active := is_active p |}.
End Product.

Module Cart.
Record t : Type := {
  id : Z;
  user : Z
}.
End Cart.

Module CartItem.
Record t : Type := {
  id : Z;
  cart : Z;
  product : Z;
  quantity : Z
}.

Definition with_id (i : t) (n : Z) : t :=
  {| id := n; cart := cart i; product := product i; quantity := quantity i |}.

Definition with_quantity (i : t) (q : Z) : t :=
  {| id := id i; cart := cart i; product := product i; quantity := q |}.
End CartItem.

Module Order.
(** [Order.STATUS_CHOICES]. *)
Definition STATUS_CHOICES : list (string * string) :=
  [ ("pending", "Pending"); ("processing", "Processing");
    ("shipped", "Shipped"); ("delivered", "Delivered");
    ("cancelled", "Cancelled"); ("refunded", "Refunded") ].

Record t : Type := {
  id : Z;
  user : User.t;
  order_number : string;
  status : string;
  payment_status : string;
  subtotal : Z;
  tax_amount : Z;
  shipping_cost : Z;
  discount_amount : Z;
  total_price : Z;
  shipping_first_name : string;
  shipping_last_name : string;
  shipping_email : string;
  shipping_phone : string;
  shipping_address_line_1 : string;
  shipping_address_line_2 : string;
  shipping_city : string;
  shipping_state : string;
  shipping_postal_code : string;
  shipping_country : string;
  notes : string
}.

Definition with_id (o : t) (n : Z) : t :=
  {| id := n; user := user o; order_number := order_number o;
     status := status o; payment_status := payment_status o;
     subtotal := subtotal o; tax_amount := tax_amount o;
     shipping_cost := shipping_cost o; discount_amount := discount_amount o;
     total_price := total_price o;
     shipping_first_name := shipping_first_name o;
     shipping_last_name := shipping_last_name o;
     shipping_email := shipping_email o; shipping_phone := shipping_phone o;
     shipping_address_line_1 := shipping_address_line_1 o;
     shipping_address_line_2 := shipping_address_line_2 o;
     shipping_city := shipping_city o; shipping_state := shipping_state o;
     shipping_postal_code := shipping_postal_code o;
     shipping_country := shipping_country o; notes := notes o |}.

Definition with_order_number (o : t) (n : string) : t :=
  {| id := id o; user := user o; order_number := n;
     status := status o; payment_status := payment_status o;
     subtotal := subtotal o; tax_amount := tax_amount o;
     shipping_cost := shipping_cost o; discount_amount := discount_amount o;
     total_price := total_price o;
     shipping_first_name := shipping_first_name o;
     shipping_last_name := shipping_last_name o;
     shipping_email := shipping_email o; shipping_phone := shipping_phone o;
     shipping_address_line_1 := shipping_address_line_1 o;
     shipping_address_line_2 := shipping_address_line_2 o;
     shipping_city := shipping_city o; shipping_state := shipping_state o;
     shipping_postal_code := shipping_postal_code o;
     shipping_country := shipping_country o; notes := notes o |}.

Definition with_status (o : t) (s : string) : t :=
  {| id := id o; user := user o; order_number := order_number o;
     status := s; payment_status := payment_status o;
     subtotal := subtotal o; tax_amount := tax_amount o;
     shipping_cost := shipping_cost o; discount_amount := discount_amount o;
     total_price := total_price o;
     shipping_first_name := shipping_first_name o;
     shipping_last_name := shipping_last_name o;
     shipping_email := shipping_email o; shipping_phone := shipping_phone o;
     shipping_address_line_1 := shipping_address_line_1 o;
     shipping_address_line_2 := shipping_address_line_2 o;
     shipping_city := shipping_city o; shipping_state := shipping_state o;
     shipping_postal_code := shipping_postal_code o;
     shipping_country := shipping_country o; notes := notes o |}.

(** [get_status_display()]: the label of the status, the status itself when
    it is not one of the choices. *)
Definition get_status_display (o : t) : string :=
  dict_get STATUS_CHOICES (status o) (status o).
End Order.

Module OrderItem.
Record t : Type := {
  id : Z;
  order : Z;
  product : Z;
  quantity : Z;
  product_name : string;
  product_price : Z;
  product_sku : string
}.

Definition with_id (i : t) (n : Z) : t :=
  {| id := n; order := order i; product := product i;
     quantity := quantity i; product_name := product_name i;
     product_price := product_price i; product_sku := product_sku i |}.

(** The [subtotal] property. *)
Definition subtotal (self : t) : Z := product_price self * quantity self.
End OrderItem.

Module OrderStatusHistory.
Record t : Type := {
  id : Z;
  order : Z;
  old_status : string;
  new_status : string;
  changed_by : option Z;
  notes : string
}.
End OrderStatusHistory.

(** The tables, each with the next value of its primary-key sequence. *)
Record DB : Type := {
  products : list Product.t;
  carts : list Cart.t;
  cart_items : list CartItem.t;
  orders : list Order.t;
  order_items : list OrderItem.t;
  status_history : list OrderStatusHistory.t;
  next_cart_id : Z;
  next_cart_item_id : Z;
  next_order_id : Z;
  next_order_item_id : Z;
  next_history_id : Z
}.

Definition with_products (d : DB) (ps : list Product.t) : DB :=
  {| products := ps; carts := carts d; cart_items := cart_items d;
     orders := orders d; order_items := order_items d;
     status_history := status_history d;
     next_cart_id := next_cart_id d;
     next_cart_item_id := next_cart_item_id d;
     next_order_id := next_order_id d;
     next_order_item_id := next_order_item_id d;
     next_history_id := next_history_id d |}.

Definition with_carts (d : DB) (cs : list Cart.t) (next : Z) : DB :=
  {| products := products d; carts := cs; cart_items := cart_items d;
     orders := orders d; order_items := order_items d;
     status_history := status_history d;
     next_cart_id := next;
     next_cart_item_id := next_cart_item_id d;
     next_order_id := next_order_id d;
     next_order_item_id := next_order_item_id d;
     next_history_id := next_history_id d |}.

Definition with_cart_items (d : DB) (items : list CartItem.t) (next : Z) : DB :=
  {| products := products d; carts := carts d; cart_items := items;
     orders := orders d; order_items := order_items d;
     status_history := status_history d;
     next_cart_id := next_cart_id d;
     next_cart_item_id := next;
     next_order_id := next_order_id d;
     next_order_item_id := next_order_item_id d;
     next_history_id := next_history_id d |}.

Definition with_orders (d : DB) (os : list Order.t) (next : Z) : DB :=
  {| products := products d; carts := carts d; cart_items := cart_items d;
     orders := os; order_items := order_items d;
     status_history := status_history d;
     next_cart_id := next_cart_id d;
     next_cart_item_id := next_cart_item_id d;
     next_order_id := next;
     next_order_item_id := next_order_item_id d;
     next_history_id := next_history_id d |}.

Definition with_order_items (d : DB) (items : list OrderItem.t) (next : Z) : DB :=
  {| products := products d; carts := carts d; cart_items := cart_items d;
     orders := orders d; order_items := items;
     status_history := status_history d;
     next_cart_id := next_cart_id d;
     next_cart_item_id := next_cart_item_id d;
     next_order_id := next_order_id d;
     next_order_item_id := next;
     next_history_id := next_history_id d |}.

Definition with_status_history (d : DB) (hs : list OrderStatusHistory.t) (next : Z) : DB :=
  {| products := products d; carts := carts d; cart_items := cart_items d;
     orders := orders d; order_items := order_items d;
     status_history := hs;
     next_cart_id := next_cart_id d;
     next_cart_item_id := next_cart_item_id d;
     next_order_id := next_order_id d;
     next_order_item_id := next_order_item_id d;
     next_history_id := next |}.

(** ** The world the request handlers run in *)

(** A JSON value of a notification payload. *)
Inductive json : Type :=
| JStr (s : string)
| JInt (z : Z)
| JBool (b : bool).

(** A message handed to [channel_layer.group_send]:
    [{'type': ..., 'data': {...}}]. *)
Record message : Type := {
  msg_type : string;
  msg_data : list (string * json)
}.

(** What the handlers do outside the database, in the order it happens. *)
Inductive effect : Type :=
| GroupSend (group : string) (msg : message)
| CacheDeletePattern (pattern : string).

(** [get_channel_layer()]: [None] when no layer is configured, otherwise a
    layer whose [group_send] works or raises. *)
Inductive channel_layer_t : Type :=
| NoChannelLayer
| ChannelLayerUp
| ChannelLayerDown.

Record World : Type := {
  db : DB;
  channel_layer : channel_layer_t;
  effects : list effect
}.

Definition with_db (w : World) (d : DB) : World :=
  {| db := d; channel_layer := channel_layer w; effects := effects w |}.

Definition with_effects (w : World) (es : list effect) : World :=
  {| db := db w; channel_layer := channel_layer w; effects := es |}.

(** Code that reads and writes the world and may raise. *)
Definition M (A : Type) : Type := World -> pyres A * World.

Definition ret {A : Type} (a : A) : M A := fun w => (Returned a, w).

Definition raise {A : Type} (e : exn) : M A := fun w => (Raised e, w).

Definition bind {A B : Type} (m : M A) (k : A -> M B) : M B :=
  fun w =>
    match m w with
    | (Returned a, w') => k a w'
    | (Raised e, w') => (Raised e, w')
    end.

Notation "x <- m ;; k" := (bind m (fun x => k))
  (at level 61, m at next level, right associativity).
Notation "m ;;; k" := (bind m (fun _ => k))
  (at level 61, right associativity).

Definition lift {A : Type} (r : pyres A) : M A := fun w => (r, w).

Definition get_db : M DB := fun w => (Returned (db w), w).

Definition put_db (d : DB) : M unit := fun w => (Returned tt, with_db w d).

Definition emit (e : effect) : M unit :=
  fun w => (Returned tt, with_effects w (effects w ++ [e])%list).

(** [with transaction.atomic(): m] and the [@transaction.atomic] decorator:
    an exception that leaves the block restores the tables; what was sent
    outside the database stays sent. *)
Definition atomic {A : Type} (m : M A) : M A :=
  fun w =>
    match m w with
    | (Returned a, w') => (Returned a, w')
    | (Raised e, w') => (Raised e, with_db w' (db w))
    end.

(** [try: m  except Exception as e: handler(e)]. *)
Definition try_except {A : Type} (m : M A) (handler : exn -> M A) : M A :=
  fun w =>
    match m w with
    | (Returned a, w') => (Returned a, w')
    | (Raised e, w') => if is_Exception e then handler e w' else (Raised e, w')
    end.

(** ** The object manager *)

(** [Model.objects.get(...)] over the rows that satisfy the lookup. *)
Definition objects_get {A : Type} (model : string) (lookup : A -> bool)
           (rows : list A) : pyres A :=
  match filter lookup rows with
  | [] => Raised (DoesNotExist model)
  | [x] => Returned x
  | _ :: _ :: _ => Raised (MultipleObjectsReturned model)
  end.

(** [Model.objects.filter(...).first()]. *)
Definition objects_first {A : Type} (lookup : A -> bool) (rows : list A) : option A :=
  hd_error (filter lookup rows).

(** [UPDATE ... WHERE lookup]: the rows that match are rewritten. *)
Definition update_rows {A : Type} (lookup : A -> bool) (f : A -> A)
           (rows : list A) : list A :=
  map (fun r => if lookup r then f r else r) rows.

(** [Product.objects.get(id=pk)], also the fetch behind [item.product]. *)
Definition find_product (d : DB) (pk : Z) : pyres Product.t :=
  objects_get "Product" (fun p => Product.id p =? pk) (products d).

Definition Product_objects_get (pk : Z) : M Product.t :=
  d <- get_db ;;
  lift (find_product d pk).

(** [product.save(update_fields=['stock'])].  With [update_fields] only the
    stock column is written; the save fails when no row has the key.  (The
    [post_save] handler of [Product] only clears cache entries.) *)
Definition Product_save_stock (self : Product.t) : M unit :=
  d <- get_db ;;
  let lookup := fun p => Product.id p =? Product.id self in
  if existsb lookup (products d) then
    put_db (with_products d
              (update_rows lookup
                           (fun p => Product.with_stock p (Product.stock self))
                           (products d)))
  else raise (DatabaseError "Save with update_fields did not affect any rows.").

(** [product.save()]: the row of the key is rewritten with the instance, or
    inserted when there is none.  ([Product.save] first fills an empty slug
    or sku; the products of the table have both.) *)
Definition Product_save (self : Product.t) : M unit :=
  d <- get_db ;;
  let lookup := fun p => Product.id p =? Product.id self in
  if existsb lookup (products d) then
    put_db (with_products d (update_rows lookup (fun _ => self) (products d)))
  else put_db (with_products d (products d ++ [self])%list).

(** ** CartItem *)

(** [Model.save] for a cart item: an insert takes the next key of the
    sequence; an update rewrites the row with the key, and inserts when there
    is none. *)
Definition CartItem_super_save (adding : bool) (self : CartItem.t) : M CartItem.t :=
  d <- get_db ;;
  if adding then
    let self := CartItem.with_id self (next_cart_item_id d) in
    put_db (with_cart_items d (cart_items d ++ [self])%list
                            (next_cart_item_id d + 1)) ;;;
    ret self
  else
    let lookup := fun i => CartItem.id i =? CartItem.id self in
    (if existsb lookup (cart_items d) then
       put_db (with_cart_items d (update_rows lookup (fun _ => self) (cart_items d))
                               (next_cart_item_id d))
     else
       put_db (with_cart_items d (cart_items d ++ [self])%list
                               (next_cart_item_id d))) ;;;
    ret self.

(** [CartItem.save]. *)
Definition CartItem_save (adding : bool) (self : CartItem.t) : M CartItem.t :=
  product <- Product_objects_get (CartItem.product self) ;;
  if CartItem.quantity self >? Product.stock product then
    raise (ValueError ("Quantity (" ++ str_Z (CartItem.quantity self)
                         ++ ") exceeds available stock ("
                         ++ str_Z (Product.stock product) ++ ")"))
  else CartItem_super_save adding self.

(** [cart.items.all()]. *)
Definition Cart_items (cart : Cart.t) (d : DB) : list CartItem.t :=
  filter (fun i => CartItem.cart i =? Cart.id cart) (cart_items d).

(** The [subtotal] property of a cart item: [self.product.price * self.quantity]. *)
Definition CartItem_subtotal (self : CartItem.t) : M Z :=
  product <- Product_objects_get (CartItem.product self) ;;
  ret (Product.price product * CartItem.quantity self).

(** [sum(f(x) for x in xs)], where [f] may raise. *)
Fixpoint sum_of {A : Type} (f : A -> M Z) (xs : list A) (acc : Z) : M Z :=
  match xs with
  | [] => ret acc
  | x :: r => v <- f x ;; sum_of f r (acc + v)
  end.

(** The [total_price] property of a cart. *)
Definition Cart_total_price (self : Cart.t) : M Z :=
  d <- get_db ;;
  sum_of CartItem_subtotal (Cart_items self d) 0.

(** [cart.items.all().delete()]. *)
Definition Cart_items_delete (cart : Cart.t) : M unit :=
  d <- get_db ;;
  put_db (with_cart_items d
            (filter (fun i => negb (CartItem.cart i =? Cart.id cart)) (cart_items d))
            (next_cart_item_id d)).

(** The [total_items] property of a cart. *)
Definition Cart_total_items (self : Cart.t) (d : DB) : Z :=
  fold_right (fun i acc => CartItem.quantity i + acc) 0 (Cart_items self d).

(** [cart_item.delete()]. *)
Definition CartItem_delete (self : CartItem.t) : M unit :=
  d <- get_db ;;
  put_db (with_cart_items d
            (filter (fun i => negb (CartItem.id i =? CartItem.id self)) (cart_items d))
            (next_cart_item_id d)).

(** * orders/signals.py *)

(** [async_to_sync(channel_layer.group_send)(group, msg)]. *)
Definition group_send (group : string) (msg : message) : M unit :=
  fun w =>
    match channel_layer w with
    | ChannelLayerUp => emit (GroupSend group msg) w
    | _ => (Raised (BackendError "channel layer unavailable"), w)
    end.

(** [cache_manager.delete_pattern(pattern)]: by [Cache.delete_pattern] the
    call returns whatever the backend does, so here it is only recorded. *)
Definition cache_delete_pattern (pattern : string) : M unit :=
  emit (CacheDeletePattern pattern).

(** [instance.order_number or f"#{instance.id}"]. *)
Definition order_label (instance : Order.t) : string :=
  str_or (Order.order_number instance) ("#" ++ str_Z (Order.id instance)).

(** The payload sent to the order's owner (without its [timestamp]). *)
Definition notification_data (instance : Order.t) (created : bool) : message :=
  let notification_type := if created then "order_created" else "order_updated" in
  let message :=
      if created then "New order " ++ order_label instance ++ " has been placed"
      else "Order " ++ order_label instance ++ " status updated to "
                    ++ Order.get_status_display instance in
  {| msg_type := "order_notification";
     msg_data :=
       [ ("notification_type", JStr notification_type);
         ("order_id", JInt (Order.id instance));
         ("user_id", JInt (User.id (Order.user instance)));
         ("status", JStr (Order.status instance));
         ("status_display", JStr (Order.get_status_display instance));
         ("total_amount", JStr (str_Decimal (Order.total_price instance)));
         ("message", JStr message) ] |}.

(** The payload sent to the administrators (without its [timestamp]). *)
Definition admin_notification_data (instance : Order.t) : message :=
  let user := Order.user instance in
  {| msg_type := "order_notification";
     msg_data :=
       [ ("notification_type", JStr "new_order_admin");
         ("order_id", JInt (Order.id instance));
         ("user_email", JStr (User.email user));
         ("user_name",
          JStr (str_or (strip (User.first_name user ++ " " ++ User.last_name user))
                       (User.username user)));
         ("total_amount", JStr (str_Decimal (Order.total_price instance)));
         ("message", JStr ("New order #" ++ str_Z (Order.id instance)
                             ++ " from " ++ User.email user)) ] |}.

(** [f'user_{instance.user.id}']. *)
Definition user_group (instance : Order.t) : string :=
  "user_" ++ str_Z (User.id (Order.user instance)).

(** [order_post_save(sender, instance, created)]. *)
Definition order_post_save (instance : Order.t) (created : bool) : M unit :=
  try_except
    (fun w =>
       ((match channel_layer w with
         | NoChannelLayer => ret tt
         | _ =>
           group_send (user_group instance) (notification_data instance created) ;;;
           if created then group_send "admins" (admin_notification_data instance)
           else ret tt
         end) ;;;
        let uid := str_Z (User.id (Order.user instance)) in
        cache_delete_pattern ("user:" ++ uid ++ ":orders:*") ;;;
        cache_delete_pattern ("order:" ++ str_Z (Order.id instance) ++ ":*") ;;;
        cache_delete_pattern "orders:admin:*" ;;;
        if created then cache_delete_pattern ("user:" ++ uid ++ ":cart:*")
        else ret tt) w)
    (fun _ => ret tt).

(** * orders/models.py: Order, OrderItem, OrderStatusHistory *)

(** The columns an [update_fields] list of the modelled code can name
    ([updated_at] is a clock value). *)
Definition copy_fields (update_fields : list string) (self row : Order.t) : Order.t :=
  let row := if str_mem "status" update_fields
             then Order.with_status row (Order.status self) else row in
  if str_mem "order_number" update_fields
  then Order.with_order_number row (Order.order_number self) else row.

(** [Model.save] for an order, and the [post_save] signal it sends.  An
    insert takes the next key of the sequence.  With [update_fields] only the
    named columns of the row with the key are written and the save fails when
    there is no such row; without, the row is rewritten, or inserted when
    there is none. *)
Definition Order_super_save (adding : bool) (update_fields : option (list string))
           (self : Order.t) : M Order.t :=
  d <- get_db ;;
  if adding then
    let self := Order.with_id self (next_order_id d) in
    put_db (with_orders d (orders d ++ [self])%list (next_order_id d + 1)) ;;;
    order_post_save self true ;;;
    ret self
  else
    let lookup := fun o => Order.id o =? Order.id self in
    match update_fields with
    | Some fields =>
      if existsb lookup (orders d) then
        put_db (with_orders d (update_rows lookup (copy_fields fields self) (orders d))
                            (next_order_id d)) ;;;
        order_post_save self false ;;;
        ret self
      else raise (DatabaseError "Save with update_fields did not affect any rows.")
    | None =>
      if existsb lookup (orders d) then
        put_db (with_orders d (update_rows lookup (fun _ => self) (orders d))
                            (next_order_id d)) ;;;
        order_post_save self false ;;;
        ret self
      else
        put_db (with_orders d (orders d ++ [self])%list (next_order_id d)) ;;;
        order_post_save self true ;;;
        ret self
    end.

(** [Order.save]. *)
Definition Order_save (adding : bool) (update_fields : option (list string))
           (self : Order.t) : M Order.t :=
  if String.eqb (Order.order_number self) "" then
    self <- Order_super_save adding update_fields self ;;
    if String.eqb (Order.order_number self) "" then
      let self := Order.with_order_number self
                    ("ORD-" ++ format_06d (Order.id self)) in
      Order_super_save false (Some ["order_number"]) self
    else ret self
  else Order_super_save adding update_fields self.

(** [Order.objects.create]: build the instance from the keyword arguments,
    then [save] it. *)
Definition Order_objects_create (instance : Order.t) : M Order.t :=
  Order_save true None instance.

(** [OrderItem.save]; [product] is the related [self.product]. *)
Definition OrderItem_save (self : OrderItem.t) (product : Product.t) : M OrderItem.t :=
  let name := str_or (OrderItem.product_name self) (Product.name product) in
  let price := if OrderItem.product_price self =? 0 then Product.price product
               else OrderItem.product_price self in
  let sku := str_or (OrderItem.product_sku self) (Product.sku product) in
  d <- get_db ;;
  let self :=
      {| OrderItem.id := next_order_item_id d;
         OrderItem.order := OrderItem.order self;
         OrderItem.product := OrderItem.product self;
         OrderItem.quantity := OrderItem.quantity self;
         OrderItem.product_name := name;
         OrderItem.product_price := price;
         OrderItem.product_sku := sku |} in
  put_db (with_order_items d (order_items d ++ [self])%list
                           (next_order_item_id d + 1)) ;;;
  ret self.

(** [OrderStatusHistory.objects.create(order=..., old_status=...,
    new_status=..., notes=...)]. *)
Definition OrderStatusHistory_objects_create (order : Order.t)
           (old_status new_status notes : string) : M unit :=
  d <- get_db ;;
  let row :=
      {| OrderStatusHistory.id := next_history_id d;
         OrderStatusHistory.order := Order.id order;
         OrderStatusHistory.old_status := old_status;
         OrderStatusHistory.new_status := new_status;
         OrderStatusHistory.changed_by := None;
         OrderStatusHistory.notes := notes |} in
  put_db (with_status_history d (status_history d ++ [row])%list
                              (next_history_id d + 1)).

(** * The serializer fields the code declares *)

(** [serializers.CharField(required=..., allow_blank=..., max_length=...)]. *)
Record CharField : Type := {
  required : bool;
  allow_blank : bool;
  max_length : option nat
}.

(** The outcome of validating one field: an error message, no value (the
    field is optional and was not sent), or the validated value. *)
Inductive field_result (A : Type) : Type :=
| FieldError (msg : string)
| FieldSkipped
| FieldValue (a : A).
Arguments FieldError {A} msg.
Arguments FieldSkipped {A}.
Arguments FieldValue {A} a.

(** The outcome of validating a character field, which reports the
    messages of all its validators that failed. *)
Inductive char_field_result : Type :=
| CharFieldErrors (msgs : list string)
| CharFieldSkipped
| CharFieldValue (value : string).

(** The null character, as a string. *)
Definition null_character : string := String zero EmptyString.

(** [run_validators] for a character field, on the trimmed value: the
    [MaxLengthValidator] of a field with [max_length], then
    [ProhibitNullCharactersValidator]; the messages of those that fail.
    ([ProhibitSurrogateCharactersValidator] never fails on a text of the
    model.) *)
Definition CharField_run_validators (f : CharField) (value : string) : list string :=
  ((match max_length f with
    | Some n =>
      if (n <? str_len value)%nat
      then [("Ensure this field has no more than "
               ++ str_Z (Z.of_nat n) ++ " characters.")%string]
      else []
    | None => []
    end)
     ++ (if str_in null_character value
         then ["Null characters are not allowed."%string]
         else []))%list.

(** [CharField.run_validation]: a value that is empty once its white space
    is trimmed is refused unless blanks are allowed, and is the empty string
    if they are; any other value is trimmed and goes through the
    validators. *)
Definition CharField_run_validation (f : CharField) (data : option string)
  : char_field_result :=
  match data with
  | None => if required f then CharFieldErrors ["This field is required."]
            else CharFieldSkipped
  | Some raw =>
    let value := strip raw in
    if String.eqb value "" then
      if allow_blank f then CharFieldValue ""
      else CharFieldErrors ["This field may not be blank."]
    else
      match CharField_run_validators f value with
      | [] => CharFieldValue value
      | msgs => CharFieldErrors msgs
      end
  end.

(** [request.data] for a JSON object of strings. *)
Definition payload : Type := list (string * string).

Fixpoint payload_get (data : payload) (k : string) : option string :=
  match data with
  | [] => None
  | (k', v) :: r => if String.eqb k' k then Some v else payload_get r k
  end.

(** The field loop of [Serializer.to_internal_value] for character fields:
    every field is validated; the errors and the validated values are
    collected, each under the field's name. *)
Fixpoint run_char_fields (fields : list (string * CharField)) (data : payload)
  : list (string * string) * list (string * string) :=
  match fields with
  | [] => ([], [])
  | (name, f) :: r =>
    let (errors, validated) := run_char_fields r data in
    match CharField_run_validation f (payload_get data name) with
    | CharFieldErrors msgs => ((map (pair name) msgs ++ errors)%list, validated)
    | CharFieldSkipped => (errors, validated)
    | CharFieldValue v => (errors, (name, v) :: validated)
    end
  end.

(** * The responses of the views *)

Inductive body : Type :=
| BodyCartItem (item : CartItem.t)
| BodyOrder (order : Order.t)
| BodyError (error : string)
| BodyErrors (detail : list (string * string))
| BodyBulk (updated_orders : list Z) (errors : list string) (total_updated : Z)
| BodyJson (fields : list (string * json))
| BodyNone.

Record Response : Type := {
  status_code : Z;
  data : body
}.

(** [APIView.dispatch]: a validation error raised by the handler becomes a
    400 response, [Http404] a 404 response; any other exception is raised
    again. *)
Definition dispatch (handler : M Response) : M Response :=
  fun w =>
    match handler w with
    | (Raised (ValidationError detail), w') =>
      (Returned {| status_code := 400; data := BodyErrors detail |}, w')
    | (Raised Http404, w') =>
      (Returned {| status_code := 404; data := BodyError "Not found." |}, w')
    | r => r
    end.

(** * orders/serializers.py and orders/views.py: the cart *)

Module AddToCartSerializer.

(** The request body: [product_id] and [quantity], each possibly absent. *)
Record request : Type := {
  product_id : option Z;
  quantity : option Z
}.

(** [validate_product_id]. *)
Definition validate_product_id (value : Z) : M Z :=
  d <- get_db ;;
  match objects_get "Product"
                    (fun p => (Product.id p =? value) && Product.is_active p)
                    (products d) with
  | Returned product =>
    if Product.stock product <=? 0
    then raise (ValidationError [("product_id", "Product is out of stock.")])
    else ret value
  | Raised (DoesNotExist _) =>
    raise (ValidationError [("product_id", "Product not found or inactive.")])
  | Raised e => raise e
  end.

(** [validate]. *)
Definition validate (pid qty : Z) : M unit :=
  d <- get_db ;;
  match find_product d pid with
  | Returned product =>
    if qty >? Product.stock product
    then raise (ValidationError
                  [("quantity", "Only " ++ str_Z (Product.stock product)
                                        ++ " units available in stock.")])
    else ret tt
  | Raised (DoesNotExist _) => ret tt
  | Raised e => raise e
  end.

(** The errors of the two declared fields: [product_id] is required and
    goes through [validate_product_id]; [quantity] has a minimum of 1 and
    defaults to 1. *)
Definition product_id_field (data : request) : M (field_result Z) :=
  match product_id data with
  | None => ret (FieldError "This field is required.")
  | Some value =>
    fun w =>
      match validate_product_id value w with
      | (Raised (ValidationError ((_, msg) :: _)), w') => (Returned (FieldError msg), w')
      | (Raised e, w') => (Raised e, w')
      | (Returned v, w') => (Returned (FieldValue v), w')
      end
  end.

Definition quantity_field (data : request) : field_result Z :=
  match quantity data with
  | None => FieldValue 1
  | Some q => if q <? 1
              then FieldError "Ensure this value is greater than or equal to 1."
              else FieldValue q
  end.

(** [serializer.is_valid(raise_exception=True)], returning
    [validated_data['product_id']] and [validated_data['quantity']]. *)
Definition is_valid (data : request) : M (Z * Z) :=
  p <- product_id_field data ;;
  match p, quantity_field data with
  | FieldValue pid, FieldValue qty => validate pid qty ;;; ret (pid, qty)
  | FieldError e1, FieldError e2 =>
    raise (ValidationError [("product_id", e1); ("quantity", e2)])
  | FieldError e1, _ => raise (ValidationError [("product_id", e1)])
  | _, FieldError e2 => raise (ValidationError [("quantity", e2)])
  | _, _ => raise (KeyError "product_id")
  end.

End AddToCartSerializer.

(** [Cart.objects.get_or_create(user=request.user)]. *)
Definition Cart_objects_get_or_create (user : User.t) : M (Cart.t * bool) :=
  d <- get_db ;;
  match objects_get "Cart" (fun c => Cart.user c =? User.id user) (carts d) with
  | Returned cart => ret (cart, false)
  | Raised (DoesNotExist _) =>
    let cart := {| Cart.id := next_cart_id d; Cart.user := User.id user |} in
    put_db (with_carts d (carts d ++ [cart])%list (next_cart_id d + 1)) ;;;
    ret (cart, true)
  | Raised e => raise e
  end.

(** [CartItem.objects.get_or_create(cart=cart, product_id=product_id,
    defaults={'quantity': quantity})]. *)
Definition CartItem_objects_get_or_create (cart : Cart.t) (product_id quantity : Z)
  : M (CartItem.t * bool) :=
  d <- get_db ;;
  match objects_get "CartItem"
                    (fun i => (CartItem.cart i =? Cart.id cart)
                              && (CartItem.product i =? product_id))
                    (cart_items d) with
  | Returned item => ret (item, false)
  | Raised (DoesNotExist _) =>
    item <- CartItem_save true
              {| CartItem.id := 0; CartItem.cart := Cart.id cart;
                 CartItem.product := product_id; CartItem.quantity := quantity |} ;;
    ret (item, true)
  | Raised e => raise e
  end.

(** [AddToCartView.post]. *)
Definition AddToCartView_post (user : User.t) (data : AddToCartSerializer.request)
  : M Response :=
  atomic
    (validated <- AddToCartSerializer.is_valid data ;;
     let (product_id, quantity) := validated in
     cart_created <- Cart_objects_get_or_create user ;;
     let (cart, _) := cart_created in
     item_created <- CartItem_objects_get_or_create cart product_id quantity ;;
     let (cart_item, item_created) := item_created in
     if negb item_created then
       let new_quantity := CartItem.quantity cart_item + quantity in
       product <- Product_objects_get product_id ;;
       if new_quantity >? Product.stock product then
         ret {| status_code := 400;
                data := BodyError ("Only " ++ str_Z (Product.stock product)
                                           ++ " units available in stock.") |}
       else
         cart_item <- CartItem_save false (CartItem.with_quantity cart_item new_quantity) ;;
         ret {| status_code := 201; data := BodyCartItem cart_item |}
     else ret {| status_code := 201; data := BodyCartItem cart_item |}).

Module UpdateCartItemSerializer.

(** [validate_quantity]; [cart_item] is [self.instance]. *)
Definition validate_quantity (cart_item : CartItem.t) (value : Z) : M Z :=
  product <- Product_objects_get (CartItem.product cart_item) ;;
  if value >? Product.stock product
  then raise (ValidationError
                [("quantity", "Only " ++ str_Z (Product.stock product)
                                      ++ " units available in stock.")])
  else ret value.

(** [is_valid(raise_exception=True)] with [partial=True], then
    [validated_data['quantity']]. *)
Definition is_valid (cart_item : CartItem.t) (quantity : option Z) : M Z :=
  match quantity with
  | None => raise (KeyError "quantity")
  | Some q =>
    if q <? 1
    then raise (ValidationError
                  [("quantity", "Ensure this value is greater than or equal to 1.")])
    else validate_quantity cart_item q
  end.

End UpdateCartItemSerializer.

(** [CartItemView.get_object]: the cart item with the key, in a cart of the
    user. *)
Definition CartItemView_get_object (user : User.t) (item_id : Z) : M CartItem.t :=
  d <- get_db ;;
  match objects_get "CartItem"
                    (fun i => (CartItem.id i =? item_id)
                              && existsb (fun c => (Cart.id c =? CartItem.cart i)
                                                   && (Cart.user c =? User.id user))
                                         (carts d))
                    (cart_items d) with
  | Returned item => ret item
  | Raised (DoesNotExist _) => raise Http404
  | Raised e => raise e
  end.

(** [CartItemView.patch]. *)
Definition CartItemView_patch (user : User.t) (item_id : Z) (quantity : option Z)
  : M Response :=
  cart_item <- CartItemView_get_object user item_id ;;
  q <- UpdateCartItemSerializer.is_valid cart_item quantity ;;
  cart_item <- CartItem_save false (CartItem.with_quantity cart_item q) ;;
  ret {| status_code := 200; data := BodyCartItem cart_item |}.

(** [CartItemView.delete]. *)
Definition CartItemView_delete (user : User.t) (item_id : Z) : M Response :=
  cart_item <- CartItemView_get_object user item_id ;;
  CartItem_delete cart_item ;;;
  ret {| status_code := 204; data := BodyNone |}.

(** [ClearCartView.delete]. *)
Definition ClearCartView_delete (user : User.t) : M Response :=
  d <- get_db ;;
  match objects_first (fun c => Cart.user c =? User.id user) (carts d) with
  | Some cart => Cart_items_delete cart
  | None => ret tt
  end ;;;
  ret {| status_code := 204; data := BodyNone |}.

(** * orders/serializers.py and orders/views.py: checkout *)

Module CreateOrderSerializer.

(** The declared fields, in order. *)
Definition fields : list (string * CharField) :=
  [ ("shipping_address_line_1",
     {| required := true; allow_blank := false; max_length := Some 255%nat |});
    ("shipping_address_line_2",
     {| required := false; allow_blank := true; max_length := Some 255%nat |});
    ("shipping_city",
     {| required := true; allow_blank := false; max_length := Some 100%nat |});
    ("shipping_state",
     {| required := true; allow_blank := false; max_length := Some 100%nat |});
    ("shipping_postal_code",
     {| required := true; allow_blank := false; max_length := Some 20%nat |});
    ("shipping_country",
     {| required := true; allow_blank := false; max_length := Some 100%nat |});
    ("notes",
     {| required := false; allow_blank := true; max_length := None |}) ].

(** The loop of [validate] over the cart's items. *)
Fixpoint validate_items (items : list CartItem.t) : M unit :=
  match items with
  | [] => ret tt
  | item :: rest =>
    product <- Product_objects_get (CartItem.product item) ;;
    if negb (Product.is_active product) then
      raise (ValidationError
               [("non_field_errors",
                 "Product '" ++ Product.name product ++ "' is no longer available.")])
    else if CartItem.quantity item >? Product.stock product then
      raise (ValidationError
               [("non_field_errors",
                 "Only " ++ str_Z (Product.stock product) ++ " units of '"
                         ++ Product.name product ++ "' available.")])
    else validate_items rest
  end.

(** [validate]. *)
Definition validate (user : User.t) : M unit :=
  d <- get_db ;;
  match objects_first (fun c => Cart.user c =? User.id user) (carts d) with
  | None =>
    raise (ValidationError
             [("non_field_errors", "Cart is empty. Cannot create order.")])
  | Some cart =>
    match Cart_items cart d with
    | [] =>
      raise (ValidationError
               [("non_field_errors", "Cart is empty. Cannot create order.")])
    | items => validate_items items
    end
  end.

(** [is_valid(raise_exception=True)]: the declared fields first, then
    [validate] when none of them failed; the result is [validated_data]. *)
Definition is_valid (user : User.t) (data : payload) : M (list (string * string)) :=
  let (errors, validated_data) := run_char_fields fields data in
  match errors with
  | [] => validate user ;;; ret validated_data
  | _ :: _ => raise (ValidationError errors)
  end.

(** The loop of [create] over the cart's items. *)
Fixpoint create_items (order : Order.t) (items : list CartItem.t) : M unit :=
  match items with
  | [] => ret tt
  | cart_item :: rest =>
    product <- Product_objects_get (CartItem.product cart_item) ;;
    OrderItem_save
      {| OrderItem.id := 0;
         OrderItem.order := Order.id order;
         OrderItem.product := Product.id product;
         OrderItem.quantity := CartItem.quantity cart_item;
         OrderItem.product_name := Product.name product;
         OrderItem.product_price := Product.price product;
         OrderItem.product_sku := Product.sku product |}
      product ;;;
    Product_save_stock
      (Product.with_stock product
                          (Product.stock product - CartItem.quantity cart_item)) ;;;
    create_items order rest
  end.

(** [create], under [@transaction.atomic].  A field that is absent from
    [validated_data] takes the default of its column, the empty string. *)
Definition create (user : User.t) (validated_data : list (string * string))
  : M Order.t :=
  atomic
    (d <- get_db ;;
     cart <- lift (objects_get "Cart" (fun c => Cart.user c =? User.id user)
                               (carts d)) ;;
     cart_total <- Cart_total_price cart ;;
     order <- Order_objects_create
                {| Order.id := 0;
                   Order.user := user;
                   Order.order_number := "";
                   Order.status := "pending";
                   Order.payment_status := "pending";
                   Order.subtotal := cart_total;
                   Order.tax_amount := 0;
                   Order.shipping_cost := 0;
                   Order.discount_amount := 0;
                   Order.total_price := cart_total;
                   Order.shipping_first_name := User.first_name user;
                   Order.shipping_last_name := User.last_name user;
                   Order.shipping_email := User.email user;
                   Order.shipping_phone := User.phone user;
                   Order.shipping_address_line_1 :=
                     dict_get validated_data "shipping_address_line_1" "";
                   Order.shipping_address_line_2 :=
                     dict_get validated_data "shipping_address_line_2" "";
                   Order.shipping_city :=
                     dict_get validated_data "shipping_city" "";
                   Order.shipping_state :=
                     dict_get validated_data "shipping_state" "";
                   Order.shipping_postal_code :=
                     dict_get validated_data "shipping_postal_code" "";
                   Order.shipping_country :=
                     dict_get validated_data "shipping_country" "";
                   Order.notes := dict_get validated_data "notes" "" |} ;;
     d <- get_db ;;
     create_items order (Cart_items cart d) ;;;
     OrderStatusHistory_objects_create order "" "pending"
                                       "Order created successfully" ;;;
     Cart_items_delete cart ;;;
     ret order).

End CreateOrderSerializer.

(** [CreateOrderView.post]. *)
Definition CreateOrderView_post (user : User.t) (data : payload) : M Response :=
  validated_data <- CreateOrderSerializer.is_valid user data ;;
  order <- CreateOrderSerializer.create user validated_data ;;
  ret {| status_code := 201; data := BodyOrder order |}.

(** * orders/serializers.py and orders/views.py: order status *)

Module UpdateOrderStatusSerializer.

(** The table inside [validate_status]. *)
Definition allowed_transitions : list (string * list string) :=
  [ ("pending", ["confirmed"; "cancelled"]);
    ("confirmed", ["shipped"; "cancelled"]);
    ("shipped", ["delivered"; "returned"]);
    ("delivered", ["returned"]);
    ("cancelled", []);
    ("returned", []) ].

(** [value in allowed_transitions.get(current_status, [])]. *)
Definition transition_allowed (current_status value : string) : bool :=
  str_mem value (dict_get allowed_transitions current_status []).

(** [validate_status]; [order] is [self.instance]. *)
Definition validate_status (order : Order.t) (value : string) : pyres string :=
  let current_status := Order.status order in
  if negb (transition_allowed current_status value) then
    Raised (ValidationError
              [("status", "Cannot change status from '" ++ current_status
                            ++ "' to '" ++ value ++ "'")])
  else Returned value.

(** The [status] field, a [ChoiceField] over [Order.STATUS_CHOICES], followed
    by [validate_status]. *)
Definition status_field (order : Order.t) (data : payload) : field_result string :=
  match payload_get data "status" with
  | None => FieldError "This field is required."
  | Some value =>
    if str_mem value (map fst Order.STATUS_CHOICES) then
      match validate_status order value with
      | Returned v => FieldValue v
      | Raised e => FieldError (exn_str e)
      end
    else FieldError (dquote ++ value ++ dquote ++ " is not a valid choice.")
  end.

Definition notes_field : CharField :=
  {| required := false; allow_blank := true; max_length := None |}.

(** [is_valid(raise_exception=True)], returning [validated_data]. *)
Definition is_valid (order : Order.t) (data : payload)
  : pyres (list (string * string)) :=
  match status_field order data,
        CharField_run_validation notes_field (payload_get data "notes") with
  | FieldValue s, CharFieldValue n => Returned [("status", s); ("notes", n)]
  | FieldValue s, CharFieldSkipped => Returned [("status", s)]
  | FieldError e1, CharFieldErrors e2 =>
    Raised (ValidationError (("status", e1) :: map (pair "notes") e2))
  | FieldError e1, _ => Raised (ValidationError [("status", e1)])
  | _, CharFieldErrors e2 => Raised (ValidationError (map (pair "notes") e2))
  | FieldSkipped, _ => Raised (KeyError "status")
  end.

(** [update], under [@transaction.atomic]. *)
Definition update (instance : Order.t) (validated_data : list (string * string))
  : M Order.t :=
  atomic
    (let old_status := Order.status instance in
     match payload_get validated_data "status" with
     | None => raise (KeyError "status")
     | Some new_status =>
       let notes := dict_get validated_data "notes" "" in
       let instance := Order.with_status instance new_status in
       instance <- Order_save false (Some ["status"; "updated_at"]) instance ;;
       OrderStatusHistory_objects_create
         instance old_status new_status
         (str_or notes ("Status changed from " ++ old_status
                          ++ " to " ++ new_status)) ;;;
       ret instance
     end).

End UpdateOrderStatusSerializer.

(** [get_object] of the admin views: the order with the order number. *)
Definition Order_get_object (order_number : string) : M Order.t :=
  d <- get_db ;;
  match objects_get "Order" (fun o => String.eqb (Order.order_number o) order_number)
                    (orders d) with
  | Returned order => ret order
  | Raised (DoesNotExist _) => raise Http404
  | Raised e => raise e
  end.

(** [UpdateOrderStatusView.patch]. *)
Definition UpdateOrderStatusView_patch (order_number : string) (data : payload)
  : M Response :=
  order <- Order_get_object order_number ;;
  validated_data <- lift (UpdateOrderStatusSerializer.is_valid order data) ;;
  updated_order <- UpdateOrderStatusSerializer.update order validated_data ;;
  ret {| status_code := 200; data := BodyOrder updated_order |}.

(** The request body of the bulk endpoint, after
    [request.data.get('order_ids', [])], [request.data.get('status')] and
    [request.data.get('notes', '')]. *)
Record bulk_request : Type := {
  order_ids : list Z;
  bulk_status : option string;
  bulk_notes : string
}.

(** The body of the loop of [bulk_update_order_status] for one order, with
    its two [except] clauses; [acc] is [(updated_orders, errors)]. *)
Definition bulk_update_one (new_status notes : string) (order_id : Z)
           (acc : list Z * list string) : M (list Z * list string) :=
  let (updated_orders, errors) := acc in
  try_except
    (d <- get_db ;;
     order <- lift (objects_get "Order" (fun o => Order.id o =? order_id) (orders d)) ;;
     let old_status := Order.status order in
     let order := Order.with_status order new_status in
     order <- Order_save false (Some ["status"; "updated_at"]) order ;;
     OrderStatusHistory_objects_create
       order old_status new_status
       (str_or notes ("Bulk status change from " ++ old_status
                        ++ " to " ++ new_status)) ;;;
     ret ((updated_orders ++ [order_id])%list, errors))
    (fun e =>
       match e with
       | DoesNotExist _ =>
         ret (updated_orders,
              (errors ++ [("Order " ++ str_Z order_id ++ " not found")%string])%list)
       | _ =>
         ret (updated_orders,
              (errors ++ [("Error updating order " ++ str_Z order_id ++ ": "
                             ++ exn_str e)%string])%list)
       end).

Fixpoint bulk_update_loop (new_status notes : string) (ids : list Z)
         (acc : list Z * list string) : M (list Z * list string) :=
  match ids with
  | [] => ret acc
  | order_id :: rest =>
    acc <- bulk_update_one new_status notes order_id acc ;;
    bulk_update_loop new_status notes rest acc
  end.

(** [bulk_update_order_status]. *)
Definition bulk_update_order_status (request : bulk_request) : M Response :=
  match order_ids request, bulk_status request with
  | [], _ | _, None =>
    ret {| status_code := 400;
           data := BodyError "order_ids and status are required" |}
  | ids, Some new_status =>
    if String.eqb new_status "" then
      ret {| status_code := 400;
             data := BodyError "order_ids and status are required" |}
    else
      let valid_statuses := map fst Order.STATUS_CHOICES in
      if negb (str_mem new_status valid_statuses) then
        ret {| status_code := 400;
               data := BodyError ("Invalid status. Must be one of: ["
                                    ++ String.concat ", "
                                         (map (fun s => "'" ++ s ++ "'") valid_statuses)
                                    ++ "]") |}
      else
        acc <- atomic (bulk_update_loop new_status (bulk_notes request) ids ([], [])) ;;
        let (updated_orders, errors) := acc in
        ret {| status_code := 200;
               data := BodyBulk updated_orders errors
                                (Z.of_nat (List.length updated_orders)) |}
  end.

(** * ecommerce_api/views.py: the AJAX views *)

(** [get_object_or_404]. *)
Definition get_object_or_404 {A : Type} (r : pyres A) : M A :=
  match r with
  | Raised (DoesNotExist _) => raise Http404
  | _ => lift r
  end.

(** [JsonResponse({'error': msg}, status=code)]. *)
Definition json_error (code : Z) (msg : string) : Response :=
  {| status_code := code; data := BodyError msg |}.

(** The answer of the cart views: success, a message and the totals of the
    cart ([float(cart.total_price)] is kept in cents). *)
Definition cart_response (cart : Cart.t) (message : string) : M Response :=
  d <- get_db ;;
  let total_items := Cart_total_items cart d in
  total_amount <- Cart_total_price cart ;;
  ret {| status_code := 200;
         data := BodyJson [ ("success", JBool true);
                            ("message", JStr message);
                            ("cart_total_items", JInt total_items);
                            ("cart_total_amount", JInt total_amount) ] |}.

(** [api_cart_add]; [quantity] is [int(data.get('quantity', 1))]. *)
Definition api_cart_add (user : User.t) (product_id quantity : Z) : M Response :=
  try_except
    (d <- get_db ;;
     product <- get_object_or_404 (find_product d product_id) ;;
     if Product.stock product <? quantity then
       ret (json_error 400 "Insufficient stock")
     else
       cart_created <- Cart_objects_get_or_create user ;;
       let (cart, _) := cart_created in
       item_created <- CartItem_objects_get_or_create cart (Product.id product) quantity ;;
       let (cart_item, created) := item_created in
       if negb created then
         let new_quantity := CartItem.quantity cart_item + quantity in
         if Product.stock product <? new_quantity then
           ret (json_error 400 "Insufficient stock")
         else
           CartItem_save false (CartItem.with_quantity cart_item new_quantity) ;;;
           cart_response cart (Product.name product ++ " added to cart")
       else cart_response cart (Product.name product ++ " added to cart"))
    (fun _ => ret (json_error 500 "Failed to add item to cart")).

(** [cart_item.cart]: the cart the item's foreign key points to. *)
Definition CartItem_cart (self : CartItem.t) : M Cart.t :=
  d <- get_db ;;
  lift (objects_get "Cart" (fun c => Cart.id c =? CartItem.cart self) (carts d)).

(** [api_cart_update]; [quantity] is [int(data.get('quantity'))]. *)
Definition api_cart_update (user : User.t) (item_id quantity : Z) : M Response :=
  try_except
    (cart_item <- CartItemView_get_object user item_id ;;
     cart <- CartItem_cart cart_item ;;
     if quantity <=? 0 then
       CartItem_delete cart_item ;;;
       cart_response cart "Cart updated successfully"
     else
       product <- Product_objects_get (CartItem.product cart_item) ;;
       if Product.stock product <? quantity then
         ret (json_error 400 "Insufficient stock")
       else
         CartItem_save false (CartItem.with_quantity cart_item quantity) ;;;
         cart_response cart "Cart updated successfully")
    (fun _ => ret (json_error 500 "Failed to update cart")).

(** [api_cart_remove]. *)
Definition api_cart_remove (user : User.t) (item_id : Z) : M Response :=
  try_except
    (cart_item <- CartItemView_get_object user item_id ;;
     cart <- CartItem_cart cart_item ;;
     CartItem_delete cart_item ;;;
     cart_response cart "Item removed from cart")
    (fun _ => ret (json_error 500 "Failed to remove item")).

(** The loop of [api_checkout] over the cart's items; [Some] is the response
    of the [return] inside the loop. *)
Fixpoint api_checkout_items (order : Order.t) (items : list CartItem.t)
  : M (option Response) :=
  match items with
  | [] => ret None
  | cart_item :: rest =>
    product <- Product_objects_get (CartItem.product cart_item) ;;
    if Product.stock product <? CartItem.quantity cart_item then
      ret (Some (json_error 400 ("Insufficient stock for " ++ Product.name product)))
    else
      OrderItem_save
        {| OrderItem.id := 0;
           OrderItem.order := Order.id order;
           OrderItem.product := Product.id product;
           OrderItem.quantity := CartItem.quantity cart_item;
           OrderItem.product_name := Product.name product;
           OrderItem.product_price := Product.price product;
           OrderItem.product_sku := Product.sku product |}
        product ;;;
      Product_save
        (Product.with_stock product
                            (Product.stock product - CartItem.quantity cart_item)) ;;;
      api_checkout_items order rest
  end.

(** The block of [api_checkout] under [with transaction.atomic()]: the
    response of a [return] inside the loop, or the order. *)
Definition api_checkout_block (user : User.t) (data : payload) (cart : Cart.t)
  : M (Response + Order.t) :=
  atomic
    (subtotal <- Cart_total_price cart ;;
     total_price <- Cart_total_price cart ;;
     order <- Order_objects_create
                {| Order.id := 0;
                   Order.user := user;
                   Order.order_number := "";
                   Order.status := "pending";
                   Order.payment_status := "pending";
                   Order.subtotal := subtotal;
                   Order.tax_amount := 0;
                   Order.shipping_cost := 0;
                   Order.discount_amount := 0;
                   Order.total_price := total_price;
                   Order.shipping_first_name := dict_get data "first_name" "";
                   Order.shipping_last_name := dict_get data "last_name" "";
                   Order.shipping_email := dict_get data "email" (User.email user);
                   Order.shipping_phone := dict_get data "phone" "";
                   Order.shipping_address_line_1 := dict_get data "address_line_1" "";
                   Order.shipping_address_line_2 := dict_get data "address_line_2" "";
                   Order.shipping_city := dict_get data "city" "";
                   Order.shipping_state := dict_get data "state" "";
                   Order.shipping_postal_code := dict_get data "postal_code" "";
                   Order.shipping_country := dict_get data "country" "USA";
                   Order.notes := "" |} ;;
     d <- get_db ;;
     returned <- api_checkout_items order (Cart_items cart d) ;;
     match returned with
     | Some response => ret (inl response)
     | None => Cart_items_delete cart ;;; ret (inr order)
     end).

(** The answer of a checkout that went through. *)
Definition order_placed (order : Order.t) : Response :=
  {| status_code := 200;
     data := BodyJson [ ("success", JBool true);
                        ("message", JStr ("Order " ++ Order.order_number order
                                            ++ " placed successfully!"));
                        ("order_id", JInt (Order.id order));
                        ("order_number", JStr (Order.order_number order));
                        ("redirect_url", JStr "/orders/") ] |}.

(** [api_checkout]. *)
Definition api_checkout (user : User.t) (data : payload) : M Response :=
  try_except
    (d <- get_db ;;
     cart <- get_object_or_404
               (objects_get "Cart" (fun c => Cart.user c =? User.id user) (carts d)) ;;
     match Cart_items cart d with
     | [] => ret (json_error 400 "Cart is empty")
     | _ :: _ =>
       outcome <- api_checkout_block user data cart ;;
       match outcome with
       | inl response => ret response
       | inr order => ret (order_placed order)
       end
     end)
    (fun _ => ret (json_error 500 "Checkout failed. Please try again.")).

(** [api_order_status_update]; [new_status] is [data.get('status')], a
    string. *)
Definition api_order_status_update (order_id : Z) (new_status : string) : M Response :=
  try_except
    (d <- get_db ;;
     order <- get_object_or_404
                (objects_get "Order" (fun o => Order.id o =? order_id) (orders d)) ;;
     let order := Order.with_status order new_status in
     order <- Order_save false None order ;;
     ret {| status_code := 200;
            data := BodyJson
                      [ ("success", JBool true);
                        ("message", JStr ("Order " ++ Order.order_number order
                                            ++ " status updated to "
                                            ++ Order.get_status_display order));
                        ("order_id", JInt (Order.id order));
                        ("order_number", JStr (Order.order_number order));
                        ("new_status", JStr (Order.status order));
                        ("new_status_display",
                         JStr (Order.get_status_display order)) ] |})
    (fun _ => ret (json_error 500 "Failed to update order status")).

(** * Notions used to state the properties *)

(** The units of product [pk] that the items ask for. *)
Fixpoint quantity_of (items : list CartItem.t) (pk : Z) : Z :=
  match items with
  | [] => 0
  | i :: r => (if CartItem.product i =? pk then CartItem.quantity i else 0)
              + quantity_of r pk
  end.

(** A product after the items were taken from its stock. *)
Definition decrement_stock (items : list CartItem.t) (p : Product.t) : Product.t :=
  Product.with_stock p (Product.stock p - quantity_of items (Product.id p)).

(** The price of product [pk] in the catalogue, 0 when it cannot be fetched. *)
Definition price_of (d : DB) (pk : Z) : Z :=
  match find_product d pk with
  | Returned p => Product.price p
  | Raised _ => 0
  end.

(** [sum(item.subtotal for item in items)] for order items. *)
Definition order_items_total (items : list OrderItem.t) : Z :=
  fold_right (fun i acc => OrderItem.subtotal i + acc) 0 items.

(** [order.items.all()]. *)
Definition Order_items (order : Order.t) (d : DB) : list OrderItem.t :=
  filter (fun i => OrderItem.order i =? Order.id order) (order_items d).

(** The world after the loop of [create] ran over [items] and added the
    order items [added]. *)
Definition after_create_items (w : World) (items : list CartItem.t)
           (added : list OrderItem.t) : World :=
  with_db w
          (with_order_items
             (with_products (db w) (map (decrement_stock items) (products (db w))))
             (order_items (db w) ++ added)%list
             (next_order_item_id (db w) + Z.of_nat (List.length items))).

(** The order item the loop of [create] makes of a cart item. *)
Definition made_from (order : Order.t) (d : DB) (i : CartItem.t) (oi : OrderItem.t) : Prop :=
  OrderItem.order oi = Order.id order
  /\ OrderItem.product oi = CartItem.product i
  /\ OrderItem.quantity oi = CartItem.quantity i
  /\ OrderItem.product_price oi = price_of d (CartItem.product i).

(** What [order_post_save] does outside the database for an instance, by the
    state of the channel layer. *)
Definition cache_calls (instance : Order.t) (created : bool) : list effect :=
  let uid := str_Z (User.id (Order.user instance)) in
  ([ CacheDeletePattern ("user:" ++ uid ++ ":orders:*");
     CacheDeletePattern ("order:" ++ str_Z (Order.id instance) ++ ":*");
     CacheDeletePattern "orders:admin:*" ]
     ++ (if created then [CacheDeletePattern ("user:" ++ uid ++ ":cart:*")] else []))%list.

Definition post_save_effects (instance : Order.t) (created : bool)
           (layer : channel_layer_t) : list effect :=
  match layer with
  | NoChannelLayer => cache_calls instance created
  | ChannelLayerUp =>
    (GroupSend (user_group instance) (notification_data instance created)
       :: (if created then [GroupSend "admins" (admin_notification_data instance)]
           else [])
       ++ cache_calls instance created)%list
  | ChannelLayerDown => []
  end.

(** The world after [Model.save] left the order table as [rows], with [next]
    the next key, and sent [post_save] for [instance]. *)
Definition after_save (w : World) (rows : list Order.t) (next : Z)
           (instance : Order.t) (created : bool) : World :=
  {| db := with_orders (db w) rows next;
     channel_layer := channel_layer w;
     effects := (effects w ++ post_save_effects instance created (channel_layer w))%list |}.

(** Whether a group was sent a message among the effects. *)
Definition is_send_to (group : string) (e : effect) : bool :=
  match e with
  | GroupSend g _ => String.eqb g group
  | CacheDeletePattern _ => false
  end.

(** The effects that happened between two worlds. *)
Definition sent_since (w w' : World) : list effect :=
  skipn (List.length (effects w)) (effects w').

(** The row [update] and the bulk endpoint append to the status history. *)
Definition history_row (d : DB) (instance : Order.t) (new_status notes : string)
  : OrderStatusHistory.t :=
  {| OrderStatusHistory.id := next_history_id d;
     OrderStatusHistory.order := Order.id instance;
     OrderStatusHistory.old_status := Order.status instance;
     OrderStatusHistory.new_status := new_status;
     OrderStatusHistory.changed_by := None;
     OrderStatusHistory.notes := notes |}.

(** What a status update of [instance] to [new_status] leaves behind, from
    world [w] to world [w']: the status on the row, one more history row, and
    the messages sent to the groups [receivers]. *)
Definition status_update_outcome (instance : Order.t) (new_status notes : string)
           (receivers : list string) (w w' : World) : Prop :=
  (exists row, In row (orders (db w')) /\ Order.id row = Order.id instance)
  /\ (forall row, In row (orders (db w')) -> Order.id row = Order.id instance ->
                  Order.status row = new_status)
  /\ status_history (db w')
     = (status_history (db w) ++ [history_row (db w) instance new_status notes])%list
  /\ forall group, In group receivers ->
                   existsb (is_send_to group) (sent_since w w') = true.

(** C6 as the specification words it: the update notifies the group of the
    order's user and the group of the administrators. *)
Definition status_update_as_specified (instance : Order.t)
           (validated_data : list (string * string)) (new_status notes : string)
           (w : World) : Prop :=
  exists saved w',
    UpdateOrderStatusSerializer.update instance validated_data w = (Returned saved, w')
    /\ status_update_outcome instance new_status notes
                             [user_group instance; "admins"] w w'.

(** [sum(item.subtotal for item in items)] for cart items, at the prices of
    the catalogue. *)
Definition cart_items_total (d : DB) (items : list CartItem.t) : Z :=
  fold_right (fun i acc => price_of d (CartItem.product i) * CartItem.quantity i + acc)
             0 items.

(** The items of the user's cart: none when the user has no cart. *)
Definition user_cart_items (user : User.t) (d : DB) : list CartItem.t :=
  match objects_first (fun c => Cart.user c =? User.id user) (carts d) with
  | None => []
  | Some cart => Cart_items cart d
  end.

(** The three reasons C4 names for a checkout to be refused. *)
Definition cart_is_empty (user : User.t) (d : DB) : bool :=
  match user_cart_items user d with
  | [] => true
  | _ :: _ => false
  end.

Definition contains_inactive_product (user : User.t) (d : DB) : bool :=
  existsb (fun i => match find_product d (CartItem.product i) with
                    | Returned p => negb (Product.is_active p)
                    | Raised _ => false
                    end)
          (user_cart_items user d).

Definition contains_excess_quantity (user : User.t) (d : DB) : bool :=
  existsb (fun i => match find_product d (CartItem.product i) with
                    | Returned p => CartItem.quantity i >? Product.stock p
                    | Raised _ => false
                    end)
          (user_cart_items user d).

(** The reasons for a declared field of the request to be refused: it is
    required and absent; it is blank, once its white space is trimmed, where
    blanks are not allowed; it has more characters than the field allows; it
    holds a null character. *)
Definition field_is_invalid (f : CharField) (value : option string) : bool :=
  match value with
  | None => required f
  | Some raw =>
    if String.eqb (strip raw) "" then negb (allow_blank f)
    else
      match max_length f with
      | Some n => (n <? str_len (strip raw))%nat
      | None => false
      end
      || str_in null_character raw
  end.

Definition has_invalid_field (data : payload) : bool :=
  existsb (fun field => field_is_invalid (snd field) (payload_get data (fst field)))
          CreateOrderSerializer.fields.

(** What the loop of [validate] accepts of an item. *)
Definition item_ok (d : DB) (i : CartItem.t) : bool :=
  match find_product d (CartItem.product i) with
  | Returned p => Product.is_active p && (CartItem.quantity i <=? Product.stock p)
  | Raised _ => false
  end.

(** The constraints of the schema that checkout relies on: product keys are
    unique, every cart item refers to a product of the catalogue
    (the foreign key of [CartItem.product]), and a user has one cart at most
    (the one-to-one field of [Cart.user]). *)
Definition products_unique (d : DB) : Prop :=
  NoDup (map Product.id (products d)).

Definition cart_items_have_products (d : DB) : Prop :=
  forall i, In i (cart_items d) ->
            exists p, In p (products d) /\ Product.id p = CartItem.product i.

Definition carts_unique (d : DB) : Prop :=
  NoDup (map Cart.user (carts d)).

(** The tables after a checkout of [cart] that left the order table as [rows]
    and the history table as [history], with [next_history] its next key, and
    added the order items [added]. *)
Definition after_checkout (d : DB) (cart : Cart.t) (rows : list Order.t)
           (added : list OrderItem.t) (history : list OrderStatusHistory.t)
           (next_history : Z) : DB :=
  {| products := map (decrement_stock (Cart_items cart d)) (products d);
     carts := carts d;
     cart_items := filter (fun i => negb (CartItem.cart i =? Cart.id cart)) (cart_items d);
     orders := rows;
     order_items := (order_items d ++ added)%list;
     status_history := history;
     next_cart_id := next_cart_id d;
     next_cart_item_id := next_cart_item_id d;
     next_order_id := next_order_id d + 1;
     next_order_item_id :=
       next_order_item_id d + Z.of_nat (List.length (Cart_items cart d));
     next_history_id := next_history |}.

(** The key the next order takes is not referred to by any order item: the
    foreign key of [OrderItem.order] points to orders that exist, and the
    sequence is ahead of their keys. *)
Definition next_order_key_unused (d : DB) : Prop :=
  forall oi, In oi (order_items d) -> OrderItem.order oi <> next_order_id d.

(** A response that reports validation errors. *)
Definition fails_with_validation_error (r : pyres Response) : Prop :=
  exists detail, r = Returned {| status_code := 400; data := BodyErrors detail |}.

(** C4 as the specification words it: the checkout is refused for its
    validation exactly when the cart is empty, holds an inactive product or
    asks more than the stock. *)
Definition checkout_refusal_as_specified (user : User.t) (data : payload)
           (w : World) : Prop :=
  fails_with_validation_error (fst (dispatch (CreateOrderView_post user data) w))
  <-> cart_is_empty user (db w) = true
      \/ contains_inactive_product user (db w) = true
      \/ contains_excess_quantity user (db w) = true.

(** * Sequences of cart and checkout operations *)

Inductive operation : Type :=
| AddToCart (user : User.t) (data : AddToCartSerializer.request)
| UpdateCartItem (user : User.t) (item_id : Z) (quantity : option Z)
| RemoveCartItem (user : User.t) (item_id : Z)
| ClearCart (user : User.t)
| CreateOrder (user : User.t) (data : payload)
| ApiCartAdd (user : User.t) (product_id quantity : Z)
| ApiCartUpdate (user : User.t) (item_id quantity : Z)
| ApiCartRemove (user : User.t) (item_id : Z)
| ApiCheckout (user : User.t) (data : payload).

(** The world after the request was served, whatever the response. *)
Definition run_operation (op : operation) (w : World) : World :=
  match op with
  | AddToCart user data => snd (dispatch (AddToCartView_post user data) w)
  | UpdateCartItem user item_id quantity =>
    snd (dispatch (CartItemView_patch user item_id quantity) w)
  | RemoveCartItem user item_id => snd (dispatch (CartItemView_delete user item_id) w)
  | ClearCart user => snd (dispatch (ClearCartView_delete user) w)
  | CreateOrder user data => snd (dispatch (CreateOrderView_post user data) w)
  | ApiCartAdd user product_id quantity => snd (api_cart_add user product_id quantity w)
  | ApiCartUpdate user item_id quantity => snd (api_cart_update user item_id quantity w)
  | ApiCartRemove user item_id => snd (api_cart_remove user item_id w)
  | ApiCheckout user data => snd (api_checkout user data w)
  end.

Fixpoint run_operations (ops : list operation) (w : World) : World :=
  match ops with
  | [] => w
  | op :: rest => run_operations rest (run_operation op w)
  end.

(** No product has a negative stock. *)
Definition stocks_nonnegative (d : DB) : Prop :=
  forall p, In p (products d) -> 0 <= Product.stock p.

(** [unique_together = ('cart', 'product')]: no cart has two items for one
    product. *)
Definition cart_products_unique (d : DB) : Prop :=
  NoDup (map (fun i => (CartItem.cart i, CartItem.product i)) (cart_items d)).

(** The keys of the cart items are unique and behind their sequence. *)
Definition cart_item_keys_unique (d : DB) : Prop :=
  NoDup (map CartItem.id (cart_items d)).

Definition cart_item_keys_issued (d : DB) : Prop :=
  forall i, In i (cart_items d) -> CartItem.id i < next_cart_item_id d.

Definition shop_invariant (d : DB) : Prop :=
  stocks_nonnegative d /\ cart_products_unique d
  /\ cart_item_keys_unique d /\ cart_item_keys_issued d.

(** What a cart view can do to the catalogue and to the cart items: nothing,
    rewrite the quantity of an item of the table, insert an item for a cart
    and a product that had none, or remove items. *)
Inductive cart_step (d d' : DB) : Prop :=
| cart_unchanged :
    products d' = products d ->
    cart_items d' = cart_items d ->
    next_cart_item_id d' = next_cart_item_id d ->
    cart_step d d'
| cart_item_rewritten (item : CartItem.t) (q : Z) :
    products d' = products d ->
    In item (cart_items d) ->
    cart_items d'
    = update_rows (fun i => CartItem.id i =? CartItem.id item)
                  (fun _ => CartItem.with_quantity item q) (cart_items d) ->
    next_cart_item_id d' = next_cart_item_id d ->
    cart_step d d'
| cart_item_inserted (c p q : Z) :
    products d' = products d ->
    filter (fun i => (CartItem.cart i =? c) && (CartItem.product i =? p)) (cart_items d)
    = [] ->
    cart_items d'
    = (cart_items d
         ++ [{| CartItem.id := next_cart_item_id d; CartItem.cart := c;
                CartItem.product := p; CartItem.quantity := q |}])%list ->
    next_cart_item_id d' = next_cart_item_id d + 1 ->
    cart_step d d'
| cart_items_removed (keep : CartItem.t -> bool) :
    products d' = products d ->
    cart_items d' = filter keep (cart_items d) ->
    next_cart_item_id d' = next_cart_item_id d ->
    cart_step d d'.

(** A checkout of the user's cart that went through, from world [w] to world
    [w'], and the order it made: the REST view answered 201 with the order,
    or the atomic block of the AJAX view left with the order. *)
Inductive checkout_succeeded (user : User.t) (w : World) (order : Order.t)
          (w' : World) : Prop :=
| rest_checkout (data : payload) :
    dispatch (CreateOrderView_post user data) w
    = (Returned {| status_code := 201; data := BodyOrder order |}, w') ->
    checkout_succeeded user w order w'
| ajax_checkout (data : payload) (cart : Cart.t) :
    objects_get "Cart" (fun c => Cart.user c =? User.id user) (carts (db w))
    = Returned cart ->
    Cart_items cart (db w) <> [] ->
    api_checkout_block user data cart w = (Returned (inr order), w') ->
    checkout_succeeded user w order w'.

(** What a checkout that went through has done to the tables. *)
Definition checked_out (user : User.t) (w : World) (order : Order.t) (w' : World)
  : Prop :=
  exists cart rows added history next_history,
    objects_get "Cart" (fun c => Cart.user c =? User.id user) (carts (db w))
    = Returned cart
    /\ Cart_items cart (db w) <> []
    /\ (forall i, In i (Cart_items cart (db w)) ->
                  exists p, find_product (db w) (CartItem.product i) = Returned p)
    /\ db w' = after_checkout (db w) cart rows added history next_history
    /\ In order rows
    /\ Order.id order = next_order_id (db w)
    /\ Order.total_price order = cart_items_total (db w) (Cart_items cart (db w))
    /\ Forall2 (made_from order (db w)) (Cart_items cart (db w)) added.

From Stdlib Require DecimalPos DecimalZ.

(** * utils/cache.py: the other methods of [CacheManager] *)

(** A text that starts at a character: its first byte, when it has one, is
    not a continuation byte.  Every whole text does. *)
Definition at_character (s : string) : bool :=
  match s with
  | EmptyString => true
  | String c _ => negb (is_continuation c)
  end.

Module CacheManager.

Section Methods.

Context {S V : Type}.
(** The cached values are Python objects: [None] is Python's [None]. *)
Variable cache : Cache.Backend S (option V).
Variable CACHES_default_BACKEND : option string.

(** [CacheManager.invalidate_group]. *)
Definition invalidate_group (group : string) (s : S) : pyres (Z * S) :=
  let pattern := group ++ ":*" in
  Cache.delete_pattern cache CACHES_default_BACKEND pattern s.

(** [CacheManager.get_or_set]; [func] is given by the outcome of its call
    on the remaining arguments. *)
Definition get_or_set (key : string) (func : pyres (option V))
           (timeout : Cache.timeout_arg) (s : S) : pyres (option V * S) :=
  match Cache.get cache key None s with
  | Raised e => Raised e
  | Returned (Some value, s1) => Returned (Some value, s1)
  | Returned (None, s1) =>
    match func with
    | Raised e => if is_Exception e then Returned (None, s1) else Raised e
    | Returned value =>
      match Cache.set cache key value timeout s1 with
      | Raised e => if is_Exception e then Returned (None, s1) else Raised e
      | Returned (_, s2) => Returned (value, s2)
      end
    end
  end.

(** The key the wrapper of [cache_result] builds when no [key_func] is
    given: the name of the function, then the arguments, each cut to 50
    characters unless it is a model instance. *)
Definition default_cache_key (func_name : string) (args : list Cache.arg)
           (kwargs : list (string * Cache.arg)) : string :=
  let positional :=
      map (fun a => match a with
                    | Cache.AModel cls pk _ => cls ++ "_" ++ pk
                    | Cache.AValue r => str_slice_to 50 r
                    end) args in
  let keyword :=
      map (fun kv => fst kv ++ "_" ++ str_slice_to 50 (Cache.arg_str (snd kv)))
          (Cache.sorted_items kwargs) in
  String.concat ":" (func_name :: positional ++ keyword)%list.

(** The wrapper that [cache_result(timeout, key_func)] puts around [func];
    [func] gives the outcome of the call for its arguments. *)
Definition cache_result (timeout : Cache.timeout_arg)
           (key_func : option (list Cache.arg -> list (string * Cache.arg) -> string))
           (func_name : string)
           (func : list Cache.arg -> list (string * Cache.arg) -> pyres (option V))
           (args : list Cache.arg) (kwargs : list (string * Cache.arg)) (s : S)
  : pyres (option V * S) :=
  let cache_key := match key_func with
                   | Some f => f args kwargs
                   | None => default_cache_key func_name args kwargs
                   end in
  match Cache.get cache cache_key None s with
  | Raised e => Raised e
  | Returned (Some result, s1) => Returned (Some result, s1)
  | Returned (None, s1) =>
    match func args kwargs with
    | Raised e => Raised e
    | Returned result =>
      match Cache.set cache cache_key result timeout s1 with
      | Raised e => Raised e
      | Returned (_, s2) => Returned (result, s2)
      end
    end
  end.

End Methods.

End CacheManager.

(** * utils/cache.py: [CacheKeys] *)

Module CacheKeys.

(** [if value:] for an optional string: [None] and the empty string are
    false. *)
Definition truthy (value : option string) : bool :=
  match value with
  | None => false
  | Some s => negb (String.eqb s "")
  end.

(** [CacheKeys.product_list(page, category, search, **filters)]; [page] is
    given by its [str]. *)
Definition product_list (page : string) (category search : option string)
           (filters : list (string * Cache.arg)) : string :=
  let key_parts :=
      (["product_list"; ("page_" ++ page)%string]
         ++ match category with
            | Some c => if truthy category then [("cat_" ++ c)%string] else []
            | None => []
            end
         ++ match search with
            | Some q => if truthy search
                        then [("search_" ++ str_slice_to 50 q)%string] else []
            | None => []
            end
         ++ map Cache.keyword_part (Cache.sorted_items filters))%list in
  Cache.generate_key "api" (map Cache.AValue key_parts) [].

(** [CacheKeys.product_detail(product_id)]; the id is given by its [str]. *)
Definition product_detail (product_id : string) : string :=
  Cache.generate_key "product" [Cache.AValue "detail"; Cache.AValue product_id] [].

(** [CacheKeys.category_list()]. *)
Definition category_list : string :=
  Cache.generate_key "category" [Cache.AValue "list"] [].

(** [CacheKeys.category_with_counts()]. *)
Definition category_with_counts : string :=
  Cache.generate_key "category" [Cache.AValue "with_counts"] [].

(** [CacheKeys.user_profile(user_id)]. *)
Definition user_profile (user_id : Z) : string :=
  Cache.generate_key "user" [Cache.AValue "profile"; Cache.AValue (str_Z user_id)] [].

(** [CacheKeys.user_orders(user_id, page)]; [page] is given by its [str]. *)
Definition user_orders (user_id : Z) (page : string) : string :=
  Cache.generate_key "user"
                     [Cache.AValue "orders"; Cache.AValue (str_Z user_id);
                      Cache.AValue ("page_" ++ page)] [].

(** [CacheKeys.order_stats()]. *)
Definition order_stats : string :=
  Cache.generate_key "stats" [Cache.AValue "orders"] [].

(** [CacheKeys.search_results(query, page, **filters)]. *)
Definition search_results (query page : string) (filters : list (string * Cache.arg))
  : string :=
  let key_parts :=
      (["search"; str_slice_to 50 query; ("page_" ++ page)%string]
         ++ map Cache.keyword_part (Cache.sorted_items filters))%list in
  Cache.generate_key "search" (map Cache.AValue key_parts) [].

End CacheKeys.

(** The key under which [OrderDetailView.get] stores its response:
    [CacheManager.generate_key('order', 'detail', user.id, order_number)]. *)
Definition OrderDetailView_cache_key (user_id : Z) (order_number : string) : string :=
  Cache.generate_key "order"
                     [Cache.AValue "detail"; Cache.AValue (str_Z user_id);
                      Cache.AValue order_number] [].

(** The patterns that [order_post_save] hands to [delete_pattern]. *)
Definition deleted_patterns (instance : Order.t) (created : bool) : list string :=
  flat_map (fun e => match e with
                     | CacheDeletePattern pattern => [pattern]
                     | GroupSend _ _ => []
                     end)
           (cache_calls instance created).

(** [c in s] for a character. *)
Fixpoint has_char (c : ascii) (s : string) : bool :=
  match s with
  | EmptyString => false
  | String a r => Ascii.eqb a c || has_char c r
  end.

(** [c.isdigit()] on the ASCII range. *)
Definition is_digit (c : ascii) : bool :=
  let n := N_of_ascii c in ((48 <=? n) && (n <=? 57))%N.

(** * orders/models.py: the other methods of [Order] *)

(** [Order.get_status_display_color]. *)
Definition Order_get_status_display_color (self : Order.t) : string :=
  let status_colors :=
      [ ("pending", "warning"); ("processing", "info"); ("shipped", "primary");
        ("delivered", "success"); ("cancelled", "danger");
        ("refunded", "secondary") ] in
  dict_get status_colors (Order.status self) "secondary".

(** [Order.can_be_cancelled]. *)
Definition Order_can_be_cancelled (self : Order.t) : bool :=
  str_mem (Order.status self) ["pending"; "processing"].

(** [Order.total_items]. *)
Definition Order_total_items (self : Order.t) (d : DB) : Z :=
  fold_right (fun i acc => OrderItem.quantity i + acc) 0 (Order_items self d).

(** [Cart.clear]. *)
Definition Cart_clear (self : Cart.t) : M unit := Cart_items_delete self.

(** * products/models.py: the stock methods of [Product] *)

(** [Product.is_in_stock]. *)
Definition Product_is_in_stock (self : Product.t) : bool := Product.stock self >? 0.

(** [Product.reduce_stock]: the result and the instance, whose stock the
    method has set. *)
Definition Product_reduce_stock (self : Product.t) (quantity : Z)
  : M (bool * Product.t) :=
  if Product.stock self >=? quantity then
    let self := Product.with_stock self (Product.stock self - quantity) in
    Product_save_stock self ;;;
    ret (true, self)
  else ret (false, self).

(** [Product.increase_stock]. *)
Definition Product_increase_stock (self : Product.t) (quantity : Z) : M Product.t :=
  let self := Product.with_stock self (Product.stock self + quantity) in
  Product_save_stock self ;;;
  ret self.

(** * orders/urls.py *)

Module OrdersUrls.

(** A route of [path()]: literal text and the converters [<str:name>] and
    [<int:name>]. *)
Inductive piece : Type :=
| Literal (text : string)
| StrConverter (name : string)
| IntConverter (name : string).

(** [path.startswith(text)], with the rest of the path. *)
Fixpoint strip_prefix (text path : string) : option string :=
  match text, path with
  | EmptyString, _ => Some path
  | String a t, String b p => if Ascii.eqb a b then strip_prefix t p else None
  | String _ _, EmptyString => None
  end.

(** The longest run of characters of a class at the head of the path, and
    the rest. *)
Fixpoint take_while (f : ascii -> bool) (path : string) : string * string :=
  match path with
  | EmptyString => (EmptyString, EmptyString)
  | String c rest =>
    if f c then let (value, tail) := take_while f rest in (String c value, tail)
    else (EmptyString, path)
  end.

(** The match of a whole path against a route, with the captured text of
    the converters: [<str:>] is the expression [[^/]+] and [<int:>] is
    [[0-9]+].  Every converter of the routes below is followed by a slash,
    so that the expression can only take the longest run. *)
Fixpoint match_route (route : list piece) (path : string)
  : option (list (string * string)) :=
  match route with
  | [] => match path with
          | EmptyString => Some []
          | String _ _ => None
          end
  | Literal text :: rest =>
    match strip_prefix text path with
    | Some tail => match_route rest tail
    | None => None
    end
  | StrConverter name :: rest =>
    let (value, tail) := take_while (fun c => negb (Ascii.eqb c "/")) path in
    match value with
    | EmptyString => None
    | String _ _ => option_map (cons (name, value)) (match_route rest tail)
    end
  | IntConverter name :: rest =>
    let (value, tail) := take_while is_digit path in
    match value with
    | EmptyString => None
    | String _ _ => option_map (cons (name, value)) (match_route rest tail)
    end
  end.

(** [urlpatterns], each route with the [name] of its view. *)
Definition urlpatterns : list (list piece * string) :=
  [ ([Literal "cart/"], "cart");
    ([Literal "cart/add/"], "add_to_cart");
    ([Literal "cart/clear/"], "clear_cart");
    ([Literal "cart/items/"; IntConverter "item_id"; Literal "/"], "cart_item");
    ([Literal ""], "order_list");
    ([Literal "create/"], "create_order");
    ([StrConverter "order_number"; Literal "/"], "order_detail");
    ([Literal "user/summary/"], "user_order_summary");
    ([Literal "admin/"], "admin_order_list");
    ([Literal "admin/"; StrConverter "order_number"; Literal "/"], "admin_order_detail");
    ([Literal "admin/"; StrConverter "order_number"; Literal "/status/"],
     "update_order_status");
    ([Literal "admin/"; StrConverter "order_number"; Literal "/payment/"],
     "update_payment_status");
    ([Literal "admin/statistics/"], "order_statistics");
    ([Literal "admin/recent/"], "recent_orders");
    ([Literal "admin/pending/"], "pending_orders");
    ([Literal "admin/bulk-update-status/"], "bulk_update_order_status") ].

(** The resolver: the first pattern that matches, in the order of the list;
    [None] is [Resolver404]. *)
Fixpoint first_match (patterns : list (list piece * string)) (path : string)
  : option (string * list (string * string)) :=
  match patterns with
  | [] => None
  | (route, name) :: rest =>
    match match_route route path with
    | Some kwargs => Some (name, kwargs)
    | None => first_match rest path
    end
  end.

(** The view and the keyword arguments for a path below [api/orders/]. *)
Definition resolve (path : string) : option (string * list (string * string)) :=
  first_match urlpatterns path.

End OrdersUrls.

(** * Concrete worlds and backends used in the examples *)

Module Fixtures.

(** An in-memory cache backend: the entries are a list, a key mapped to its
    value and timeout.  It has no [delete_pattern]; [keys] lists the keys
    that start with the pattern up to its final star. *)
Definition store (V : Type) : Type := list (string * (V * Z)).

Fixpoint store_get {V : Type} (entries : store V) (key : string) (default : V) : V :=
  match entries with
  | [] => default
  | (k, (v, _)) :: r => if String.eqb k key then v else store_get r key default
  end.

Definition store_remove {V : Type} (entries : store V) (key : string) : store V :=
  filter (fun kv => negb (String.eqb (fst kv) key)) entries.

Definition pattern_prefix (pattern : string) : string :=
  String.substring 0 (String.length pattern - 1) pattern.

Definition memory_backend (V : Type) : Cache.Backend (store V) V :=
  {| Cache.backend_get := fun key default s => Returned (store_get s key default);
     Cache.backend_set := fun key value timeout s =>
                            Returned ((key, (value, timeout)) :: store_remove s key);
     Cache.backend_delete := fun key s => Returned (store_remove s key);
     Cache.has_delete_pattern := false;
     Cache.backend_delete_pattern := fun _ s => Raised (KeyError "delete_pattern");
     Cache.backend_keys :=
       fun pattern s =>
         Returned (filter (String.prefix (pattern_prefix pattern)) (map fst s));
     Cache.backend_delete_many :=
       fun keys s => Returned (filter (fun kv => negb (str_mem (fst kv) keys)) s) |}.

(** A backend whose server cannot be reached: every operation raises. *)
Definition refused : exn := BackendError "Connection refused".

Definition down_backend (V : Type) (with_pattern : bool) : Cache.Backend (store V) V :=
  {| Cache.backend_get := fun _ _ _ => Raised refused;
     Cache.backend_set := fun _ _ _ _ => Raised refused;
     Cache.backend_delete := fun _ _ => Raised refused;
     Cache.has_delete_pattern := with_pattern;
     Cache.backend_delete_pattern := fun _ _ => Raised refused;
     Cache.backend_keys := fun _ _ => Raised refused;
     Cache.backend_delete_many := fun _ _ => Raised refused |}.

Definition redis_setting : option string :=
  Some "django_redis.cache.RedisCache".

Definition alice : User.t :=
  {| User.id := 7; User.username := "alice"; User.email := "alice@example.com";
     User.first_name := "Alice"; User.last_name := "Doe"; User.phone := "" |}.

Definition pen : Product.t :=
  {| Product.id := 1; Product.name := "Pen"; Product.sku := "STA-PEN";
     Product.price := 150; Product.stock := 10; Product.is_active := true |}.

Definition ink : Product.t :=
  {| Product.id := 2; Product.name := "Ink"; Product.sku := "STA-INK";
     Product.price := 999; Product.stock := 3; Product.is_active := true |}.

(** A shop with two products, no cart and no order. *)
Definition shop_db : DB :=
  {| products := [pen; ink]; carts := []; cart_items := []; orders := [];
     order_items := []; status_history := [];
     next_cart_id := 1; next_cart_item_id := 1; next_order_id := 1;
     next_order_item_id := 1; next_history_id := 1 |}.

Definition shop : World :=
  {| db := shop_db; channel_layer := ChannelLayerUp; effects := [] |}.

Definition add (pid qty : Z) : AddToCartSerializer.request :=
  {| AddToCartSerializer.product_id := Some pid;
     AddToCartSerializer.quantity := Some qty |}.

(** Alice has put two pens and three inks in her cart. *)
Definition shop_with_cart : World :=
  Eval vm_compute in
    snd (dispatch (AddToCartView_post alice (add 2 3))
                  (snd (dispatch (AddToCartView_post alice (add 1 2)) shop))).

(** The same, after the ink was withdrawn from sale. *)
Definition shop_ink_withdrawn : World :=
  with_db shop_with_cart
          (with_products (db shop_with_cart)
                         [pen;
                          {| Product.id := 2; Product.name := "Ink";
                             Product.sku := "STA-INK"; Product.price := 999;
                             Product.stock := 3; Product.is_active := false |}]).

Definition shipping : payload :=
  [ ("shipping_address_line_1", "1 Main St"); ("shipping_city", "Pune");
    ("shipping_state", "MH"); ("shipping_postal_code", "411001");
    ("shipping_country", "India") ].

(** Alice has checked out: order 1, pending. *)
Definition shop_after_checkout : World :=
  Eval vm_compute in snd (dispatch (CreateOrderView_post alice shipping) shop_with_cart).

(** An order instance that was never saved. *)
Definition draft : Order.t :=
  {| Order.id := 0; Order.user := alice; Order.order_number := "";
     Order.status := "pending"; Order.payment_status := "pending";
     Order.subtotal := 300; Order.tax_amount := 0; Order.shipping_cost := 0;
     Order.discount_amount := 0; Order.total_price := 300;
     Order.shipping_first_name := "Alice"; Order.shipping_last_name := "Doe";
     Order.shipping_email := "alice@example.com"; Order.shipping_phone := "";
     Order.shipping_address_line_1 := "1 Main St";
     Order.shipping_address_line_2 := "";
     Order.shipping_city := "Pune"; Order.shipping_state := "MH";
     Order.shipping_postal_code := "411001";
     Order.shipping_country := "India"; Order.notes := "" |}.

Definition order_1 : Order.t :=
  Eval vm_compute in hd draft (orders (db shop_after_checkout)).

(** What the checkout page posts to the AJAX view. *)
Definition form : payload :=
  [ ("first_name", "Alice"); ("last_name", "Doe");
    ("address_line_1", "1 Main St"); ("city", "Pune") ].

Definition alice_cart : Cart.t := {| Cart.id := 1; Cart.user := 7 |}.

(** Alice has checked out by the AJAX view. *)
Definition shop_after_api_checkout : World :=
  Eval vm_compute in snd (api_checkout alice form shop_with_cart).

Definition api_order_1 : Order.t :=
  Eval vm_compute in hd draft (orders (db shop_after_api_checkout)).

(** The shop with Alice's cart, after all the ink but one bottle was sold. *)
Definition shop_ink_short : World :=
  with_db shop_with_cart
          (with_products (db shop_with_cart)
                         [pen;
                          {| Product.id := 2; Product.name := "Ink";
                             Product.sku := "STA-INK"; Product.price := 999;
                             Product.stock := 1; Product.is_active := true |}]).

End Fixtures.
(** * Texts with characters of more than one byte *)

(** The letter e with an acute accent, U+00E9, on its two bytes. *)
Definition e_acute : string :=
  String (ascii_of_nat 195) (String (ascii_of_nat 169) EmptyString).

(** [n] times that letter. *)
Definition e_acutes (n : nat) : string := String.concat "" (repeat e_acute n).


(** * Properties of [utils/cache.py] *)

Section StringOrder.

Lemma ascii_compare_eq (a b : ascii) : Ascii.compare a b = Eq -> a = b.
Proof. apply Ascii.compare_eq_iff. Qed.

Lemma ascii_compare_trans_lt (a b c : ascii) :
  Ascii.compare a b = Lt -> Ascii.compare b c = Lt -> Ascii.compare a c = Lt.
Proof.
  unfold Ascii.compare. rewrite !N.compare_lt_iff. lia.
Qed.

Lemma string_compare_refl (s : string) : String.compare s s = Eq.
Proof.
  induction s as [|c s IH]; simpl; [reflexivity|].
  unfold Ascii.compare. rewrite N.compare_refl. exact IH.
Qed.

(** [String.compare] never answers [Gt] on both [a, b] and [b, c] without
    answering [Gt] on [a, c]; stated on the complement, which is what
    [String.leb] tests. *)
Lemma string_leb_trans (a b c : string) :
  String.leb a b = true -> String.leb b c = true -> String.leb a c = true.
Proof.
  unfold String.leb. revert b c.
  induction a as [|x a IH]; intros [|y b] [|z c]; simpl; try easy.
  destruct (Ascii.compare x y) eqn:Exy; try easy;
    destruct (Ascii.compare y z) eqn:Eyz; try easy.
  - apply ascii_compare_eq in Exy, Eyz. subst.
    unfold Ascii.compare. rewrite N.compare_refl. apply IH.
  - apply ascii_compare_eq in Exy. subst. rewrite Eyz. easy.
  - apply ascii_compare_eq in Eyz. subst. rewrite Exy. easy.
  - rewrite (ascii_compare_trans_lt _ _ _ Exy Eyz). easy.
Qed.

Lemma string_leb_false (a b : string) :
  String.leb a b = false -> String.leb b a = true.
Proof.
  intros H. destruct (String.leb_total a b) as [E|E]; congruence.
Qed.

Lemma string_leb_asym (a b : string) :
  a <> b -> String.leb a b = true -> String.leb b a = false.
Proof.
  intros Hne H. destruct (String.leb b a) eqn:E; [|reflexivity].
  exfalso. apply Hne. apply String.leb_antisym; assumption.
Qed.

End StringOrder.

Section SortedItems.

Import Cache.

Lemma insert_item_perm (kv : string * arg) (l : list (string * arg)) :
  Permutation (insert_item kv l) (kv :: l).
Proof.
  induction l as [|h t IH]; simpl; [apply Permutation_refl|].
  destruct (String.leb (fst kv) (fst h)); [apply Permutation_refl|].
  eapply perm_trans; [apply perm_skip, IH | apply perm_swap].
Qed.

Lemma sorted_items_perm (l : list (string * arg)) :
  Permutation (sorted_items l) l.
Proof.
  induction l as [|kv r IH]; simpl; [constructor|].
  eapply perm_trans; [apply insert_item_perm | apply perm_skip, IH].
Qed.

Lemma insert_item_sorted (kv : string * arg) (l : list (string * arg)) :
  Sorted key_le l -> Sorted key_le (insert_item kv l).
Proof.
  induction l as [|h t IH]; intros Hs; simpl.
  - repeat constructor.
  - destruct (String.leb (fst kv) (fst h)) eqn:E.
    + constructor; [exact Hs | constructor; exact E].
    + inversion Hs as [|? ? Ht Hh]; subst.
      constructor; [apply IH, Ht|].
      destruct t as [|h' t']; simpl.
      * constructor. apply string_leb_false, E.
      * destruct (String.leb (fst kv) (fst h')).
        -- constructor. apply string_leb_false, E.
        -- inversion Hh; subst. constructor. assumption.
Qed.

Lemma sorted_items_sorted (l : list (string * arg)) :
  Sorted key_le (sorted_items l).
Proof.
  induction l as [|kv r IH]; simpl; [constructor|].
  apply insert_item_sorted, IH.
Qed.

(** Two insertions of items with different keys commute. *)
Lemma insert_item_comm (a b : string * arg) (l : list (string * arg)) :
  fst a <> fst b ->
  insert_item a (insert_item b l) = insert_item b (insert_item a l).
Proof.
  intros Hne.
  induction l as [|h t IH]; simpl.
  - destruct (String.leb (fst a) (fst b)) eqn:E1.
    + rewrite (string_leb_asym _ _ Hne E1). reflexivity.
    + rewrite (string_leb_false _ _ E1). reflexivity.
  - destruct (String.leb (fst b) (fst h)) eqn:Ebh;
      destruct (String.leb (fst a) (fst h)) eqn:Eah; simpl;
        rewrite ?Ebh, ?Eah.
    + destruct (String.leb (fst a) (fst b)) eqn:E1.
      * rewrite (string_leb_asym _ _ Hne E1). reflexivity.
      * rewrite (string_leb_false _ _ E1). reflexivity.
    + destruct (String.leb (fst a) (fst b)) eqn:E1; [|reflexivity].
      rewrite (string_leb_trans _ _ _ E1 Ebh) in Eah. discriminate.
    + destruct (String.leb (fst b) (fst a)) eqn:E1; [|reflexivity].
      rewrite (string_leb_trans _ _ _ E1 Eah) in Ebh. discriminate.
    + f_equal. exact IH.
Qed.

(** The sorted items do not depend on the order the dict was filled in. *)
Lemma sorted_items_permutation (l l' : list (string * arg)) :
  Permutation l l' -> NoDup (map fst l) -> sorted_items l = sorted_items l'.
Proof.
  induction 1 as [| x l l' Hp IH | x y l | l l' l'' H1 IH1 H2 IH2]; intros Hnd.
  - reflexivity.
  - simpl. f_equal. apply IH. simpl in Hnd. inversion Hnd; assumption.
  - simpl. apply insert_item_comm.
    simpl in Hnd. inversion Hnd as [|? ? Hin _]; subst.
    intros E. apply Hin. left. symmetry. exact E.
  - rewrite IH1 by assumption. apply IH2.
    eapply Permutation_NoDup; [apply Permutation_map, H1 | exact Hnd].
Qed.

End SortedItems.

Section CacheManagerFacts.

Import Cache.

Lemma dict_get_missing {A : Type} (d : list (string * A)) (k : string) (default : A) :
  str_mem k (map fst d) = false -> dict_get d k default = default.
Proof.
  unfold str_mem. induction d as [|[k' v] r IH]; intros H; [reflexivity|].
  cbn [map fst existsb] in H. apply orb_false_elim in H. destruct H as [E H].
  cbn [dict_get]. rewrite String.eqb_sym, E. apply IH, H.
Qed.

Lemma resolve_timeout_unknown (tier : string) :
  str_mem tier (map fst TIMEOUTS) = false ->
  resolve_timeout (Tier tier) = 1800.
Proof.
  intros H. unfold resolve_timeout. rewrite (dict_get_missing _ _ _ H).
  reflexivity.
Qed.

(** A named tier and its number of seconds are the same call. *)
Lemma set_tier_is_seconds {S V : Type} (cache : Backend S V)
      (key : string) (value : V) (t : timeout_arg) (s : S) :
  set cache key value t s = set cache key value (Seconds (resolve_timeout t)) s.
Proof. reflexivity. Qed.

End CacheManagerFacts.

(** Every entry of [PREFIXES] maps a name to itself, so the head of a key
    is the prefix as given. *)
Lemma PREFIXES_get (prefix : string) :
  dict_get Cache.PREFIXES prefix prefix = prefix.
Proof.
  unfold Cache.PREFIXES. cbn [dict_get].
  repeat match goal with
         | |- (if String.eqb ?a ?b then _ else _) = _ =>
           destruct (String.eqb_spec a b) as [E|_]; [exact E|]
         end.
  reflexivity.
Qed.

Lemma append_assoc (a b c : string) : (a ++ b) ++ c = a ++ (b ++ c).
Proof. induction a as [|x a IH]; [reflexivity|]. cbn. rewrite IH. reflexivity. Qed.

Lemma append_nil_r (a : string) : a ++ "" = a.
Proof. induction a as [|x a IH]; [reflexivity|]. cbn. rewrite IH. reflexivity. Qed.

(** A part of a joined text stands in it behind a separator. *)
Lemma concat_member (sep x : string) (l : list string) :
  forall head : string,
    In x l ->
    exists before after,
      String.concat sep (head :: l) = before ++ sep ++ x ++ after.
Proof.
  induction l as [|y l IH]; intros head Hin; [destruct Hin|].
  destruct Hin as [-> | Hin].
  - exists head. destruct l as [|z l].
    + exists "". cbn [String.concat]. rewrite append_nil_r. reflexivity.
    + exists (sep ++ String.concat sep (z :: l)). reflexivity.
  - destruct (IH y Hin) as (before & after & E).
    exists (head ++ sep ++ before), after.
    change (String.concat sep (head :: y :: l))
      with (head ++ sep ++ String.concat sep (y :: l)).
    rewrite E, !append_assoc. reflexivity.
Qed.

(** C7.  [CacheManager.set] with a tier name hands the backend that tier's
    timeout (short 300, medium 1800, long 3600, very_long 21600, daily
    86400 seconds), and 1800 for a name that is no tier, and reports [True]
    with the state the backend stored the value in.  The key of
    [generate_key] is, joined with colons: the prefix as given, the text of
    each positional argument (class name, underscore and primary key for a
    model instance) in the order given, and name, underscore and text of
    each keyword argument in the order of the names.  So every argument's
    text stands in the key behind a colon, and two keyword dicts with the
    same items, in whatever order, give the same key. *)
Theorem cache_set_tier_and_generate_key :
  forall (S V : Type) (cache : Cache.Backend S V) (key : string) (value : V)
         (s s' : S) (tier prefix : string) (args : list Cache.arg)
         (kwargs kwargs' : list (string * Cache.arg)),
    NoDup (map fst kwargs) ->
    Permutation kwargs kwargs' ->
    Cache.backend_set cache key value (Cache.resolve_timeout (Cache.Tier tier)) s
      = Returned s' ->
    let text := fun a => match a with
                         | Cache.AModel _ _ repr => repr
                         | Cache.AValue repr => repr
                         end in
    let positional := fun a => match a with
                               | Cache.AModel class_name pk _ => class_name ++ "_" ++ pk
                               | Cache.AValue repr => repr
                               end in
    let keyword := fun kv : string * Cache.arg => fst kv ++ "_" ++ text (snd kv) in
    Cache.resolve_timeout (Cache.Tier "short") = 300
    /\ Cache.resolve_timeout (Cache.Tier "medium") = 1800
    /\ Cache.resolve_timeout (Cache.Tier "long") = 3600
    /\ Cache.resolve_timeout (Cache.Tier "very_long") = 21600
    /\ Cache.resolve_timeout (Cache.Tier "daily") = 86400
    /\ (str_mem tier (map fst Cache.TIMEOUTS) = false ->
        Cache.resolve_timeout (Cache.Tier tier) = 1800)
    /\ Cache.set cache key value (Cache.Tier tier) s = Returned (true, s')
    /\ (exists items,
           Permutation items kwargs
           /\ Sorted (fun a b => String.leb (fst a) (fst b) = true) items
           /\ Cache.generate_key prefix args kwargs
              = String.concat ":" (prefix :: map positional args ++ map keyword items)%list)
    /\ (forall a, In a args ->
                  exists before after,
                    Cache.generate_key prefix args kwargs
                    = before ++ ":" ++ positional a ++ after)
    /\ (forall k v, In (k, v) kwargs ->
                    exists before after,
                      Cache.generate_key prefix args kwargs
                      = before ++ ":" ++ (k ++ "_" ++ text v) ++ after)
    /\ Cache.generate_key prefix args kwargs = Cache.generate_key prefix args kwargs'.
Proof.
  intros S V cache key value s s' tier prefix args kwargs kwargs' Hnd Hperm Hset
         text positional keyword.
  assert (Hkey : Cache.generate_key prefix args kwargs
                 = String.concat ":" (prefix :: map positional args
                                             ++ map keyword (Cache.sorted_items kwargs))%list).
  { unfold Cache.generate_key. rewrite PREFIXES_get. reflexivity. }
  repeat apply conj; try reflexivity.
  - apply resolve_timeout_unknown.
  - unfold Cache.set, Cache.try_except. rewrite Hset. reflexivity.
  - exists (Cache.sorted_items kwargs). repeat apply conj.
    + apply sorted_items_perm.
    + exact (sorted_items_sorted kwargs).
    + exact Hkey.
  - intros a Ha. rewrite Hkey. apply concat_member.
    apply in_or_app. left. apply in_map, Ha.
  - intros k v Hin. rewrite Hkey.
    change (k ++ "_" ++ text v) with (keyword (k, v)).
    apply concat_member. apply in_or_app. right. apply in_map.
    apply (Permutation_in _ (Permutation_sym (sorted_items_perm kwargs))), Hin.
  - unfold Cache.generate_key.
    rewrite (sorted_items_permutation kwargs kwargs' Hperm Hnd). reflexivity.
Qed.

(** The tiers on the in-memory backend: the entry is stored with the
    tier's seconds; the key of two positional and two keyword arguments is
    spelled out, and the two orders of the keyword arguments give it both. *)
Lemma cache_set_tier_and_generate_key_witness :
  Cache.set (Fixtures.memory_backend Z) "stats:orders" 5 (Cache.Tier "short") []
    = Returned (true, [("stats:orders", (5, 300))])
  /\ Cache.generate_key "api" [Cache.AValue "product_list"; Cache.AValue "page_1"]
                        [("min_price", Cache.AValue "10"); ("brand", Cache.AValue "acme")]
     = "api:product_list:page_1:brand_acme:min_price_10"
  /\ Cache.generate_key "api" [Cache.AValue "product_list"; Cache.AValue "page_1"]
                        [("min_price", Cache.AValue "10"); ("brand", Cache.AValue "acme")]
     = Cache.generate_key "api" [Cache.AValue "product_list"; Cache.AValue "page_1"]
                          [("brand", Cache.AValue "acme"); ("min_price", Cache.AValue "10")].
Proof.
  assert (Hnd : NoDup (map fst [("min_price", Cache.AValue "10");
                                ("brand", Cache.AValue "acme")])).
  { simpl. constructor.
    - intros [H|[]]. discriminate H.
    - constructor; [intros [] | constructor]. }
  pose proof (cache_set_tier_and_generate_key
                (Fixtures.store Z) Z (Fixtures.memory_backend Z)
                "stats:orders" 5 [] [("stats:orders", (5, 300))]
                "short" "api"
                [Cache.AValue "product_list"; Cache.AValue "page_1"]
                [("min_price", Cache.AValue "10"); ("brand", Cache.AValue "acme")]
                [("brand", Cache.AValue "acme"); ("min_price", Cache.AValue "10")]
                Hnd (perm_swap _ _ _) eq_refl) as H.
  cbv zeta in H.
  split; [apply H|]. split; [reflexivity | apply H].
Defined.

(** C10.  Whatever the backend does, [get], [set], [delete] and
    [delete_pattern] raise nothing that is an [Exception]; when the backend
    operation they call raises one, [get] returns the default, [set] and
    [delete] return [False] and [delete_pattern] returns 0, and the cache is
    as it was. *)
Theorem cache_manager_never_propagates :
  forall (S V : Type) (cache : Cache.Backend S V) (setting : option string)
         (key pattern : string) (value default : V)
         (timeout : Cache.timeout_arg) (s : S) (e : exn),
    is_Exception e = true ->
    (forall e', Cache.get cache key default s = Raised e' -> is_Exception e' = false)
    /\ (forall e', Cache.set cache key value timeout s = Raised e' ->
                   is_Exception e' = false)
    /\ (forall e', Cache.delete cache key s = Raised e' -> is_Exception e' = false)
    /\ (forall e', Cache.delete_pattern cache setting pattern s = Raised e' ->
                   is_Exception e' = false)
    /\ (Cache.backend_get cache key default s = Raised e ->
        Cache.get cache key default s = Returned (default, s))
    /\ (Cache.backend_set cache key value (Cache.resolve_timeout timeout) s = Raised e ->
        Cache.set cache key value timeout s = Returned (false, s))
    /\ (Cache.backend_delete cache key s = Raised e ->
        Cache.delete cache key s = Returned (false, s))
    /\ (setting = None ->
        Cache.delete_pattern cache setting pattern s = Returned (0, s))
    /\ (forall name, setting = Some name -> str_in "redis" (lower name) = true ->
        Cache.has_delete_pattern cache = true ->
        Cache.backend_delete_pattern cache pattern s = Raised e ->
        Cache.delete_pattern cache setting pattern s = Returned (0, s))
    /\ (forall name, setting = Some name -> str_in "redis" (lower name) = true ->
        Cache.has_delete_pattern cache = false ->
        Cache.backend_keys cache pattern s = Raised e ->
        Cache.delete_pattern cache setting pattern s = Returned (0, s))
    /\ (forall name k ks, setting = Some name -> str_in "redis" (lower name) = true ->
        Cache.has_delete_pattern cache = false ->
        Cache.backend_keys cache pattern s = Returned (k :: ks) ->
        Cache.backend_delete_many cache (k :: ks) s = Raised e ->
        Cache.delete_pattern cache setting pattern s = Returned (0, s)).
Proof.
  intros S V cache setting key pattern value default timeout s e He.
  assert (Hte : forall (A : Type) (body : pyres (A * S)) (h : A * S) e',
             Cache.try_except body h = Raised e' -> is_Exception e' = false).
  { intros A body h e'. unfold Cache.try_except.
    destruct body as [r|e0]; [discriminate|].
    destruct (is_Exception e0) eqn:E0; [discriminate|].
    intros H. inversion H; subst. exact E0. }
  repeat split.
  - intros e'. apply Hte.
  - intros e'. apply Hte.
  - intros e'. apply Hte.
  - intros e'. apply Hte.
  - intros H. unfold Cache.get, Cache.try_except. rewrite H, He. reflexivity.
  - intros H. unfold Cache.set, Cache.try_except. rewrite H, He. reflexivity.
  - intros H. unfold Cache.delete, Cache.try_except. rewrite H, He. reflexivity.
  - intros ->. reflexivity.
  - intros name -> Hr Hp H. unfold Cache.delete_pattern, Cache.try_except.
    rewrite Hr, Hp, H, He. reflexivity.
  - intros name -> Hr Hp H. unfold Cache.delete_pattern, Cache.try_except.
    rewrite Hr, Hp, H, He. reflexivity.
  - intros name k ks -> Hr Hp Hk H. unfold Cache.delete_pattern, Cache.try_except.
    rewrite Hr, Hp, Hk, H, He. reflexivity.
Qed.

(** The four calls on a backend whose server refuses connections. *)
Lemma cache_manager_never_propagates_witness :
  Cache.get (Fixtures.down_backend Z true) "k" 0 [] = Returned (0, [])
  /\ Cache.set (Fixtures.down_backend Z true) "k" 1 (Cache.Tier "long") []
     = Returned (false, [])
  /\ Cache.delete (Fixtures.down_backend Z true) "k" [] = Returned (false, [])
  /\ Cache.delete_pattern (Fixtures.down_backend Z true) Fixtures.redis_setting
                          "order:1:*" [] = Returned (0, [])
  /\ Cache.delete_pattern (Fixtures.down_backend Z false) Fixtures.redis_setting
                          "order:1:*" [] = Returned (0, []).
Proof.
  pose proof (cache_manager_never_propagates
                (Fixtures.store Z) Z (Fixtures.down_backend Z true)
                Fixtures.redis_setting "k" "order:1:*" 1 0 (Cache.Tier "long") []
                Fixtures.refused eq_refl) as H.
  pose proof (cache_manager_never_propagates
                (Fixtures.store Z) Z (Fixtures.down_backend Z false)
                Fixtures.redis_setting "k" "order:1:*" 1 0 (Cache.Tier "long") []
                Fixtures.refused eq_refl) as H'.
  destruct H as (_ & _ & _ & _ & Hg & Hs & Hd & _ & Hp & _).
  destruct H' as (_ & _ & _ & _ & _ & _ & _ & _ & _ & Hk & _).
  repeat apply conj.
  - apply Hg. reflexivity.
  - apply Hs. reflexivity.
  - apply Hd. reflexivity.
  - apply (Hp _ eq_refl); reflexivity.
  - apply (Hk _ eq_refl); reflexivity.
Defined.

(** * Rows, keys and lookups *)

Section Rows.

Context {A : Type}.
Variable key : A -> Z.

Lemma filter_key_absent (k : Z) (rows : list A) :
  ~ In k (map key rows) -> filter (fun r => key r =? k) rows = [].
Proof.
  induction rows as [|r rs IH]; intros H; simpl; [reflexivity|].
  destruct (Z.eqb_spec (key r) k) as [E|E].
  - exfalso. apply H. left. exact E.
  - apply IH. intros Hin. apply H. right. exact Hin.
Qed.

(** In a table without duplicate keys, the lookup of a row's key finds
    that row and no other. *)
Lemma filter_key_unique (x : A) (rows : list A) :
  NoDup (map key rows) -> In x rows ->
  filter (fun r => key r =? key x) rows = [x].
Proof.
  induction rows as [|r rs IH]; intros Hnd Hin; [destruct Hin|].
  simpl in Hnd. inversion Hnd as [|? ? Hnotin Hnd']; subst.
  destruct Hin as [->|Hin]; simpl.
  - rewrite Z.eqb_refl. f_equal. apply filter_key_absent, Hnotin.
  - destruct (Z.eqb_spec (key r) (key x)) as [E|E].
    + exfalso. apply Hnotin. rewrite E. apply in_map, Hin.
    + apply IH; assumption.
Qed.

Lemma objects_get_unique (model : string) (x : A) (rows : list A) :
  NoDup (map key rows) -> In x rows ->
  objects_get model (fun r => key r =? key x) rows = Returned x.
Proof.
  intros Hnd Hin. unfold objects_get.
  rewrite (filter_key_unique x rows Hnd Hin). reflexivity.
Qed.

Lemma update_rows_keys (k : Z) (f : A -> A) (rows : list A) :
  (forall r, key (f r) = key r) ->
  map key (update_rows (fun r => key r =? k) f rows) = map key rows.
Proof.
  intros Hf. unfold update_rows. rewrite map_map. apply map_ext.
  intros r. destruct (key r =? k); [apply Hf | reflexivity].
Qed.

Lemma existsb_key_In (x : A) (rows : list A) :
  In x rows -> existsb (fun r => key r =? key x) rows = true.
Proof.
  intros Hin. apply existsb_exists. exists x. split; [exact Hin | apply Z.eqb_refl].
Qed.

End Rows.

Lemma objects_get_Returned {A : Type} (model : string) (lookup : A -> bool)
      (rows : list A) (x : A) :
  objects_get model lookup rows = Returned x ->
  filter lookup rows = [x] /\ In x rows /\ lookup x = true.
Proof.
  unfold objects_get. intros H.
  destruct (filter lookup rows) as [|y [|z l]] eqn:E; try discriminate.
  inversion H; subst.
  assert (Hin : In x (filter lookup rows)) by (rewrite E; left; reflexivity).
  apply filter_In in Hin. destruct Hin as [Hin Hx]. auto.
Qed.

(** The only row the lookup of a successful [get] accepts is the one it
    returned. *)
Lemma objects_get_only {A : Type} (model : string) (lookup : A -> bool)
      (rows : list A) (x y : A) :
  objects_get model lookup rows = Returned x ->
  In y rows -> lookup y = true -> y = x.
Proof.
  intros H Hin Hy. apply objects_get_Returned in H. destruct H as [E _].
  assert (Hf : In y (filter lookup rows)) by (apply filter_In; auto).
  rewrite E in Hf. destruct Hf as [->|[]]. reflexivity.
Qed.

Lemma objects_get_first {A : Type} (model : string) (lookup : A -> bool)
      (rows : list A) (x : A) :
  objects_get model lookup rows = Returned x ->
  objects_first lookup rows = Some x.
Proof.
  intros H. apply objects_get_Returned in H. destruct H as [E _].
  unfold objects_first. rewrite E. reflexivity.
Qed.

Lemma find_product_Returned (d : DB) (pk : Z) (p : Product.t) :
  find_product d pk = Returned p -> In p (products d) /\ Product.id p = pk.
Proof.
  intros H. apply objects_get_Returned in H. destruct H as (_ & Hin & E).
  split; [exact Hin | apply Z.eqb_eq, E].
Qed.

Lemma find_product_unique (d : DB) (p : Product.t) :
  NoDup (map Product.id (products d)) -> In p (products d) ->
  find_product d (Product.id p) = Returned p.
Proof. apply (objects_get_unique Product.id). Qed.

(** * The monad *)

Lemma bind_Returned {A B : Type} (m : M A) (k : A -> M B) (w w1 : World) (a : A) :
  m w = (Returned a, w1) -> bind m k w = k a w1.
Proof. intros H. unfold bind. rewrite H. reflexivity. Qed.

Lemma bind_Raised {A B : Type} (m : M A) (k : A -> M B) (w w1 : World) (e : exn) :
  m w = (Raised e, w1) -> bind m k w = (Raised e, w1).
Proof. intros H. unfold bind. rewrite H. reflexivity. Qed.

Lemma bind_inv {A B : Type} (m : M A) (k : A -> M B) (w w' : World) (b : B) :
  bind m k w = (Returned b, w') ->
  exists a w1, m w = (Returned a, w1) /\ k a w1 = (Returned b, w').
Proof.
  unfold bind. destruct (m w) as [[a|e] w1]; intros H; [|discriminate].
  exists a, w1. auto.
Qed.

Lemma atomic_Returned {A : Type} (m : M A) (w w' : World) (a : A) :
  atomic m w = (Returned a, w') -> m w = (Returned a, w').
Proof.
  unfold atomic. destruct (m w) as [[a'|e] w1]; intros H; [exact H | discriminate].
Qed.

Lemma atomic_Raised {A : Type} (m : M A) (w w' : World) (e : exn) :
  atomic m w = (Raised e, w') -> db w' = db w.
Proof.
  unfold atomic. destruct (m w) as [[a'|e'] w1]; intros H; [discriminate|].
  inversion H; subst. reflexivity.
Qed.

Lemma Product_objects_get_run (pk : Z) (w : World) :
  Product_objects_get pk w = (find_product (db w) pk, w).
Proof. reflexivity. Qed.

(** * [order_post_save] and [Order.save] *)

Lemma order_post_save_run (instance : Order.t) (created : bool) (w : World) :
  order_post_save instance created w
  = (Returned tt,
     with_effects w (effects w ++ post_save_effects instance created (channel_layer w))%list).
Proof.
  destruct w as [d layer es].
  unfold order_post_save, try_except, bind, group_send, cache_delete_pattern,
    emit, ret, with_effects, post_save_effects, cache_calls.
  destruct layer, created; cbn [db channel_layer effects is_Exception];
    rewrite <- ?app_assoc, ?app_nil_r; reflexivity.
Qed.

Lemma Order_super_save_insert (update_fields : option (list string))
      (self : Order.t) (w : World) :
  let saved := Order.with_id self (next_order_id (db w)) in
  Order_super_save true update_fields self w
  = (Returned saved,
     after_save w (orders (db w) ++ [saved])%list (next_order_id (db w) + 1) saved true).
Proof.
  unfold Order_super_save, bind, get_db, put_db, ret. cbn [fst snd].
  rewrite order_post_save_run. reflexivity.
Qed.

Lemma Order_super_save_update_fields (fields : list string) (self : Order.t) (w : World) :
  existsb (fun o => Order.id o =? Order.id self) (orders (db w)) = true ->
  Order_super_save false (Some fields) self w
  = (Returned self,
     after_save w (update_rows (fun o => Order.id o =? Order.id self)
                               (copy_fields fields self) (orders (db w)))
                (next_order_id (db w)) self false).
Proof.
  intros H. unfold Order_super_save, bind, get_db, put_db, ret.
  rewrite H. rewrite order_post_save_run. reflexivity.
Qed.

Lemma Order_super_save_update_missing (fields : list string) (self : Order.t) (w : World) :
  existsb (fun o => Order.id o =? Order.id self) (orders (db w)) = false ->
  Order_super_save false (Some fields) self w
  = (Raised (DatabaseError "Save with update_fields did not affect any rows."), w).
Proof.
  intros H. unfold Order_super_save, bind, get_db, raise. rewrite H. reflexivity.
Qed.

Lemma Order_super_save_rewrite (self : Order.t) (w : World) :
  existsb (fun o => Order.id o =? Order.id self) (orders (db w)) = true ->
  Order_super_save false None self w
  = (Returned self,
     after_save w (update_rows (fun o => Order.id o =? Order.id self)
                               (fun _ => self) (orders (db w)))
                (next_order_id (db w)) self false).
Proof.
  intros H. unfold Order_super_save, bind, get_db, put_db, ret.
  rewrite H. rewrite order_post_save_run. reflexivity.
Qed.

Lemma Order_super_save_upsert (self : Order.t) (w : World) :
  existsb (fun o => Order.id o =? Order.id self) (orders (db w)) = false ->
  Order_super_save false None self w
  = (Returned self,
     after_save w (orders (db w) ++ [self])%list (next_order_id (db w)) self true).
Proof.
  intros H. unfold Order_super_save, bind, get_db, put_db, ret.
  rewrite H. rewrite order_post_save_run. reflexivity.
Qed.

Lemma copy_fields_order_number (self row : Order.t) :
  copy_fields ["order_number"] self row
  = Order.with_order_number row (Order.order_number self).
Proof. reflexivity. Qed.

Lemma copy_fields_status (self row : Order.t) :
  copy_fields ["status"; "updated_at"] self row
  = Order.with_status row (Order.status self).
Proof. reflexivity. Qed.

Lemma copy_fields_id (fields : list string) (self row : Order.t) :
  Order.id (copy_fields fields self row) = Order.id row.
Proof.
  unfold copy_fields.
  destruct (str_mem "status" fields), (str_mem "order_number" fields); reflexivity.
Qed.

Section UpdatedRows.

Context {A : Type}.
Variables (lookup : A -> bool) (f : A -> A).

(** A property that [f] establishes holds of every rewritten row the
    lookup still accepts. *)
Lemma update_rows_established (P : A -> Prop) (rows : list A) (row : A) :
  (forall r, P (f r)) ->
  In row (update_rows lookup f rows) -> lookup row = true -> P row.
Proof.
  intros HP Hin Hrow. unfold update_rows in Hin.
  apply in_map_iff in Hin. destruct Hin as (r & E & _).
  destruct (lookup r) eqn:Er; subst row; [apply HP | congruence].
Qed.

Lemma update_rows_exists (rows : list A) :
  (forall r, lookup r = true -> lookup (f r) = true) ->
  existsb lookup rows = true ->
  existsb lookup (update_rows lookup f rows) = true.
Proof.
  intros Hl H. apply existsb_exists in H. destruct H as (r & Hin & Hr).
  apply existsb_exists. exists (f r). split; [|apply Hl; exact Hr].
  unfold update_rows. apply in_map_iff. exists r. rewrite Hr. auto.
Qed.

Lemma update_rows_length (rows : list A) :
  List.length (update_rows lookup f rows) = List.length rows.
Proof. apply length_map. Qed.

End UpdatedRows.

Lemma existsb_app_last {A : Type} (lookup : A -> bool) (rows : list A) (x : A) :
  lookup x = true -> existsb lookup (rows ++ [x]) = true.
Proof.
  intros H. rewrite existsb_app. simpl. rewrite H. apply orb_true_iff.
  right. reflexivity.
Qed.

(** * Formatting *)

Lemma replicate_length (n : nat) (c : ascii) : String.length (replicate n c) = n.
Proof. induction n as [|n IH]; simpl; [reflexivity | rewrite IH; reflexivity]. Qed.

Lemma append_length (a b : string) :
  String.length (a ++ b) = (String.length a + String.length b)%nat.
Proof. induction a as [|c a IH]; simpl; [reflexivity | rewrite IH; reflexivity]. Qed.

Lemma rjust_length (width : nat) (c : ascii) (s : string) :
  String.length (rjust width c s) = Nat.max width (String.length s).
Proof.
  unfold rjust. rewrite append_length, replicate_length. lia.
Qed.

Lemma format_06d_nonneg (z : Z) :
  0 <= z ->
  format_06d z = replicate (6 - String.length (str_Z z)) "0"%char ++ str_Z z.
Proof.
  intros Hpos. unfold format_06d.
  destruct (Z.ltb_spec z 0) as [Hneg|_]; [lia | reflexivity].
Qed.

Example format_06d_42 : format_06d 42 = "000042".
Proof. reflexivity. Qed.

Example format_06d_wide : format_06d 1234567 = "1234567".
Proof. reflexivity. Qed.

Lemma Order_save_numbered (adding : bool) (update_fields : option (list string))
      (self : Order.t) (w : World) :
  Order.order_number self <> "" ->
  Order_save adding update_fields self w = Order_super_save adding update_fields self w.
Proof.
  intros H. unfold Order_save.
  destruct (String.eqb_spec (Order.order_number self) ""); [contradiction | reflexivity].
Qed.

(** The second save of [Order.save]: the row of [first] takes the generated
    number. *)
Lemma Order_save_unnumbered (adding : bool) (update_fields : option (list string))
      (self first : Order.t) (w w1 : World) :
  Order.order_number self = "" ->
  Order_super_save adding update_fields self w = (Returned first, w1) ->
  Order.order_number first = "" ->
  existsb (fun o => Order.id o =? Order.id first) (orders (db w1)) = true ->
  let saved := Order.with_order_number first ("ORD-" ++ format_06d (Order.id first)) in
  Order_save adding update_fields self w
  = (Returned saved,
     after_save w1 (update_rows (fun o => Order.id o =? Order.id first)
                                (copy_fields ["order_number"] saved) (orders (db w1)))
                (next_order_id (db w1)) saved false).
Proof.
  intros Hself Hfirst Hnum Hrow saved. unfold Order_save.
  rewrite Hself. cbn [String.eqb].
  rewrite (bind_Returned _ _ _ _ _ Hfirst).
  rewrite Hnum. cbn [String.eqb].
  apply (Order_super_save_update_fields ["order_number"] saved w1). exact Hrow.
Qed.

(** C9.  [Order.save] returns whenever it inserts, rewrites the whole row,
    or finds the row of the key.  An order saved with an empty order number
    comes back numbered 'ORD-' followed by its key printed on at least six
    digits, zeros first, and so is its row in the table; an order saved with
    a number keeps it. *)
Theorem order_save_assigns_order_number :
  forall (adding : bool) (update_fields : option (list string))
         (self : Order.t) (w : World),
    adding = true \/ update_fields = None
    \/ existsb (fun o => Order.id o =? Order.id self) (orders (db w)) = true ->
    exists saved w',
      Order_save adding update_fields self w = (Returned saved, w')
      /\ Order.id saved = (if adding then next_order_id (db w) else Order.id self)
      /\ (Order.order_number self = "" ->
          Order.order_number saved = "ORD-" ++ format_06d (Order.id saved)
          /\ (0 <= Order.id saved ->
              format_06d (Order.id saved)
              = replicate (6 - String.length (str_Z (Order.id saved))) "0"%char
                          ++ str_Z (Order.id saved))
          /\ (exists row, In row (orders (db w'))
                          /\ Order.id row = Order.id saved
                          /\ Order.order_number row = Order.order_number saved)
          /\ (forall row, In row (orders (db w')) ->
                          Order.id row = Order.id saved ->
                          Order.order_number row = Order.order_number saved))
      /\ (Order.order_number self <> "" ->
          Order.order_number saved = Order.order_number self).
Proof.
  intros adding update_fields self w Hcase.
  assert (Hfirst : exists first w1,
             Order_super_save adding update_fields self w = (Returned first, w1)
             /\ Order.id first = (if adding then next_order_id (db w) else Order.id self)
             /\ Order.order_number first = Order.order_number self
             /\ existsb (fun o => Order.id o =? Order.id first) (orders (db w1)) = true).
  { destruct adding.
    - eexists _, _. split; [apply Order_super_save_insert|].
      repeat split. cbn. apply existsb_app_last. apply Z.eqb_refl.
    - destruct update_fields as [fields|].
      + destruct Hcase as [H|[H|H]]; try discriminate.
        eexists _, _. split; [apply Order_super_save_update_fields, H|].
        repeat split. cbn.
        apply update_rows_exists; [|exact H].
        intros r Hr. rewrite copy_fields_id. exact Hr.
      + destruct (existsb (fun o => Order.id o =? Order.id self) (orders (db w))) eqn:E.
        * eexists _, _. split; [apply Order_super_save_rewrite, E|].
          repeat split. cbn.
          apply update_rows_exists; [|exact E]. intros r _. apply Z.eqb_refl.
        * eexists _, _. split; [apply Order_super_save_upsert, E|].
          repeat split. cbn. apply existsb_app_last. apply Z.eqb_refl. }
  destruct Hfirst as (first & w1 & Hrun & Hid & Hnum & Hrow).
  destruct (String.eqb_spec (Order.order_number self) "") as [Hempty|Hfull].
  - rewrite Hempty in Hnum.
    eexists _, _.
    split; [apply (Order_save_unnumbered _ _ _ _ _ _ Hempty Hrun Hnum Hrow)|].
    split; [exact Hid|]. split; [|intros H; contradiction].
    intros _. split; [reflexivity|]. split.
    { intros Hpos. apply format_06d_nonneg, Hpos. }
    cbn [after_save db with_orders orders].
    split.
    + apply existsb_exists in Hrow. destruct Hrow as (r & Hin & Hr).
      eexists. split; [|split].
      * unfold update_rows. apply in_map_iff. exists r. split; [|exact Hin].
        rewrite Hr. reflexivity.
      * rewrite copy_fields_id. apply Z.eqb_eq in Hr. exact Hr.
      * reflexivity.
    + intros row Hin Heq.
      apply (update_rows_established
               (fun o => Order.id o =? Order.id first)
               (copy_fields ["order_number"]
                  (Order.with_order_number first ("ORD-" ++ format_06d (Order.id first))))
               (fun r => Order.order_number r = "ORD-" ++ format_06d (Order.id first))
               (orders (db w1)) row); [reflexivity | exact Hin|].
      apply Z.eqb_eq. exact Heq.
  - exists first, w1. rewrite (Order_save_numbered _ _ _ _ Hfull).
    split; [exact Hrun|]. split; [exact Hid|].
    split; [intros H; contradiction | intros _; exact Hnum].
Qed.

(** A draft saved in the shop gets the first number. *)
Lemma order_save_assigns_order_number_witness :
  exists saved w',
    Order_save true None Fixtures.draft Fixtures.shop = (Returned saved, w')
    /\ Order.order_number saved = "ORD-000001".
Proof.
  destruct (order_save_assigns_order_number true None Fixtures.draft Fixtures.shop
                                            (or_introl eq_refl))
    as (saved & w' & Hrun & Hid & Hempty & _).
  exists saved, w'. split; [exact Hrun|].
  destruct (Hempty eq_refl) as [Hnum _]. rewrite Hnum, Hid. reflexivity.
Defined.

(** * Status updates *)

Lemma skipn_new {A : Type} (old new : list A) :
  skipn (List.length old) (old ++ new) = new.
Proof.
  rewrite skipn_app, skipn_all, Nat.sub_diag. reflexivity.
Qed.

Lemma post_save_effects_no_admin (instance : Order.t) (layer : channel_layer_t) :
  existsb (is_send_to "admins") (post_save_effects instance false layer) = false.
Proof. destruct layer; reflexivity. Qed.

Lemma post_save_effects_user (instance : Order.t) :
  In (GroupSend (user_group instance) (notification_data instance false))
     (post_save_effects instance false ChannelLayerUp).
Proof. left. reflexivity. Qed.

Lemma OrderStatusHistory_objects_create_run (order : Order.t)
      (old_status new_status notes : string) (w : World) :
  OrderStatusHistory_objects_create order old_status new_status notes w
  = (Returned tt,
     with_db w (with_status_history
                  (db w)
                  (status_history (db w)
                     ++ [{| OrderStatusHistory.id := next_history_id (db w);
                            OrderStatusHistory.order := Order.id order;
                            OrderStatusHistory.old_status := old_status;
                            OrderStatusHistory.new_status := new_status;
                            OrderStatusHistory.changed_by := None;
                            OrderStatusHistory.notes := notes |}])%list
                  (next_history_id (db w) + 1))).
Proof. reflexivity. Qed.

(** The save both endpoints make: the status column of the order's row is
    written, the history is not touched, and the owner's group, never the
    administrators' group, is sent a message. *)
Lemma status_save_run (instance : Order.t) (new_status : string) (w : World) :
  existsb (fun o => Order.id o =? Order.id instance) (orders (db w)) = true ->
  exists saved w1 sent,
    Order_save false (Some ["status"; "updated_at"])
               (Order.with_status instance new_status) w = (Returned saved, w1)
    /\ Order.id saved = Order.id instance
    /\ Order.status saved = new_status
    /\ (exists row, In row (orders (db w1)) /\ Order.id row = Order.id instance)
    /\ (forall row, In row (orders (db w1)) -> Order.id row = Order.id instance ->
                    Order.status row = new_status)
    /\ status_history (db w1) = status_history (db w)
    /\ next_history_id (db w1) = next_history_id (db w)
    /\ channel_layer w1 = channel_layer w
    /\ effects w1 = (effects w ++ sent)%list
    /\ existsb (is_send_to "admins") sent = false
    /\ (channel_layer w = ChannelLayerUp ->
        existsb (is_send_to (user_group instance)) sent = true).
Proof.
  intros Hrow.
  set (self := Order.with_status instance new_status).
  assert (Hrow' : existsb (fun o => Order.id o =? Order.id self) (orders (db w)) = true)
    by exact Hrow.
  pose proof (Order_super_save_update_fields ["status"; "updated_at"] self w Hrow')
    as Hfirst.
  assert (Hstatus1 : forall row,
             In row (update_rows (fun o => Order.id o =? Order.id self)
                                 (copy_fields ["status"; "updated_at"] self)
                                 (orders (db w))) ->
             Order.id row = Order.id instance -> Order.status row = new_status).
  { intros row Hin Heq.
    apply (update_rows_established
             (fun o => Order.id o =? Order.id self)
             (copy_fields ["status"; "updated_at"] self)
             (fun o => Order.status o = new_status) (orders (db w)) row);
      [intros r; reflexivity | exact Hin | apply Z.eqb_eq; exact Heq]. }
  assert (Hexists1 : existsb (fun o => Order.id o =? Order.id self)
                             (update_rows (fun o => Order.id o =? Order.id self)
                                          (copy_fields ["status"; "updated_at"] self)
                                          (orders (db w))) = true).
  { apply update_rows_exists; [|exact Hrow'].
    intros r Hr. rewrite copy_fields_id. exact Hr. }
  assert (Huser : forall o, Order.user o = Order.user instance ->
                            existsb (is_send_to (user_group instance))
                                    (post_save_effects o false ChannelLayerUp) = true).
  { intros o Ho. cbn [post_save_effects existsb is_send_to].
    unfold user_group. rewrite Ho, String.eqb_refl. reflexivity. }
  destruct (String.eqb_spec (Order.order_number self) "") as [Hempty|Hfull].
  - pose proof (Order_save_unnumbered false _ self self w _ Hempty Hfirst Hempty Hexists1)
      as Hrun.
    eexists _, _, _. split; [exact Hrun|].
    cbn [after_save db with_orders orders status_history next_history_id
                    channel_layer effects].
    repeat apply conj; try reflexivity.
    + apply existsb_exists in Hexists1. destruct Hexists1 as (r & Hin & Hr).
      eexists. split.
      * unfold update_rows at 1. apply in_map_iff. exists r. split; [|exact Hin].
        rewrite Hr. reflexivity.
      * rewrite copy_fields_id. apply Z.eqb_eq in Hr. exact Hr.
    + intros row Hin Heq. unfold update_rows at 1 in Hin.
      apply in_map_iff in Hin. destruct Hin as (r & E & Hin).
      destruct (Order.id r =? Order.id self) eqn:Er.
      * subst row. rewrite copy_fields_order_number. cbn.
        apply Hstatus1; [exact Hin | apply Z.eqb_eq in Er; exact Er].
      * subst row. apply Hstatus1; assumption.
    + rewrite <- app_assoc. reflexivity.
    + rewrite existsb_app, !post_save_effects_no_admin. reflexivity.
    + intros Hup. rewrite Hup, existsb_app, (Huser self eq_refl). reflexivity.
  - rewrite <- (Order_save_numbered false (Some ["status"; "updated_at"]) self w Hfull)
      in Hfirst.
    eexists _, _, _. split; [exact Hfirst|].
    cbn [after_save db with_orders orders status_history next_history_id
                    channel_layer effects].
    repeat apply conj; try reflexivity.
    + apply existsb_exists in Hexists1. destruct Hexists1 as (r & Hin & Hr).
      exists r. split; [exact Hin | apply Z.eqb_eq in Hr; exact Hr].
    + exact Hstatus1.
    + apply post_save_effects_no_admin.
    + intros Hup. rewrite Hup. apply (Huser self eq_refl).
Qed.

Lemma status_update_outcome_intro (instance saved : Order.t)
      (new_status notes : string) (w w1 : World) (sent : list effect) :
  Order.id saved = Order.id instance ->
  (exists row, In row (orders (db w1)) /\ Order.id row = Order.id instance) ->
  (forall row, In row (orders (db w1)) -> Order.id row = Order.id instance ->
               Order.status row = new_status) ->
  status_history (db w1) = status_history (db w) ->
  next_history_id (db w1) = next_history_id (db w) ->
  channel_layer w1 = channel_layer w ->
  effects w1 = (effects w ++ sent)%list ->
  existsb (is_send_to "admins") sent = false ->
  (channel_layer w = ChannelLayerUp ->
   existsb (is_send_to (user_group instance)) sent = true) ->
  let w' := snd (OrderStatusHistory_objects_create
                   saved (Order.status instance) new_status notes w1) in
  status_update_outcome instance new_status notes
                        (match channel_layer w with
                         | ChannelLayerUp => [user_group instance]
                         | _ => []
                         end) w w'
  /\ existsb (is_send_to "admins") (sent_since w w') = false.
Proof.
  intros Hid Hex Hall Hhist Hnext Hlayer Heff Hadm Husr w'.
  subst w'. rewrite OrderStatusHistory_objects_create_run.
  unfold status_update_outcome, sent_since, history_row.
  cbn [snd with_db db with_status_history orders status_history effects].
  rewrite Heff, skipn_new, Hhist, Hnext, Hid.
  repeat apply conj; try assumption; try reflexivity.
  intros group Hin. destruct (channel_layer w); try (destruct Hin; fail).
  destruct Hin as [<-|[]]. apply Husr. reflexivity.
Qed.

(** C6, as the code has it.  A status update through
    [UpdateOrderStatusSerializer.update] or through the loop of
    [bulk_update_order_status], on an order fetched from the table, returns; the order's row carries the new
    status; one history row with the old and the new status is appended;
    when the channel layer works a message goes to the group of the order's
    user; and no message goes to the administrators' group, which
    [order_post_save] addresses for created orders only. *)
Theorem status_update_notifies_owner_only :
  forall (instance : Order.t) (validated_data : list (string * string))
         (new_status bulk_notes : string) (acc : list Z * list string) (w : World),
    objects_get "Order" (fun o => Order.id o =? Order.id instance) (orders (db w))
    = Returned instance ->
    payload_get validated_data "status" = Some new_status ->
    let receivers := match channel_layer w with
                     | ChannelLayerUp => [user_group instance]
                     | _ => []
                     end in
    (exists saved w',
        UpdateOrderStatusSerializer.update instance validated_data w
        = (Returned saved, w')
        /\ Order.status saved = new_status
        /\ status_update_outcome
             instance new_status
             (str_or (dict_get validated_data "notes" "")
                     ("Status changed from " ++ Order.status instance
                        ++ " to " ++ new_status))
             receivers w w'
        /\ existsb (is_send_to "admins") (sent_since w w') = false)
    /\ (exists w',
           bulk_update_one new_status bulk_notes (Order.id instance) acc w
           = (Returned ((fst acc ++ [Order.id instance])%list, snd acc), w')
           /\ status_update_outcome
                instance new_status
                (str_or bulk_notes
                        ("Bulk status change from " ++ Order.status instance
                           ++ " to " ++ new_status))
                receivers w w'
           /\ existsb (is_send_to "admins") (sent_since w w') = false).
Proof.
  intros instance validated_data new_status bulk_notes acc w Hget Hstatus receivers.
  assert (Hrow : existsb (fun o => Order.id o =? Order.id instance) (orders (db w)) = true).
  { apply objects_get_Returned in Hget. destruct Hget as (_ & Hin & _).
    apply (existsb_key_In Order.id), Hin. }
  destruct (status_save_run instance new_status w Hrow)
    as (saved & w1 & sent & Hrun & Hid & Hst & Hex & Hall & Hhist & Hnext & Hlayer
        & Heff & Hadm & Husr).
  split.
  - pose proof (status_update_outcome_intro
                  instance saved new_status
                  (str_or (dict_get validated_data "notes" "")
                          ("Status changed from " ++ Order.status instance
                             ++ " to " ++ new_status))
                  w w1 sent Hid Hex Hall Hhist Hnext Hlayer Heff Hadm Husr) as Hout.
    cbv zeta in Hout. rewrite OrderStatusHistory_objects_create_run in Hout.
    eexists saved, _. split; [|split; [exact Hst | exact Hout]].
    unfold UpdateOrderStatusSerializer.update, atomic. rewrite Hstatus.
    rewrite (bind_Returned _ _ _ _ _ Hrun).
    unfold bind. rewrite OrderStatusHistory_objects_create_run. reflexivity.
  - pose proof (status_update_outcome_intro
                  instance saved new_status
                  (str_or bulk_notes
                          ("Bulk status change from " ++ Order.status instance
                             ++ " to " ++ new_status))
                  w w1 sent Hid Hex Hall Hhist Hnext Hlayer Heff Hadm Husr) as Hout.
    cbv zeta in Hout. rewrite OrderStatusHistory_objects_create_run in Hout.
    eexists. split; [|exact Hout].
    unfold bulk_update_one, try_except. destruct acc as [updated_orders errors].
    unfold bind at 1. unfold get_db at 1. cbn [fst snd].
    unfold bind at 1. unfold lift at 1. rewrite Hget.
    rewrite (bind_Returned _ _ _ _ _ Hrun).
    unfold bind. rewrite OrderStatusHistory_objects_create_run. reflexivity.
Qed.

(** Cancelling the pending order 1 of the shop, with a working channel
    layer: the owner's group is notified, the administrators' is not. *)
Lemma status_update_notifies_owner_only_witness :
  exists saved w',
    UpdateOrderStatusSerializer.update Fixtures.order_1 [("status", "cancelled")]
                                       Fixtures.shop_after_checkout
    = (Returned saved, w')
    /\ Order.status saved = "cancelled"
    /\ existsb (is_send_to "user_7")
               (sent_since Fixtures.shop_after_checkout w') = true
    /\ existsb (is_send_to "admins")
               (sent_since Fixtures.shop_after_checkout w') = false.
Proof.
  destruct (status_update_notifies_owner_only
              Fixtures.order_1 [("status", "cancelled")] "cancelled" ""
              ([], []) Fixtures.shop_after_checkout eq_refl eq_refl)
    as [(saved & w' & Hrun & Hst & Hout & Hadm) _].
  exists saved, w'. repeat apply conj; try assumption.
  destruct Hout as (_ & _ & _ & Hsend). apply Hsend. left. reflexivity.
Defined.

(** C6 as worded fails: cancelling order 1 sends nothing to the
    administrators' group. *)
Lemma status_update_does_not_notify_admins :
  ~ status_update_as_specified
      Fixtures.order_1 [("status", "cancelled")] "cancelled"
      "Status changed from pending to cancelled" Fixtures.shop_after_checkout.
Proof.
  intros (saved & w' & Hrun & _ & _ & _ & Hsend).
  specialize (Hsend "admins" (or_intror (or_introl eq_refl))).
  remember (UpdateOrderStatusSerializer.update
              Fixtures.order_1 [("status", "cancelled")]
              Fixtures.shop_after_checkout) as r eqn:E.
  vm_compute in E. subst r. injection Hrun as <- <-.
  vm_compute in Hsend. discriminate Hsend.
Qed.

(** * The transition table *)

(** The single-order endpoint follows the table: validated data carries a
    status the table allows from the order's current one. *)
Lemma single_update_follows_table (order : Order.t) (data : payload)
      (validated_data : list (string * string)) :
  UpdateOrderStatusSerializer.is_valid order data = Returned validated_data ->
  exists new_status,
    payload_get validated_data "status" = Some new_status
    /\ UpdateOrderStatusSerializer.transition_allowed (Order.status order) new_status
       = true.
Proof.
  unfold UpdateOrderStatusSerializer.is_valid, UpdateOrderStatusSerializer.status_field,
    UpdateOrderStatusSerializer.validate_status.
  destruct (payload_get data "status") as [value|].
  - destruct (str_mem value (map fst Order.STATUS_CHOICES)).
    + destruct (UpdateOrderStatusSerializer.transition_allowed (Order.status order) value)
               eqn:E; cbn [negb].
      * destruct (CharField_run_validation UpdateOrderStatusSerializer.notes_field
                                           (payload_get data "notes"));
          intros H; inversion H; subst; exists value; auto.
      * destruct (CharField_run_validation UpdateOrderStatusSerializer.notes_field
                                           (payload_get data "notes"));
          intros H; discriminate H.
    + destruct (CharField_run_validation UpdateOrderStatusSerializer.notes_field
                                         (payload_get data "notes"));
        intros H; discriminate H.
  - destruct (CharField_run_validation UpdateOrderStatusSerializer.notes_field
                                       (payload_get data "notes"));
      intros H; discriminate H.
Qed.

(** A request the single-order endpoint does not answer with 200 leaves the
    tables as they were. *)
Lemma single_update_rejected_unchanged (order_number : string) (data : payload)
      (w w' : World) (r : pyres Response) :
  dispatch (UpdateOrderStatusView_patch order_number data) w = (r, w') ->
  (forall o, r <> Returned {| status_code := 200; data := BodyOrder o |}) ->
  db w' = db w.
Proof.
  unfold dispatch, UpdateOrderStatusView_patch, Order_get_object.
  unfold bind at 1. unfold bind at 1. unfold get_db at 1.
  destruct (objects_get "Order"
                        (fun o => String.eqb (Order.order_number o) order_number)
                        (orders (db w))) as [order|e].
  - unfold ret at 1. unfold bind at 1. unfold lift at 1.
    destruct (UpdateOrderStatusSerializer.is_valid order data) as [vd|e].
    + unfold bind.
      destruct (UpdateOrderStatusSerializer.update order vd w) as [[saved|e] w1] eqn:E.
      * unfold ret. intros H Hno. inversion H; subst. exfalso. apply (Hno saved).
        reflexivity.
      * apply atomic_Raised in E. intros H _. destruct e; inversion H; subst; exact E.
    + intros H _. destruct e; inversion H; reflexivity.
  - intros H _. unfold raise in H. destruct e; inversion H; reflexivity.
Qed.

(** C1 at the bulk endpoint and at the AJAX endpoint.  Order 1 of the shop
    is pending and the table has no transition from pending to delivered:
    the single-order endpoint answers 400 and changes nothing; the bulk
    endpoint answers 200, writes the status and a history row; the AJAX
    endpoint [api_order_status_update] answers 200 and writes the status,
    with no history row. *)
Theorem bulk_update_ignores_transition_table :
  Order.status Fixtures.order_1 = "pending"
  /\ UpdateOrderStatusSerializer.transition_allowed "pending" "delivered" = false
  /\ dispatch (UpdateOrderStatusView_patch "ORD-000001" [("status", "delivered")])
              Fixtures.shop_after_checkout
     = (Returned {| status_code := 400;
                    data := BodyErrors
                              [("status",
                                "Cannot change status from 'pending' to 'delivered'")] |},
        Fixtures.shop_after_checkout)
  /\ (exists w',
         dispatch (bulk_update_order_status
                     {| order_ids := [1]; bulk_status := Some "delivered";
                        bulk_notes := "" |})
                  Fixtures.shop_after_checkout
         = (Returned {| status_code := 200; data := BodyBulk [1] [] 1 |}, w')
         /\ map Order.status (orders (db w')) = ["delivered"]
         /\ map (fun h => (OrderStatusHistory.old_status h,
                           OrderStatusHistory.new_status h))
                (status_history (db w'))
            = [("", "pending"); ("pending", "delivered")])
  /\ (exists response w',
         api_order_status_update 1 "delivered" Fixtures.shop_after_checkout
         = (Returned response, w')
         /\ status_code response = 200
         /\ map Order.status (orders (db w')) = ["delivered"]
         /\ status_history (db w') = status_history (db Fixtures.shop_after_checkout)).
Proof.
  repeat apply conj; try reflexivity.
  - eexists. repeat apply conj; vm_compute; reflexivity.
  - eexists. eexists. repeat apply conj; vm_compute; reflexivity.
Qed.

(** * The loop of checkout *)

Lemma with_stock_same (p : Product.t) : Product.with_stock p (Product.stock p) = p.
Proof. destruct p; reflexivity. Qed.

Lemma decrement_stock_nil (p : Product.t) : decrement_stock [] p = p.
Proof.
  unfold decrement_stock. cbn [quantity_of]. rewrite Z.sub_0_r. apply with_stock_same.
Qed.

Lemma str_or_same (s : string) : str_or s s = s.
Proof. destruct s; reflexivity. Qed.

Lemma objects_get_map {A : Type} (model : string) (lookup : A -> bool)
      (g : A -> A) (rows : list A) :
  (forall x, lookup (g x) = lookup x) ->
  objects_get model lookup (map g rows)
  = match objects_get model lookup rows with
    | Returned x => Returned (g x)
    | Raised e => Raised e
    end.
Proof.
  intros Hg. unfold objects_get.
  assert (E : filter lookup (map g rows) = map g (filter lookup rows)).
  { induction rows as [|r rs IH]; simpl; [reflexivity|].
    rewrite Hg. destruct (lookup r); simpl; rewrite IH; reflexivity. }
  rewrite E. destruct (filter lookup rows) as [|x [|y l]]; reflexivity.
Qed.

(** A change of stocks changes no lookup's outcome except for the stock of
    the product found. *)
Lemma find_product_restocked (d d' : DB) (g : Product.t -> Z) (pk : Z) :
  products d' = map (fun p => Product.with_stock p (g p)) (products d) ->
  find_product d' pk
  = match find_product d pk with
    | Returned p => Returned (Product.with_stock p (g p))
    | Raised e => Raised e
    end.
Proof.
  intros E. unfold find_product. rewrite E.
  apply (objects_get_map "Product" (fun p => Product.id p =? pk)
                         (fun p => Product.with_stock p (g p))).
  intros x. reflexivity.
Qed.

Lemma price_of_restocked (d d' : DB) (g : Product.t -> Z) (pk : Z) :
  products d' = map (fun p => Product.with_stock p (g p)) (products d) ->
  price_of d' pk = price_of d pk.
Proof.
  intros E. unfold price_of. rewrite (find_product_restocked d d' g pk E).
  destruct (find_product d pk); reflexivity.
Qed.

Lemma OrderItem_save_run (self : OrderItem.t) (product : Product.t) (w : World) :
  let saved :=
      {| OrderItem.id := next_order_item_id (db w);
         OrderItem.order := OrderItem.order self;
         OrderItem.product := OrderItem.product self;
         OrderItem.quantity := OrderItem.quantity self;
         OrderItem.product_name :=
           str_or (OrderItem.product_name self) (Product.name product);
         OrderItem.product_price :=
           (if OrderItem.product_price self =? 0 then Product.price product
            else OrderItem.product_price self);
         OrderItem.product_sku :=
           str_or (OrderItem.product_sku self) (Product.sku product) |} in
  OrderItem_save self product w
  = (Returned saved,
     with_db w (with_order_items (db w) (order_items (db w) ++ [saved])%list
                                 (next_order_item_id (db w) + 1))).
Proof. reflexivity. Qed.

Lemma Product_save_stock_run (self : Product.t) (w : World) :
  existsb (fun p => Product.id p =? Product.id self) (products (db w)) = true ->
  Product_save_stock self w
  = (Returned tt,
     with_db w (with_products
                  (db w)
                  (update_rows (fun p => Product.id p =? Product.id self)
                               (fun p => Product.with_stock p (Product.stock self))
                               (products (db w))))).
Proof.
  intros H. unfold Product_save_stock, bind, get_db. rewrite H. reflexivity.
Qed.

Lemma Product_save_stock_with (p : Product.t) (s : Z) (w : World) :
  existsb (fun r => Product.id r =? Product.id p) (products (db w)) = true ->
  Product_save_stock (Product.with_stock p s) w
  = (Returned tt,
     with_db w (with_products
                  (db w)
                  (update_rows (fun r => Product.id r =? Product.id p)
                               (fun r => Product.with_stock r s)
                               (products (db w))))).
Proof. exact (Product_save_stock_run (Product.with_stock p s) w). Qed.

(** Writing the stock of the fetched product, less [q], is taking [q] from
    the stock of the row with its key. *)
Lemma update_rows_decrement (d : DB) (p : Product.t) (i : CartItem.t)
      (rest : list CartItem.t) :
  find_product d (CartItem.product i) = Returned p ->
  map (decrement_stock rest)
      (update_rows (fun r => Product.id r =? Product.id p)
                   (fun r => Product.with_stock r (Product.stock p - CartItem.quantity i))
                   (products d))
  = map (decrement_stock (i :: rest)) (products d).
Proof.
  intros Hp. destruct (find_product_Returned _ _ _ Hp) as [Hin Hid].
  unfold update_rows. rewrite map_map.
  apply map_ext_in. intros r Hr.
  unfold decrement_stock. cbn [quantity_of].
  destruct (Z.eqb_spec (Product.id r) (Product.id p)) as [E|E].
  - assert (r = p).
    { apply (objects_get_only _ _ _ _ _ Hp Hr). apply Z.eqb_eq. congruence. }
    subst r. rewrite <- Hid, Z.eqb_refl. clear. destruct p.
    unfold Product.with_stock; cbn. f_equal. lia.
  - rewrite <- Hid.
    destruct (Z.eqb_spec (Product.id p) (Product.id r)) as [E'|_];
      [exfalso; apply E; symmetry; exact E'|].
    rewrite Z.add_0_l. reflexivity.
Qed.

(** The loop of [create] over items whose products can be fetched: it
    returns, every product has lost the units the items ask of it, one order
    item was added for each cart item, and nothing else changed. *)
Lemma create_items_run (order : Order.t) (items : list CartItem.t) :
  forall w : World,
    (forall i, In i items ->
               exists p, find_product (db w) (CartItem.product i) = Returned p) ->
    exists added,
      CreateOrderSerializer.create_items order items w
      = (Returned tt, after_create_items w items added)
      /\ Forall2 (made_from order (db w)) items added.
Proof.
  induction items as [|i rest IH]; intros w Hres.
  - exists []. split; [|constructor].
    destruct w as [d layer es]. destruct d.
    unfold after_create_items, with_db, with_order_items, with_products.
    cbn. rewrite app_nil_r, Z.add_0_r.
    rewrite (map_ext _ (fun p => p) decrement_stock_nil), map_id. reflexivity.
  - destruct (Hres i (or_introl eq_refl)) as (p & Hp).
    destruct (find_product_Returned _ _ _ Hp) as [Hin Hid].
    cbn [CreateOrderSerializer.create_items].
    unfold bind at 1. rewrite Product_objects_get_run, Hp. cbn [lift].
    unfold bind at 1. rewrite OrderItem_save_run. cbv zeta.
    unfold bind at 1. rewrite Product_save_stock_with
      by (cbn; apply (existsb_key_In Product.id), Hin).
    set (oi := {| OrderItem.id := next_order_item_id (db w) |}) in *.
    match goal with
    | |- context [CreateOrderSerializer.create_items order rest ?w1] =>
      set (wb := w1)
    end.
    assert (Hps : products (db wb)
                  = map (fun r => Product.with_stock
                                    r (if Product.id r =? Product.id p
                                       then Product.stock p - CartItem.quantity i
                                       else Product.stock r))
                        (products (db w))).
    { subst wb. cbn. unfold update_rows. apply map_ext. intros r.
      destruct (Product.id r =? Product.id p); [reflexivity|].
      symmetry. apply with_stock_same. }
    assert (Hres' : forall j, In j rest ->
                              exists q, find_product (db wb) (CartItem.product j)
                                        = Returned q).
    { intros j Hj. destruct (Hres j (or_intror Hj)) as (q & Hq).
      rewrite (find_product_restocked (db w) (db wb) _ _ Hps), Hq. eauto. }
    destruct (IH wb Hres') as (added & Hrun & Hmade).
    exists (oi :: added). split.
    + rewrite Hrun. f_equal.
      subst wb. destruct w as [d layer es]. destruct d.
      unfold after_create_items, with_db, with_order_items, with_products.
      cbn [db products order_items next_order_item_id carts cart_items orders
              status_history next_cart_id next_cart_item_id next_order_id
              next_history_id channel_layer effects].
      pose proof (update_rows_decrement _ p i rest Hp) as Hdec.
      cbn [db products] in Hdec. rewrite Hdec.
      rewrite <- app_assoc. cbn [app List.length].
      rewrite Nat2Z.inj_succ. do 2 f_equal. lia.
    + constructor.
      * subst oi. unfold made_from, price_of. rewrite Hp. cbn.
        rewrite Hid. repeat split.
        destruct (Product.price p =? 0); reflexivity.
      * eapply Forall2_impl; [|exact Hmade].
        intros j oj (H1 & H2 & H3 & H4). repeat split; try assumption.
        rewrite H4. apply (price_of_restocked (db w) (db wb) _ _ Hps).
Qed.

(** * Checkout *)

Lemma price_of_same_products (d d' : DB) (pk : Z) :
  products d' = products d -> price_of d' pk = price_of d pk.
Proof. intros E. unfold price_of, find_product. rewrite E. reflexivity. Qed.

Lemma sum_of_run (items : list CartItem.t) :
  forall (acc : Z) (w : World),
    (forall i, In i items ->
               exists p, find_product (db w) (CartItem.product i) = Returned p) ->
    sum_of CartItem_subtotal items acc w
    = (Returned (acc + cart_items_total (db w) items), w).
Proof.
  induction items as [|i rest IH]; intros acc w Hres.
  - cbn. rewrite Z.add_0_r. reflexivity.
  - destruct (Hres i (or_introl eq_refl)) as (p & Hp).
    cbn [sum_of cart_items_total fold_right].
    unfold bind at 1. unfold CartItem_subtotal at 1.
    unfold bind at 1. rewrite Product_objects_get_run, Hp. cbn [lift ret].
    rewrite IH by (intros j Hj; apply Hres; right; exact Hj).
    assert (E : price_of (db w) (CartItem.product i) = Product.price p)
      by (unfold price_of; rewrite Hp; reflexivity).
    rewrite E. f_equal. f_equal.
    fold (cart_items_total (db w) rest). lia.
Qed.

(** The loop of [validate] reads only. *)
Lemma validate_items_world (items : list CartItem.t) (w w' : World) (r : pyres unit) :
  CreateOrderSerializer.validate_items items w = (r, w') -> w' = w.
Proof.
  induction items as [|i rest IH]; cbn [CreateOrderSerializer.validate_items].
  - unfold ret. intros H. inversion H. reflexivity.
  - unfold bind at 1. rewrite Product_objects_get_run. cbn [lift].
    destruct (find_product (db w) (CartItem.product i)) as [p|e].
    + destruct (Product.is_active p); cbn [negb].
      * destruct (CartItem.quantity i >? Product.stock p); [|exact IH].
        unfold raise. intros H. inversion H. reflexivity.
      * unfold raise. intros H. inversion H. reflexivity.
    + intros H. inversion H. reflexivity.
Qed.

Lemma Z_gtb_leb (a b : Z) : (a >? b) = negb (a <=? b).
Proof. rewrite Z.gtb_ltb, Z.ltb_antisym. reflexivity. Qed.

Lemma validate_items_accepts (items : list CartItem.t) (w : World) :
  forallb (item_ok (db w)) items = true ->
  CreateOrderSerializer.validate_items items w = (Returned tt, w).
Proof.
  induction items as [|i rest IH]; intros H; [reflexivity|].
  cbn [forallb] in H. apply andb_prop in H. destruct H as [Hi Hrest].
  unfold item_ok in Hi.
  cbn [CreateOrderSerializer.validate_items].
  unfold bind at 1. rewrite Product_objects_get_run. cbn [lift].
  destruct (find_product (db w) (CartItem.product i)) as [p|e]; [|discriminate].
  apply andb_prop in Hi. destruct Hi as [Ha Hq].
  rewrite Ha, Z_gtb_leb, Hq. cbn [negb]. apply IH, Hrest.
Qed.

Lemma validate_items_rejects (items : list CartItem.t) (w : World) :
  (forall i, In i items ->
             exists p, find_product (db w) (CartItem.product i) = Returned p) ->
  forallb (item_ok (db w)) items = false ->
  exists detail,
    CreateOrderSerializer.validate_items items w = (Raised (ValidationError detail), w).
Proof.
  induction items as [|i rest IH]; intros Hres H; [discriminate|].
  destruct (Hres i (or_introl eq_refl)) as (p & Hp).
  cbn [forallb] in H. unfold item_ok at 1 in H. rewrite Hp in H.
  cbn [CreateOrderSerializer.validate_items].
  unfold bind at 1. rewrite Product_objects_get_run, Hp. cbn [lift].
  destruct (Product.is_active p); cbn [negb andb] in *.
  - rewrite Z_gtb_leb. destruct (CartItem.quantity i <=? Product.stock p); cbn [negb andb] in *.
    + apply IH; [|exact H]. intros j Hj. apply Hres. right. exact Hj.
    + eexists. reflexivity.
  - eexists. reflexivity.
Qed.

Lemma validate_items_Returned (items : list CartItem.t) (w w' : World) :
  CreateOrderSerializer.validate_items items w = (Returned tt, w') ->
  forallb (item_ok (db w)) items = true.
Proof.
  induction items as [|i rest IH]; [reflexivity|].
  cbn [CreateOrderSerializer.validate_items forallb]. unfold item_ok at 1.
  unfold bind at 1. rewrite Product_objects_get_run. cbn [lift].
  destruct (find_product (db w) (CartItem.product i)) as [p|e]; [|discriminate].
  destruct (Product.is_active p); cbn [negb andb]; [|discriminate].
  rewrite Z_gtb_leb.
  destruct (CartItem.quantity i <=? Product.stock p); cbn [negb andb]; [|discriminate].
  exact IH.
Qed.

Lemma forallb_item_ok_iff (d : DB) (items : list CartItem.t) :
  (forall i, In i items ->
             exists p, find_product d (CartItem.product i) = Returned p) ->
  forallb (item_ok d) items = false
  <-> existsb (fun i => match find_product d (CartItem.product i) with
                        | Returned p => negb (Product.is_active p)
                        | Raised _ => false
                        end) items = true
      \/ existsb (fun i => match find_product d (CartItem.product i) with
                           | Returned p => CartItem.quantity i >? Product.stock p
                           | Raised _ => false
                           end) items = true.
Proof.
  induction items as [|i rest IH]; intros Hres.
  - cbn. split; [discriminate | intros [H|H]; discriminate].
  - destruct (Hres i (or_introl eq_refl)) as (p & Hp).
    assert (Hres' : forall j, In j rest ->
                              exists q, find_product d (CartItem.product j) = Returned q)
      by (intros j Hj; apply Hres; right; exact Hj).
    specialize (IH Hres').
    cbn [forallb existsb]. unfold item_ok at 1. rewrite Hp, Z_gtb_leb.
    destruct (Product.is_active p), (CartItem.quantity i <=? Product.stock p);
      cbn [negb andb orb]; try tauto.
Qed.

Lemma Order_objects_create_run (instance : Order.t) (w : World) :
  Order.order_number instance = "" ->
  let n := next_order_id (db w) in
  let order := Order.with_order_number (Order.with_id instance n)
                                       ("ORD-" ++ format_06d n) in
  exists rows sent,
    Order_objects_create instance w
    = (Returned order,
       {| db := with_orders (db w) rows (n + 1);
          channel_layer := channel_layer w;
          effects := (effects w ++ sent)%list |})
    /\ In order rows.
Proof.
  intros Hempty n order.
  pose proof (Order_super_save_insert None instance w) as Hfirst. cbv zeta in Hfirst.
  assert (Hrow : existsb (fun o => Order.id o =? Order.id (Order.with_id instance n))
                         (orders (db (after_save w (orders (db w) ++ [Order.with_id instance n])%list
                                                 (n + 1) (Order.with_id instance n) true)))
                 = true).
  { cbn. apply existsb_app_last, Z.eqb_refl. }
  pose proof (Order_save_unnumbered true None instance _ w _ Hempty Hfirst Hempty Hrow)
    as Hrun.
  cbv zeta in Hrun. unfold Order_objects_create. rewrite Hrun.
  eexists _, _. split.
  - unfold after_save. cbn [db channel_layer effects with_orders products carts
                               cart_items orders order_items status_history
                               next_cart_id next_cart_item_id next_order_id
                               next_order_item_id next_history_id].
    rewrite <- app_assoc. reflexivity.
  - cbn [Order.id Order.with_id Order.with_order_number].
    unfold update_rows. apply in_map_iff. exists (Order.with_id instance n).
    split.
    + cbn [Order.id Order.with_id]. rewrite Z.eqb_refl.
      rewrite copy_fields_order_number. subst order. destruct instance. reflexivity.
    + apply in_or_app. right. left. reflexivity.
Qed.

(** Checkout of a cart whose items refer to products of the catalogue:
    [create] returns the order, and the tables are those of
    [after_checkout]. *)
Lemma create_run (user : User.t) (validated_data : list (string * string))
      (cart : Cart.t) (w : World) :
  objects_get "Cart" (fun c => Cart.user c =? User.id user) (carts (db w))
  = Returned cart ->
  (forall i, In i (Cart_items cart (db w)) ->
             exists p, find_product (db w) (CartItem.product i) = Returned p) ->
  exists order w' rows added h,
    CreateOrderSerializer.create user validated_data w = (Returned order, w')
    /\ db w' = after_checkout (db w) cart rows added
                            (status_history (db w) ++ [h])%list
                            (next_history_id (db w) + 1)
    /\ channel_layer w' = channel_layer w
    /\ In order rows
    /\ Order.id order = next_order_id (db w)
    /\ Order.total_price order = cart_items_total (db w) (Cart_items cart (db w))
    /\ Forall2 (made_from order (db w)) (Cart_items cart (db w)) added.
Proof.
  intros Hcart Hres.
  unfold CreateOrderSerializer.create, atomic.
  unfold bind at 1. unfold get_db at 1. cbn [fst snd].
  unfold bind at 1. unfold lift at 1. rewrite Hcart.
  unfold bind at 1. unfold Cart_total_price at 1.
  unfold bind at 1. unfold get_db at 1.
  rewrite (sum_of_run _ 0 w Hres). rewrite Z.add_0_l.
  set (total := cart_items_total (db w) (Cart_items cart (db w))).
  match goal with
  | |- context [Order_objects_create ?i] => set (instance := i)
  end.
  destruct (Order_objects_create_run instance w eq_refl) as (rows & sent & Hcreate & Hin).
  cbv zeta in Hcreate.
  rewrite (bind_Returned _ _ _ _ _ Hcreate).
  set (order := Order.with_order_number
                  (Order.with_id instance (next_order_id (db w)))
                  ("ORD-" ++ format_06d (next_order_id (db w)))) in *.
  set (w2 := {| db := with_orders (db w) rows (next_order_id (db w) + 1);
                channel_layer := channel_layer w;
                effects := (effects w ++ sent)%list |}) in *.
  unfold bind at 1. unfold get_db at 1.
  assert (Hitems : Cart_items cart (db w2) = Cart_items cart (db w)) by reflexivity.
  rewrite Hitems.
  destruct (create_items_run order (Cart_items cart (db w)) w2 Hres)
    as (added & Hloop & Hmade).
  rewrite (bind_Returned _ _ _ _ _ Hloop).
  unfold bind at 1. rewrite OrderStatusHistory_objects_create_run.
  unfold bind at 1. unfold Cart_items_delete, bind, get_db, put_db, ret.
  eexists order, _, rows, added, _. split; [reflexivity|].
  repeat apply conj; try reflexivity; try assumption.
Qed.

Lemma item_ok_found (d : DB) (items : list CartItem.t) :
  forallb (item_ok d) items = true ->
  forall i, In i items ->
            exists p, find_product d (CartItem.product i) = Returned p
                      /\ Product.is_active p = true
                      /\ CartItem.quantity i <= Product.stock p.
Proof.
  intros H i Hi. rewrite forallb_forall in H. specialize (H i Hi).
  unfold item_ok in H. destruct (find_product d (CartItem.product i)) as [p|e];
    [|discriminate].
  apply andb_prop in H. destruct H as [Ha Hq]. exists p.
  repeat split; [exact Ha | apply Z.leb_le, Hq].
Qed.

Lemma item_ok_resolvable (d : DB) (items : list CartItem.t) :
  forallb (item_ok d) items = true ->
  forall i, In i items -> exists p, find_product d (CartItem.product i) = Returned p.
Proof.
  intros H i Hi. destruct (item_ok_found d items H i Hi) as (p & Hp & _). eauto.
Qed.

(** [validate] reads only. *)
Lemma validate_world (user : User.t) (w w' : World) (r : pyres unit) :
  CreateOrderSerializer.validate user w = (r, w') -> w' = w.
Proof.
  unfold CreateOrderSerializer.validate, bind, get_db.
  destruct (objects_first (fun c => Cart.user c =? User.id user) (carts (db w)))
    as [cart|].
  - destruct (Cart_items cart (db w)) as [|i rest] eqn:E.
    + unfold raise. intros H. inversion H. reflexivity.
    + apply validate_items_world.
  - unfold raise. intros H. inversion H. reflexivity.
Qed.

Lemma validate_Returned (user : User.t) (w w' : World) :
  CreateOrderSerializer.validate user w = (Returned tt, w') ->
  exists cart,
    objects_first (fun c => Cart.user c =? User.id user) (carts (db w)) = Some cart
    /\ Cart_items cart (db w) <> []
    /\ forallb (item_ok (db w)) (Cart_items cart (db w)) = true.
Proof.
  unfold CreateOrderSerializer.validate, bind, get_db.
  destruct (objects_first (fun c => Cart.user c =? User.id user) (carts (db w)))
    as [cart|]; [|discriminate].
  destruct (Cart_items cart (db w)) as [|i rest] eqn:E; [discriminate|].
  intros H. exists cart. rewrite E. split; [reflexivity|]. split; [discriminate|].
  apply (validate_items_Returned _ _ _ H).
Qed.

(** [is_valid] reads only. *)
Lemma is_valid_world (user : User.t) (data : payload) (w w' : World)
      (r : pyres (list (string * string))) :
  CreateOrderSerializer.is_valid user data w = (r, w') -> w' = w.
Proof.
  unfold CreateOrderSerializer.is_valid.
  destruct (run_char_fields CreateOrderSerializer.fields data) as [errors vd].
  destruct errors as [|e es].
  - unfold bind.
    destruct (CreateOrderSerializer.validate user w) as [[u|e] w1] eqn:E;
      apply validate_world in E; subst w1; unfold ret; intros H;
        injection H as _ <-; reflexivity.
  - unfold raise. intros H. inversion H. reflexivity.
Qed.

Lemma is_valid_Returned (user : User.t) (data : payload) (w w' : World)
      (vd : list (string * string)) :
  CreateOrderSerializer.is_valid user data w = (Returned vd, w') ->
  fst (run_char_fields CreateOrderSerializer.fields data) = []
  /\ CreateOrderSerializer.validate user w = (Returned tt, w).
Proof.
  unfold CreateOrderSerializer.is_valid.
  destruct (run_char_fields CreateOrderSerializer.fields data) as [errors vd'].
  destruct errors as [|e es]; [|discriminate].
  unfold bind.
  destruct (CreateOrderSerializer.validate user w) as [[[]|e] w1] eqn:E;
    [|discriminate].
  apply validate_world in E as Hw. subst w1. intros _. auto.
Qed.

(** What a checkout that answered has done. *)
Lemma checkout_answered (user : User.t) (data : payload) (w w' : World)
      (response : Response) :
  CreateOrderView_post user data w = (Returned response, w') ->
  exists order cart rows added h,
    response = {| status_code := 201; data := BodyOrder order |}
    /\ objects_get "Cart" (fun c => Cart.user c =? User.id user) (carts (db w))
       = Returned cart
    /\ Cart_items cart (db w) <> []
    /\ forallb (item_ok (db w)) (Cart_items cart (db w)) = true
    /\ db w' = after_checkout (db w) cart rows added
                            (status_history (db w) ++ [h])%list
                            (next_history_id (db w) + 1)
    /\ channel_layer w' = channel_layer w
    /\ In order rows
    /\ Order.id order = next_order_id (db w)
    /\ Order.total_price order = cart_items_total (db w) (Cart_items cart (db w))
    /\ Forall2 (made_from order (db w)) (Cart_items cart (db w)) added.
Proof.
  unfold CreateOrderView_post. intros H.
  apply bind_inv in H. destruct H as (vd & w1 & Hvalid & H).
  apply is_valid_world in Hvalid as Hw. subst w1.
  apply is_valid_Returned in Hvalid. destruct Hvalid as [_ Hvalidate].
  apply validate_Returned in Hvalidate.
  destruct Hvalidate as (cart0 & Hfirst & Hnonempty & Hok).
  apply bind_inv in H. destruct H as (order & w2 & Hcreate & H).
  unfold ret in H. inversion H; subst. clear H.
  assert (Hcart : objects_get "Cart" (fun c => Cart.user c =? User.id user)
                              (carts (db w)) = Returned cart0).
  { unfold CreateOrderSerializer.create, atomic in Hcreate.
    unfold bind at 1 in Hcreate. unfold get_db at 1 in Hcreate. cbn [fst snd] in Hcreate.
    unfold bind at 1 in Hcreate. unfold lift at 1 in Hcreate.
    destruct (objects_get "Cart" (fun c => Cart.user c =? User.id user) (carts (db w)))
      as [cart|e] eqn:E; [|discriminate].
    apply objects_get_first in E. rewrite E in Hfirst. inversion Hfirst. reflexivity. }
  destruct (create_run user vd cart0 w Hcart (item_ok_resolvable _ _ Hok))
    as (order0 & w0 & rows & added & h & Hrun & Hrest).
  rewrite Hrun in Hcreate. inversion Hcreate; subst.
  exists order, cart0, rows, added, h. split; [reflexivity|].
  split; [exact Hcart|]. split; [exact Hnonempty|]. split; [exact Hok|]. exact Hrest.
Qed.

(** A checkout that does not answer 201 leaves the tables as they were:
    [is_valid] writes nothing and [create] is atomic. *)
Lemma checkout_failed_unchanged (user : User.t) (data : payload) (w w' : World)
      (r : pyres Response) :
  dispatch (CreateOrderView_post user data) w = (r, w') ->
  (forall order, r <> Returned {| status_code := 201; data := BodyOrder order |}) ->
  db w' = db w.
Proof.
  unfold dispatch.
  destruct (CreateOrderView_post user data w) as [[response|e] w1] eqn:E.
  - intros H Hno. inversion H; subst.
    destruct (checkout_answered _ _ _ _ _ E) as (order & ? & ? & ? & ? & -> & _).
    exfalso. apply (Hno order). reflexivity.
  - intros H _.
    assert (Hdb : db w1 = db w).
    { unfold CreateOrderView_post in E. unfold bind at 1 in E.
      destruct (CreateOrderSerializer.is_valid user data w) as [[vd|e0] w0] eqn:Ev;
        apply is_valid_world in Ev as Hw; subst w0.
      - unfold bind in E.
        destruct (CreateOrderSerializer.create user vd w) as [[o|e1] w2] eqn:Ec.
        + discriminate.
        + inversion E; subst. apply (atomic_Raised _ _ _ _ Ec).
      - inversion E; subst. reflexivity. }
    destruct e; inversion H; subst; exact Hdb.
Qed.

Lemma dispatch_201 (handler : M Response) (w w' : World) (order : Order.t) :
  dispatch handler w
  = (Returned {| status_code := 201; data := BodyOrder order |}, w') ->
  handler w = (Returned {| status_code := 201; data := BodyOrder order |}, w').
Proof.
  unfold dispatch. destruct (handler w) as [[response|e] w1]; intros H.
  - exact H.
  - destruct e; inversion H.
Qed.

(** * The AJAX checkout *)

Lemma sum_of_Returned (items : list CartItem.t) :
  forall (acc total : Z) (w w' : World),
    sum_of CartItem_subtotal items acc w = (Returned total, w') ->
    w' = w
    /\ total = acc + cart_items_total (db w) items
    /\ forall i, In i items ->
                 exists p, find_product (db w) (CartItem.product i) = Returned p.
Proof.
  induction items as [|i rest IH]; intros acc total w w' H.
  - cbn in H. unfold ret in H. inversion H; subst.
    repeat split; [cbn; lia | intros i []].
  - cbn [sum_of] in H. unfold bind at 1 in H. unfold CartItem_subtotal at 1 in H.
    unfold bind at 1 in H. rewrite Product_objects_get_run in H. cbn [lift] in H.
    destruct (find_product (db w) (CartItem.product i)) as [p|e] eqn:Hp;
      [|discriminate].
    unfold ret at 1 in H. apply IH in H. destruct H as (-> & -> & Hres).
    repeat split.
    + cbn [cart_items_total fold_right]. fold (cart_items_total (db w) rest).
      unfold price_of. rewrite Hp. lia.
    + intros j [<-|Hj]; [eauto | apply Hres, Hj].
Qed.

Lemma Cart_total_price_Returned (cart : Cart.t) (total : Z) (w w' : World) :
  Cart_total_price cart w = (Returned total, w') ->
  w' = w
  /\ total = cart_items_total (db w) (Cart_items cart (db w))
  /\ forall i, In i (Cart_items cart (db w)) ->
               exists p, find_product (db w) (CartItem.product i) = Returned p.
Proof.
  unfold Cart_total_price, bind, get_db. intros H.
  apply sum_of_Returned in H. destruct H as (-> & -> & Hres). auto.
Qed.

(** When every row with the key is the instance read, a full save of the
    instance with another stock is a save of the stock. *)
Lemma Product_save_as_stock (p : Product.t) (s : Z) (w : World) :
  find_product (db w) (Product.id p) = Returned p ->
  Product_save (Product.with_stock p s) w
  = Product_save_stock (Product.with_stock p s) w.
Proof.
  intros Hp. destruct (find_product_Returned _ _ _ Hp) as [Hin _].
  unfold Product_save, Product_save_stock, bind, get_db.
  replace (Product.id (Product.with_stock p s)) with (Product.id p) by reflexivity.
  rewrite (existsb_key_In Product.id p _ Hin).
  unfold put_db. do 3 f_equal. unfold update_rows. apply map_ext_in.
  intros r Hr. destruct (Product.id r =? Product.id p) eqn:E; [|reflexivity].
  rewrite (objects_get_only _ _ _ _ _ Hp Hr E). reflexivity.
Qed.

(** The loop of [api_checkout], when it ends without a [return], has done
    what the loop of [create] does. *)
Lemma api_checkout_items_None (order : Order.t) (items : list CartItem.t) :
  forall w w' : World,
    api_checkout_items order items w = (Returned None, w') ->
    CreateOrderSerializer.create_items order items w = (Returned tt, w').
Proof.
  induction items as [|i rest IH]; intros w w' H.
  - cbn in H. unfold ret in H. inversion H. reflexivity.
  - cbn [api_checkout_items] in H. cbn [CreateOrderSerializer.create_items].
    unfold bind at 1 in H. unfold bind at 1.
    rewrite Product_objects_get_run in *. cbn [lift] in *.
    destruct (find_product (db w) (CartItem.product i)) as [p|e] eqn:Hp;
      [|discriminate].
    destruct (Product.stock p <? CartItem.quantity i); [discriminate|].
    unfold bind at 1 in H. unfold bind at 1.
    rewrite OrderItem_save_run in *. cbv zeta in *.
    unfold bind at 1 in H. unfold bind at 1.
    destruct (find_product_Returned _ _ _ Hp) as [_ Hid].
    rewrite Product_save_as_stock in H by (cbn; rewrite Hid; exact Hp).
    destruct (Product_save_stock _ _) as [[u|e] w1]; [|discriminate].
    apply IH, H.
Qed.

Lemma checkout_succeeded_checked_out (user : User.t) (w w' : World) (order : Order.t) :
  checkout_succeeded user w order w' -> checked_out user w order w'.
Proof.
  intros [data H | data cart Hcart Hnonempty H].
  - apply dispatch_201 in H.
    destruct (checkout_answered _ _ _ _ _ H)
      as (order0 & cart & rows & added & h & Hresp & Hcart & Hnonempty & Hok & Hdb
          & _ & Hrest).
    inversion Hresp; subst order0.
    exists cart, rows, added, (status_history (db w) ++ [h])%list,
      (next_history_id (db w) + 1).
    repeat apply conj; try apply Hrest; try assumption.
    apply (item_ok_resolvable _ _ Hok).
  - unfold api_checkout_block in H. apply atomic_Returned in H.
    apply bind_inv in H. destruct H as (subtotal & w1 & Hsub & H).
    apply Cart_total_price_Returned in Hsub. destruct Hsub as (-> & -> & Hres).
    apply bind_inv in H. destruct H as (total & w1 & Htotal & H).
    apply Cart_total_price_Returned in Htotal. destruct Htotal as (-> & -> & _).
    apply bind_inv in H. destruct H as (created & w2 & Hcreate & H).
    match type of Hcreate with
    | Order_objects_create ?i _ = _ => set (instance := i) in *
    end.
    destruct (Order_objects_create_run instance w eq_refl)
      as (rows & sent & Hrun & Hin).
    cbv zeta in Hrun. rewrite Hrun in Hcreate. inversion Hcreate; subst created w2.
    clear Hcreate.
    apply bind_inv in H. destruct H as (d & w3 & Hd & H).
    unfold get_db in Hd. inversion Hd; subst d w3. clear Hd.
    apply bind_inv in H. destruct H as (returned & w4 & Hloop & H).
    destruct returned as [response|]; [unfold ret in H; discriminate|].
    apply api_checkout_items_None in Hloop.
    cbn [db with_orders cart_items] in Hloop.
    change (Cart_items cart (with_orders (db w) rows (next_order_id (db w) + 1)))
      with (Cart_items cart (db w)) in Hloop.
    match type of Hloop with
    | CreateOrderSerializer.create_items ?o _ ?w2 = _ =>
      destruct (create_items_run o (Cart_items cart (db w)) w2 Hres)
        as (added & Hloop' & Hmade)
    end.
    rewrite Hloop' in Hloop. inversion Hloop; subst w4. clear Hloop.
    unfold bind, Cart_items_delete, get_db, put_db, ret in H.
    inversion H; subst. clear H.
    exists cart, rows, added, (status_history (db w)), (next_history_id (db w)).
    repeat apply conj; try reflexivity; try assumption.
Qed.

Lemma filter_complement {A : Type} (f : A -> bool) (l : list A) :
  filter f (filter (fun x => negb (f x)) l) = [].
Proof.
  induction l as [|x l IH]; [reflexivity|].
  cbn [filter]. destruct (f x) eqn:E; cbn [negb filter]; [exact IH|].
  rewrite E. exact IH.
Qed.

(** The AJAX view answers that the order was placed exactly when its atomic
    block left with the order. *)
Lemma api_checkout_placed (user : User.t) (data : payload) (cart : Cart.t)
      (order : Order.t) (w w' : World) :
  objects_get "Cart" (fun c => Cart.user c =? User.id user) (carts (db w))
  = Returned cart ->
  Cart_items cart (db w) <> [] ->
  api_checkout_block user data cart w = (Returned (inr order), w') ->
  api_checkout user data w = (Returned (order_placed order), w').
Proof.
  intros Hcart Hnonempty Hblock.
  unfold api_checkout, try_except, bind, get_db. rewrite Hcart. cbn [get_object_or_404 lift].
  destruct (Cart_items cart (db w)) as [|i rest]; [contradiction|].
  rewrite Hblock. reflexivity.
Qed.

Lemma api_checkout_items_Some (order : Order.t) (items : list CartItem.t) :
  forall (w w' : World) (response : Response),
    api_checkout_items order items w = (Returned (Some response), w') ->
    status_code response = 400.
Proof.
  induction items as [|i rest IH]; intros w w' response H; [discriminate|].
  cbn [api_checkout_items] in H.
  apply bind_inv in H. destruct H as (p & w1 & _ & H).
  destruct (Product.stock p <? CartItem.quantity i).
  - unfold ret in H. inversion H. reflexivity.
  - apply bind_inv in H. destruct H as (oi & w2 & _ & H).
    apply bind_inv in H. destruct H as (u & w3 & _ & H).
    apply (IH _ _ _ H).
Qed.

Lemma api_checkout_block_inl (user : User.t) (data : payload) (cart : Cart.t)
      (w w' : World) (response : Response) :
  api_checkout_block user data cart w = (Returned (inl response), w') ->
  status_code response = 400.
Proof.
  unfold api_checkout_block. intros H. apply atomic_Returned in H.
  apply bind_inv in H. destruct H as (subtotal & w1 & _ & H).
  apply bind_inv in H. destruct H as (total & w2 & _ & H).
  apply bind_inv in H. destruct H as (order & w3 & _ & H).
  apply bind_inv in H. destruct H as (d & w4 & _ & H).
  apply bind_inv in H. destruct H as (returned & w5 & Hloop & H).
  destruct returned as [r|].
  - unfold ret in H. inversion H; subst. apply (api_checkout_items_Some _ _ _ _ _ Hloop).
  - apply bind_inv in H. destruct H as (u & w6 & _ & H). discriminate.
Qed.

Lemma api_checkout_200 (user : User.t) (data : payload) (response : Response)
      (w w' : World) :
  api_checkout user data w = (Returned response, w') ->
  status_code response = 200 ->
  exists cart order,
    response = order_placed order
    /\ objects_get "Cart" (fun c => Cart.user c =? User.id user) (carts (db w))
       = Returned cart
    /\ Cart_items cart (db w) <> []
    /\ api_checkout_block user data cart w = (Returned (inr order), w').
Proof.
  unfold api_checkout, try_except, bind, get_db.
  destruct (objects_get "Cart" _ (carts (db w))) as [cart|e] eqn:Hcart.
  - cbn [get_object_or_404 lift].
    destruct (Cart_items cart (db w)) as [|i rest] eqn:Hitems.
    + unfold ret. intros H Hcode. inversion H; subst. discriminate.
    + destruct (api_checkout_block user data cart w) as [[[refusal|order]|e] w1] eqn:Hblock.
      * unfold ret. intros H Hcode. inversion H; subst.
        rewrite (api_checkout_block_inl _ _ _ _ _ _ Hblock) in Hcode. discriminate.
      * unfold ret. intros H Hcode. inversion H; subst.
        exists cart, order. repeat apply conj; try reflexivity.
        -- rewrite Hitems. discriminate.
        -- exact Hblock.
      * destruct (is_Exception e); unfold ret; intros H Hcode; inversion H; subst.
        discriminate.
  - assert (He : exists e', get_object_or_404 (@Raised Cart.t e) w = (Raised e', w)).
    { destruct e; cbn; unfold raise, lift; eauto. }
    destruct He as (e' & ->).
    destruct (is_Exception e'); unfold ret; intros H Hcode; inversion H; subst.
    discriminate.
Qed.

(** The [return] inside the atomic block of [api_checkout] leaves the block
    without an exception, so what the loop wrote before it stays: with one
    bottle of ink left for the three of Alice's cart, the view answers 400
    and leaves order 1 with the item for the pens, the pens taken from the
    stock, and the cart as it was. *)
Example api_checkout_refusal_keeps_order :
  exists w',
    api_checkout Fixtures.alice Fixtures.form Fixtures.shop_ink_short
    = (Returned (json_error 400 "Insufficient stock for Ink"), w')
    /\ map Order.order_number (orders (db w')) = ["ORD-000001"]
    /\ map (fun oi => (OrderItem.product oi, OrderItem.quantity oi)) (order_items (db w'))
       = [(1, 2)]
    /\ map Product.stock (products (db w')) = [8; 1]
    /\ cart_items (db w') = cart_items (db Fixtures.shop_ink_short).
Proof. eexists. repeat apply conj; vm_compute; reflexivity. Qed.

(** C5.  After a checkout that went through, by the REST view or by the AJAX
    view, every cart of the user in the table, the one the checkout emptied,
    has no items. *)
Theorem checkout_clears_cart :
  forall (user : User.t) (w w' : World) (order : Order.t),
    checkout_succeeded user w order w' ->
    user_cart_items user (db w') = []
    /\ forall cart, In cart (carts (db w')) -> Cart.user cart = User.id user ->
                    Cart_items cart (db w') = [].
Proof.
  intros user w w' order H.
  destruct (checkout_succeeded_checked_out _ _ _ _ H)
    as (cart0 & rows & added & history & next_history & Hcart & _ & _ & Hdb & _).
  assert (Hall : forall cart, In cart (carts (db w')) -> Cart.user cart = User.id user ->
                              Cart_items cart (db w') = []).
  { intros cart Hin Huser. rewrite Hdb in Hin. cbn [after_checkout carts] in Hin.
    assert (cart = cart0).
    { apply (objects_get_only _ _ _ _ _ Hcart Hin). apply Z.eqb_eq, Huser. }
    subst cart. unfold Cart_items. rewrite Hdb. cbn [after_checkout cart_items].
    apply (filter_complement (fun i => CartItem.cart i =? Cart.id cart0)). }
  split; [|exact Hall].
  unfold user_cart_items.
  destruct (objects_first (fun c => Cart.user c =? User.id user) (carts (db w')))
    as [cart|] eqn:E; [|reflexivity].
  unfold objects_first in E.
  assert (Hin : In cart (filter (fun c => Cart.user c =? User.id user) (carts (db w')))).
  { destruct (filter (fun c => Cart.user c =? User.id user) (carts (db w')));
      inversion E; subst. left. reflexivity. }
  apply filter_In in Hin. destruct Hin as [Hin Hu].
  apply Hall; [exact Hin | apply Z.eqb_eq, Hu].
Qed.

(** Alice's checkout in the shop empties her cart, by either view. *)
Lemma checkout_clears_cart_witness :
  user_cart_items Fixtures.alice (db Fixtures.shop_after_checkout) = []
  /\ user_cart_items Fixtures.alice (db Fixtures.shop_after_api_checkout) = [].
Proof.
  split.
  - refine (proj1 (checkout_clears_cart
                     Fixtures.alice Fixtures.shop_with_cart
                     Fixtures.shop_after_checkout Fixtures.order_1
                     (rest_checkout _ _ _ _ Fixtures.shipping _))).
    vm_compute. reflexivity.
  - refine (proj1 (checkout_clears_cart
                     Fixtures.alice Fixtures.shop_with_cart
                     Fixtures.shop_after_api_checkout Fixtures.api_order_1
                     (ajax_checkout _ _ _ _ Fixtures.form Fixtures.alice_cart _ _ _))).
    + vm_compute. reflexivity.
    + vm_compute. discriminate.
    + vm_compute. reflexivity.
Defined.

Lemma made_from_total (order : Order.t) (d : DB) (items : list CartItem.t)
      (added : list OrderItem.t) :
  Forall2 (made_from order d) items added ->
  order_items_total added = cart_items_total d items
  /\ filter (fun i => OrderItem.order i =? Order.id order) added = added
  /\ Forall (fun oi => OrderItem.product_price oi = price_of d (OrderItem.product oi))
            added.
Proof.
  induction 1 as [|i oi items added (H1 & H2 & H3 & H4) _ (IHt & IHf & IHp)].
  - repeat split. constructor.
  - cbn [order_items_total cart_items_total fold_right filter].
    fold (order_items_total added). fold (cart_items_total d items).
    rewrite H1, Z.eqb_refl, IHf, IHt. unfold OrderItem.subtotal. rewrite H3, H4.
    repeat split. constructor; [|exact IHp]. rewrite H2. exact H4.
Qed.

(** The order of a checkout that went through, by the REST view or by the
    AJAX view, has for total the sum of the subtotals, price times quantity,
    of its order items, and each item's price is the price its product had
    in the catalogue when the checkout started. *)
Theorem checkout_total_is_sum_of_item_subtotals :
  forall (user : User.t) (w w' : World) (order : Order.t),
    next_order_key_unused (db w) ->
    checkout_succeeded user w order w' ->
    Order_items order (db w') <> []
    /\ Order.total_price order = order_items_total (Order_items order (db w'))
    /\ Forall (fun oi => OrderItem.product_price oi = price_of (db w) (OrderItem.product oi))
              (Order_items order (db w')).
Proof.
  intros user w w' order Hfresh H.
  destruct (checkout_succeeded_checked_out _ _ _ _ H)
    as (cart & rows & added & history & next_history & _ & Hnonempty & _ & Hdb & _
        & Hid & Htotal & Hmade).
  destruct (made_from_total _ _ _ _ Hmade) as (Hsum & Hfilter & Hprice).
  assert (Hitems : Order_items order (db w') = added).
  { unfold Order_items. rewrite Hdb. cbn [after_checkout order_items].
    rewrite filter_app, Hfilter.
    assert (Hold : filter (fun i => OrderItem.order i =? Order.id order)
                          (order_items (db w)) = []).
    { apply (filter_key_absent OrderItem.order). intros Hin.
      apply in_map_iff in Hin. destruct Hin as (oi & E & Hin).
      apply (Hfresh oi Hin). rewrite E. exact Hid. }
    rewrite Hold. reflexivity. }
  rewrite Hitems. repeat apply conj.
  - intros ->. inversion Hmade as [Hnil|]. apply Hnonempty. symmetry. exact Hnil.
  - rewrite Htotal. symmetry. exact Hsum.
  - exact Hprice.
Qed.

(** Alice's order: two pens at 1.50 and three inks at 9.99, by either view. *)
Lemma checkout_total_is_sum_of_item_subtotals_witness :
  Order.total_price Fixtures.order_1 = 3297
  /\ Order.total_price Fixtures.order_1
     = order_items_total (Order_items Fixtures.order_1 (db Fixtures.shop_after_checkout))
  /\ Order.total_price Fixtures.api_order_1
     = order_items_total
         (Order_items Fixtures.api_order_1 (db Fixtures.shop_after_api_checkout)).
Proof.
  split; [reflexivity|]. split.
  - refine (proj1 (proj2 (checkout_total_is_sum_of_item_subtotals
                            Fixtures.alice Fixtures.shop_with_cart
                            Fixtures.shop_after_checkout Fixtures.order_1 _
                            (rest_checkout _ _ _ _ Fixtures.shipping _)))).
    + intros oi [].
    + vm_compute. reflexivity.
  - refine (proj1 (proj2 (checkout_total_is_sum_of_item_subtotals
                            Fixtures.alice Fixtures.shop_with_cart
                            Fixtures.shop_after_api_checkout Fixtures.api_order_1 _
                            (ajax_checkout _ _ _ _ Fixtures.form Fixtures.alice_cart
                                           _ _ _)))).
    + intros oi [].
    + vm_compute. reflexivity.
    + vm_compute. discriminate.
    + vm_compute. reflexivity.
Defined.

(** C2.  Not every order that a checkout leaves has the sum of its items for
    total.  With one bottle of ink in stock for the three of Alice's cart,
    [api_checkout] answers 400 from inside its atomic block, which commits:
    order ORD-000001 stays in the table with the total of the whole cart,
    32.97, and the one item written before the refusal, two pens for 3.00.
    [CreateOrderView.post] refuses the same cart and writes nothing. *)
Theorem refused_api_checkout_leaves_unbalanced_order :
  exists (w' : World) (order : Order.t),
    api_checkout Fixtures.alice Fixtures.form Fixtures.shop_ink_short
    = (Returned (json_error 400 "Insufficient stock for Ink"), w')
    /\ user_cart_items Fixtures.alice (db Fixtures.shop_ink_short) <> []
    /\ orders (db Fixtures.shop_ink_short) = []
    /\ orders (db w') = [order]
    /\ Order.order_number order = "ORD-000001"
    /\ Order.total_price order = 3297
    /\ map (fun oi => (OrderItem.product oi, OrderItem.quantity oi,
                       OrderItem.product_price oi))
           (Order_items order (db w'))
       = [(1, 2, 150)]
    /\ order_items_total (Order_items order (db w')) = 300
    /\ Order.total_price order <> order_items_total (Order_items order (db w'))
    /\ exists detail,
        dispatch (CreateOrderView_post Fixtures.alice Fixtures.shipping)
                 Fixtures.shop_ink_short
        = (Returned {| status_code := 400; data := BodyErrors detail |},
           Fixtures.shop_ink_short).
Proof.
  eexists. eexists. split; [vm_compute; reflexivity|].
  repeat apply conj; try (vm_compute; reflexivity); try (vm_compute; discriminate).
  eexists. vm_compute. reflexivity.
Qed.

Lemma find_product_of_constraints (d : DB) (i : CartItem.t) :
  products_unique d -> cart_items_have_products d -> In i (cart_items d) ->
  exists p, find_product d (CartItem.product i) = Returned p.
Proof.
  intros Hnd Hfk Hi. destruct (Hfk i Hi) as (p & Hin & Hid).
  exists p. rewrite <- Hid. apply find_product_unique; assumption.
Qed.

Lemma objects_first_In {A : Type} (lookup : A -> bool) (rows : list A) (x : A) :
  objects_first lookup rows = Some x -> In x rows /\ lookup x = true.
Proof.
  unfold objects_first. intros H.
  assert (Hin : In x (filter lookup rows)).
  { destruct (filter lookup rows); inversion H; subst. left. reflexivity. }
  apply filter_In in Hin. exact Hin.
Qed.

Lemma cart_get_of_first (d : DB) (user : User.t) (cart : Cart.t) :
  carts_unique d ->
  objects_first (fun c => Cart.user c =? User.id user) (carts d) = Some cart ->
  objects_get "Cart" (fun c => Cart.user c =? User.id user) (carts d) = Returned cart.
Proof.
  intros Hnd H. apply objects_first_In in H. destruct H as [Hin Hu].
  apply Z.eqb_eq in Hu. rewrite <- Hu.
  apply (objects_get_unique Cart.user); assumption.
Qed.

Lemma validate_run (user : User.t) (w : World) :
  CreateOrderSerializer.validate user w
  = match objects_first (fun c => Cart.user c =? User.id user) (carts (db w)) with
    | None =>
      (Raised (ValidationError
                 [("non_field_errors", "Cart is empty. Cannot create order.")]), w)
    | Some cart =>
      match Cart_items cart (db w) with
      | [] =>
        (Raised (ValidationError
                   [("non_field_errors", "Cart is empty. Cannot create order.")]), w)
      | _ :: _ => CreateOrderSerializer.validate_items (Cart_items cart (db w)) w
      end
    end.
Proof.
  unfold CreateOrderSerializer.validate, bind, get_db.
  destruct (objects_first (fun c => Cart.user c =? User.id user) (carts (db w)))
    as [cart|]; [|reflexivity].
  destruct (Cart_items cart (db w)); reflexivity.
Qed.

Lemma is_valid_run (user : User.t) (data : payload) (w : World) :
  CreateOrderSerializer.is_valid user data w
  = match fst (run_char_fields CreateOrderSerializer.fields data) with
    | [] =>
      match CreateOrderSerializer.validate user w with
      | (Returned _, w') =>
        (Returned (snd (run_char_fields CreateOrderSerializer.fields data)), w')
      | (Raised e, w') => (Raised e, w')
      end
    | e :: es => (Raised (ValidationError (e :: es)), w)
    end.
Proof.
  unfold CreateOrderSerializer.is_valid.
  destruct (run_char_fields CreateOrderSerializer.fields data) as [errors vd].
  cbn [fst snd]. destruct errors; reflexivity.
Qed.

(** Under the constraints of the schema, [validate] either raises a
    validation error, for one of the three reasons, or returns, and then
    none of the reasons holds and [create] will find the cart and the
    products. *)
Lemma validate_outcome (user : User.t) (w : World) :
  products_unique (db w) -> cart_items_have_products (db w) -> carts_unique (db w) ->
  ((exists detail,
       CreateOrderSerializer.validate user w = (Raised (ValidationError detail), w))
   /\ (cart_is_empty user (db w) = true
       \/ contains_inactive_product user (db w) = true
       \/ contains_excess_quantity user (db w) = true))
  \/ (CreateOrderSerializer.validate user w = (Returned tt, w)
      /\ (exists cart,
             objects_get "Cart" (fun c => Cart.user c =? User.id user) (carts (db w))
             = Returned cart
             /\ forall i, In i (Cart_items cart (db w)) ->
                          exists p, find_product (db w) (CartItem.product i)
                                    = Returned p)
      /\ cart_is_empty user (db w) = false
      /\ contains_inactive_product user (db w) = false
      /\ contains_excess_quantity user (db w) = false).
Proof.
  intros Hnd Hfk Hcarts. rewrite validate_run.
  unfold cart_is_empty, contains_inactive_product, contains_excess_quantity,
    user_cart_items.
  destruct (objects_first (fun c => Cart.user c =? User.id user) (carts (db w)))
    as [cart|] eqn:Efirst;
    [|left; split; [eexists; reflexivity | left; reflexivity]].
  assert (Hres : forall i, In i (Cart_items cart (db w)) ->
                           exists p, find_product (db w) (CartItem.product i)
                                     = Returned p).
  { intros i Hi. apply (find_product_of_constraints _ _ Hnd Hfk).
    unfold Cart_items in Hi. apply filter_In in Hi. apply Hi. }
  pose proof (forallb_item_ok_iff (db w) _ Hres) as Hiff.
  destruct (Cart_items cart (db w)) as [|i0 rest] eqn:Eitems;
    [left; split; [eexists; reflexivity | left; reflexivity]|].
  destruct (forallb (item_ok (db w)) (i0 :: rest)) eqn:Eok.
  - right. split; [apply validate_items_accepts, Eok|].
    split; [exists cart; split;
            [apply (cart_get_of_first _ _ _ Hcarts Efirst) | rewrite Eitems; exact Hres]|].
    split; [reflexivity|].
    destruct Hiff as [_ Hiff].
    split; match goal with
           | |- ?b = false =>
             destruct b eqn:E; [|reflexivity];
               assert (Hc : true = false) by (apply Hiff; auto); discriminate Hc
           end.
  - left. split; [apply (validate_items_rejects _ _ Hres Eok)|].
    right. apply Hiff. reflexivity.
Qed.

(** A character in a text, by [in] and by the scan of the text. *)
Lemma str_in_char (c : ascii) (s : string) :
  str_in (String c "") s = has_char c s.
Proof.
  unfold str_in. induction s as [|b r IH]; [reflexivity|].
  cbn [String.index prefix has_char].
  destruct (ascii_dec c b) as [->|Hne].
  - rewrite Ascii.eqb_refl. destruct r; reflexivity.
  - destruct (Ascii.eqb_spec b c) as [E|_]; [symmetry in E; contradiction|].
    cbn [orb]. destruct (String.index 0 (String c "") r); exact IH.
Qed.

(** Trimming takes white space only, so it keeps every null character. *)
Lemma lstrip_keeps_null (s : string) :
  has_char zero (lstrip s) = has_char zero s.
Proof.
  assert (H : forall n s, (String.length s <= n)%nat ->
                          has_char zero (lstrip s) = has_char zero s).
  { clear s. induction n as [|n IH]; intros s Hn.
    - destruct s; [reflexivity | cbn in Hn; lia].
    - destruct s as [|c r]; [reflexivity|]. cbn [String.length] in Hn.
      cbn [lstrip]. destruct (is_space c) eqn:Ec.
      + rewrite IH by lia. cbn [has_char].
        destruct (Ascii.eqb_spec c zero) as [->|_]; [discriminate Ec | reflexivity].
      + destruct r as [|d r1]; [reflexivity|]. cbn [String.length] in Hn.
        destruct (is_space2 c d) eqn:E2.
        * rewrite IH by lia. cbn [has_char].
          destruct (Ascii.eqb_spec c zero) as [->|_]; [discriminate E2|].
          destruct (Ascii.eqb_spec d zero) as [->|_]; [|reflexivity].
          unfold is_space2 in E2. cbn in E2. rewrite andb_false_r in E2. discriminate E2.
        * destruct r1 as [|e r2]; [reflexivity|]. cbn [String.length] in Hn.
          destruct (is_space3 c d e) eqn:E3; [|reflexivity].
          rewrite IH by lia. cbn [has_char].
          destruct (Ascii.eqb_spec c zero) as [->|_]; [discriminate E3|].
          destruct (Ascii.eqb_spec d zero) as [->|_];
            [revert E3; unfold is_space3; cbn;
             rewrite !andb_false_r, !andb_false_l; cbn; discriminate|].
          destruct (Ascii.eqb_spec e zero) as [->|_]; [|reflexivity].
          revert E3. unfold is_space3. cbn. rewrite !andb_false_r. cbn. discriminate. }
  apply (H (String.length s)). lia.
Qed.

Lemma rstrip_keeps_null (s : string) :
  has_char zero (rstrip s) = has_char zero s.
Proof.
  induction s as [|c r IH]; [reflexivity|].
  cbn [rstrip]. destruct (lstrip (String c r)) as [|x y] eqn:E.
  - rewrite <- (lstrip_keeps_null (String c r)), E. reflexivity.
  - cbn [has_char]. rewrite IH. reflexivity.
Qed.

Lemma strip_keeps_null (s : string) :
  str_in null_character (strip s) = str_in null_character s.
Proof.
  unfold null_character, strip.
  rewrite !str_in_char, rstrip_keeps_null, lstrip_keeps_null. reflexivity.
Qed.

(** A character field is refused exactly for the reasons of
    [field_is_invalid], and then with a message. *)
Lemma CharField_refused_iff (f : CharField) (value : option string) :
  match CharField_run_validation f value with
  | CharFieldErrors msgs => msgs <> [] /\ field_is_invalid f value = true
  | CharFieldSkipped => field_is_invalid f value = false
  | CharFieldValue _ => field_is_invalid f value = false
  end.
Proof.
  unfold CharField_run_validation, field_is_invalid, CharField_run_validators.
  destruct value as [raw|].
  - rewrite <- (strip_keeps_null raw).
    destruct (String.eqb (strip raw) "").
    + destruct (allow_blank f); [reflexivity | split; [discriminate | reflexivity]].
    + destruct (max_length f) as [n|].
      * destruct (n <? str_len (strip raw))%nat;
          destruct (str_in null_character (strip raw)); cbn;
            try (split; [discriminate | reflexivity]); reflexivity.
      * destruct (str_in null_character (strip raw)); cbn;
          try (split; [discriminate | reflexivity]); reflexivity.
  - destruct (required f); [split; [discriminate | reflexivity] | reflexivity].
Qed.

Lemma run_char_fields_errors (fields : list (string * CharField)) (data : payload) :
  fst (run_char_fields fields data) <> []
  <-> existsb (fun field => field_is_invalid (snd field) (payload_get data (fst field)))
              fields = true.
Proof.
  induction fields as [|[name f] rest IH]; cbn [run_char_fields existsb fst snd].
  - split; [intros H; contradiction H; reflexivity | discriminate].
  - destruct (run_char_fields rest data) as [errors validated]. cbn [fst] in IH.
    pose proof (CharField_refused_iff f (payload_get data name)) as Hf.
    destruct (CharField_run_validation f (payload_get data name)) as [msgs| |v].
    + destruct Hf as [Hmsgs ->]. cbn [fst orb]. split; [reflexivity|].
      intros _. destruct msgs; [contradiction Hmsgs; reflexivity | discriminate].
    + rewrite Hf. exact IH.
    + rewrite Hf. exact IH.
Qed.

Lemma has_invalid_field_iff (data : payload) :
  fst (run_char_fields CreateOrderSerializer.fields data) <> []
  <-> has_invalid_field data = true.
Proof. apply run_char_fields_errors. Qed.

(** The responses of the checkout view, by what [is_valid] and [create]
    did. *)
Lemma checkout_field_errors (user : User.t) (data : payload) (w : World)
      (e : string * string) (es : list (string * string)) :
  fst (run_char_fields CreateOrderSerializer.fields data) = e :: es ->
  dispatch (CreateOrderView_post user data) w
  = (Returned {| status_code := 400; data := BodyErrors (e :: es) |}, w).
Proof.
  intros H. unfold dispatch, CreateOrderView_post.
  rewrite (bind_Raised _ _ w w (ValidationError (e :: es)));
    [reflexivity | rewrite is_valid_run, H; reflexivity].
Qed.

Lemma checkout_validate_error (user : User.t) (data : payload) (w : World)
      (detail : list (string * string)) :
  fst (run_char_fields CreateOrderSerializer.fields data) = [] ->
  CreateOrderSerializer.validate user w = (Raised (ValidationError detail), w) ->
  dispatch (CreateOrderView_post user data) w
  = (Returned {| status_code := 400; data := BodyErrors detail |}, w).
Proof.
  intros H Hv. unfold dispatch, CreateOrderView_post.
  rewrite (bind_Raised _ _ w w (ValidationError detail));
    [reflexivity | rewrite is_valid_run, H, Hv; reflexivity].
Qed.

Lemma checkout_created (user : User.t) (data : payload) (w : World) (cart : Cart.t) :
  fst (run_char_fields CreateOrderSerializer.fields data) = [] ->
  CreateOrderSerializer.validate user w = (Returned tt, w) ->
  objects_get "Cart" (fun c => Cart.user c =? User.id user) (carts (db w))
  = Returned cart ->
  (forall i, In i (Cart_items cart (db w)) ->
             exists p, find_product (db w) (CartItem.product i) = Returned p) ->
  exists order w',
    dispatch (CreateOrderView_post user data) w
    = (Returned {| status_code := 201; data := BodyOrder order |}, w').
Proof.
  intros H Hv Hcart Hres.
  destruct (create_run user (snd (run_char_fields CreateOrderSerializer.fields data))
                       cart w Hcart Hres)
    as (order & w' & rows & added & h & Hrun & _).
  exists order, w'. unfold dispatch, CreateOrderView_post.
  rewrite (bind_Returned _ _ w w (snd (run_char_fields CreateOrderSerializer.fields data)));
    [|rewrite is_valid_run, H, Hv; reflexivity].
  rewrite (bind_Returned _ _ _ _ _ Hrun). reflexivity.
Qed.

(** C4, as the code has it, for [CreateOrderView.post].  Under the
    constraints of the schema, the checkout is refused with validation
    errors exactly when a declared field of the request fails its
    validation (a required field absent or blank, a value of more characters
    than the field allows, a null character in a value), or the cart is
    empty, or it holds a product that is not active, or an item asks more
    than the stock; if not, [post] returns its response with status 201 for
    the order it created.  And when [post] does not return that response,
    whatever the tables, it leaves them as they were. *)
Theorem checkout_refused_iff_invalid :
  forall (user : User.t) (data : payload) (w : World),
    products_unique (db w) ->
    cart_items_have_products (db w) ->
    carts_unique (db w) ->
    let outcome := dispatch (CreateOrderView_post user data) w in
    (fails_with_validation_error (fst outcome)
     <-> has_invalid_field data = true
         \/ cart_is_empty user (db w) = true
         \/ contains_inactive_product user (db w) = true
         \/ contains_excess_quantity user (db w) = true)
    /\ (fails_with_validation_error (fst outcome)
        \/ exists order,
            fst outcome = Returned {| status_code := 201; data := BodyOrder order |})
    /\ ((forall order,
            fst outcome <> Returned {| status_code := 201; data := BodyOrder order |}) ->
        db (snd outcome) = db w).
Proof.
  intros user data w Hnd Hfk Hcarts outcome.
  rewrite <- has_invalid_field_iff.
  assert (Hroll : (forall order,
                      fst outcome
                      <> Returned {| status_code := 201; data := BodyOrder order |}) ->
                  db (snd outcome) = db w).
  { apply (checkout_failed_unchanged user data w (snd outcome) (fst outcome)).
    subst outcome. destruct (dispatch (CreateOrderView_post user data) w). reflexivity. }
  destruct (fst (run_char_fields CreateOrderSerializer.fields data)) as [|e es] eqn:Ef.
  - destruct (validate_outcome user w Hnd Hfk Hcarts)
      as [[(detail & Hv) Hwhy] | (Hv & (cart & Hcart & Hres) & H1 & H2 & H3)].
    + assert (Hfail : fails_with_validation_error (fst outcome)).
      { exists detail. subst outcome.
        rewrite (checkout_validate_error _ _ _ _ Ef Hv). reflexivity. }
      split; [|split; [left; exact Hfail | exact Hroll]].
      split; [intros _; right; exact Hwhy | intros _; exact Hfail].
    + destruct (checkout_created _ _ _ _ Ef Hv Hcart Hres) as (order & w' & Hrun).
      assert (Hout : fst outcome
                     = Returned {| status_code := 201; data := BodyOrder order |})
        by (subst outcome; rewrite Hrun; reflexivity).
      split; [|split; [right; exists order; exact Hout | exact Hroll]].
      split.
      * intros (detail & Hfail). rewrite Hout in Hfail. discriminate Hfail.
      * intros [Hc|[Hc|[Hc|Hc]]]; [exfalso; apply Hc; reflexivity|..]; congruence.
  - assert (Hfail : fails_with_validation_error (fst outcome)).
    { exists (e :: es). subst outcome.
      rewrite (checkout_field_errors _ _ _ _ _ Ef). reflexivity. }
    split; [|split; [left; exact Hfail | exact Hroll]].
    split; [intros _; left; discriminate | intros _; exact Hfail].
Qed.

Lemma shop_with_cart_constraints (w : World) :
  products (db w) = products (db Fixtures.shop_with_cart)
  \/ products (db w) = products (db Fixtures.shop_ink_withdrawn) ->
  carts (db w) = carts (db Fixtures.shop_with_cart) ->
  cart_items (db w) = cart_items (db Fixtures.shop_with_cart) ->
  products_unique (db w) /\ cart_items_have_products (db w) /\ carts_unique (db w).
Proof.
  intros Hp Hc Hi. unfold products_unique, cart_items_have_products, carts_unique.
  rewrite Hc, Hi. repeat apply conj.
  - destruct Hp as [-> | ->]; cbn; repeat constructor; cbn; intuition discriminate.
  - intros i [<-|[<-|[]]]; destruct Hp as [-> | ->]; cbn; eauto 6.
  - cbn. repeat constructor. intros [].
Qed.

(** With the ink withdrawn, Alice's checkout is refused and nothing is
    written. *)
Lemma checkout_refused_iff_invalid_witness :
  fails_with_validation_error
    (fst (dispatch (CreateOrderView_post Fixtures.alice Fixtures.shipping)
                   Fixtures.shop_ink_withdrawn))
  /\ db (snd (dispatch (CreateOrderView_post Fixtures.alice Fixtures.shipping)
                       Fixtures.shop_ink_withdrawn))
     = db Fixtures.shop_ink_withdrawn.
Proof.
  destruct (shop_with_cart_constraints Fixtures.shop_ink_withdrawn
                                       (or_intror eq_refl) eq_refl eq_refl)
    as (Hnd & Hfk & Hcarts).
  destruct (checkout_refused_iff_invalid Fixtures.alice Fixtures.shipping
                                         Fixtures.shop_ink_withdrawn Hnd Hfk Hcarts)
    as (Hiff & _ & Hroll).
  split.
  - apply Hiff. right. right. left. vm_compute. reflexivity.
  - apply Hroll. intros order. vm_compute. discriminate.
Defined.

(** The fields count characters and refuse the null character: a postal
    code of eleven times the letter e acute, twenty-two bytes, is within
    the twenty characters of the field; one of twenty-one is not; and a city
    with a null character is refused. *)
Example checkout_fields_count_characters :
  (exists order w',
      dispatch (CreateOrderView_post
                  Fixtures.alice
                  (("shipping_postal_code", e_acutes 11) :: Fixtures.shipping))
               Fixtures.shop_with_cart
      = (Returned {| status_code := 201; data := BodyOrder order |}, w')
      /\ Order.shipping_postal_code order = e_acutes 11)
  /\ dispatch (CreateOrderView_post
                 Fixtures.alice
                 (("shipping_postal_code", e_acutes 21) :: Fixtures.shipping))
              Fixtures.shop_with_cart
     = (Returned {| status_code := 400;
                    data := BodyErrors
                              [("shipping_postal_code",
                                "Ensure this field has no more than 20 characters.")] |},
        Fixtures.shop_with_cart)
  /\ dispatch (CreateOrderView_post
                 Fixtures.alice
                 (("shipping_city", "Pune" ++ null_character) :: Fixtures.shipping))
              Fixtures.shop_with_cart
     = (Returned {| status_code := 400;
                    data := BodyErrors
                              [("shipping_city", "Null characters are not allowed.")] |},
        Fixtures.shop_with_cart).
Proof.
  split; [|split; vm_compute; reflexivity].
  eexists. eexists. split; vm_compute; reflexivity.
Qed.

(** C4 as worded fails: Alice's cart is in order, but a checkout without
    the shipping fields is refused with validation errors. *)
Lemma checkout_refused_for_missing_fields :
  ~ checkout_refusal_as_specified Fixtures.alice [] Fixtures.shop_with_cart.
Proof.
  unfold checkout_refusal_as_specified. intros [H _].
  assert (Hfail : fails_with_validation_error
                    (fst (dispatch (CreateOrderView_post Fixtures.alice [])
                                   Fixtures.shop_with_cart))).
  { eexists. vm_compute. reflexivity. }
  apply H in Hfail. vm_compute in Hfail.
  destruct Hfail as [Hc|[Hc|Hc]]; discriminate Hc.
Qed.

(** * The cart *)

Lemma NoDup_map_filter {A B : Type} (f : A -> B) (g : A -> bool) (l : list A) :
  NoDup (map f l) -> NoDup (map f (filter g l)).
Proof.
  induction l as [|x l IH]; intros H; [constructor|].
  cbn [map] in H. inversion H as [|? ? Hnotin Hnd]; subst.
  cbn [filter]. destruct (g x); [|apply IH, Hnd].
  cbn [map]. constructor; [|apply IH, Hnd].
  intros Hin. apply Hnotin. apply in_map_iff in Hin. destruct Hin as (y & E & Hy).
  apply filter_In in Hy. apply in_map_iff. exists y. split; [exact E | apply Hy].
Qed.

(** A step of a cart view keeps the invariant of the shop. *)
Lemma cart_step_invariant (d d' : DB) :
  cart_step d d' -> shop_invariant d -> shop_invariant d'.
Proof.
  intros Hstep (Hstock & Hpairs & Hkeys & Hissued).
  unfold shop_invariant, stocks_nonnegative, cart_products_unique,
    cart_item_keys_unique, cart_item_keys_issued in *.
  destruct Hstep as [Hp Hi Hn | item q Hp Hin Hi Hn | c p q Hp Hnone Hi Hn
                     | keep Hp Hi Hn];
    rewrite Hp, Hi, Hn.
  - auto.
  - assert (Hsame : forall r, In r (cart_items d) ->
                              (CartItem.id r =? CartItem.id item) = true -> r = item).
    { intros r Hr E.
      pose proof (filter_key_unique CartItem.id item (cart_items d) Hkeys Hin) as Hf.
      assert (Hrf : In r (filter (fun x => CartItem.id x =? CartItem.id item)
                                 (cart_items d)))
        by (apply filter_In; auto).
      rewrite Hf in Hrf. destruct Hrf as [<-|[]]. reflexivity. }
    assert (Hmap : forall (B : Type) (f : CartItem.t -> B),
               f (CartItem.with_quantity item q) = f item ->
               map f (update_rows (fun i => CartItem.id i =? CartItem.id item)
                                  (fun _ => CartItem.with_quantity item q)
                                  (cart_items d))
               = map f (cart_items d)).
    { intros B f Hf. unfold update_rows. rewrite map_map. apply map_ext_in.
      intros r Hr. destruct (CartItem.id r =? CartItem.id item) eqn:E; [|reflexivity].
      rewrite Hf. f_equal. symmetry. apply Hsame; assumption. }
    repeat apply conj.
    + exact Hstock.
    + rewrite Hmap by reflexivity. exact Hpairs.
    + rewrite Hmap by reflexivity. exact Hkeys.
    + intros i Hi'. unfold update_rows in Hi'. apply in_map_iff in Hi'.
      destruct Hi' as (r & E & Hr).
      destruct (CartItem.id r =? CartItem.id item); subst i;
        [apply (Hissued item Hin) | apply (Hissued r Hr)].
  - repeat apply conj.
    + exact Hstock.
    + rewrite map_app. cbn [map].
      apply NoDup_app; [exact Hpairs | repeat constructor; intros [] |].
      intros x Hx [<-|[]]. apply in_map_iff in Hx. destruct Hx as (r & E & Hr).
      inversion E as [[Ec Ep]].
      assert (Hrf : In r (filter (fun i => (CartItem.cart i =? c)
                                           && (CartItem.product i =? p))
                                 (cart_items d))).
      { apply filter_In. split; [exact Hr|].
        rewrite Ec, Ep, !Z.eqb_refl. reflexivity. }
      rewrite Hnone in Hrf. destruct Hrf.
    + rewrite map_app. cbn [map].
      apply NoDup_app; [exact Hkeys | repeat constructor; intros [] |].
      intros x Hx [<-|[]]. apply in_map_iff in Hx. destruct Hx as (r & E & Hr).
      specialize (Hissued r Hr). cbn in E. lia.
    + intros i Hi'. apply in_app_or in Hi'. destruct Hi' as [Hi'|[<-|[]]].
      * specialize (Hissued i Hi'). lia.
      * cbn. lia.
  - repeat apply conj.
    + exact Hstock.
    + apply NoDup_map_filter, Hpairs.
    + apply NoDup_map_filter, Hkeys.
    + intros i Hi'. apply filter_In in Hi'. apply Hissued, Hi'.
Qed.

Lemma dispatch_world (handler : M Response) (w : World) :
  snd (dispatch handler w) = snd (handler w).
Proof.
  unfold dispatch. destruct (handler w) as [[response|e] w']; [reflexivity|].
  destruct e; reflexivity.
Qed.

Lemma objects_get_DoesNotExist {A : Type} (model model' : string)
      (lookup : A -> bool) (rows : list A) :
  objects_get model lookup rows = Raised (DoesNotExist model') ->
  filter lookup rows = [].
Proof.
  unfold objects_get. destruct (filter lookup rows) as [|x [|y l]];
    [reflexivity | discriminate | discriminate].
Qed.

(** What [CartItem.save] can do: raise and write nothing, insert the item
    under the next key, or rewrite the row of its key. *)
Lemma CartItem_save_outcome (adding : bool) (self : CartItem.t) (w w' : World)
      (r : pyres CartItem.t) :
  CartItem_save adding self w = (r, w') ->
  (exists e, r = Raised e /\ w' = w)
  \/ (adding = true
      /\ r = Returned (CartItem.with_id self (next_cart_item_id (db w)))
      /\ w' = with_db w (with_cart_items
                           (db w)
                           (cart_items (db w)
                              ++ [CartItem.with_id self (next_cart_item_id (db w))])%list
                           (next_cart_item_id (db w) + 1)))
  \/ (adding = false
      /\ r = Returned self
      /\ w' = with_db w (with_cart_items
                           (db w)
                           (if existsb (fun i => CartItem.id i =? CartItem.id self)
                                       (cart_items (db w))
                            then update_rows (fun i => CartItem.id i =? CartItem.id self)
                                             (fun _ => self) (cart_items (db w))
                            else (cart_items (db w) ++ [self])%list)
                           (next_cart_item_id (db w)))).
Proof.
  unfold CartItem_save. unfold bind at 1. rewrite Product_objects_get_run. cbn [lift].
  destruct (find_product (db w) (CartItem.product self)) as [p|e].
  - destruct (CartItem.quantity self >? Product.stock p).
    + unfold raise. intros H. inversion H. left. eauto.
    + unfold CartItem_super_save, bind, get_db, put_db, ret.
      destruct adding.
      * intros H. inversion H. right. left. auto.
      * destruct (existsb (fun i => CartItem.id i =? CartItem.id self)
                          (cart_items (db w)));
          intros H; inversion H; right; right; auto.
  - intros H. inversion H. left. eauto.
Qed.

(** [CartItem.save] refuses a quantity over the stock. *)
Lemma CartItem_save_over_stock (adding : bool) (self : CartItem.t) (p : Product.t)
      (w : World) :
  find_product (db w) (CartItem.product self) = Returned p ->
  Product.stock p < CartItem.quantity self ->
  CartItem_save adding self w
  = (Raised (ValueError ("Quantity (" ++ str_Z (CartItem.quantity self)
                           ++ ") exceeds available stock ("
                           ++ str_Z (Product.stock p) ++ ")")), w).
Proof.
  intros Hp Hq. unfold CartItem_save. unfold bind at 1.
  rewrite Product_objects_get_run, Hp. cbn [lift].
  destruct (Z.gtb_spec (CartItem.quantity self) (Product.stock p)); [reflexivity | lia].
Qed.

Lemma AddToCart_validate_product_id_world (value : Z) (w w' : World) (r : pyres Z) :
  AddToCartSerializer.validate_product_id value w = (r, w') -> w' = w.
Proof.
  unfold AddToCartSerializer.validate_product_id, bind, get_db.
  destruct (objects_get "Product" _ (products (db w))) as [p|e].
  - destruct (Product.stock p <=? 0); unfold raise, ret; intros H; inversion H;
      reflexivity.
  - destruct e; unfold raise; intros H; inversion H; reflexivity.
Qed.

Lemma AddToCart_validate_world (pid qty : Z) (w w' : World) (r : pyres unit) :
  AddToCartSerializer.validate pid qty w = (r, w') -> w' = w.
Proof.
  unfold AddToCartSerializer.validate, bind, get_db.
  destruct (find_product (db w) pid) as [p|e].
  - destruct (qty >? Product.stock p); unfold raise, ret; intros H; inversion H;
      reflexivity.
  - destruct e; unfold raise, ret; intros H; inversion H; reflexivity.
Qed.

(** [is_valid] of the add-to-cart serializer reads only. *)
Lemma AddToCart_is_valid_world (data : AddToCartSerializer.request) (w w' : World)
      (r : pyres (Z * Z)) :
  AddToCartSerializer.is_valid data w = (r, w') -> w' = w.
Proof.
  unfold AddToCartSerializer.is_valid. unfold bind at 1.
  destruct (AddToCartSerializer.product_id_field data w) as [[p|e] w1] eqn:Ep.
  - assert (w1 = w).
    { unfold AddToCartSerializer.product_id_field in Ep.
      destruct (AddToCartSerializer.product_id data) as [value|].
      - destruct (AddToCartSerializer.validate_product_id value w) as [[v|e] w2] eqn:Ev;
          apply AddToCart_validate_product_id_world in Ev; subst w2.
        + inversion Ep. reflexivity.
        + destruct e as [[|[? ?] ?]| | | | | | | |]; inversion Ep; reflexivity.
      - inversion Ep. reflexivity. }
    subst w1.
    destruct p as [e1| |pid]; destruct (AddToCartSerializer.quantity_field data)
      as [e2| |qty]; unfold raise; try (intros H; inversion H; reflexivity).
    unfold bind.
    destruct (AddToCartSerializer.validate pid qty w) as [[u|e] w2] eqn:Ev;
      apply AddToCart_validate_world in Ev; subst w2; unfold ret;
        intros H; inversion H; reflexivity.
  - assert (w1 = w).
    { unfold AddToCartSerializer.product_id_field in Ep.
      destruct (AddToCartSerializer.product_id data) as [value|].
      - destruct (AddToCartSerializer.validate_product_id value w) as [[v|e'] w2] eqn:Ev;
          apply AddToCart_validate_product_id_world in Ev; subst w2.
        + inversion Ep.
        + destruct e' as [[|[? ?] ?]| | | | | | | |]; inversion Ep; reflexivity.
      - inversion Ep. }
    subst w1. intros H. inversion H. reflexivity.
Qed.

(** [Cart.objects.get_or_create] touches neither the catalogue nor the cart
    items. *)
Lemma Cart_get_or_create_frame (user : User.t) (w w' : World)
      (r : pyres (Cart.t * bool)) :
  Cart_objects_get_or_create user w = (r, w') ->
  products (db w') = products (db w)
  /\ cart_items (db w') = cart_items (db w)
  /\ next_cart_item_id (db w') = next_cart_item_id (db w).
Proof.
  unfold Cart_objects_get_or_create, bind, get_db.
  destruct (objects_get "Cart" _ (carts (db w))) as [cart|e].
  - unfold ret. intros H. inversion H. auto.
  - destruct e; unfold raise, put_db, ret; intros H; inversion H; auto.
Qed.

Lemma CartItem_get_or_create_Returned (cart : Cart.t) (pid qty : Z) (w w' : World)
      (item : CartItem.t) (created : bool) :
  CartItem_objects_get_or_create cart pid qty w = (Returned (item, created), w') ->
  (created = false /\ w' = w
   /\ objects_get "CartItem"
                  (fun i => (CartItem.cart i =? Cart.id cart)
                            && (CartItem.product i =? pid))
                  (cart_items (db w)) = Returned item)
  \/ (created = true
      /\ filter (fun i => (CartItem.cart i =? Cart.id cart)
                          && (CartItem.product i =? pid))
                (cart_items (db w)) = []
      /\ cart_items (db w')
         = (cart_items (db w)
              ++ [{| CartItem.id := next_cart_item_id (db w);
                     CartItem.cart := Cart.id cart;
                     CartItem.product := pid; CartItem.quantity := qty |}])%list
      /\ next_cart_item_id (db w') = next_cart_item_id (db w) + 1
      /\ products (db w') = products (db w)).
Proof.
  unfold CartItem_objects_get_or_create. unfold bind at 1. unfold get_db at 1.
  destruct (objects_get "CartItem" _ (cart_items (db w))) as [found|e] eqn:E.
  - unfold ret. intros H. inversion H; subst. left. auto.
  - destruct e; try (unfold raise; discriminate).
    apply objects_get_DoesNotExist in E.
    unfold bind.
    destruct (CartItem_save true _ w) as [[saved|e] w1] eqn:Es; [|discriminate].
    apply CartItem_save_outcome in Es.
    destruct Es as [(e & He & _) | [(_ & Hr & Hw) | (Hc & _)]];
      [discriminate | | discriminate].
    unfold ret. intros H. inversion H; subst. inversion Hr; subst.
    right. repeat apply conj; auto.
Qed.

(** Whatever the add-to-cart view answers, it made a cart step. *)
Lemma add_to_cart_step (user : User.t) (data : AddToCartSerializer.request)
      (w w' : World) (r : pyres Response) :
  AddToCartView_post user data w = (r, w') -> cart_step (db w) (db w').
Proof.
  intros H. destruct r as [response|e];
    [|apply atomic_Raised in H; apply cart_unchanged; rewrite H; reflexivity].
  unfold AddToCartView_post in H. apply atomic_Returned in H.
  apply bind_inv in H. destruct H as ([pid qty] & w1 & Hvalid & H).
  apply AddToCart_is_valid_world in Hvalid. subst w1.
  apply bind_inv in H. destruct H as ([cart created] & w2 & Hcart & H).
  apply Cart_get_or_create_frame in Hcart. destruct Hcart as (Hp2 & Hi2 & Hn2).
  apply bind_inv in H. destruct H as ([item item_created] & w3 & Hitem & H).
  apply CartItem_get_or_create_Returned in Hitem.
  destruct Hitem as [(-> & -> & Hget) | (-> & Hnone & Hi3 & Hn3 & Hp3)].
  - cbn [negb] in H.
    apply bind_inv in H. destruct H as (product & w4 & Hproduct & H).
    rewrite Product_objects_get_run in Hproduct. inversion Hproduct; subst w4.
    destruct (CartItem.quantity item + qty >? Product.stock product).
    + unfold ret in H. inversion H; subst.
      apply cart_unchanged; assumption.
    + apply bind_inv in H. destruct H as (saved & w5 & Hsave & H).
      unfold ret in H. inversion H; subst. clear H.
      apply CartItem_save_outcome in Hsave.
      destruct Hsave as [(e & He & _) | [(Hc & _) | (_ & _ & ->)]];
        [discriminate | discriminate |].
      apply objects_get_Returned in Hget. destruct Hget as (_ & Hin & _).
      rewrite Hi2 in Hin.
      apply (cart_item_rewritten _ _ item (CartItem.quantity item + qty));
        cbn [db with_db with_cart_items products cart_items next_cart_item_id];
        try assumption.
      rewrite Hi2.
      replace (CartItem.id (CartItem.with_quantity item (CartItem.quantity item + qty)))
        with (CartItem.id item) by reflexivity.
      rewrite (existsb_key_In CartItem.id item _ Hin). reflexivity.
  - cbn [negb] in H. unfold ret in H. inversion H; subst.
    apply (cart_item_inserted _ _ (Cart.id cart) pid qty).
    + rewrite Hp3. exact Hp2.
    + rewrite <- Hi2. exact Hnone.
    + rewrite Hi3, Hi2, Hn2. reflexivity.
    + rewrite Hn3, Hn2. reflexivity.
Qed.

(** Whatever the view that updates a cart item answers, it made a cart
    step. *)
Lemma update_cart_item_step (user : User.t) (item_id : Z) (quantity : option Z)
      (w w' : World) (r : pyres Response) :
  CartItemView_patch user item_id quantity w = (r, w') -> cart_step (db w) (db w').
Proof.
  unfold CartItemView_patch. unfold bind at 1.
  unfold CartItemView_get_object at 1. unfold bind at 1. unfold get_db at 1.
  destruct (objects_get "CartItem" _ (cart_items (db w))) as [item|e] eqn:Eget.
  - unfold ret at 1. apply objects_get_Returned in Eget.
    destruct Eget as (_ & Hin & _).
    unfold bind at 1. unfold UpdateCartItemSerializer.is_valid at 1.
    destruct quantity as [q|];
      [|unfold raise; intros H; inversion H; apply cart_unchanged; reflexivity].
    destruct (q <? 1);
      [unfold raise; intros H; inversion H; apply cart_unchanged; reflexivity|].
    unfold UpdateCartItemSerializer.validate_quantity. unfold bind at 1.
    rewrite Product_objects_get_run. cbn [lift].
    destruct (find_product (db w) (CartItem.product item)) as [p|e];
      [|intros H; inversion H; apply cart_unchanged; reflexivity].
    destruct (q >? Product.stock p);
      [unfold raise; intros H; inversion H; apply cart_unchanged; reflexivity|].
    unfold ret at 1. unfold bind.
    destruct (CartItem_save false (CartItem.with_quantity item q) w)
      as [[saved|e] w1] eqn:Es;
      apply CartItem_save_outcome in Es;
      destruct Es as [(e' & He & ->) | [(Hc & _) | (_ & Hr & ->)]];
      try discriminate; unfold ret; intros H; inversion H; subst;
        try (apply cart_unchanged; reflexivity).
    apply (cart_item_rewritten _ _ item q);
      cbn [db with_db with_cart_items products cart_items next_cart_item_id];
      try reflexivity; try assumption.
    replace (CartItem.id (CartItem.with_quantity item q))
      with (CartItem.id item) by reflexivity.
    rewrite (existsb_key_In CartItem.id item _ Hin). reflexivity.
  - destruct e; unfold raise; intros H; inversion H; apply cart_unchanged; reflexivity.
Qed.

Lemma quantity_of_absent (items : list CartItem.t) (pk : Z) :
  ~ In pk (map CartItem.product items) -> quantity_of items pk = 0.
Proof.
  induction items as [|i rest IH]; intros H; [reflexivity|].
  cbn [quantity_of]. cbn [map] in H.
  destruct (Z.eqb_spec (CartItem.product i) pk) as [E|E].
  - exfalso. apply H. left. exact E.
  - rewrite IH; [reflexivity|]. intros Hin. apply H. right. exact Hin.
Qed.

(** An item over a product that appears once asks all the units asked of
    that product. *)
Lemma quantity_of_unique (items : list CartItem.t) (i : CartItem.t) :
  NoDup (map CartItem.product items) -> In i items ->
  quantity_of items (CartItem.product i) = CartItem.quantity i.
Proof.
  induction items as [|j rest IH]; intros Hnd Hin; [destruct Hin|].
  cbn [map] in Hnd. inversion Hnd as [|? ? Hnotin Hnd']; subst.
  cbn [quantity_of]. destruct Hin as [->|Hin].
  - rewrite Z.eqb_refl, (quantity_of_absent _ _ Hnotin). lia.
  - destruct (Z.eqb_spec (CartItem.product j) (CartItem.product i)) as [E|E].
    + exfalso. apply Hnotin. rewrite E. apply in_map, Hin.
    + rewrite (IH Hnd' Hin). lia.
Qed.

Lemma quantity_of_bound (d : DB) (items : list CartItem.t) (p : Product.t) :
  NoDup (map CartItem.product items) ->
  forallb (item_ok d) items = true ->
  In p (products d) -> 0 <= Product.stock p ->
  quantity_of items (Product.id p) <= Product.stock p.
Proof.
  intros Hnd Hok Hp Hstock.
  destruct (in_dec Z.eq_dec (Product.id p) (map CartItem.product items)) as [Hin|Hout].
  - apply in_map_iff in Hin. destruct Hin as (i & E & Hi).
    rewrite <- E, (quantity_of_unique items i Hnd Hi).
    destruct (item_ok_found d items Hok i Hi) as (p' & Hfind & _ & Hq).
    assert (p = p').
    { apply (objects_get_only _ _ _ _ _ Hfind Hp). apply Z.eqb_eq. symmetry. exact E. }
    subst p'. exact Hq.
  - rewrite (quantity_of_absent _ _ Hout). exact Hstock.
Qed.

(** The items of one cart are for different products. *)
Lemma cart_items_products_unique (d : DB) (cart : Cart.t) :
  cart_products_unique d -> NoDup (map CartItem.product (Cart_items cart d)).
Proof.
  unfold cart_products_unique, Cart_items. intros H.
  apply (NoDup_map_filter _ (fun i => CartItem.cart i =? Cart.id cart)) in H.
  induction (cart_items d) as [|i rest IH]; [constructor|].
  cbn [filter] in *. destruct (Z.eqb_spec (CartItem.cart i) (Cart.id cart)) as [E|E];
    [|apply IH, H].
  cbn [map] in *. inversion H as [|? ? Hnotin Hnd]; subst.
  constructor; [|apply IH, Hnd].
  intros Hin. apply Hnotin. apply in_map_iff in Hin. destruct Hin as (j & Ej & Hj).
  apply in_map_iff. exists j. split; [|exact Hj].
  apply filter_In in Hj. destruct Hj as [_ Hc]. apply Z.eqb_eq in Hc.
  rewrite Hc, Ej, E. reflexivity.
Qed.

Lemma checkout_raised_unchanged (user : User.t) (data : payload) (w w' : World)
      (e : exn) :
  CreateOrderView_post user data w = (Raised e, w') -> db w' = db w.
Proof.
  unfold CreateOrderView_post. unfold bind at 1.
  destruct (CreateOrderSerializer.is_valid user data w) as [[vd|e0] w0] eqn:Ev;
    apply is_valid_world in Ev as Hw; subst w0.
  - unfold bind.
    destruct (CreateOrderSerializer.create user vd w) as [[o|e1] w2] eqn:Ec;
      [discriminate|].
    intros H. inversion H; subst. apply (atomic_Raised _ _ _ _ Ec).
  - intros H. inversion H; subst. reflexivity.
Qed.

(** Checkout keeps the invariant of the shop. *)
Lemma checkout_invariant (user : User.t) (data : payload) (w : World) :
  shop_invariant (db w) ->
  shop_invariant (db (snd (dispatch (CreateOrderView_post user data) w))).
Proof.
  intros Hinv. rewrite dispatch_world.
  destruct (CreateOrderView_post user data w) as [[response|e] w'] eqn:E; cbn [snd].
  - destruct (checkout_answered _ _ _ _ _ E)
      as (order & cart & rows & added & h & _ & _ & _ & Hok & Hdb & _).
    destruct Hinv as (Hstock & Hpairs & Hkeys & Hissued).
    rewrite Hdb.
    unfold shop_invariant, stocks_nonnegative, cart_products_unique,
      cart_item_keys_unique, cart_item_keys_issued.
    cbn [after_checkout products cart_items next_cart_item_id].
    repeat apply conj.
    + intros p' Hp'. apply in_map_iff in Hp'. destruct Hp' as (p & <- & Hp).
      unfold decrement_stock. cbn.
      pose proof (quantity_of_bound (db w) _ p
                                    (cart_items_products_unique _ cart Hpairs)
                                    Hok Hp (Hstock p Hp)).
      lia.
    + apply NoDup_map_filter, Hpairs.
    + apply NoDup_map_filter, Hkeys.
    + intros i Hi. apply filter_In in Hi. apply Hissued, Hi.
  - rewrite (checkout_raised_unchanged _ _ _ _ _ E). exact Hinv.
Qed.

(** * The other cart views and the AJAX views *)

Lemma snd_bind {A B : Type} (m : M A) (k : A -> M B) (w : World) :
  snd (bind m k w)
  = match m w with
    | (Returned a, w1) => snd (k a w1)
    | (Raised _, w1) => w1
    end.
Proof. unfold bind. destruct (m w) as [[a|e] w1]; reflexivity. Qed.

Lemma try_except_world {A : Type} (m : M A) (a : A) (w : World) :
  snd (try_except m (fun _ => ret a) w) = snd (m w).
Proof.
  unfold try_except. destruct (m w) as [[x|e] w1]; [reflexivity|].
  destruct (is_Exception e); reflexivity.
Qed.

Lemma get_object_or_404_run {A : Type} (r : pyres A) (w : World) :
  exists r', get_object_or_404 r w = (r', w)
             /\ forall a, r' = Returned a -> r = Returned a.
Proof.
  destruct r as [a|e]; [exists (Returned a); split; [reflexivity | auto]|].
  destruct e; cbn; unfold raise, lift; eexists; (split; [reflexivity | discriminate]).
Qed.

Lemma CartItemView_get_object_run (user : User.t) (item_id : Z) (w : World) :
  exists r, CartItemView_get_object user item_id w = (r, w)
            /\ forall item, r = Returned item -> In item (cart_items (db w)).
Proof.
  unfold CartItemView_get_object, bind, get_db.
  destruct (objects_get "CartItem" _ (cart_items (db w))) as [item|e] eqn:E.
  - exists (Returned item). split; [reflexivity|].
    intros item' H. inversion H; subst.
    apply objects_get_Returned in E. apply E.
  - destruct e; unfold raise; eexists; (split; [reflexivity | discriminate]).
Qed.

Lemma CartItem_cart_run (self : CartItem.t) (w : World) :
  exists r, CartItem_cart self w = (r, w).
Proof. unfold CartItem_cart, bind, get_db, lift. eauto. Qed.

Lemma sum_of_world (items : list CartItem.t) :
  forall (acc : Z) (w : World), snd (sum_of CartItem_subtotal items acc w) = w.
Proof.
  induction items as [|i rest IH]; intros acc w; [reflexivity|].
  cbn [sum_of]. rewrite snd_bind. unfold CartItem_subtotal. unfold bind.
  rewrite Product_objects_get_run.
  destruct (find_product (db w) (CartItem.product i)); [apply IH | reflexivity].
Qed.

Lemma Cart_total_price_world (cart : Cart.t) (w : World) :
  snd (Cart_total_price cart w) = w.
Proof. unfold Cart_total_price, bind, get_db. apply sum_of_world. Qed.

Lemma cart_response_world (cart : Cart.t) (message : string) (w : World) :
  snd (cart_response cart message w) = w.
Proof.
  unfold cart_response. rewrite snd_bind. unfold get_db. rewrite snd_bind.
  pose proof (Cart_total_price_world cart w) as H.
  destruct (Cart_total_price cart w) as [[t|e] w1]; cbn [snd] in *; exact H.
Qed.

Lemma CartItem_delete_run (self : CartItem.t) (w : World) :
  CartItem_delete self w
  = (Returned tt,
     with_db w (with_cart_items
                  (db w)
                  (filter (fun i => negb (CartItem.id i =? CartItem.id self))
                          (cart_items (db w)))
                  (next_cart_item_id (db w)))).
Proof. reflexivity. Qed.

Lemma cart_step_removed (w : World) (keep : CartItem.t -> bool) :
  cart_step (db w)
            (db (with_db w (with_cart_items (db w) (filter keep (cart_items (db w)))
                                            (next_cart_item_id (db w))))).
Proof. apply (cart_items_removed _ _ keep); reflexivity. Qed.

(** A save of an item of the table with another quantity, whatever it
    answers, made a cart step. *)
Lemma CartItem_save_step (item : CartItem.t) (q : Z) (w : World) :
  In item (cart_items (db w)) ->
  cart_step (db w) (db (snd (CartItem_save false (CartItem.with_quantity item q) w))).
Proof.
  intros Hin.
  destruct (CartItem_save false (CartItem.with_quantity item q) w) as [r w'] eqn:Es.
  apply CartItem_save_outcome in Es.
  destruct Es as [(e & _ & ->) | [(Hc & _) | (_ & _ & ->)]];
    [apply cart_unchanged; reflexivity | discriminate |].
  apply (cart_item_rewritten _ _ item q);
    cbn [snd db with_db with_cart_items products cart_items next_cart_item_id];
    try reflexivity; try assumption.
  replace (CartItem.id (CartItem.with_quantity item q))
    with (CartItem.id item) by reflexivity.
  rewrite (existsb_key_In CartItem.id item _ Hin). reflexivity.
Qed.

(** Whatever [CartItemView.delete] answers, it made a cart step. *)
Lemma remove_cart_item_step (user : User.t) (item_id : Z) (w : World) :
  cart_step (db w) (db (snd (CartItemView_delete user item_id w))).
Proof.
  unfold CartItemView_delete. rewrite snd_bind.
  destruct (CartItemView_get_object_run user item_id w) as (r & -> & _).
  destruct r as [item|e]; [|apply cart_unchanged; reflexivity].
  rewrite snd_bind, CartItem_delete_run. cbn [snd ret]. apply cart_step_removed.
Qed.

(** Whatever [ClearCartView.delete] answers, it made a cart step. *)
Lemma clear_cart_step (user : User.t) (w : World) :
  cart_step (db w) (db (snd (ClearCartView_delete user w))).
Proof.
  unfold ClearCartView_delete. rewrite snd_bind. unfold get_db. rewrite snd_bind.
  destruct (objects_first _ (carts (db w))) as [cart|].
  - unfold Cart_items_delete, bind, get_db, put_db. cbn [snd ret].
    apply cart_step_removed.
  - cbn. apply cart_unchanged; reflexivity.
Qed.

(** Whatever [api_cart_remove] answers, it made a cart step. *)
Lemma api_cart_remove_step (user : User.t) (item_id : Z) (w : World) :
  cart_step (db w) (db (snd (api_cart_remove user item_id w))).
Proof.
  unfold api_cart_remove. rewrite try_except_world, snd_bind.
  destruct (CartItemView_get_object_run user item_id w) as (r & -> & _).
  destruct r as [item|e]; [|apply cart_unchanged; reflexivity].
  rewrite snd_bind. destruct (CartItem_cart_run item w) as (rc & ->).
  destruct rc as [cart|e]; [|apply cart_unchanged; reflexivity].
  rewrite snd_bind, CartItem_delete_run, cart_response_world. apply cart_step_removed.
Qed.

(** Whatever [api_cart_update] answers, it made a cart step. *)
Lemma api_cart_update_step (user : User.t) (item_id quantity : Z) (w : World) :
  cart_step (db w) (db (snd (api_cart_update user item_id quantity w))).
Proof.
  unfold api_cart_update. rewrite try_except_world, snd_bind.
  destruct (CartItemView_get_object_run user item_id w) as (r & -> & Hin).
  destruct r as [item|e]; [|apply cart_unchanged; reflexivity].
  specialize (Hin item eq_refl).
  rewrite snd_bind. destruct (CartItem_cart_run item w) as (rc & ->).
  destruct rc as [cart|e]; [|apply cart_unchanged; reflexivity].
  destruct (quantity <=? 0).
  - rewrite snd_bind, CartItem_delete_run, cart_response_world. apply cart_step_removed.
  - rewrite snd_bind, Product_objects_get_run.
    destruct (find_product (db w) (CartItem.product item)) as [p|e];
      [|apply cart_unchanged; reflexivity].
    destruct (Product.stock p <? quantity); [apply cart_unchanged; reflexivity|].
    rewrite snd_bind.
    pose proof (CartItem_save_step item quantity w Hin) as Hstep.
    destruct (CartItem_save false (CartItem.with_quantity item quantity) w)
      as [[saved|e] w1]; cbn [snd] in Hstep; [|exact Hstep].
    rewrite cart_response_world. exact Hstep.
Qed.

Lemma CartItem_get_or_create_Raised (cart : Cart.t) (pid qty : Z) (w w' : World)
      (e : exn) :
  CartItem_objects_get_or_create cart pid qty w = (Raised e, w') -> w' = w.
Proof.
  unfold CartItem_objects_get_or_create. unfold bind at 1. unfold get_db at 1.
  destruct (objects_get "CartItem" _ (cart_items (db w))) as [found|e0].
  - discriminate.
  - destruct e0; try (unfold raise; intros H; inversion H; reflexivity).
    unfold bind.
    destruct (CartItem_save true _ w) as [[saved|e1] w1] eqn:Es; [discriminate|].
    apply CartItem_save_outcome in Es.
    destruct Es as [(e2 & _ & ->) | [(_ & Hr & _) | (Hc & _)]]; try discriminate.
    intros H. inversion H. reflexivity.
Qed.

(** Whatever [api_cart_add] answers, it made a cart step. *)
Lemma api_cart_add_step (user : User.t) (product_id quantity : Z) (w : World) :
  cart_step (db w) (db (snd (api_cart_add user product_id quantity w))).
Proof.
  unfold api_cart_add. rewrite try_except_world, snd_bind. unfold get_db at 1.
  rewrite snd_bind.
  destruct (get_object_or_404_run (find_product (db w) product_id) w) as (r & -> & _).
  destruct r as [product|e]; [|apply cart_unchanged; reflexivity].
  destruct (Product.stock product <? quantity); [apply cart_unchanged; reflexivity|].
  rewrite snd_bind.
  destruct (Cart_objects_get_or_create user w) as [rc w2] eqn:Hcart.
  apply Cart_get_or_create_frame in Hcart. destruct Hcart as (Hp2 & Hi2 & Hn2).
  destruct rc as [[cart cart_created]|e]; [|apply cart_unchanged; assumption].
  rewrite snd_bind.
  destruct (CartItem_objects_get_or_create cart (Product.id product) quantity w2)
    as [ri w3] eqn:Hitem.
  destruct ri as [[item created]|e].
  - apply CartItem_get_or_create_Returned in Hitem.
    destruct Hitem as [(-> & -> & Hget) | (-> & Hnone & Hi3 & Hn3 & Hp3)];
      cbn [negb].
    + apply objects_get_Returned in Hget. destruct Hget as (_ & Hin & _).
      destruct (Product.stock product <? CartItem.quantity item + quantity);
        [apply cart_unchanged; assumption|].
      rewrite snd_bind.
      pose proof (CartItem_save_step item (CartItem.quantity item + quantity) w2 Hin)
        as Hstep.
      assert (Hfrom : forall d', cart_step (db w2) d' -> cart_step (db w) d').
      { intros d' [Hp Hi Hn | it q Hp Hit Hi Hn | c p q Hp Hnone Hi Hn | keep Hp Hi Hn].
        - apply cart_unchanged; congruence.
        - apply (cart_item_rewritten _ _ it q); congruence.
        - apply (cart_item_inserted _ _ c p q); congruence.
        - apply (cart_items_removed _ _ keep); congruence. }
      apply Hfrom.
      destruct (CartItem_save false _ w2) as [[saved|e] w4]; cbn [snd] in Hstep;
        [|exact Hstep].
      rewrite cart_response_world. exact Hstep.
    + rewrite cart_response_world.
      apply (cart_item_inserted _ _ (Cart.id cart) (Product.id product) quantity).
      * rewrite Hp3. exact Hp2.
      * rewrite <- Hi2. exact Hnone.
      * rewrite Hi3, Hi2, Hn2. reflexivity.
      * rewrite Hn3, Hn2. reflexivity.
  - apply CartItem_get_or_create_Raised in Hitem. subst w3.
    apply cart_unchanged; assumption.
Qed.

(** The loop of [api_checkout], however it ends, leaves the cart items alone
    and no stock under zero. *)
Lemma api_checkout_items_keeps (order : Order.t) (items : list CartItem.t) :
  forall w : World,
    let w' := snd (api_checkout_items order items w) in
    cart_items (db w') = cart_items (db w)
    /\ next_cart_item_id (db w') = next_cart_item_id (db w)
    /\ (stocks_nonnegative (db w) -> stocks_nonnegative (db w')).
Proof.
  induction items as [|i rest IH]; intros w; cbv zeta; [cbn; auto|].
  cbn [api_checkout_items]. rewrite snd_bind, Product_objects_get_run.
  destruct (find_product (db w) (CartItem.product i)) as [p|e]; [|auto].
  destruct (Product.stock p <? CartItem.quantity i) eqn:Eq; [cbn; auto|].
  apply Z.ltb_ge in Eq.
  rewrite snd_bind, OrderItem_save_run. cbv zeta. rewrite snd_bind.
  match goal with
  | |- context [Product_save ?self ?w1] =>
    assert (Hsave : exists w2,
               Product_save self w1 = (Returned tt, w2)
               /\ cart_items (db w2) = cart_items (db w)
               /\ next_cart_item_id (db w2) = next_cart_item_id (db w)
               /\ (stocks_nonnegative (db w) -> stocks_nonnegative (db w2)))
  end.
  { unfold Product_save, bind, get_db, put_db.
    cbn [db with_db with_order_items products].
    match goal with
    | |- context [existsb ?f ?l] => destruct (existsb f l)
    end; eexists; (split; [reflexivity|]);
      cbn [db with_db with_order_items with_products products cart_items
              next_cart_item_id];
      (split; [reflexivity|]); (split; [reflexivity|]); intros Hstock q Hq.
    - unfold update_rows in Hq. apply in_map_iff in Hq. destruct Hq as (x & E & Hx).
      destruct (Product.id x =? _); subst q; [cbn; lia | apply Hstock, Hx].
    - apply in_app_or in Hq. destruct Hq as [Hq|[<-|[]]];
        [apply Hstock, Hq | cbn; lia]. }
  destruct Hsave as (w2 & -> & Hi & Hn & Hs).
  destruct (IH w2) as (Hi' & Hn' & Hs').
  repeat apply conj; [congruence | congruence | auto].
Qed.

(** The block of [api_checkout], however it ends, keeps the invariant of the
    shop. *)
Lemma api_checkout_block_invariant (user : User.t) (data : payload) (cart : Cart.t)
      (w : World) :
  shop_invariant (db w) ->
  shop_invariant (db (snd (api_checkout_block user data cart w))).
Proof.
  intros Hinv.
  destruct (api_checkout_block user data cart w) as [[out|e] w'] eqn:H; cbn [snd];
    [|unfold api_checkout_block in H; rewrite (atomic_Raised _ _ _ _ H); exact Hinv].
  unfold api_checkout_block in H. apply atomic_Returned in H.
  apply bind_inv in H. destruct H as (subtotal & w1 & Hsub & H).
  apply Cart_total_price_Returned in Hsub. destruct Hsub as (-> & _ & _).
  apply bind_inv in H. destruct H as (total & w1 & Htotal & H).
  apply Cart_total_price_Returned in Htotal. destruct Htotal as (-> & _ & _).
  apply bind_inv in H. destruct H as (created & w2 & Hcreate & H).
  match type of Hcreate with
  | Order_objects_create ?i _ = _ =>
    destruct (Order_objects_create_run i w eq_refl) as (rows & sent & Hrun & _)
  end.
  cbv zeta in Hrun. rewrite Hrun in Hcreate. inversion Hcreate; subst created w2.
  clear Hcreate Hrun.
  apply bind_inv in H. destruct H as (d & w3 & Hd & H).
  unfold get_db in Hd. inversion Hd; subst d w3. clear Hd.
  apply bind_inv in H. destruct H as (returned & w4 & Hloop & H).
  match type of Hloop with
  | api_checkout_items ?o ?items ?w2 = _ =>
    pose proof (api_checkout_items_keeps o items w2) as Hkeeps
  end.
  cbv zeta in Hkeeps. rewrite Hloop in Hkeeps. cbn [snd db with_orders cart_items
    next_cart_item_id products] in Hkeeps.
  destruct Hkeeps as (Hi & Hn & Hs).
  destruct Hinv as (Hstock & Hpairs & Hkeys & Hissued).
  specialize (Hs Hstock).
  unfold shop_invariant, stocks_nonnegative, cart_products_unique,
    cart_item_keys_unique, cart_item_keys_issued in *.
  destruct returned as [response|].
  - unfold ret in H. inversion H; subst. rewrite Hi, Hn. auto.
  - unfold bind, Cart_items_delete, get_db, put_db, ret in H. inversion H; subst.
    cbn [db with_db with_cart_items products cart_items next_cart_item_id].
    rewrite Hi, Hn. repeat apply conj.
    + exact Hs.
    + apply NoDup_map_filter, Hpairs.
    + apply NoDup_map_filter, Hkeys.
    + intros i Hi'. apply filter_In in Hi'. apply Hissued, Hi'.
Qed.

(** [api_checkout], whatever it answers, keeps the invariant of the shop. *)
Lemma api_checkout_invariant (user : User.t) (data : payload) (w : World) :
  shop_invariant (db w) -> shop_invariant (db (snd (api_checkout user data w))).
Proof.
  intros Hinv. unfold api_checkout. rewrite try_except_world, snd_bind.
  unfold get_db at 1. rewrite snd_bind.
  destruct (get_object_or_404_run
              (objects_get "Cart" (fun c => Cart.user c =? User.id user) (carts (db w))) w)
    as (r & -> & _).
  destruct r as [cart|e]; [|exact Hinv].
  destruct (Cart_items cart (db w)) as [|i rest]; [exact Hinv|].
  rewrite snd_bind.
  pose proof (api_checkout_block_invariant user data cart w Hinv) as H.
  destruct (api_checkout_block user data cart w) as [[[response|order]|e] w1];
    cbn [snd] in *; exact H.
Qed.

Lemma run_operation_invariant (op : operation) (w : World) :
  shop_invariant (db w) -> shop_invariant (db (run_operation op w)).
Proof.
  intros Hinv.
  destruct op as [user data | user item_id quantity | user item_id | user | user data
                  | user product_id quantity | user item_id quantity | user item_id
                  | user data];
    cbn [run_operation].
  - rewrite dispatch_world.
    apply (cart_step_invariant (db w)); [|exact Hinv].
    destruct (AddToCartView_post user data w) as [r w'] eqn:E.
    apply (add_to_cart_step _ _ _ _ _ E).
  - rewrite dispatch_world.
    apply (cart_step_invariant (db w)); [|exact Hinv].
    destruct (CartItemView_patch user item_id quantity w) as [r w'] eqn:E.
    apply (update_cart_item_step _ _ _ _ _ _ E).
  - rewrite dispatch_world.
    apply (cart_step_invariant (db w)); [apply remove_cart_item_step | exact Hinv].
  - rewrite dispatch_world.
    apply (cart_step_invariant (db w)); [apply clear_cart_step | exact Hinv].
  - apply checkout_invariant, Hinv.
  - apply (cart_step_invariant (db w)); [apply api_cart_add_step | exact Hinv].
  - apply (cart_step_invariant (db w)); [apply api_cart_update_step | exact Hinv].
  - apply (cart_step_invariant (db w)); [apply api_cart_remove_step | exact Hinv].
  - apply api_checkout_invariant, Hinv.
Qed.

(** The invariant of the shop holds along every sequence of operations. *)
Lemma run_operations_invariant (ops : list operation) :
  forall w, shop_invariant (db w) -> shop_invariant (db (run_operations ops w)).
Proof.
  induction ops as [|op rest IH]; intros w Hinv; [exact Hinv|].
  cbn [run_operations]. apply IH, run_operation_invariant, Hinv.
Qed.

Lemma user_cart_items_of_cart (user : User.t) (d : DB) (cart : Cart.t) :
  objects_get "Cart" (fun c => Cart.user c =? User.id user) (carts d) = Returned cart ->
  user_cart_items user d = Cart_items cart d.
Proof.
  intros H. unfold user_cart_items. rewrite (objects_get_first _ _ _ _ H). reflexivity.
Qed.

(** C3.  From a shop that satisfies its invariant, no sequence of requests
    to the cart and checkout views (add to cart, update or remove a cart
    item, clear the cart, create an order, by the REST views or by the AJAX
    views) makes a stock negative; a checkout that went through took from
    the stock of each product of the cart exactly the quantity of its item
    and left the other products alone; and [CartItem.save] raises, writing
    nothing, when the quantity is over the stock of the product. *)
Theorem stock_never_negative :
  forall w : World,
    shop_invariant (db w) ->
    (forall ops, stocks_nonnegative (db (run_operations ops w)))
    /\ (forall user order w',
           checkout_succeeded user w order w' ->
           (forall i, In i (user_cart_items user (db w)) ->
                      exists p,
                        find_product (db w) (CartItem.product i) = Returned p
                        /\ find_product (db w') (CartItem.product i)
                           = Returned (Product.with_stock
                                         p (Product.stock p - CartItem.quantity i)))
           /\ (forall p, In p (products (db w)) ->
                         ~ In (Product.id p)
                              (map CartItem.product (user_cart_items user (db w))) ->
                         In p (products (db w'))))
    /\ (forall adding self p,
           find_product (db w) (CartItem.product self) = Returned p ->
           Product.stock p < CartItem.quantity self ->
           exists msg, CartItem_save adding self w = (Raised (ValueError msg), w)).
Proof.
  intros w Hinv. repeat apply conj.
  - intros ops. apply (run_operations_invariant ops w Hinv).
  - intros user order w' H.
    destruct (checkout_succeeded_checked_out _ _ _ _ H)
      as (cart & rows & added & history & next_history & Hcart & _ & Hres & Hdb & _).
    rewrite (user_cart_items_of_cart _ _ _ Hcart).
    destruct Hinv as (_ & Hpairs & _).
    pose proof (cart_items_products_unique _ cart Hpairs) as Hnd.
    split.
    + intros i Hi. destruct (Hres i Hi) as (p & Hfind).
      exists p. split; [exact Hfind|].
      rewrite (find_product_restocked
                 (db w) (db w')
                 (fun p => Product.stock p
                           - quantity_of (Cart_items cart (db w)) (Product.id p))
                 (CartItem.product i))
        by (rewrite Hdb; reflexivity).
      rewrite Hfind. destruct (find_product_Returned _ _ _ Hfind) as [_ Hid].
      rewrite Hid, (quantity_of_unique _ i Hnd Hi). reflexivity.
    + intros p Hp Hout. rewrite Hdb. cbn [after_checkout products].
      apply in_map_iff. exists p. split; [|exact Hp].
      unfold decrement_stock. rewrite (quantity_of_absent _ _ Hout), Z.sub_0_r.
      apply with_stock_same.
  - intros adding self p Hfind Hq. eexists.
    apply (CartItem_save_over_stock adding self p w Hfind Hq).
Qed.

Lemma shop_invariant_of_tables (d : DB) :
  Forall (fun p => 0 <= Product.stock p) (products d) ->
  NoDup (map (fun i => (CartItem.cart i, CartItem.product i)) (cart_items d)) ->
  NoDup (map CartItem.id (cart_items d)) ->
  Forall (fun i => CartItem.id i < next_cart_item_id d) (cart_items d) ->
  shop_invariant d.
Proof.
  intros Hs Hp Hk Hi. repeat apply conj; try assumption.
  - intros p. apply (proj1 (Forall_forall _ _) Hs).
  - intros i. apply (proj1 (Forall_forall _ _) Hi).
Qed.

Lemma shop_invariant_shop : shop_invariant (db Fixtures.shop).
Proof.
  apply shop_invariant_of_tables; cbn; repeat constructor; cbn; lia.
Qed.

Lemma shop_invariant_shop_with_cart : shop_invariant (db Fixtures.shop_with_cart).
Proof.
  apply shop_invariant_of_tables; cbn; repeat constructor; cbn;
    try lia; intuition discriminate.
Qed.

(** In the shop: Alice asks for too many pens, then for two, raises that to
    twelve, adds ink by the AJAX view, drops the pens, adds them again and
    checks out by both views; the stocks stay at or above zero.  And her
    checkout of two pens and three inks, by either view, leaves eight pens
    and no ink. *)
Lemma stock_never_negative_witness :
  stocks_nonnegative
    (db (run_operations
           [AddToCart Fixtures.alice (Fixtures.add 1 11);
            AddToCart Fixtures.alice (Fixtures.add 1 2);
            UpdateCartItem Fixtures.alice 1 (Some 12);
            ApiCartAdd Fixtures.alice 2 3;
            ApiCartUpdate Fixtures.alice 1 0;
            ApiCartAdd Fixtures.alice 1 4;
            ApiCheckout Fixtures.alice Fixtures.form;
            CreateOrder Fixtures.alice Fixtures.shipping]
           Fixtures.shop))
  /\ map Product.stock (products (db Fixtures.shop_after_checkout)) = [8; 0]
  /\ map Product.stock (products (db Fixtures.shop_after_api_checkout)) = [8; 0]
  /\ (forall i, In i (user_cart_items Fixtures.alice (db Fixtures.shop_with_cart)) ->
                exists p,
                  find_product (db Fixtures.shop_with_cart) (CartItem.product i)
                  = Returned p
                  /\ find_product (db Fixtures.shop_after_api_checkout)
                                  (CartItem.product i)
                     = Returned (Product.with_stock
                                   p (Product.stock p - CartItem.quantity i))).
Proof.
  split; [|split; [reflexivity|split; [reflexivity|]]].
  - apply (proj1 (stock_never_negative Fixtures.shop shop_invariant_shop)).
  - destruct (stock_never_negative Fixtures.shop_with_cart
                                   shop_invariant_shop_with_cart) as (_ & Hdec & _).
    apply (Hdec Fixtures.alice Fixtures.api_order_1).
    apply (ajax_checkout _ _ _ _ Fixtures.form Fixtures.alice_cart);
      vm_compute; [reflexivity | discriminate | reflexivity].
Defined.

Lemma Cart_get_or_create_found (user : User.t) (cart : Cart.t) (w : World) :
  objects_get "Cart" (fun c => Cart.user c =? User.id user) (carts (db w))
  = Returned cart ->
  Cart_objects_get_or_create user w = (Returned (cart, false), w).
Proof.
  intros H. unfold Cart_objects_get_or_create, bind, get_db. rewrite H. reflexivity.
Qed.

Lemma CartItem_get_or_create_found (cart : Cart.t) (pid qty : Z) (item : CartItem.t)
      (w : World) :
  objects_get "CartItem"
              (fun i => (CartItem.cart i =? Cart.id cart) && (CartItem.product i =? pid))
              (cart_items (db w)) = Returned item ->
  CartItem_objects_get_or_create cart pid qty w = (Returned (item, false), w).
Proof.
  intros H. unfold CartItem_objects_get_or_create, bind, get_db. rewrite H. reflexivity.
Qed.

(** Adding a product that is already in the cart, by what the sum of the
    quantities is against the stock. *)
Lemma add_to_cart_existing (user : User.t) (data : AddToCartSerializer.request)
      (pid qty : Z) (cart : Cart.t) (item : CartItem.t) (p : Product.t) (w : World) :
  AddToCartSerializer.is_valid data w = (Returned (pid, qty), w) ->
  objects_get "Cart" (fun c => Cart.user c =? User.id user) (carts (db w))
  = Returned cart ->
  objects_get "CartItem"
              (fun i => (CartItem.cart i =? Cart.id cart) && (CartItem.product i =? pid))
              (cart_items (db w)) = Returned item ->
  find_product (db w) pid = Returned p ->
  AddToCartView_post user data w
  = if CartItem.quantity item + qty >? Product.stock p then
      (Returned {| status_code := 400;
                   data := BodyError ("Only " ++ str_Z (Product.stock p)
                                              ++ " units available in stock.") |}, w)
    else
      (Returned {| status_code := 201;
                   data := BodyCartItem
                             (CartItem.with_quantity
                                item (CartItem.quantity item + qty)) |},
       with_db w (with_cart_items
                    (db w)
                    (update_rows (fun i => CartItem.id i =? CartItem.id item)
                                 (fun _ => CartItem.with_quantity
                                             item (CartItem.quantity item + qty))
                                 (cart_items (db w)))
                    (next_cart_item_id (db w)))).
Proof.
  intros Hvalid Hcart Hitem Hp.
  unfold AddToCartView_post, atomic.
  rewrite (bind_Returned _ _ _ _ _ Hvalid).
  rewrite (bind_Returned _ _ _ _ _ (Cart_get_or_create_found _ _ _ Hcart)).
  rewrite (bind_Returned _ _ _ _ _ (CartItem_get_or_create_found _ _ qty _ _ Hitem)).
  cbn [negb]. unfold bind at 1. rewrite Product_objects_get_run, Hp. cbn [lift].
  destruct (CartItem.quantity item + qty >? Product.stock p) eqn:Eq; [reflexivity|].
  apply objects_get_Returned in Hitem. destruct Hitem as (_ & Hin & Hlookup).
  apply andb_prop in Hlookup. destruct Hlookup as [_ Hpid]. apply Z.eqb_eq in Hpid.
  unfold bind, CartItem_save. unfold bind at 1.
  rewrite Product_objects_get_run.
  replace (CartItem.product (CartItem.with_quantity item (CartItem.quantity item + qty)))
    with pid by (symmetry; exact Hpid).
  rewrite Hp. cbn [lift].
  replace (CartItem.quantity (CartItem.with_quantity item (CartItem.quantity item + qty)))
    with (CartItem.quantity item + qty) by reflexivity.
  rewrite Eq. unfold CartItem_super_save, bind, get_db, put_db, ret.
  replace (CartItem.id (CartItem.with_quantity item (CartItem.quantity item + qty)))
    with (CartItem.id item) by reflexivity.
  rewrite (existsb_key_In CartItem.id item _ Hin). reflexivity.
Qed.

Lemma try_except_Returned {A : Type} (m : M A) (handler : exn -> M A) (w w' : World)
      (a : A) :
  m w = (Returned a, w') -> try_except m handler w = (Returned a, w').
Proof. unfold try_except. intros ->. reflexivity. Qed.

Lemma CartItem_save_existing (item : CartItem.t) (q : Z) (p : Product.t) (w : World) :
  In item (cart_items (db w)) ->
  find_product (db w) (CartItem.product item) = Returned p ->
  q <= Product.stock p ->
  CartItem_save false (CartItem.with_quantity item q) w
  = (Returned (CartItem.with_quantity item q),
     with_db w (with_cart_items
                  (db w)
                  (update_rows (fun i => CartItem.id i =? CartItem.id item)
                               (fun _ => CartItem.with_quantity item q)
                               (cart_items (db w)))
                  (next_cart_item_id (db w)))).
Proof.
  intros Hin Hp Hq. unfold CartItem_save. unfold bind at 1.
  rewrite Product_objects_get_run.
  replace (CartItem.product (CartItem.with_quantity item q))
    with (CartItem.product item) by reflexivity.
  rewrite Hp.
  replace (CartItem.quantity (CartItem.with_quantity item q)) with q by reflexivity.
  destruct (Z.gtb_spec q (Product.stock p)); [lia|].
  unfold CartItem_super_save, bind, get_db, put_db, ret.
  replace (CartItem.id (CartItem.with_quantity item q))
    with (CartItem.id item) by reflexivity.
  rewrite (existsb_key_In CartItem.id item _ Hin). reflexivity.
Qed.

(** [api_cart_add] of a product that is already in the cart. *)
Lemma api_cart_add_existing (user : User.t) (pid qty : Z) (cart : Cart.t)
      (item : CartItem.t) (p : Product.t) (w : World) :
  find_product (db w) pid = Returned p ->
  objects_get "Cart" (fun c => Cart.user c =? User.id user) (carts (db w))
  = Returned cart ->
  objects_get "CartItem"
              (fun i => (CartItem.cart i =? Cart.id cart) && (CartItem.product i =? pid))
              (cart_items (db w)) = Returned item ->
  let summed := CartItem.quantity item + qty in
  (Product.stock p < qty \/ Product.stock p < summed ->
   api_cart_add user pid qty w = (Returned (json_error 400 "Insufficient stock"), w))
  /\ (qty <= Product.stock p -> summed <= Product.stock p ->
      snd (api_cart_add user pid qty w)
      = with_db w (with_cart_items
                     (db w)
                     (update_rows (fun i => CartItem.id i =? CartItem.id item)
                                  (fun _ => CartItem.with_quantity item summed)
                                  (cart_items (db w)))
                     (next_cart_item_id (db w)))).
Proof.
  intros Hp Hcart Hitem summed.
  destruct (find_product_Returned _ _ _ Hp) as [_ Hid].
  assert (Hfound : CartItem_objects_get_or_create cart (Product.id p) qty w
                   = (Returned (item, false), w))
    by (rewrite Hid; apply CartItem_get_or_create_found, Hitem).
  split.
  - intros Hover. unfold api_cart_add. apply try_except_Returned.
    rewrite (bind_Returned get_db _ w w (db w) eq_refl).
    rewrite Hp. cbn [get_object_or_404].
    rewrite (bind_Returned (lift (Returned p)) _ w w p eq_refl).
    destruct (Z.ltb_spec (Product.stock p) qty) as [Hlt|Hge]; [reflexivity|].
    rewrite (bind_Returned _ _ _ _ _ (Cart_get_or_create_found _ _ _ Hcart)).
    rewrite (bind_Returned _ _ _ _ _ Hfound).
    cbn [negb]. fold summed.
    destruct (Z.ltb_spec (Product.stock p) summed); [reflexivity | lia].
  - intros Hqty Hsum. unfold api_cart_add. rewrite try_except_world.
    rewrite (bind_Returned get_db _ w w (db w) eq_refl).
    rewrite Hp. cbn [get_object_or_404].
    rewrite (bind_Returned (lift (Returned p)) _ w w p eq_refl).
    destruct (Z.ltb_spec (Product.stock p) qty) as [Hlt|Hge]; [lia|].
    rewrite (bind_Returned _ _ _ _ _ (Cart_get_or_create_found _ _ _ Hcart)).
    rewrite (bind_Returned _ _ _ _ _ Hfound).
    cbn [negb]. fold summed.
    destruct (Z.ltb_spec (Product.stock p) summed); [lia|].
    apply objects_get_Returned in Hitem. destruct Hitem as (_ & Hin & Hlookup).
    apply andb_prop in Hlookup. destruct Hlookup as [_ Hpid]. apply Z.eqb_eq in Hpid.
    rewrite snd_bind.
    rewrite (CartItem_save_existing item summed p w Hin)
      by (rewrite ?Hpid; assumption).
    apply cart_response_world.
Qed.

(** C8.  From a shop that satisfies its invariant, no sequence of requests
    to the cart and checkout views gives a cart two items for one product.
    Adding a product that the user's cart already holds inserts no row: by
    [AddToCartView.post], when the sum of the two quantities is within the
    stock the item of the cart takes the sum and the view answers 201, and
    when it is over the stock the view answers 400 and writes nothing; by
    [api_cart_add] likewise, the item takes the sum when the request and the
    sum are within the stock, and the view answers 400 and writes nothing
    when either is over it. *)
Theorem cart_has_one_item_per_product :
  forall (w : World) (user : User.t) (data : AddToCartSerializer.request)
         (pid qty : Z) (cart : Cart.t) (item : CartItem.t) (p : Product.t),
    shop_invariant (db w) ->
    AddToCartSerializer.is_valid data w = (Returned (pid, qty), w) ->
    objects_get "Cart" (fun c => Cart.user c =? User.id user) (carts (db w))
    = Returned cart ->
    objects_get "CartItem"
                (fun i => (CartItem.cart i =? Cart.id cart)
                          && (CartItem.product i =? pid))
                (cart_items (db w)) = Returned item ->
    find_product (db w) pid = Returned p ->
    let summed := CartItem.quantity item + qty in
    let outcome := dispatch (AddToCartView_post user data) w in
    (forall ops, cart_products_unique (db (run_operations ops w)))
    /\ (summed <= Product.stock p ->
        fst outcome
        = Returned {| status_code := 201;
                      data := BodyCartItem (CartItem.with_quantity item summed) |}
        /\ cart_items (db (snd outcome))
           = update_rows (fun i => CartItem.id i =? CartItem.id item)
                         (fun _ => CartItem.with_quantity item summed)
                         (cart_items (db w))
        /\ List.length (cart_items (db (snd outcome)))
           = List.length (cart_items (db w))
        /\ In (CartItem.with_quantity item summed) (cart_items (db (snd outcome))))
    /\ (Product.stock p < summed ->
        outcome
        = (Returned {| status_code := 400;
                       data := BodyError ("Only " ++ str_Z (Product.stock p)
                                                  ++ " units available in stock.") |},
           w))
    /\ (qty <= Product.stock p -> summed <= Product.stock p ->
        cart_items (db (snd (api_cart_add user pid qty w)))
        = update_rows (fun i => CartItem.id i =? CartItem.id item)
                      (fun _ => CartItem.with_quantity item summed)
                      (cart_items (db w)))
    /\ (Product.stock p < qty \/ Product.stock p < summed ->
        api_cart_add user pid qty w
        = (Returned (json_error 400 "Insufficient stock"), w)).
Proof.
  intros w user data pid qty cart item p Hinv Hvalid Hcart Hitem Hp summed outcome.
  pose proof (add_to_cart_existing user data pid qty cart item p w
                                   Hvalid Hcart Hitem Hp) as Hrun.
  destruct (api_cart_add_existing user pid qty cart item p w Hp Hcart Hitem)
    as [Hajax_over Hajax_sum].
  fold summed in Hrun, Hajax_over, Hajax_sum.
  split; [|split; [|split; [|split]]];
    [| | | intros Hq Hs; rewrite (Hajax_sum Hq Hs); reflexivity | exact Hajax_over].
  - intros ops. apply (run_operations_invariant ops w Hinv).
  - intros Hle.
    assert (Hgt : (summed >? Product.stock p) = false)
      by (destruct (Z.gtb_spec summed (Product.stock p)); [lia | reflexivity]).
    rewrite Hgt in Hrun. subst outcome. unfold dispatch. rewrite Hrun.
    cbn [fst snd db with_db with_cart_items cart_items].
    repeat apply conj; try reflexivity.
    + apply update_rows_length.
    + apply objects_get_Returned in Hitem. destruct Hitem as (_ & Hin & _).
      unfold update_rows. apply in_map_iff. exists item.
      rewrite Z.eqb_refl. auto.
  - intros Hlt.
    assert (Hgt : (summed >? Product.stock p) = true)
      by (destruct (Z.gtb_spec summed (Product.stock p)); [reflexivity | lia]).
    rewrite Hgt in Hrun. subst outcome. unfold dispatch. rewrite Hrun. reflexivity.
Qed.

(** Alice, who has two pens in her cart: four more make six in the one item,
    by either view; nine more, eleven against a stock of ten, are refused. *)
Lemma cart_has_one_item_per_product_witness :
  map (fun i => (CartItem.product i, CartItem.quantity i))
      (cart_items (db (snd (dispatch (AddToCartView_post Fixtures.alice (Fixtures.add 1 4))
                                     Fixtures.shop_with_cart))))
  = [(1, 6); (2, 3)]
  /\ map (fun i => (CartItem.product i, CartItem.quantity i))
         (cart_items (db (snd (api_cart_add Fixtures.alice 1 4 Fixtures.shop_with_cart))))
     = [(1, 6); (2, 3)]
  /\ dispatch (AddToCartView_post Fixtures.alice (Fixtures.add 1 9))
              Fixtures.shop_with_cart
     = (Returned {| status_code := 400;
                    data := BodyError "Only 10 units available in stock." |},
        Fixtures.shop_with_cart).
Proof.
  split; [|split].
  - destruct (cart_has_one_item_per_product
                Fixtures.shop_with_cart Fixtures.alice (Fixtures.add 1 4) 1 4
                Fixtures.alice_cart
                {| CartItem.id := 1; CartItem.cart := 1; CartItem.product := 1;
                   CartItem.quantity := 2 |}
                Fixtures.pen shop_invariant_shop_with_cart
                eq_refl eq_refl eq_refl eq_refl) as (_ & Hsum & _).
    destruct Hsum as (_ & Hrows & _); [cbn; lia|].
    rewrite Hrows. reflexivity.
  - destruct (cart_has_one_item_per_product
                Fixtures.shop_with_cart Fixtures.alice (Fixtures.add 1 4) 1 4
                Fixtures.alice_cart
                {| CartItem.id := 1; CartItem.cart := 1; CartItem.product := 1;
                   CartItem.quantity := 2 |}
                Fixtures.pen shop_invariant_shop_with_cart
                eq_refl eq_refl eq_refl eq_refl) as (_ & _ & _ & Hsum & _).
    rewrite Hsum by (cbn; lia). reflexivity.
  - destruct (cart_has_one_item_per_product
                Fixtures.shop_with_cart Fixtures.alice (Fixtures.add 1 9) 1 9
                Fixtures.alice_cart
                {| CartItem.id := 1; CartItem.cart := 1; CartItem.product := 1;
                   CartItem.quantity := 2 |}
                Fixtures.pen shop_invariant_shop_with_cart
                eq_refl eq_refl eq_refl eq_refl) as (_ & _ & Hover & _).
    apply Hover. cbn. lia.
Defined.

(** * Strings and printed integers *)

Lemma append_inj_tail (a b : string) (c : ascii) :
  a ++ String c "" = b ++ String c "" -> a = b.
Proof.
  revert b. induction a as [|x a IH]; intros [|y b] H; cbn in H.
  - reflexivity.
  - inversion H as [[Hc Hr]]. destruct b; discriminate Hr.
  - inversion H as [[Hc Hr]]. destruct a; discriminate Hr.
  - inversion H as [[Hc Hr]]. f_equal. apply IH, Hr.
Qed.

Lemma has_char_append (c : ascii) (a b : string) :
  has_char c (a ++ b) = has_char c a || has_char c b.
Proof.
  induction a as [|x a IH]; [reflexivity|]. cbn. rewrite IH, orb_assoc. reflexivity.
Qed.

(** Two texts cut at the first occurrence of a character agree part by
    part. *)
Lemma split_at_char (c : ascii) (a a' b b' : string) :
  has_char c a = false -> has_char c a' = false ->
  a ++ String c b = a' ++ String c b' -> a = a' /\ b = b'.
Proof.
  revert a'. induction a as [|x a IH]; intros [|y a'] Ha Ha' H; cbn in *.
  - inversion H. auto.
  - inversion H as [[Hc Hr]]. subst y. rewrite Ascii.eqb_refl in Ha'. discriminate.
  - inversion H as [[Hc Hr]]. subst x. rewrite Ascii.eqb_refl in Ha. discriminate.
  - inversion H as [[Hc Hr]]. subst y.
    apply orb_false_iff in Ha. apply orb_false_iff in Ha'.
    destruct (IH a' (proj2 Ha) (proj2 Ha') Hr) as [-> ->]. auto.
Qed.

Lemma prefix_split_at_char (c : ascii) (a a' b' : string) :
  has_char c a = false -> has_char c a' = false ->
  String.prefix (a ++ String c "") (a' ++ String c b') = true -> a = a'.
Proof.
  revert a'. induction a as [|x a IH]; intros [|y a'] Ha Ha' H; cbn in *.
  - reflexivity.
  - destruct (ascii_dec c y) as [->|]; [|discriminate].
    rewrite Ascii.eqb_refl in Ha'. discriminate.
  - destruct (ascii_dec x c) as [->|]; [|discriminate].
    rewrite Ascii.eqb_refl in Ha. discriminate.
  - destruct (ascii_dec x y) as [->|]; [|discriminate].
    apply orb_false_iff in Ha. apply orb_false_iff in Ha'.
    f_equal. apply (IH a' (proj2 Ha) (proj2 Ha') H).
Qed.

Lemma substring_prefix (p x : string) :
  substring 0 (String.length p) (p ++ x) = p.
Proof.
  induction p as [|c p IH]; cbn.
  - destruct x; reflexivity.
  - rewrite IH. reflexivity.
Qed.

Lemma string_of_uint_digits (d : Decimal.uint) (c : ascii) :
  has_char c (NilEmpty.string_of_uint d) = true -> is_digit c = true.
Proof.
  induction d as [|d IH|d IH|d IH|d IH|d IH|d IH|d IH|d IH|d IH|d IH]; cbn [NilEmpty.string_of_uint has_char];
    [discriminate|..];
    (intros H; apply orb_prop in H; destruct H as [H|H];
     [apply Ascii.eqb_eq in H; subst c; reflexivity | apply IH, H]).
Qed.

Lemma str_Z_chars (z : Z) (c : ascii) :
  has_char c (str_Z z) = true -> is_digit c = true \/ c = "-"%char.
Proof.
  unfold str_Z, NilZero.string_of_int.
  assert (Hu : forall d, has_char c (NilZero.string_of_uint d) = true -> is_digit c = true).
  { intros d. unfold NilZero.string_of_uint. destruct d; try apply string_of_uint_digits.
    cbn [has_char]. intros H. apply orb_prop in H. destruct H as [H|H]; [|discriminate].
    apply Ascii.eqb_eq in H. subst c. reflexivity. }
  destruct (Z.to_int z) as [d|d].
  - intros H. left. apply (Hu d H).
  - cbn [has_char]. intros H. apply orb_prop in H. destruct H as [H|H].
    + right. apply Ascii.eqb_eq in H. symmetry. exact H.
    + left. apply (Hu d H).
Qed.

Lemma str_Z_no_colon (z : Z) : has_char ":" (str_Z z) = false.
Proof.
  destruct (has_char ":" (str_Z z)) eqn:E; [|reflexivity].
  apply str_Z_chars in E. destruct E as [E|E]; discriminate E.
Qed.

(** A printed integer starts with a digit or the sign. *)
Lemma str_Z_head (z : Z) :
  exists c r, str_Z z = String c r /\ (is_digit c = true \/ c = "-"%char).
Proof.
  assert (H : exists c r, str_Z z = String c r).
  { unfold str_Z, NilZero.string_of_int, NilZero.string_of_uint.
    destruct (Z.to_int z) as [d|d]; [|eauto].
    destruct d; cbn; eauto. }
  destruct H as (c & r & E). exists c, r. split; [exact E|].
  apply (str_Z_chars z). rewrite E. cbn. rewrite Ascii.eqb_refl. reflexivity.
Qed.

Lemma to_int_proper (z : Z) : Z.to_int z <> Decimal.Pos Decimal.Nil
                              /\ Z.to_int z <> Decimal.Neg Decimal.Nil.
Proof.
  destruct z as [|p|p]; cbn; split; try discriminate;
    intros H; inversion H as [Hp]; apply (DecimalPos.Unsigned.to_uint_nonnil p Hp).
Qed.

Lemma str_Z_inj (a b : Z) : str_Z a = str_Z b -> a = b.
Proof.
  unfold str_Z. intros H.
  apply DecimalZ.to_int_inj.
  assert (Ha := NilZero.isi (Z.to_int a) (proj1 (to_int_proper a)) (proj2 (to_int_proper a))).
  assert (Hb := NilZero.isi (Z.to_int b) (proj1 (to_int_proper b)) (proj2 (to_int_proper b))).
  rewrite H in Ha. rewrite Ha in Hb. inversion Hb. reflexivity.
Qed.

(** * The keys of the cached responses *)

Lemma user_orders_eq (user_id : Z) (page : string) :
  CacheKeys.user_orders user_id page
  = "user:orders:" ++ (str_Z user_id ++ String ":" ("page_" ++ page)).
Proof. reflexivity. Qed.

Lemma OrderDetailView_cache_key_eq (user_id : Z) (order_number : string) :
  OrderDetailView_cache_key user_id order_number
  = "order:detail:" ++ (str_Z user_id ++ String ":" order_number).
Proof. reflexivity. Qed.

(** X1.  The keys under which [OrderListView] and [OrderDetailView] store
    their responses name their user: two keys of [CacheKeys.user_orders] are
    equal only for the same user and the same page, two keys of the detail
    view only for the same user and the same order number, and a key of one
    view is never a key of the other. *)
Theorem order_cache_keys_name_their_user :
  forall (u u' : Z) (page page' number number' : string),
    (CacheKeys.user_orders u page = CacheKeys.user_orders u' page' ->
     u = u' /\ page = page')
    /\ (OrderDetailView_cache_key u number = OrderDetailView_cache_key u' number' ->
        u = u' /\ number = number')
    /\ CacheKeys.user_orders u page <> OrderDetailView_cache_key u' number.
Proof.
  intros u u' page page' number number'. repeat apply conj.
  - rewrite !user_orders_eq. intros H. inversion H as [H0].
    destruct (split_at_char ":" _ _ _ _ (str_Z_no_colon u) (str_Z_no_colon u') H0)
      as [Hu Hp].
    split; [apply str_Z_inj, Hu | inversion Hp; reflexivity].
  - rewrite !OrderDetailView_cache_key_eq. intros H. inversion H as [H0].
    destruct (split_at_char ":" _ _ _ _ (str_Z_no_colon u) (str_Z_no_colon u') H0)
      as [Hu Hp].
    split; [apply str_Z_inj, Hu | exact Hp].
  - rewrite user_orders_eq, OrderDetailView_cache_key_eq. discriminate.
Qed.

(** Alice's first page of orders is stored under a key that is not Bob's,
    and not under the key of any order detail. *)
Lemma order_cache_keys_name_their_user_witness :
  CacheKeys.user_orders 7 "1" = "user:orders:7:page_1"
  /\ CacheKeys.user_orders 7 "1" <> CacheKeys.user_orders 8 "1"
  /\ OrderDetailView_cache_key 7 "ORD-000001" <> OrderDetailView_cache_key 8 "ORD-000001".
Proof.
  split; [reflexivity|]. split.
  - intros H.
    destruct (proj1 (order_cache_keys_name_their_user 7 8 "1" "1" "" "") H) as [Hu _].
    discriminate Hu.
  - intros H.
    destruct (proj1 (proj2 (order_cache_keys_name_their_user
                              7 8 "" "" "ORD-000001" "ORD-000001")) H) as [Hu _].
    discriminate Hu.
Defined.
Lemma product_list_head (page : string) (category search : option string)
      (filters : list (string * Cache.arg)) :
  exists rest,
    CacheKeys.product_list page category search filters
    = "api" ++ String ":" ("product_list:page_" ++ rest).
Proof.
  unfold CacheKeys.product_list, Cache.generate_key.
  cbn [map app Cache.sorted_items].
  rewrite app_nil_r.
  change (dict_get Cache.PREFIXES "api" "api") with "api".
  cbn [Cache.positional_part String.concat].
  match goal with
  | |- context [match ?l with [] => _ | _ :: _ => _ end] => destruct l
  end.
  - exists page. reflexivity.
  - eexists. cbn. reflexivity.
Qed.

(** X2.  Every key of [CacheKeys.product_list] starts with
    'api:product_list:page_'; the only group whose pattern, the group's name
    followed by ':*', has its literal part at the head of such a key is
    'api'. *)
Theorem product_list_key_is_in_group_api :
  forall (page : string) (category search : option string)
         (filters : list (string * Cache.arg)) (group : string),
    let key := CacheKeys.product_list page category search filters in
    String.prefix "api:product_list:page_" key = true
    /\ (has_char ":" group = false ->
        String.prefix (group ++ ":") key = true -> group = "api").
Proof.
  intros page category search filters group key.
  destruct (product_list_head page category search filters) as (rest & E).
  subst key. rewrite E. split; [destruct rest; reflexivity|].
  intros Hgroup Hprefix.
  apply (prefix_split_at_char ":" group "api" _ Hgroup eq_refl Hprefix).
Qed.

Lemma product_list_key_is_in_group_api_witness :
  String.prefix "product:" (CacheKeys.product_list "1" None (Some "pen") []) = false
  /\ String.prefix "category:" (CacheKeys.product_list "1" None (Some "pen") []) = false
  /\ String.prefix "search:" (CacheKeys.product_list "1" None (Some "pen") []) = false.
Proof.
  assert (H : forall group, has_char ":" group = false -> group <> "api" ->
                            String.prefix (group ++ ":")
                                          (CacheKeys.product_list "1" None (Some "pen") [])
                            = false).
  { intros group Hc Hne.
    destruct (String.prefix (group ++ ":")
                            (CacheKeys.product_list "1" None (Some "pen") [])) eqn:E;
      [|reflexivity].
    exfalso. apply Hne.
    apply (proj2 (product_list_key_is_in_group_api "1" None (Some "pen") [] group) Hc E). }
  repeat apply conj.
  - apply (H "product"); [reflexivity | discriminate].
  - apply (H "category"); [reflexivity | discriminate].
  - apply (H "search"); [reflexivity | discriminate].
Defined.

Lemma prefix_str_Z_letter (z : Z) (tail rest : string) (x : ascii) :
  is_digit x = false -> x <> "-"%char ->
  String.prefix (str_Z z ++ tail) (String x rest) = false.
Proof.
  intros Hd Hs. destruct (str_Z_head z) as (c & r & -> & Hc).
  cbn. destruct (ascii_dec c x) as [->|]; [|reflexivity].
  destruct Hc as [Hc|Hc]; [rewrite Hc in Hd; discriminate | contradiction].
Qed.

Lemma prefix_after (p s t : string) :
  String.prefix s t = false -> String.prefix (p ++ s) (p ++ t) = false.
Proof.
  intros H. induction p as [|c p IH]; [exact H|].
  cbn. destruct (ascii_dec c c) as [_|Hc]; [exact IH | contradiction].
Qed.

Lemma literal_of_pattern (a literal : string) :
  a ++ "*" = literal ++ "*" -> literal = a.
Proof. intros H. symmetry. apply (append_inj_tail _ _ _ H). Qed.

(** X3.  No pattern that [order_post_save] hands to [delete_pattern] has
    its literal part, the text before the final star, at the head of a key
    under which [OrderListView] or [OrderDetailView] stores a response. *)
Theorem order_post_save_patterns_miss_view_keys :
  forall (instance : Order.t) (created : bool) (pattern literal : string)
         (u : Z) (page number : string),
    In pattern (deleted_patterns instance created) ->
    pattern = literal ++ "*" ->
    String.prefix literal (CacheKeys.user_orders u page) = false
    /\ String.prefix literal (OrderDetailView_cache_key u number) = false.
Proof.
  intros instance created pattern literal u page number Hin Hlit.
  rewrite user_orders_eq, OrderDetailView_cache_key_eq.
  assert (Hcases :
            literal = "user:" ++ (str_Z (User.id (Order.user instance)) ++ ":orders:")
            \/ literal = "order:" ++ (str_Z (Order.id instance) ++ ":")
            \/ literal = "orders:admin:"
            \/ literal = "user:" ++ (str_Z (User.id (Order.user instance)) ++ ":cart:")).
  { unfold deleted_patterns, cache_calls in Hin.
    assert (Hin' : In pattern
                      ["user:" ++ str_Z (User.id (Order.user instance)) ++ ":orders:*";
                       "order:" ++ str_Z (Order.id instance) ++ ":*";
                       "orders:admin:*";
                       "user:" ++ str_Z (User.id (Order.user instance)) ++ ":cart:*"]).
    { destruct created; cbn [flat_map app] in Hin; cbn [In] in *; intuition. }
    clear Hin. cbn [In] in Hin'. subst pattern.
    destruct Hin' as [H|[H|[H|[H|[]]]]].
    - left. apply literal_of_pattern. rewrite <- H, !append_assoc. reflexivity.
    - right. left. apply literal_of_pattern. rewrite <- H, !append_assoc. reflexivity.
    - right. right. left. apply literal_of_pattern. rewrite <- H. reflexivity.
    - right. right. right. apply literal_of_pattern.
      rewrite <- H, !append_assoc. reflexivity. }
  destruct Hcases as [-> | [-> | [-> | ->]]]; split; try reflexivity.
  - apply (prefix_after "user:" _ ("orders:" ++ _)).
    apply prefix_str_Z_letter; [reflexivity | discriminate].
  - apply (prefix_after "order:" _ ("detail:" ++ _)).
    apply prefix_str_Z_letter; [reflexivity | discriminate].
  - apply (prefix_after "user:" _ ("orders:" ++ _)).
    apply prefix_str_Z_letter; [reflexivity | discriminate].
Qed.

(** Order 1 of Alice is updated: the patterns deleted are not at the head
    of the key of her first page of orders. *)
Lemma order_post_save_patterns_miss_view_keys_witness :
  deleted_patterns Fixtures.order_1 false
  = ["user:7:orders:*"; "order:1:*"; "orders:admin:*"]
  /\ String.prefix "user:7:orders:" (CacheKeys.user_orders 7 "1") = false
  /\ String.prefix "order:1:" (OrderDetailView_cache_key 7 "ORD-000001") = false.
Proof.
  split; [reflexivity|]. split.
  - apply (order_post_save_patterns_miss_view_keys
             Fixtures.order_1 false "user:7:orders:*" "user:7:orders:" 7 "1" "");
      [left; reflexivity | reflexivity].
  - apply (order_post_save_patterns_miss_view_keys
             Fixtures.order_1 false "order:1:*" "order:1:" 7 "" "ORD-000001");
      [right; left; reflexivity | reflexivity].
Defined.

(** * Cut arguments *)

Lemma str_slice_to_prefix (p x : string) :
  at_character x = true -> str_slice_to (str_len p) (p ++ x) = p.
Proof.
  intros Hx. induction p as [|c p IH].
  - cbn [append str_len]. destruct x as [|d x]; [reflexivity|].
    cbn [at_character] in Hx. cbn [str_slice_to].
    destruct (is_continuation d); [discriminate Hx | reflexivity].
  - cbn [append str_len str_slice_to].
    destruct (is_continuation c); rewrite IH; reflexivity.
Qed.

Lemma str_slice_to_50_prefix (p x : string) :
  str_len p = 50%nat -> at_character x = true -> str_slice_to 50 (p ++ x) = p.
Proof. intros <-. apply str_slice_to_prefix. Qed.

Lemma truthy_long (p x : string) :
  str_len p = 50%nat -> CacheKeys.truthy (Some (p ++ x)) = true.
Proof. intros H. destruct p; [discriminate H | reflexivity]. Qed.

(** X4.  The keys of the product listing and of the search results keep the
    first 50 characters of the search text only, characters counted as
    [len] counts them: two searches that agree on them, whatever follows,
    are stored under one key. *)
Theorem search_text_is_cut_in_cache_keys :
  forall (p x y page : string) (category : option string)
         (filters : list (string * Cache.arg)),
    str_len p = 50%nat ->
    at_character x = true ->
    at_character y = true ->
    CacheKeys.product_list page category (Some (p ++ x)) filters
    = CacheKeys.product_list page category (Some (p ++ y)) filters
    /\ CacheKeys.search_results (p ++ x) page filters
       = CacheKeys.search_results (p ++ y) page filters.
Proof.
  intros p x y page category filters Hp Hx Hy.
  unfold CacheKeys.product_list, CacheKeys.search_results.
  rewrite !(truthy_long p) by exact Hp.
  rewrite (str_slice_to_50_prefix p x Hp Hx), (str_slice_to_50_prefix p y Hp Hy).
  split; reflexivity.
Qed.

(** Two searches for fifty times the letter e acute, a hundred bytes,
    followed by 'pen' and by 'ink', share their key; after twenty-five of
    them, fifty bytes, the keys differ. *)
Lemma search_text_is_cut_in_cache_keys_witness :
  CacheKeys.product_list "1" None (Some (e_acutes 50 ++ "pen")) []
  = CacheKeys.product_list "1" None (Some (e_acutes 50 ++ "ink")) []
  /\ (e_acutes 50 ++ "pen") <> (e_acutes 50 ++ "ink")
  /\ String.length (e_acutes 25) = 50%nat
  /\ CacheKeys.search_results (e_acutes 25 ++ "pen") "1" []
     <> CacheKeys.search_results (e_acutes 25 ++ "ink") "1" [].
Proof.
  split; [|split; [|split]].
  - apply (proj1 (search_text_is_cut_in_cache_keys
                    (e_acutes 50) "pen" "ink" "1" None [] eq_refl eq_refl eq_refl)).
  - vm_compute. discriminate.
  - reflexivity.
  - vm_compute. discriminate.
Defined.

(** * [get_or_set] and [cache_result] *)

Section GetOrSet.

Context {S V : Type}.
Variable cache : Cache.Backend S (option V).

Lemma Cache_get_outcome (key : string) (s : S) :
  (exists v, Cache.get cache key None s = Returned (v, s)
             /\ (Cache.backend_get cache key None s = Returned v
                 \/ v = None /\ exists e, Cache.backend_get cache key None s = Raised e
                                          /\ is_Exception e = true))
  \/ (exists e, Cache.get cache key None s = Raised e /\ is_Exception e = false).
Proof.
  unfold Cache.get, Cache.try_except.
  destruct (Cache.backend_get cache key None s) as [v|e].
  - left. exists v. auto.
  - destruct (is_Exception e) eqn:E.
    + left. exists None. split; [reflexivity|]. right. eauto.
    + right. eauto.
Qed.

Lemma Cache_set_outcome (key : string) (value : option V)
      (timeout : Cache.timeout_arg) (s : S) :
  (exists b s', Cache.set cache key value timeout s = Returned (b, s'))
  \/ (exists e, Cache.set cache key value timeout s = Raised e /\ is_Exception e = false).
Proof.
  unfold Cache.set, Cache.try_except.
  destruct (Cache.backend_set cache key value (Cache.resolve_timeout timeout) s) as [s'|e].
  - left. eauto.
  - destruct (is_Exception e) eqn:E; [left | right]; eauto.
Qed.

End GetOrSet.

(** X5.  [get_or_set] lets no [Exception] through, of the backend or of
    [func]: what it raises is not an [Exception].  When the backend holds a
    value under the key it returns that value and leaves the cache as it
    was, whatever [func] would do.  When [func] raises an [Exception] on a
    miss it returns [None], as when [func] returns [None]; and when [func]
    returns a value on a miss, that value is what it returns. *)
Theorem get_or_set_swallows_failures :
  forall (S V : Type) (cache : Cache.Backend S (option V)) (key : string)
         (func : pyres (option V)) (timeout : Cache.timeout_arg) (s : S),
    let outcome := CacheManager.get_or_set cache key func timeout s in
    (forall e, outcome = Raised e -> is_Exception e = false)
    /\ (forall v, Cache.backend_get cache key None s = Returned (Some v) ->
                  outcome = Returned (Some v, s))
    /\ (forall e, Cache.backend_get cache key None s = Returned None ->
                  func = Raised e -> is_Exception e = true ->
                  outcome = Returned (None, s))
    /\ (forall value r s', Cache.backend_get cache key None s = Returned None ->
                           func = Returned value ->
                           outcome = Returned (r, s') -> r = value).
Proof.
  intros S V cache key func timeout s outcome. subst outcome.
  unfold CacheManager.get_or_set. repeat apply conj.
  - intros e.
    destruct (Cache_get_outcome cache key s) as [(v & -> & _) | (e0 & -> & He0)].
    + destruct v as [v|]; [discriminate|].
      destruct func as [value|e1].
      * destruct (Cache_set_outcome cache key value timeout s)
          as [(b & s' & ->) | (e2 & -> & He2)]; [discriminate|].
        rewrite He2. intros H. inversion H; subst. exact He2.
      * destruct (is_Exception e1) eqn:E; [discriminate|].
        intros H. inversion H; subst. exact E.
    + intros H. inversion H; subst. exact He0.
  - intros v Hget. unfold Cache.get, Cache.try_except. rewrite Hget. reflexivity.
  - intros e Hget -> He. unfold Cache.get, Cache.try_except. rewrite Hget, He.
    reflexivity.
  - intros value r s' Hget ->. unfold Cache.get at 1, Cache.try_except at 1.
    rewrite Hget.
    destruct (Cache_set_outcome cache key value timeout s)
      as [(b & s1 & ->) | (e2 & -> & He2)].
    + intros H. inversion H. reflexivity.
    + rewrite He2. discriminate.
Qed.

(** A cache that holds 5 under 'k': a failing [func] is not even looked
    at; on an empty cache its failure comes back as [None]. *)
Lemma get_or_set_swallows_failures_witness :
  CacheManager.get_or_set (Fixtures.memory_backend (option Z)) "k"
                          (Raised (ValueError "boom")) (Cache.Tier "short")
                          [("k", (Some 5, 300))]
  = Returned (Some 5, [("k", (Some 5, 300))])
  /\ CacheManager.get_or_set (Fixtures.memory_backend (option Z)) "k"
                             (Raised (ValueError "boom")) (Cache.Tier "short") []
     = Returned (None, []).
Proof.
  split.
  - apply (proj1 (proj2 (get_or_set_swallows_failures
                           (Fixtures.store (option Z)) Z
                           (Fixtures.memory_backend (option Z)) "k"
                           (Raised (ValueError "boom")) (Cache.Tier "short")
                           [("k", (Some 5, 300))]))).
    reflexivity.
  - apply (proj1 (proj2 (proj2 (get_or_set_swallows_failures
                                  (Fixtures.store (option Z)) Z
                                  (Fixtures.memory_backend (option Z)) "k"
                                  (Raised (ValueError "boom")) (Cache.Tier "short")
                                  []))) (ValueError "boom")); reflexivity.
Defined.

(** X6.  The key that the wrapper of [cache_result] builds by default keeps
    the first 50 characters of an argument's text only, characters counted
    as [len] counts them.  So a call whose
    argument agrees on them with the argument of a stored call is answered
    with the stored result, without calling the function.  On a miss an
    exception of the function comes out of the wrapper as it is. *)
Theorem cache_result_key_is_cut :
  forall (S V : Type) (cache : Cache.Backend S (option V))
         (timeout : Cache.timeout_arg) (func_name : string)
         (func : list Cache.arg -> list (string * Cache.arg) -> pyres (option V))
         (p x y : string) (kwargs : list (string * Cache.arg)) (s : S),
    str_len p = 50%nat ->
    at_character x = true ->
    at_character y = true ->
    let key_x := CacheManager.default_cache_key func_name [Cache.AValue (p ++ x)] kwargs in
    let key_y := CacheManager.default_cache_key func_name [Cache.AValue (p ++ y)] kwargs in
    let call_y := CacheManager.cache_result cache timeout None func_name func
                                            [Cache.AValue (p ++ y)] kwargs s in
    key_x = key_y
    /\ (forall v, Cache.backend_get cache key_x None s = Returned (Some v) ->
                  call_y = Returned (Some v, s))
    /\ (forall e, Cache.backend_get cache key_y None s = Returned None ->
                  func [Cache.AValue (p ++ y)] kwargs = Raised e ->
                  call_y = Raised e).
Proof.
  intros S V cache timeout func_name func p x y kwargs s Hp Hx Hy key_x key_y call_y.
  assert (Hkey : key_x = key_y).
  { subst key_x key_y. unfold CacheManager.default_cache_key. cbn [map].
    rewrite (str_slice_to_50_prefix p x Hp Hx), (str_slice_to_50_prefix p y Hp Hy).
    reflexivity. }
  split; [exact Hkey|]. subst call_y. unfold CacheManager.cache_result.
  fold key_y. split.
  - intros v Hget. rewrite Hkey in Hget.
    unfold Cache.get, Cache.try_except. rewrite Hget. reflexivity.
  - intros e Hget Hfunc. unfold Cache.get, Cache.try_except.
    rewrite Hget, Hfunc. reflexivity.
Qed.

(** The price of a product by its description: the stored price of one
    description is served for another that starts with the same fifty
    characters, here fifty times the letter e acute, a hundred bytes. *)
Lemma cache_result_key_is_cut_witness :
  let key := CacheManager.default_cache_key
               "price" [Cache.AValue (e_acutes 50 ++ "pen")] [] in
  CacheManager.cache_result (Fixtures.memory_backend (option Z)) (Cache.Tier "medium")
                            None "price" (fun _ _ => Returned (Some 999))
                            [Cache.AValue (e_acutes 50 ++ "ink")] []
                            [(key, (Some 150, 1800))]
  = Returned (Some 150, [(key, (Some 150, 1800))]).
Proof.
  intros key.
  apply (proj1 (proj2 (cache_result_key_is_cut
                         (Fixtures.store (option Z)) Z
                         (Fixtures.memory_backend (option Z)) (Cache.Tier "medium")
                         "price" (fun _ _ => Returned (Some 999))
                         (e_acutes 50) "pen" "ink" []
                         [(key, (Some 150, 1800))] eq_refl eq_refl eq_refl))).
  vm_compute. reflexivity.
Defined.

(** * The transitions of the single-order endpoint *)

Lemma status_choice_cases (value : string) :
  str_mem value (map fst Order.STATUS_CHOICES) = true ->
  value = "pending" \/ value = "processing" \/ value = "shipped"
  \/ value = "delivered" \/ value = "cancelled" \/ value = "refunded".
Proof.
  unfold str_mem. cbn [map fst Order.STATUS_CHOICES existsb]. intros H.
  repeat (apply orb_prop in H; destruct H as [H|H];
          [apply String.eqb_eq in H; tauto|]).
  discriminate H.
Qed.

Lemma transition_allowed_choice (current value : string) :
  str_mem value (map fst Order.STATUS_CHOICES) = true ->
  (UpdateOrderStatusSerializer.transition_allowed current value = true
   <-> (current = "pending" /\ value = "cancelled")
       \/ (current = "confirmed" /\ (value = "shipped" \/ value = "cancelled"))
       \/ (current = "shipped" /\ value = "delivered")).
Proof.
  intros Hchoice. apply status_choice_cases in Hchoice.
  unfold UpdateOrderStatusSerializer.transition_allowed,
    UpdateOrderStatusSerializer.allowed_transitions.
  cbn [dict_get].
  repeat match goal with
         | |- context [String.eqb ?a current] =>
           destruct (String.eqb_spec a current); [subst current|]
         end;
    destruct Hchoice as [-> | [-> | [-> | [-> | [-> | ->]]]]];
    (split; [intros H; try discriminate H; auto 6
            | intros [[H1 H2]|[[H1 [H2|H2]]|[H1 H2]]];
              try discriminate; try congruence; reflexivity]).
Qed.

(** The [notes] field of the status serializers has no bound and allows
    blanks: the one thing it refuses is a null character. *)
Lemma notes_field_outcome (data : option string) :
  match CharField_run_validation UpdateOrderStatusSerializer.notes_field data with
  | CharFieldErrors msgs =>
    msgs = ["Null characters are not allowed."]
    /\ exists raw, data = Some raw /\ str_in null_character raw = true
  | CharFieldSkipped => data = None
  | CharFieldValue value =>
    exists raw, data = Some raw /\ value = strip raw
                /\ str_in null_character raw = false
  end.
Proof.
  unfold CharField_run_validation, UpdateOrderStatusSerializer.notes_field,
    CharField_run_validators.
  cbn [required allow_blank max_length app].
  destruct data as [raw|]; [|reflexivity].
  pose proof (strip_keeps_null raw) as Hnull.
  destruct (String.eqb_spec (strip raw) "") as [E|_].
  - exists raw. rewrite <- Hnull, E. repeat split; reflexivity.
  - destruct (str_in null_character (strip raw)).
    + split; [reflexivity|]. exists raw. split; [reflexivity | symmetry; exact Hnull].
    + exists raw. repeat split. symmetry. exact Hnull.
Qed.

(** The notes of a request hold no null character. *)
Lemma notes_accepted_iff (data : payload) :
  (forall msgs, CharField_run_validation UpdateOrderStatusSerializer.notes_field
                                         (payload_get data "notes")
                <> CharFieldErrors msgs)
  <-> (forall notes, payload_get data "notes" = Some notes ->
                     str_in null_character notes = false).
Proof.
  pose proof (notes_field_outcome (payload_get data "notes")) as H.
  destruct (CharField_run_validation UpdateOrderStatusSerializer.notes_field
                                     (payload_get data "notes")) as [msgs| |value].
  - destruct H as (_ & raw & E & Hnull). split.
    + intros Hno. exfalso. apply (Hno msgs). reflexivity.
    + intros Hok. rewrite (Hok raw E) in Hnull. discriminate Hnull.
  - split; [|discriminate]. intros _ notes E. rewrite H in E. discriminate E.
  - destruct H as (raw & E & _ & Hnull). split; [|discriminate].
    intros _ notes E'. rewrite E in E'. inversion E'; subst notes. exact Hnull.
Qed.

(** What [is_valid] of the single-order serializer accepts. *)
Lemma status_is_valid_iff (order : Order.t) (data : payload) :
  (exists validated_data,
      UpdateOrderStatusSerializer.is_valid order data = Returned validated_data)
  <-> (exists new_status,
          payload_get data "status" = Some new_status
          /\ ((Order.status order = "pending" /\ new_status = "cancelled")
              \/ (Order.status order = "confirmed"
                  /\ (new_status = "shipped" \/ new_status = "cancelled"))
              \/ (Order.status order = "shipped" /\ new_status = "delivered")))
      /\ (forall notes, payload_get data "notes" = Some notes ->
                        str_in null_character notes = false).
Proof.
  rewrite <- notes_accepted_iff.
  unfold UpdateOrderStatusSerializer.is_valid, UpdateOrderStatusSerializer.status_field,
    UpdateOrderStatusSerializer.validate_status.
  destruct (payload_get data "status") as [value|].
  - destruct (str_mem value (map fst Order.STATUS_CHOICES)) eqn:Hchoice.
    + pose proof (transition_allowed_choice (Order.status order) value Hchoice) as Ht.
      destruct (UpdateOrderStatusSerializer.transition_allowed
                  (Order.status order) value); cbn [negb].
      * destruct (CharField_run_validation UpdateOrderStatusSerializer.notes_field
                                           (payload_get data "notes")) as [msgs| |n].
        -- split; [intros (vd & H); discriminate H|].
           intros (_ & Hno). exfalso. apply (Hno msgs). reflexivity.
        -- split; [|eauto]. intros _. split; [|discriminate].
           exists value. split; [reflexivity | apply Ht; reflexivity].
        -- split; [|eauto]. intros _. split; [|discriminate].
           exists value. split; [reflexivity | apply Ht; reflexivity].
      * split.
        -- intros (vd & H).
           destruct (CharField_run_validation UpdateOrderStatusSerializer.notes_field
                                              (payload_get data "notes"));
             discriminate H.
        -- intros ((new_status & Hs & Hpair) & _). inversion Hs; subst new_status.
           apply Ht in Hpair. discriminate Hpair.
    + split.
      * intros (vd & H).
        destruct (CharField_run_validation UpdateOrderStatusSerializer.notes_field
                                           (payload_get data "notes"));
          discriminate H.
      * intros ((new_status & Hs & Hpair) & _). inversion Hs; subst value.
        destruct Hpair as [[_ ->] | [[_ [-> | ->]] | [_ ->]]]; discriminate Hchoice.
  - split.
    + intros (vd & H).
      destruct (CharField_run_validation UpdateOrderStatusSerializer.notes_field
                                         (payload_get data "notes"));
        discriminate H.
    + intros ((new_status & Hs & _) & _). discriminate Hs.
Qed.

(** What [is_valid] of the single-order serializer raises is a validation
    error. *)
Lemma status_is_valid_Raised (order : Order.t) (data : payload) (e : exn) :
  UpdateOrderStatusSerializer.is_valid order data = Raised e ->
  exists detail, e = ValidationError detail.
Proof.
  unfold UpdateOrderStatusSerializer.is_valid. intros E.
  assert (Hfield : UpdateOrderStatusSerializer.status_field order data <> FieldSkipped).
  { unfold UpdateOrderStatusSerializer.status_field.
    destruct (payload_get data "status") as [s|]; [|discriminate].
    destruct (str_mem s (map fst Order.STATUS_CHOICES)); [|discriminate].
    destruct (UpdateOrderStatusSerializer.validate_status order s); discriminate. }
  destruct (UpdateOrderStatusSerializer.status_field order data) as [e1| |s];
    [| contradiction |];
    destruct (CharField_run_validation UpdateOrderStatusSerializer.notes_field
                                       (payload_get data "notes")) as [e2| |n];
    inversion E; subst; eauto.
Qed.

(** X7.  The single-order endpoint accepts a request exactly when its
    status is one of the choices, the table allows it from the order's
    status (pending to cancelled, shipped to delivered, and from
    'confirmed', a status no choice field lets in, to shipped or cancelled)
    and its notes, if it has any, hold no null character.  The entries of
    the table that lead to 'confirmed' or 'returned' are never used, because
    the choice field refuses those two.  So an order whose status is one of
    the choices can only go from pending to cancelled or from shipped to
    delivered, and an order that is 'processing' is refused every status,
    'cancelled' too, although [can_be_cancelled] holds for it. *)
Theorem single_update_accepted_transitions :
  forall (order : Order.t) (data : payload),
    let current := Order.status order in
    ((exists validated_data,
         UpdateOrderStatusSerializer.is_valid order data = Returned validated_data)
     <-> (exists new_status,
             payload_get data "status" = Some new_status
             /\ ((current = "pending" /\ new_status = "cancelled")
                 \/ (current = "confirmed"
                     /\ (new_status = "shipped" \/ new_status = "cancelled"))
                 \/ (current = "shipped" /\ new_status = "delivered")))
         /\ (forall notes, payload_get data "notes" = Some notes ->
                           str_in null_character notes = false))
    /\ (str_mem current (map fst Order.STATUS_CHOICES) = true ->
        forall validated_data,
          UpdateOrderStatusSerializer.is_valid order data = Returned validated_data ->
          (current = "pending" /\ payload_get data "status" = Some "cancelled")
          \/ (current = "shipped" /\ payload_get data "status" = Some "delivered"))
    /\ (current = "processing" ->
        Order_can_be_cancelled order = true
        /\ exists detail,
            UpdateOrderStatusSerializer.is_valid order data
            = Raised (ValidationError detail)).
Proof.
  intros order data current.
  pose proof (status_is_valid_iff order data) as Hiff. fold current in Hiff.
  split; [exact Hiff|]. split.
  - intros Hchoice vd Hvalid.
    destruct (proj1 Hiff (ex_intro _ vd Hvalid)) as ((new_status & Hs & Hpair) & _).
    destruct Hpair as [[H ->] | [[H _] | [H ->]]]; auto.
    rewrite H in Hchoice. discriminate Hchoice.
  - intros Hstatus.
    split; [unfold Order_can_be_cancelled; fold current; rewrite Hstatus; reflexivity|].
    destruct (UpdateOrderStatusSerializer.is_valid order data) as [vd|e] eqn:E.
    + exfalso. destruct (proj1 Hiff (ex_intro _ vd eq_refl))
        as ((new_status & _ & [[H _]|[[H _]|[H _]]]) & _);
        rewrite Hstatus in H; discriminate H.
    + destruct (status_is_valid_Raised _ _ _ E) as (detail & ->). eauto.
Qed.

(** Order 1 is pending: cancelling it is accepted, with notes or without,
    shipping it is not, and cancelling it with a null character in the
    notes is not either. *)
Lemma single_update_accepted_transitions_witness :
  UpdateOrderStatusSerializer.is_valid Fixtures.order_1 [("status", "cancelled")]
  = Returned [("status", "cancelled")]
  /\ (exists validated_data,
         UpdateOrderStatusSerializer.is_valid
           Fixtures.order_1 [("status", "cancelled"); ("notes", " by phone ")]
         = Returned validated_data)
  /\ (forall validated_data,
         UpdateOrderStatusSerializer.is_valid Fixtures.order_1 [("status", "shipped")]
         <> Returned validated_data)
  /\ UpdateOrderStatusSerializer.is_valid
       Fixtures.order_1 [("status", "cancelled"); ("notes", "by" ++ null_character)]
     = Raised (ValidationError [("notes", "Null characters are not allowed.")]).
Proof.
  split; [reflexivity|]. split; [|split; [|reflexivity]].
  - apply (proj1 (single_update_accepted_transitions
                    Fixtures.order_1 [("status", "cancelled"); ("notes", " by phone ")])).
    split.
    + exists "cancelled". split; [reflexivity | left; split; reflexivity].
    + intros notes E. inversion E. reflexivity.
  - intros vd H.
    destruct (proj1 (proj2 (single_update_accepted_transitions
                              Fixtures.order_1 [("status", "shipped")]))
                    eq_refl vd H) as [[_ Hs]|[Hc _]]; discriminate.
Defined.

(** X8.  An order that is processing, delivered, cancelled or refunded is
    frozen for the single-order endpoint: whatever the request says, the
    view answers 400 with validation errors and writes nothing. *)
Theorem status_update_frozen_orders :
  forall (order : Order.t) (order_number : string) (data : payload) (w : World),
    objects_get "Order" (fun o => String.eqb (Order.order_number o) order_number)
                (orders (db w)) = Returned order ->
    str_mem (Order.status order) ["processing"; "delivered"; "cancelled"; "refunded"]
    = true ->
    exists detail,
      dispatch (UpdateOrderStatusView_patch order_number data) w
      = (Returned {| status_code := 400; data := BodyErrors detail |}, w).
Proof.
  intros order order_number data w Hget Hfrozen.
  unfold dispatch, UpdateOrderStatusView_patch, Order_get_object.
  unfold bind at 1. unfold bind at 1. unfold get_db at 1. rewrite Hget.
  unfold ret at 1. unfold bind at 1. unfold lift at 1.
  destruct (UpdateOrderStatusSerializer.is_valid order data) as [vd|e] eqn:E.
  - exfalso.
    destruct (proj1 (status_is_valid_iff order data) (ex_intro _ vd E))
      as ((new_status & _ & [[H _] | [[H _] | [H _]]]) & _);
      rewrite H in Hfrozen; discriminate Hfrozen.
  - destruct (status_is_valid_Raised _ _ _ E) as (detail & ->). eauto.
Qed.

(** Order 1, once delivered, cannot be moved to refunded. *)
Lemma status_update_frozen_orders_witness :
  let w := snd (api_order_status_update 1 "delivered" Fixtures.shop_after_checkout) in
  exists detail,
    dispatch (UpdateOrderStatusView_patch "ORD-000001" [("status", "refunded")]) w
    = (Returned {| status_code := 400; data := BodyErrors detail |}, w).
Proof.
  intros w.
  apply (status_update_frozen_orders
           (Order.with_status Fixtures.order_1 "delivered") "ORD-000001"
           [("status", "refunded")] w); reflexivity.
Defined.

(** * The bulk endpoint *)

Lemma Order_super_save_Raised (adding : bool) (update_fields : option (list string))
      (self : Order.t) (w w' : World) (e : exn) :
  Order_super_save adding update_fields self w = (Raised e, w') ->
  is_Exception e = true /\ w' = w.
Proof.
  unfold Order_super_save, bind, get_db, put_db, ret, raise.
  destruct adding.
  - rewrite order_post_save_run. discriminate.
  - destruct update_fields as [fields|];
      destruct (existsb (fun o => Order.id o =? Order.id self) (orders (db w)));
      rewrite ?order_post_save_run; try discriminate.
    intros H. inversion H. auto.
Qed.

Lemma Order_save_Raised (adding : bool) (update_fields : option (list string))
      (self : Order.t) (w w' : World) (e : exn) :
  Order_save adding update_fields self w = (Raised e, w') -> is_Exception e = true.
Proof.
  unfold Order_save.
  destruct (String.eqb (Order.order_number self) "").
  - unfold bind.
    destruct (Order_super_save adding update_fields self w) as [[first|e1] w1] eqn:E1.
    + destruct (String.eqb (Order.order_number first) "").
      * intros H. apply (Order_super_save_Raised _ _ _ _ _ _ H).
      * discriminate.
    + intros H. inversion H; subst. apply (Order_super_save_Raised _ _ _ _ _ _ E1).
  - intros H. apply (Order_super_save_Raised _ _ _ _ _ _ H).
Qed.

(** One turn of the loop returns: the order's key goes to the updated
    orders, or a message goes to the errors. *)
Lemma bulk_update_one_Returned (new_status notes : string) (order_id : Z)
      (acc : list Z * list string) (w : World) :
  exists acc' w',
    bulk_update_one new_status notes order_id acc w = (Returned acc', w')
    /\ ((fst acc' = (fst acc ++ [order_id])%list /\ snd acc' = snd acc)
        \/ (fst acc' = fst acc /\ exists msg, snd acc' = (snd acc ++ [msg])%list)).
Proof.
  destruct acc as [updated errors]. unfold bulk_update_one, try_except.
  match goal with
  | |- context [match ?body ?w0 with _ => _ end] =>
    destruct (body w0) as [[r|e] w1] eqn:E
  end.
  - exists r, w1. split; [reflexivity|]. left.
    apply bind_inv in E. destruct E as (d & w2 & _ & E).
    apply bind_inv in E. destruct E as (order & w3 & _ & E).
    apply bind_inv in E. destruct E as (saved & w4 & _ & E).
    apply bind_inv in E. destruct E as (u & w5 & _ & E).
    unfold ret in E. inversion E. auto.
  - assert (He : is_Exception e = true).
    { unfold bind at 1 in E. unfold get_db at 1 in E.
      unfold bind at 1 in E. unfold lift at 1 in E.
      destruct (objects_get "Order" _ (orders (db w))) as [order|e0] eqn:Hget.
      - unfold bind at 1 in E.
        destruct (Order_save false (Some ["status"; "updated_at"])
                             (Order.with_status order new_status) w)
          as [[saved|e1] w2] eqn:Hsave.
        + unfold bind in E. rewrite OrderStatusHistory_objects_create_run in E.
          discriminate E.
        + inversion E; subst. apply (Order_save_Raised _ _ _ _ _ _ Hsave).
      - assert (He0 : is_Exception e0 = true).
        { unfold objects_get in Hget.
          destruct (filter _ (orders (db w))) as [|x [|y l]]; inversion Hget;
            reflexivity. }
        inversion E; subst. exact He0. }
    rewrite He.
    destruct e; unfold ret; eexists; eexists; (split; [reflexivity|]); right;
      cbn [fst snd]; eauto.
Qed.

Lemma bulk_update_loop_Returned (new_status notes : string) (ids : list Z) :
  forall (acc : list Z * list string) (w : World),
  exists acc' w',
    bulk_update_loop new_status notes ids acc w = (Returned acc', w')
    /\ (List.length (fst acc') + List.length (snd acc')
        = List.length (fst acc) + List.length (snd acc) + List.length ids)%nat
    /\ (forall id, In id (fst acc') -> In id (fst acc) \/ In id ids).
Proof.
  induction ids as [|order_id rest IH]; intros acc w.
  - exists acc, w. cbn. repeat split; [lia | auto].
  - cbn [bulk_update_loop].
    destruct (bulk_update_one_Returned new_status notes order_id acc w)
      as (acc1 & w1 & Hone & Hacc).
    destruct (IH acc1 w1) as (acc' & w' & Hloop & Hlen & Hin).
    exists acc', w'. rewrite (bind_Returned _ _ _ _ _ Hone). split; [exact Hloop|].
    destruct Hacc as [[Hu He] | [Hu (msg & He)]]; rewrite Hu, He in *;
      rewrite ?length_app in Hlen; cbn [List.length] in *.
    + split; [lia|]. intros id Hid. destruct (Hin id Hid) as [H|H].
      * apply in_app_or in H. destruct H as [H|[<-|[]]]; [auto | right; left; reflexivity].
      * right. right. exact H.
    + split; [lia|]. intros id Hid. destruct (Hin id Hid) as [H|H];
        [auto | right; right; exact H].
Qed.

(** X9.  A bulk request with at least one key and a status that is one of
    the choices is always answered 200: an order that cannot be fetched or
    saved makes one entry in [errors] and does not stop the loop.  Every key
    of the request is accounted for once, in [updated_orders] or by a
    message in [errors], and [total_updated] is the length of
    [updated_orders]. *)
Theorem bulk_update_accounts_for_every_key :
  forall (request : bulk_request) (new_status : string) (w : World),
    order_ids request <> [] ->
    bulk_status request = Some new_status ->
    str_mem new_status (map fst Order.STATUS_CHOICES) = true ->
    exists updated_orders errors w',
      bulk_update_order_status request w
      = (Returned {| status_code := 200;
                     data := BodyBulk updated_orders errors
                                      (Z.of_nat (List.length updated_orders)) |}, w')
      /\ (List.length updated_orders + List.length errors
          = List.length (order_ids request))%nat
      /\ forall id, In id updated_orders -> In id (order_ids request).
Proof.
  intros request new_status w Hids Hstatus Hchoice.
  unfold bulk_update_order_status. rewrite Hstatus.
  destruct (order_ids request) as [|order_id rest] eqn:Eids; [contradiction|].
  assert (Hne : String.eqb new_status "" = false).
  { apply status_choice_cases in Hchoice.
    destruct Hchoice as [-> | [-> | [-> | [-> | [-> | ->]]]]]; reflexivity. }
  rewrite Hne, Hchoice. cbn [negb].
  destruct (bulk_update_loop_Returned new_status (bulk_notes request)
                                      (order_id :: rest) ([], []) w)
    as ([updated errors] & w' & Hloop & Hlen & Hin).
  exists updated, errors, w'. split.
  - unfold bind, atomic. rewrite Hloop. reflexivity.
  - cbn [fst snd List.length] in *. split; [lia|].
    intros id Hid. destruct (Hin id Hid) as [[]|H]; exact H.
Qed.

(** Orders 1 and 99 are to be cancelled: order 1 is, and order 99, which
    does not exist, is reported. *)
Lemma bulk_update_accounts_for_every_key_witness :
  fst (bulk_update_order_status
         {| order_ids := [99; 1]; bulk_status := Some "cancelled"; bulk_notes := "" |}
         Fixtures.shop_after_checkout)
  = Returned {| status_code := 200;
                data := BodyBulk [1] ["Order 99 not found"] 1 |}.
Proof.
  destruct (bulk_update_accounts_for_every_key
              {| order_ids := [99; 1]; bulk_status := Some "cancelled";
                 bulk_notes := "" |}
              "cancelled" Fixtures.shop_after_checkout)
    as (updated & errors & w' & Hrun & _); [discriminate | reflexivity | reflexivity |].
  vm_compute. reflexivity.
Defined.

(** * The AJAX status update and the notifications *)

(** X10.  [api_order_status_update], for an order of the table that has its
    number, checks nothing: whatever the text given as status, one of the
    choices or not, it answers 200 and the order's row carries that text.
    It appends no row to the status history, and [post_save] runs as for any
    update: a message to the owner's group when the channel layer works,
    none to the administrators. *)
Theorem api_order_status_update_checks_nothing :
  forall (order : Order.t) (new_status : string) (w : World),
    objects_get "Order" (fun o => Order.id o =? Order.id order) (orders (db w))
    = Returned order ->
    Order.order_number order <> "" ->
    let saved := Order.with_status order new_status in
    exists response w',
      api_order_status_update (Order.id order) new_status w = (Returned response, w')
      /\ status_code response = 200
      /\ orders (db w')
         = update_rows (fun o => Order.id o =? Order.id order) (fun _ => saved)
                       (orders (db w))
      /\ In saved (orders (db w'))
      /\ status_history (db w') = status_history (db w)
      /\ sent_since w w' = post_save_effects saved false (channel_layer w).
Proof.
  intros order new_status w Hget Hnumber saved.
  assert (Hin : In order (orders (db w)))
    by (apply objects_get_Returned in Hget; apply Hget).
  assert (Hrow : existsb (fun o => Order.id o =? Order.id saved) (orders (db w)) = true)
    by (apply (existsb_key_In Order.id order), Hin).
  pose proof (Order_super_save_rewrite saved w Hrow) as Hsave.
  rewrite <- (Order_save_numbered false None saved w Hnumber) in Hsave.
  eexists. eexists. split.
  - unfold api_order_status_update. apply try_except_Returned.
    rewrite (bind_Returned get_db _ w w (db w) eq_refl).
    rewrite Hget. cbn [get_object_or_404].
    rewrite (bind_Returned (lift (Returned order)) _ w w order eq_refl).
    fold saved. rewrite (bind_Returned _ _ _ _ _ Hsave). reflexivity.
  - cbn [status_code after_save db with_orders orders status_history effects].
    repeat apply conj; try reflexivity.
    + unfold update_rows. apply in_map_iff. exists order.
      split; [|exact Hin].
      replace (Order.id saved) with (Order.id order) by reflexivity.
      rewrite Z.eqb_refl. reflexivity.
    + unfold sent_since. cbn [effects]. apply skipn_new.
Qed.

(** Order 1 is moved to a status that is no choice at all. *)
Lemma api_order_status_update_checks_nothing_witness :
  map Order.status
      (orders (db (snd (api_order_status_update 1 "lost" Fixtures.shop_after_checkout))))
  = ["lost"]
  /\ str_mem "lost" (map fst Order.STATUS_CHOICES) = false.
Proof.
  split; [|reflexivity].
  destruct (api_order_status_update_checks_nothing
              Fixtures.order_1 "lost" Fixtures.shop_after_checkout eq_refl)
    as (response & w' & Hrun & _ & Hrows & _); [discriminate|].
  cbn [Order.id Fixtures.order_1] in Hrun. rewrite Hrun. cbn [snd].
  rewrite Hrows. reflexivity.
Defined.

(** X11.  [order_post_save] always returns and writes nothing to the
    tables.  With no channel layer it only deletes its cache patterns; with
    a working layer it first sends to the owner's group, and to the
    administrators when the order was created; with a layer whose
    [group_send] raises, the exception is swallowed and the cache patterns
    are not deleted either: nothing happens at all. *)
Theorem order_post_save_failure_skips_cache :
  forall (instance : Order.t) (created : bool) (w : World),
    exists w',
      order_post_save instance created w = (Returned tt, w')
      /\ db w' = db w
      /\ channel_layer w' = channel_layer w
      /\ (channel_layer w = ChannelLayerDown -> w' = w)
      /\ (channel_layer w = NoChannelLayer ->
          sent_since w w' = cache_calls instance created)
      /\ (channel_layer w = ChannelLayerUp ->
          sent_since w w'
          = (GroupSend (user_group instance) (notification_data instance created)
               :: (if created
                   then [GroupSend "admins" (admin_notification_data instance)]
                   else [])
               ++ cache_calls instance created)%list).
Proof.
  intros instance created w. eexists. split; [apply order_post_save_run|].
  unfold sent_since. cbn [db channel_layer effects with_effects].
  rewrite skipn_new. repeat apply conj; try reflexivity.
  - intros H. rewrite H. cbn [post_save_effects]. rewrite app_nil_r.
    destruct w; reflexivity.
  - intros H. rewrite H. reflexivity.
  - intros H. rewrite H. reflexivity.
Qed.

(** With the channel layer down, saving order 1 leaves no trace. *)
Lemma order_post_save_failure_skips_cache_witness :
  let w := {| db := db Fixtures.shop_after_checkout;
              channel_layer := ChannelLayerDown;
              effects := [] |} in
  order_post_save Fixtures.order_1 false w = (Returned tt, w).
Proof.
  intros w.
  destruct (order_post_save_failure_skips_cache Fixtures.order_1 false w)
    as (w' & Hrun & _ & _ & Hdown & _).
  rewrite Hrun, (Hdown eq_refl). reflexivity.
Defined.

(** X12.  [Order.objects.create] of an order without a number saves twice,
    and [post_save] runs twice: once as for a created order, before the
    number is assigned, and once as for an updated order.  With a working
    channel layer the owner's group therefore receives two messages for one
    new order: 'New order #n has been placed', which names the order by its
    key because it has no number yet, and then 'Order ORD-... status updated
    to ...' although no status has changed. *)
Theorem order_creation_sends_two_signals :
  forall (instance : Order.t) (w : World),
    Order.order_number instance = "" ->
    let n := next_order_id (db w) in
    let first := Order.with_id instance n in
    let order := Order.with_order_number first ("ORD-" ++ format_06d n) in
    exists w',
      Order_objects_create instance w = (Returned order, w')
      /\ sent_since w w'
         = (post_save_effects first true (channel_layer w)
              ++ post_save_effects order false (channel_layer w))%list
      /\ (channel_layer w = ChannelLayerUp ->
          filter (is_send_to (user_group instance)) (sent_since w w')
          = [GroupSend (user_group instance) (notification_data first true);
             GroupSend (user_group instance) (notification_data order false)]
          /\ dict_get (msg_data (notification_data first true)) "message" (JStr "")
             = JStr ("New order #" ++ str_Z n ++ " has been placed")
          /\ dict_get (msg_data (notification_data order false)) "message" (JStr "")
             = JStr ("Order ORD-" ++ format_06d n ++ " status updated to "
                                  ++ Order.get_status_display instance)).
Proof.
  intros instance w Hempty n first order.
  pose proof (Order_super_save_insert None instance w) as Hfirst. cbv zeta in Hfirst.
  fold n in Hfirst. fold first in Hfirst.
  assert (Hrow : existsb (fun o => Order.id o =? Order.id first)
                         (orders (db (after_save w (orders (db w) ++ [first])%list
                                                 (n + 1) first true)))
                 = true).
  { cbn. apply existsb_app_last, Z.eqb_refl. }
  pose proof (Order_save_unnumbered true None instance _ w _ Hempty Hfirst Hempty Hrow)
    as Hrun.
  cbv zeta in Hrun.
  replace (Order.id first) with n in Hrun by reflexivity. fold order in Hrun.
  eexists. split; [unfold Order_objects_create; exact Hrun|].
  unfold sent_since, after_save. cbn [effects channel_layer].
  rewrite <- app_assoc, skipn_new. split; [reflexivity|].
  intros Hup. rewrite Hup. repeat apply conj.
  - assert (Hself : forall i c, filter (is_send_to (user_group instance))
                                      (cache_calls i c) = []).
    { intros i c. unfold cache_calls. destruct c; reflexivity. }
    assert (Hadm : String.eqb "admins" (user_group instance) = false) by reflexivity.
    unfold post_save_effects.
    replace (user_group first) with (user_group instance) by reflexivity.
    replace (user_group order) with (user_group instance) by reflexivity.
    rewrite filter_app. cbn [filter app is_send_to].
    rewrite String.eqb_refl, Hadm, !Hself. reflexivity.
  - unfold notification_data, order_label. cbn [msg_data dict_get String.eqb].
    replace (Order.order_number first) with (Order.order_number instance) by reflexivity.
    rewrite Hempty. reflexivity.
  - reflexivity.
Qed.

(** A first order in the shop: Alice's group is sent two messages. *)
Lemma order_creation_sends_two_signals_witness :
  exists w',
    Order_objects_create Fixtures.draft Fixtures.shop
    = (Returned (Order.with_order_number (Order.with_id Fixtures.draft 1) "ORD-000001"),
       w')
    /\ List.length (filter (is_send_to "user_7") (sent_since Fixtures.shop w')) = 2%nat.
Proof.
  destruct (order_creation_sends_two_signals Fixtures.draft Fixtures.shop eq_refl)
    as (w' & Hrun & _ & Hup).
  exists w'. split; [exact Hrun|].
  destruct (Hup eq_refl) as (Hsent & _).
  change "user_7" with (user_group Fixtures.draft). rewrite Hsent. reflexivity.
Defined.

(** * Cart items: whose they are, and removing them *)

Lemma get_object_missing (user : User.t) (item_id : Z) (w : World) :
  (forall i c, In i (cart_items (db w)) -> CartItem.id i = item_id ->
               In c (carts (db w)) -> Cart.id c = CartItem.cart i ->
               Cart.user c <> User.id user) ->
  CartItemView_get_object user item_id w = (Raised Http404, w).
Proof.
  intros Hforeign. unfold CartItemView_get_object, bind, get_db.
  assert (Hnone : filter (fun i => (CartItem.id i =? item_id)
                                   && existsb (fun c => (Cart.id c =? CartItem.cart i)
                                                        && (Cart.user c =? User.id user))
                                              (carts (db w)))
                         (cart_items (db w)) = []).
  { destruct (filter _ (cart_items (db w))) as [|i l] eqn:E; [reflexivity|].
    assert (Hi : In i (i :: l)) by (left; reflexivity).
    rewrite <- E in Hi. apply filter_In in Hi. destruct Hi as [Hin Hlookup].
    apply andb_prop in Hlookup. destruct Hlookup as [Hid Hcart].
    apply Z.eqb_eq in Hid. apply existsb_exists in Hcart.
    destruct Hcart as (c & Hc & Hmatch). apply andb_prop in Hmatch.
    destruct Hmatch as [Hcid Huser]. apply Z.eqb_eq in Hcid. apply Z.eqb_eq in Huser.
    exfalso. apply (Hforeign i c Hin Hid Hc Hcid Huser). }
  unfold objects_get. rewrite Hnone. reflexivity.
Qed.

(** X13.  A cart item is reached only through a cart of the user who asks:
    for a key that is no item of a cart of the user, an item of somebody
    else or none at all, [CartItemView] answers 404 to both its methods and
    the AJAX views answer 500, because their [except Exception] catches the
    [Http404] of [get_object_or_404]; none of them writes anything. *)
Theorem foreign_cart_items_are_out_of_reach :
  forall (user : User.t) (item_id q : Z) (quantity : option Z) (w : World),
    (forall i c, In i (cart_items (db w)) -> CartItem.id i = item_id ->
                 In c (carts (db w)) -> Cart.id c = CartItem.cart i ->
                 Cart.user c <> User.id user) ->
    let not_found := {| status_code := 404; data := BodyError "Not found." |} in
    dispatch (CartItemView_patch user item_id quantity) w = (Returned not_found, w)
    /\ dispatch (CartItemView_delete user item_id) w = (Returned not_found, w)
    /\ api_cart_update user item_id q w
       = (Returned (json_error 500 "Failed to update cart"), w)
    /\ api_cart_remove user item_id w
       = (Returned (json_error 500 "Failed to remove item"), w).
Proof.
  intros user item_id q quantity w Hforeign not_found.
  pose proof (get_object_missing user item_id w Hforeign) as Hget.
  repeat apply conj.
  - unfold dispatch, CartItemView_patch. rewrite (bind_Raised _ _ _ _ _ Hget).
    reflexivity.
  - unfold dispatch, CartItemView_delete. rewrite (bind_Raised _ _ _ _ _ Hget).
    reflexivity.
  - unfold api_cart_update, try_except. rewrite (bind_Raised _ _ _ _ _ Hget).
    reflexivity.
  - unfold api_cart_remove, try_except. rewrite (bind_Raised _ _ _ _ _ Hget).
    reflexivity.
Qed.

(** Bob, who has no cart, asks for item 1 of Alice's cart. *)
Lemma foreign_cart_items_are_out_of_reach_witness :
  let bob := {| User.id := 8; User.username := "bob"; User.email := "bob@example.com";
                User.first_name := "Bob"; User.last_name := "Roe"; User.phone := "" |} in
  dispatch (CartItemView_delete bob 1) Fixtures.shop_with_cart
  = (Returned {| status_code := 404; data := BodyError "Not found." |},
     Fixtures.shop_with_cart)
  /\ api_cart_remove bob 1 Fixtures.shop_with_cart
     = (Returned (json_error 500 "Failed to remove item"), Fixtures.shop_with_cart).
Proof.
  intros bob.
  destruct (foreign_cart_items_are_out_of_reach bob 1 0 None Fixtures.shop_with_cart)
    as (_ & Hdelete & _ & Hremove).
  - intros i c _ _ Hc _. cbn in Hc. destruct Hc as [<-|[]]. discriminate.
  - split; assumption.
Defined.

Lemma get_object_found (user : User.t) (item_id : Z) (item : CartItem.t) (w w' : World) :
  CartItemView_get_object user item_id w = (Returned item, w') ->
  w' = w /\ In item (cart_items (db w)) /\ CartItem.id item = item_id.
Proof.
  unfold CartItemView_get_object, bind, get_db.
  destruct (objects_get "CartItem" _ (cart_items (db w))) as [found|e] eqn:E.
  - unfold ret. intros H. inversion H; subst.
    apply objects_get_Returned in E. destruct E as (_ & Hin & Hlookup).
    apply andb_prop in Hlookup. destruct Hlookup as [Hid _]. apply Z.eqb_eq in Hid.
    auto.
  - destruct e; unfold raise; discriminate.
Qed.

Lemma get_object_after_removal (user : User.t) (item_id : Z) (w : World)
      (items : list CartItem.t) (next : Z) :
  (forall i, In i items -> CartItem.id i <> item_id) ->
  CartItemView_get_object user item_id (with_db w (with_cart_items (db w) items next))
  = (Raised Http404, with_db w (with_cart_items (db w) items next)).
Proof.
  intros Hgone. apply get_object_missing.
  intros i c Hi Hid. exfalso. apply (Hgone i Hi Hid).
Qed.

(** X14.  Removing a cart item of the user, by [CartItemView.delete], by
    [api_cart_remove] or by [api_cart_update] with a quantity of zero or
    less, deletes the rows with the item's key and no other row; the key is
    then not found any more. *)
Theorem removing_a_cart_item :
  forall (user : User.t) (item_id q : Z) (item : CartItem.t) (cart : Cart.t)
         (w : World),
    CartItemView_get_object user item_id w = (Returned item, w) ->
    CartItem_cart item w = (Returned cart, w) ->
    let w' := with_db w (with_cart_items
                           (db w)
                           (filter (fun i => negb (CartItem.id i =? item_id))
                                   (cart_items (db w)))
                           (next_cart_item_id (db w))) in
    dispatch (CartItemView_delete user item_id) w
    = (Returned {| status_code := 204; data := BodyNone |}, w')
    /\ snd (api_cart_remove user item_id w) = w'
    /\ (q <= 0 -> snd (api_cart_update user item_id q w) = w')
    /\ CartItemView_get_object user item_id w' = (Raised Http404, w')
    /\ (forall i, In i (cart_items (db w')) <->
                  In i (cart_items (db w)) /\ CartItem.id i <> item_id).
Proof.
  intros user item_id q item cart w Hget Hcart w'.
  destruct (get_object_found _ _ _ _ _ Hget) as (_ & Hin & Hid).
  assert (Hdelete : CartItem_delete item w = (Returned tt, w')).
  { rewrite CartItem_delete_run, Hid. reflexivity. }
  repeat apply conj.
  - unfold dispatch, CartItemView_delete.
    rewrite (bind_Returned _ _ _ _ _ Hget), (bind_Returned _ _ _ _ _ Hdelete).
    reflexivity.
  - unfold api_cart_remove. rewrite try_except_world.
    rewrite (bind_Returned _ _ _ _ _ Hget), (bind_Returned _ _ _ _ _ Hcart).
    rewrite (bind_Returned _ _ _ _ _ Hdelete). apply cart_response_world.
  - intros Hq. unfold api_cart_update. rewrite try_except_world.
    rewrite (bind_Returned _ _ _ _ _ Hget), (bind_Returned _ _ _ _ _ Hcart).
    destruct (Z.leb_spec q 0) as [_|Hgt]; [|lia].
    rewrite (bind_Returned _ _ _ _ _ Hdelete). apply cart_response_world.
  - apply get_object_after_removal. intros i Hi Heq.
    apply filter_In in Hi. destruct Hi as [_ Hne].
    rewrite Heq, Z.eqb_refl in Hne. discriminate.
  - intros i. subst w'. cbn [db with_db with_cart_items cart_items].
    rewrite filter_In. split.
    + intros [Hi Hne]. split; [exact Hi|]. intros Heq.
      rewrite Heq, Z.eqb_refl in Hne. discriminate.
    + intros [Hi Hne]. split; [exact Hi|].
      destruct (Z.eqb_spec (CartItem.id i) item_id); [contradiction | reflexivity].
Qed.

(** Alice removes her item 1, the pens: the inks stay, and the key is
    gone. *)
Lemma removing_a_cart_item_witness :
  exists w',
    dispatch (CartItemView_delete Fixtures.alice 1) Fixtures.shop_with_cart
    = (Returned {| status_code := 204; data := BodyNone |}, w')
    /\ map CartItem.product (cart_items (db w')) = [2]
    /\ CartItemView_get_object Fixtures.alice 1 w' = (Raised Http404, w').
Proof.
  destruct (removing_a_cart_item
              Fixtures.alice 1 0
              {| CartItem.id := 1; CartItem.cart := 1; CartItem.product := 1;
                 CartItem.quantity := 2 |}
              Fixtures.alice_cart Fixtures.shop_with_cart eq_refl eq_refl)
    as (Hdelete & _ & _ & Hgone & _).
  eexists. split; [exact Hdelete|]. split; [reflexivity | exact Hgone].
Defined.

(** X15.  [ClearCartView.delete] always answers 204.  Afterwards the user's
    cart has no items; the rows it deleted are the items of that cart, and
    the items of the other carts, the carts and the catalogue are as they
    were. *)
Theorem clear_cart_empties_the_users_cart :
  forall (user : User.t) (w : World),
    exists w',
      dispatch (ClearCartView_delete user) w
      = (Returned {| status_code := 204; data := BodyNone |}, w')
      /\ user_cart_items user (db w') = []
      /\ products (db w') = products (db w)
      /\ carts (db w') = carts (db w)
      /\ forall i, In i (cart_items (db w'))
                   <-> In i (cart_items (db w)) /\ ~ In i (user_cart_items user (db w)).
Proof.
  intros user w. unfold dispatch, ClearCartView_delete, user_cart_items.
  unfold bind at 1. unfold get_db at 1.
  destruct (objects_first (fun c => Cart.user c =? User.id user) (carts (db w)))
    as [cart|] eqn:Efirst.
  - eexists. split; [reflexivity|].
    cbn [db with_db with_cart_items products carts cart_items].
    rewrite Efirst. repeat apply conj; try reflexivity.
    + unfold Cart_items. cbn [cart_items].
      apply (filter_complement (fun i => CartItem.cart i =? Cart.id cart)).
    + intros i. unfold Cart_items. rewrite !filter_In. split.
      * intros [Hi Hne]. split; [exact Hi|]. intros [_ He]. rewrite He in Hne.
        discriminate.
      * intros [Hi Hout]. split; [exact Hi|].
        destruct (CartItem.cart i =? Cart.id cart) eqn:E; [|reflexivity].
        exfalso. apply Hout. auto.
  - eexists. split; [reflexivity|]. cbn [db]. rewrite Efirst.
    repeat apply conj; try reflexivity.
    intros i. split; [intros Hi; split; [exact Hi | intros []] | intros [Hi _]; exact Hi].
Qed.

(** X16.  [CartItemView.patch] on an item of the user sets the quantity, it
    does not add to it: a quantity from 1 to the stock of the product
    replaces the item's quantity and is answered 200; a quantity under 1 or
    over the stock is answered 400 and nothing is written; and a body
    without a quantity raises [KeyError], because the serializer is partial
    and the view reads [validated_data['quantity']] all the same. *)
Theorem cart_item_patch_sets_the_quantity :
  forall (user : User.t) (item_id : Z) (item : CartItem.t) (p : Product.t)
         (quantity : option Z) (w : World),
    CartItemView_get_object user item_id w = (Returned item, w) ->
    find_product (db w) (CartItem.product item) = Returned p ->
    dispatch (CartItemView_patch user item_id quantity) w
    = match quantity with
      | None => (Raised (KeyError "quantity"), w)
      | Some q =>
        if q <? 1 then
          (Returned {| status_code := 400;
                       data := BodyErrors
                                 [("quantity",
                                   "Ensure this value is greater than or equal to 1.")] |},
           w)
        else if q >? Product.stock p then
          (Returned {| status_code := 400;
                       data := BodyErrors
                                 [("quantity",
                                   "Only " ++ str_Z (Product.stock p)
                                           ++ " units available in stock.")] |},
           w)
        else
          (Returned {| status_code := 200;
                       data := BodyCartItem (CartItem.with_quantity item q) |},
           with_db w (with_cart_items
                        (db w)
                        (update_rows (fun i => CartItem.id i =? CartItem.id item)
                                     (fun _ => CartItem.with_quantity item q)
                                     (cart_items (db w)))
                        (next_cart_item_id (db w))))
      end.
Proof.
  intros user item_id item p quantity w Hget Hp.
  destruct (get_object_found _ _ _ _ _ Hget) as (_ & Hin & _).
  unfold dispatch, CartItemView_patch. rewrite (bind_Returned _ _ _ _ _ Hget).
  unfold bind at 1. unfold UpdateCartItemSerializer.is_valid.
  destruct quantity as [q|]; [|reflexivity].
  destruct (q <? 1); [reflexivity|].
  unfold UpdateCartItemSerializer.validate_quantity. unfold bind at 1.
  rewrite Product_objects_get_run, Hp.
  destruct (Z.gtb_spec q (Product.stock p)) as [Hover|Hle]; [reflexivity|].
  unfold ret at 1.
  rewrite (bind_Returned _ _ _ _ _ (CartItem_save_existing item q p w Hin Hp Hle)).
  reflexivity.
Qed.

(** Alice sets her two pens to five, to zero, and omits the quantity. *)
Lemma cart_item_patch_sets_the_quantity_witness :
  map CartItem.quantity
      (cart_items (db (snd (dispatch (CartItemView_patch Fixtures.alice 1 (Some 5))
                                     Fixtures.shop_with_cart))))
  = [5; 3]
  /\ dispatch (CartItemView_patch Fixtures.alice 1 None) Fixtures.shop_with_cart
     = (Raised (KeyError "quantity"), Fixtures.shop_with_cart).
Proof.
  split.
  - rewrite (cart_item_patch_sets_the_quantity
               Fixtures.alice 1
               {| CartItem.id := 1; CartItem.cart := 1; CartItem.product := 1;
                  CartItem.quantity := 2 |}
               Fixtures.pen (Some 5) Fixtures.shop_with_cart eq_refl eq_refl).
    reflexivity.
  - apply (cart_item_patch_sets_the_quantity
             Fixtures.alice 1
             {| CartItem.id := 1; CartItem.cart := 1; CartItem.product := 1;
                CartItem.quantity := 2 |}
             Fixtures.pen None Fixtures.shop_with_cart eq_refl eq_refl).
Defined.

Lemma filter_andb {A : Type} (f g : A -> bool) (l : list A) :
  filter (fun x => f x && g x) l = filter g (filter f l).
Proof.
  induction l as [|x l IH]; [reflexivity|]. cbn [filter].
  destruct (f x); cbn [andb filter]; [|exact IH].
  destruct (g x); rewrite IH; reflexivity.
Qed.

Lemma active_product_get (d : DB) (pid : Z) (p : Product.t) :
  find_product d pid = Returned p ->
  objects_get "Product" (fun x => (Product.id x =? pid) && Product.is_active x)
              (products d)
  = if Product.is_active p then Returned p else Raised (DoesNotExist "Product").
Proof.
  intros H. apply objects_get_Returned in H. destruct H as (E & _ & _).
  unfold objects_get. rewrite filter_andb, E. cbn [filter].
  destruct (Product.is_active p); reflexivity.
Qed.

(** [AddToCartView.post] refuses a quantity under 1 and writes nothing. *)
Lemma add_to_cart_refuses_low_quantity (user : User.t) (pid q : Z) (p : Product.t)
      (w : World) :
  find_product (db w) pid = Returned p -> q < 1 ->
  exists detail,
    dispatch (AddToCartView_post
                user {| AddToCartSerializer.product_id := Some pid;
                        AddToCartSerializer.quantity := Some q |}) w
    = (Returned {| status_code := 400; data := BodyErrors detail |}, w).
Proof.
  intros Hp Hq.
  assert (Hvalid : exists detail,
             AddToCartSerializer.is_valid
               {| AddToCartSerializer.product_id := Some pid;
                  AddToCartSerializer.quantity := Some q |} w
             = (Raised (ValidationError detail), w)).
  { unfold AddToCartSerializer.is_valid, AddToCartSerializer.product_id_field,
      AddToCartSerializer.quantity_field, AddToCartSerializer.validate_product_id.
    cbn [AddToCartSerializer.product_id AddToCartSerializer.quantity].
    destruct (Z.ltb_spec q 1) as [_|]; [|lia].
    unfold bind, get_db. rewrite (active_product_get _ _ _ Hp).
    destruct (Product.is_active p).
    - destruct (Product.stock p <=? 0); unfold raise, ret; eauto.
    - unfold raise. eauto. }
  destruct Hvalid as (detail & Hvalid). exists detail.
  unfold dispatch, AddToCartView_post, atomic.
  rewrite (bind_Raised _ _ _ _ _ Hvalid). destruct w; reflexivity.
Qed.

(** X17.  [api_cart_add] sets no lower bound on the quantity: for a product
    that is not yet in the user's cart, any quantity from 0 to the stock,
    0 included, inserts a cart item with that quantity, where
    [AddToCartView.post] answers a quantity under 1 with 400 and writes
    nothing. *)
Theorem api_cart_add_has_no_minimum_quantity :
  forall (user : User.t) (pid q : Z) (cart : Cart.t) (p : Product.t) (w : World),
    find_product (db w) pid = Returned p ->
    objects_get "Cart" (fun c => Cart.user c =? User.id user) (carts (db w))
    = Returned cart ->
    filter (fun i => (CartItem.cart i =? Cart.id cart) && (CartItem.product i =? pid))
           (cart_items (db w)) = [] ->
    0 <= q <= Product.stock p ->
    cart_items (db (snd (api_cart_add user pid q w)))
    = (cart_items (db w)
         ++ [{| CartItem.id := next_cart_item_id (db w); CartItem.cart := Cart.id cart;
                CartItem.product := pid; CartItem.quantity := q |}])%list
    /\ (q < 1 ->
        exists detail,
          dispatch (AddToCartView_post
                      user {| AddToCartSerializer.product_id := Some pid;
                              AddToCartSerializer.quantity := Some q |}) w
          = (Returned {| status_code := 400; data := BodyErrors detail |}, w)).
Proof.
  intros user pid q cart p w Hp Hcart Hnone Hq.
  split; [|intros Hlow; apply (add_to_cart_refuses_low_quantity user pid q p w Hp Hlow)].
  destruct (find_product_Returned _ _ _ Hp) as [_ Hid].
  unfold api_cart_add. rewrite try_except_world.
  rewrite (bind_Returned get_db _ w w (db w) eq_refl).
  rewrite Hp. cbn [get_object_or_404].
  rewrite (bind_Returned (lift (Returned p)) _ w w p eq_refl).
  destruct (Z.ltb_spec (Product.stock p) q) as [Hlt|_]; [lia|].
  rewrite (bind_Returned _ _ _ _ _ (Cart_get_or_create_found _ _ _ Hcart)).
  rewrite Hid.
  assert (Hcreate :
            CartItem_objects_get_or_create cart pid q w
            = (Returned ({| CartItem.id := next_cart_item_id (db w);
                            CartItem.cart := Cart.id cart;
                            CartItem.product := pid; CartItem.quantity := q |}, true),
               with_db w (with_cart_items
                            (db w)
                            (cart_items (db w)
                               ++ [{| CartItem.id := next_cart_item_id (db w);
                                      CartItem.cart := Cart.id cart;
                                      CartItem.product := pid;
                                      CartItem.quantity := q |}])%list
                            (next_cart_item_id (db w) + 1)))).
  { unfold CartItem_objects_get_or_create. unfold bind at 1. unfold get_db at 1.
    unfold objects_get. rewrite Hnone.
    unfold bind at 1. unfold CartItem_save. unfold bind at 1.
    rewrite Product_objects_get_run. cbn [CartItem.product CartItem.quantity].
    rewrite Hp. destruct (Z.gtb_spec q (Product.stock p)); [lia|].
    reflexivity. }
  rewrite (bind_Returned _ _ _ _ _ Hcreate). cbn [negb].
  rewrite cart_response_world. reflexivity.
Qed.

(** Alice asks the AJAX view for no ink at all: her cart gets an item with
    quantity 0. *)
Lemma api_cart_add_has_no_minimum_quantity_witness :
  let w := snd (dispatch (AddToCartView_post Fixtures.alice (Fixtures.add 1 2))
                         Fixtures.shop) in
  map (fun i => (CartItem.product i, CartItem.quantity i))
      (cart_items (db (snd (api_cart_add Fixtures.alice 2 0 w))))
  = [(1, 2); (2, 0)].
Proof.
  intros w.
  destruct (api_cart_add_has_no_minimum_quantity
              Fixtures.alice 2 0 Fixtures.alice_cart Fixtures.ink w
              eq_refl eq_refl eq_refl) as [Hrows _]; [cbn; lia|].
  rewrite Hrows. reflexivity.
Defined.

(** * The AJAX checkout when it refuses *)

(** The loop of [api_checkout] leaves the orders, the carts and the cart
    items alone. *)
Lemma api_checkout_items_frame (order : Order.t) (items : list CartItem.t) :
  forall (w w' : World) (r : pyres (option Response)),
    api_checkout_items order items w = (r, w') ->
    orders (db w') = orders (db w)
    /\ next_order_id (db w') = next_order_id (db w)
    /\ carts (db w') = carts (db w)
    /\ cart_items (db w') = cart_items (db w).
Proof.
  induction items as [|i rest IH]; intros w w' r H.
  - cbn in H. unfold ret in H. inversion H. auto.
  - cbn [api_checkout_items] in H. unfold bind at 1 in H.
    rewrite Product_objects_get_run in H.
    destruct (find_product (db w) (CartItem.product i)) as [p|e];
      [|inversion H; auto].
    destruct (Product.stock p <? CartItem.quantity i);
      [unfold ret in H; inversion H; auto|].
    unfold bind at 1 in H. rewrite OrderItem_save_run in H. cbv zeta in H.
    unfold bind at 1 in H.
    match type of H with
    | context [Product_save ?self ?w1] =>
      assert (Hsave : exists w2,
                 Product_save self w1 = (Returned tt, w2)
                 /\ orders (db w2) = orders (db w)
                 /\ next_order_id (db w2) = next_order_id (db w)
                 /\ carts (db w2) = carts (db w)
                 /\ cart_items (db w2) = cart_items (db w))
    end.
    { unfold Product_save, bind, get_db, put_db.
      match goal with
      | |- context [existsb ?f ?l] => destruct (existsb f l)
      end; eexists; (split; [reflexivity|]); auto. }
    destruct Hsave as (w2 & Hrun & Ho & Hn & Hc & Hi). rewrite Hrun in H.
    apply IH in H. destruct H as (Ho' & Hn' & Hc' & Hi').
    repeat split; congruence.
Qed.

(** X18.  When [api_checkout] refuses a cart that has items, for want of
    stock, the refusal is a [return] inside the atomic block, and the block
    commits: the order it created is in the table, the sequence of order
    keys has moved on, and the cart still holds its items, so that a second
    attempt makes a second order. *)
Theorem api_checkout_refusal_commits :
  forall (user : User.t) (data : payload) (response : Response) (w w' : World),
    api_checkout user data w = (Returned response, w') ->
    status_code response = 400 ->
    user_cart_items user (db w) <> [] ->
    (exists order, In order (orders (db w'))
                   /\ Order.id order = next_order_id (db w)
                   /\ Order.user order = user
                   /\ Order.order_number order
                      = "ORD-" ++ format_06d (next_order_id (db w)))
    /\ next_order_id (db w') = next_order_id (db w) + 1
    /\ cart_items (db w') = cart_items (db w)
    /\ user_cart_items user (db w') = user_cart_items user (db w).
Proof.
  intros user data response w w' Hrun Hcode Hitems.
  unfold api_checkout, try_except, bind, get_db in Hrun.
  destruct (objects_get "Cart" (fun c => Cart.user c =? User.id user) (carts (db w)))
    as [cart|e] eqn:Hcart.
  - cbn [get_object_or_404 lift] in Hrun.
    rewrite (user_cart_items_of_cart _ _ _ Hcart) in Hitems.
    destruct (Cart_items cart (db w)) as [|i rest] eqn:Ecart; [contradiction|].
    rewrite <- Ecart in *. clear Ecart i rest.
    destruct (api_checkout_block user data cart w) as [[[refusal|order]|e] w1] eqn:Hblock.
    + unfold ret in Hrun. inversion Hrun; subst refusal w1. clear Hrun.
      unfold api_checkout_block in Hblock. apply atomic_Returned in Hblock.
      apply bind_inv in Hblock. destruct Hblock as (subtotal & w1 & Hsub & H).
      apply Cart_total_price_Returned in Hsub. destruct Hsub as (-> & _ & _).
      apply bind_inv in H. destruct H as (total & w1 & Htotal & H).
      apply Cart_total_price_Returned in Htotal. destruct Htotal as (-> & _ & _).
      apply bind_inv in H. destruct H as (created & w2 & Hcreate & H).
      match type of Hcreate with
      | Order_objects_create ?i _ = _ =>
        destruct (Order_objects_create_run i w eq_refl) as (rows & sent & Hrun & Hin)
      end.
      cbv zeta in Hrun. rewrite Hrun in Hcreate. inversion Hcreate; subst created w2.
      clear Hcreate Hrun.
      apply bind_inv in H. destruct H as (d & w3 & Hd & H).
      unfold get_db in Hd. inversion Hd; subst d w3. clear Hd.
      apply bind_inv in H. destruct H as (returned & w4 & Hloop & H).
      apply api_checkout_items_frame in Hloop.
      cbn [db with_orders orders next_order_id carts cart_items] in Hloop.
      destruct Hloop as (Ho & Hn & Hc & Hi).
      destruct returned as [r|].
      * unfold ret in H. inversion H as [[Hr Hw]]. subst w4. clear H Hr.
        repeat apply conj.
        -- eexists. split; [rewrite Ho; exact Hin|]. repeat split.
        -- exact Hn.
        -- exact Hi.
        -- unfold user_cart_items, Cart_items. rewrite Hc, Hi. reflexivity.
      * apply bind_inv in H. destruct H as (u & w5 & _ & H). discriminate H.
    + unfold ret in Hrun. inversion Hrun; subst. discriminate Hcode.
    + destruct (is_Exception e); unfold ret in Hrun; inversion Hrun; subst;
        discriminate Hcode.
  - assert (He : exists e', get_object_or_404 (@Raised Cart.t e) w = (Raised e', w)).
    { destruct e; cbn; unfold raise, lift; eauto. }
    destruct He as (e' & He). rewrite He in Hrun.
    destruct (is_Exception e'); unfold ret in Hrun; inversion Hrun; subst;
      discriminate Hcode.
Qed.

(** One bottle of ink is left for the three of Alice's cart: each attempt
    to check out is refused and leaves an order. *)
Lemma api_checkout_refusal_commits_witness :
  let w1 := snd (api_checkout Fixtures.alice Fixtures.form Fixtures.shop_ink_short) in
  let w2 := snd (api_checkout Fixtures.alice Fixtures.form w1) in
  map Order.order_number (orders (db w2)) = ["ORD-000001"; "ORD-000002"]
  /\ next_order_id (db w1) = 2
  /\ cart_items (db w1) = cart_items (db Fixtures.shop_ink_short).
Proof.
  intros w1 w2. split; [reflexivity|].
  destruct (api_checkout_refusal_commits
              Fixtures.alice Fixtures.form
              (json_error 400 "Insufficient stock for Ink")
              Fixtures.shop_ink_short w1 eq_refl eq_refl)
    as (_ & Hnext & Hitems & _); [discriminate|].
  split; [exact Hnext | exact Hitems].
Defined.

(** * The AJAX checkout when it goes through *)

(** Writing the stock of one product leaves the fetch of another as it
    was. *)
Lemma find_product_other (d : DB) (p : Product.t) (s pk : Z) :
  pk <> Product.id p ->
  objects_get "Product" (fun r => Product.id r =? pk)
              (update_rows (fun r => Product.id r =? Product.id p)
                           (fun r => Product.with_stock r s) (products d))
  = find_product d pk.
Proof.
  intros Hne. unfold update_rows.
  rewrite (objects_get_map "Product" (fun r => Product.id r =? pk)
                           (fun r => if Product.id r =? Product.id p
                                     then Product.with_stock r s else r)).
  - unfold find_product.
    destruct (objects_get "Product" (fun r => Product.id r =? pk) (products d))
      as [x|e] eqn:E; [|reflexivity].
    apply objects_get_Returned in E. destruct E as (_ & _ & Hx). apply Z.eqb_eq in Hx.
    destruct (Z.eqb_spec (Product.id x) (Product.id p)); [congruence | reflexivity].
  - intros x. destruct (Product.id x =? Product.id p); reflexivity.
Qed.

Lemma api_checkout_items_in_stock (order : Order.t) (items : list CartItem.t) :
  forall w : World,
    NoDup (map CartItem.product items) ->
    (forall i, In i items ->
               exists p, find_product (db w) (CartItem.product i) = Returned p
                         /\ CartItem.quantity i <= Product.stock p) ->
    exists w', api_checkout_items order items w = (Returned None, w').
Proof.
  induction items as [|i rest IH]; intros w Hnd Hok.
  - exists w. reflexivity.
  - destruct (Hok i (or_introl eq_refl)) as (p & Hp & Hq).
    destruct (find_product_Returned _ _ _ Hp) as [Hin Hid].
    cbn [map] in Hnd. inversion Hnd as [|? ? Hnotin Hnd']; subst.
    cbn [api_checkout_items]. unfold bind at 1.
    rewrite Product_objects_get_run, Hp.
    destruct (Z.ltb_spec (Product.stock p) (CartItem.quantity i)) as [Hlt|_]; [lia|].
    unfold bind at 1. rewrite OrderItem_save_run. cbv zeta. unfold bind at 1.
    rewrite Product_save_as_stock by (cbn; rewrite Hid; exact Hp).
    rewrite Product_save_stock_with
      by (cbn; apply (existsb_key_In Product.id), Hin).
    apply IH; [exact Hnd'|].
    intros j Hj. destruct (Hok j (or_intror Hj)) as (pj & Hpj & Hqj).
    exists pj. split; [|exact Hqj].
    unfold find_product at 1.
    cbn [db with_db with_products with_order_items products].
    rewrite find_product_other; [exact Hpj|].
    rewrite Hid. intros Heq. apply Hnotin. rewrite <- Heq.
    apply in_map, Hj.
Qed.

(** X19.  [api_checkout] does not look at [is_active]: a cart that has
    items, no two for one product, each within the stock of its product, is
    checked out, the order placed and the cart emptied, whether the products
    are still on sale or not, where [CreateOrderView.post] refuses a cart
    that holds a product that is no longer active. *)
Theorem api_checkout_ignores_is_active :
  forall (user : User.t) (data data' : payload) (cart : Cart.t) (w : World),
    objects_get "Cart" (fun c => Cart.user c =? User.id user) (carts (db w))
    = Returned cart ->
    Cart_items cart (db w) <> [] ->
    NoDup (map CartItem.product (Cart_items cart (db w))) ->
    (forall i, In i (Cart_items cart (db w)) ->
               exists p, find_product (db w) (CartItem.product i) = Returned p
                         /\ CartItem.quantity i <= Product.stock p) ->
    (exists order w',
        api_checkout user data w = (Returned (order_placed order), w')
        /\ Order.id order = next_order_id (db w)
        /\ Cart_items cart (db w') = [])
    /\ ((exists i p, In i (Cart_items cart (db w))
                     /\ find_product (db w) (CartItem.product i) = Returned p
                     /\ Product.is_active p = false) ->
        exists detail,
          dispatch (CreateOrderView_post user data') w
          = (Returned {| status_code := 400; data := BodyErrors detail |}, w)).
Proof.
  intros user data data' cart w Hcart Hnonempty Hnd Hok.
  assert (Hres : forall i, In i (Cart_items cart (db w)) ->
                           exists p, find_product (db w) (CartItem.product i)
                                     = Returned p).
  { intros i Hi. destruct (Hok i Hi) as (p & Hp & _). eauto. }
  split.
  - assert (Htotal : forall w0, db w0 = db w ->
                                Cart_total_price cart w0
                                = (Returned (cart_items_total (db w)
                                                              (Cart_items cart (db w))),
                                   w0)).
    { intros w0 E. unfold Cart_total_price, bind, get_db. rewrite E.
      rewrite sum_of_run by (rewrite E; exact Hres). rewrite E. reflexivity. }
    match goal with
    | |- exists order w', api_checkout _ _ _ = _ /\ _ =>
      assert (Hblock : exists order w',
                 api_checkout_block user data cart w = (Returned (inr order), w')
                 /\ Order.id order = next_order_id (db w)
                 /\ Cart_items cart (db w') = [])
    end.
    { unfold api_checkout_block, atomic.
      rewrite (bind_Returned _ _ _ _ _ (Htotal w eq_refl)).
      rewrite (bind_Returned _ _ _ _ _ (Htotal w eq_refl)).
      match goal with
      | |- context [Order_objects_create ?i] =>
        destruct (Order_objects_create_run i w eq_refl) as (rows & sent & Hrun & _)
      end.
      cbv zeta in Hrun. rewrite (bind_Returned _ _ _ _ _ Hrun).
      unfold bind at 1. unfold get_db at 1.
      cbn [db].
      change (Cart_items cart (with_orders (db w) rows (next_order_id (db w) + 1)))
        with (Cart_items cart (db w)).
      match goal with
      | |- context [bind (api_checkout_items ?o ?items) _ ?w2] =>
        destruct (api_checkout_items_in_stock o items w2 Hnd Hok) as (w3 & Hloop);
          pose proof (api_checkout_items_frame o items w2 w3 _ Hloop) as Hframe
      end.
      rewrite (bind_Returned _ _ _ _ _ Hloop).
      unfold bind, Cart_items_delete, get_db, put_db, ret.
      eexists. eexists. split; [reflexivity|]. split; [reflexivity|].
      unfold Cart_items. cbn [db with_db with_cart_items cart_items].
      apply (filter_complement (fun i => CartItem.cart i =? Cart.id cart)). }
    destruct Hblock as (order & w' & Hblock & Hid & Hempty).
    exists order, w'. split; [|auto].
    apply (api_checkout_placed user data cart order w w' Hcart Hnonempty Hblock).
  - intros (i & p & Hi & Hp & Hinactive).
    destruct (fst (run_char_fields CreateOrderSerializer.fields data')) as [|e es] eqn:Ef.
    + assert (Hbad : forallb (item_ok (db w)) (Cart_items cart (db w)) = false).
      { destruct (forallb (item_ok (db w)) (Cart_items cart (db w))) eqn:E;
          [|reflexivity].
        rewrite forallb_forall in E. specialize (E i Hi).
        unfold item_ok in E. rewrite Hp, Hinactive in E. discriminate E. }
      destruct (validate_items_rejects _ w Hres Hbad) as (detail & Hv).
      exists detail. apply (checkout_validate_error user data' w detail Ef).
      rewrite validate_run, (objects_get_first _ _ _ _ Hcart).
      destruct (Cart_items cart (db w)); [contradiction | exact Hv].
    + exists (e :: es). apply (checkout_field_errors user data' w e es Ef).
Qed.

(** With the ink withdrawn from sale, the REST checkout of Alice's cart is
    refused and the AJAX checkout places order 1. *)
Lemma api_checkout_ignores_is_active_witness :
  (exists order w',
      api_checkout Fixtures.alice Fixtures.form Fixtures.shop_ink_withdrawn
      = (Returned (order_placed order), w')
      /\ Order.id order = 1
      /\ Cart_items Fixtures.alice_cart (db w') = [])
  /\ exists detail,
      dispatch (CreateOrderView_post Fixtures.alice Fixtures.shipping)
               Fixtures.shop_ink_withdrawn
      = (Returned {| status_code := 400; data := BodyErrors detail |},
         Fixtures.shop_ink_withdrawn).
Proof.
  destruct (api_checkout_ignores_is_active
              Fixtures.alice Fixtures.form Fixtures.shipping Fixtures.alice_cart
              Fixtures.shop_ink_withdrawn eq_refl) as [Hajax Hrest].
  - discriminate.
  - cbn. repeat constructor; cbn; intuition discriminate.
  - intros i [<-|[<-|[]]]; cbn; eexists; (split; [reflexivity | cbn; lia]).
  - split; [exact Hajax|]. apply Hrest.
    eexists. eexists. split; [right; left; reflexivity|]. split; reflexivity.
Defined.
(** * products/models.py: the stock methods *)

(** The fetch of a product after the stock of the row with key [key] was
    written. *)
Lemma find_product_stock_written (d : DB) (key s pk : Z) :
  objects_get "Product" (fun r => Product.id r =? pk)
              (update_rows (fun r => Product.id r =? key)
                           (fun r => Product.with_stock r s) (products d))
  = match find_product d pk with
    | Returned x => Returned (if pk =? key then Product.with_stock x s else x)
    | Raised e => Raised e
    end.
Proof.
  unfold update_rows.
  rewrite (objects_get_map "Product" (fun r => Product.id r =? pk)
                           (fun r => if Product.id r =? key
                                     then Product.with_stock r s else r)).
  - unfold find_product.
    destruct (objects_get "Product" (fun r => Product.id r =? pk) (products d))
      as [x|e] eqn:E; [|reflexivity].
    apply objects_get_Returned in E. destruct E as (_ & _ & Hx). apply Z.eqb_eq in Hx.
    rewrite Hx. reflexivity.
  - intros x. destruct (Product.id x =? key); reflexivity.
Qed.

(** What [Product_save_stock] of an instance with stock [s] leaves in the
    table, when the row of the key is there. *)
Lemma Product_save_stock_stored (self row : Product.t) (w : World) :
  find_product (db w) (Product.id self) = Returned row ->
  exists w',
    Product_save_stock self w = (Returned tt, w')
    /\ find_product (db w') (Product.id self)
       = Returned (Product.with_stock row (Product.stock self))
    /\ (forall pk, pk <> Product.id self ->
                   find_product (db w') pk = find_product (db w) pk)
    /\ effects w' = effects w.
Proof.
  intros Hrow. destruct (find_product_Returned _ _ _ Hrow) as [Hin Hid].
  assert (Hex : existsb (fun p => Product.id p =? Product.id self) (products (db w))
                = true).
  { rewrite <- Hid. apply (existsb_key_In Product.id), Hin. }
  rewrite (Product_save_stock_run self w Hex). eexists. split; [reflexivity|].
  split; [|split; [|reflexivity]].
  - unfold find_product at 1. cbn [db with_db with_products products].
    rewrite find_product_stock_written, Hrow, Z.eqb_refl. reflexivity.
  - intros pk Hne. unfold find_product at 1. cbn [db with_db with_products products].
    rewrite find_product_stock_written.
    destruct (Z.eqb_spec pk (Product.id self)); [contradiction|].
    destruct (find_product (db w) pk); reflexivity.
Qed.

(** X20.  [Product.reduce_stock] compares and subtracts on the stock of the
    instance, not of the stored row.  Over the instance's stock it returns
    [False] and writes nothing; otherwise it returns [True], the instance
    and the stored row take the instance's stock less the quantity, which
    is not negative, and the other products stay as they were.  A second
    call on the same instance, which now has the lowered stock, lowers the
    row once more when the quantity is still within it.  But a call on
    another instance of the row that was read before the first call, and so
    still has the stock as it was, passes the test on that old stock and
    leaves the row where the first call left it: of the two withdrawals the
    row shows one. *)
Theorem reduce_stock_works_on_the_instance :
  forall (self row : Product.t) (quantity : Z) (w : World),
    find_product (db w) (Product.id self) = Returned row ->
    (Product.stock self < quantity ->
     Product_reduce_stock self quantity w = (Returned (false, self), w))
    /\ (quantity <= Product.stock self ->
        let left_in_stock := Product.stock self - quantity in
        let taken := Product.with_stock self left_in_stock in
        exists w1,
          Product_reduce_stock self quantity w = (Returned (true, taken), w1)
          /\ find_product (db w1) (Product.id self)
             = Returned (Product.with_stock row left_in_stock)
          /\ 0 <= left_in_stock
          /\ (forall pk, pk <> Product.id self ->
                         find_product (db w1) pk = find_product (db w) pk)
          /\ (quantity <= left_in_stock ->
              exists w2,
                Product_reduce_stock taken quantity w1
                = (Returned (true, Product.with_stock self (left_in_stock - quantity)), w2)
                /\ find_product (db w2) (Product.id self)
                   = Returned (Product.with_stock row (left_in_stock - quantity)))
          /\ (forall other : Product.t,
                 Product.id other = Product.id self ->
                 Product.stock other = Product.stock self ->
                 exists w2,
                   Product_reduce_stock other quantity w1
                   = (Returned (true, Product.with_stock other left_in_stock), w2)
                   /\ find_product (db w2) (Product.id self)
                      = Returned (Product.with_stock row left_in_stock))).
Proof.
  intros self row quantity w Hrow. split.
  - intros Hlt. unfold Product_reduce_stock.
    destruct (Z.geb_spec (Product.stock self) quantity) as [Hge|_]; [lia | reflexivity].
  - intros Hle left_in_stock taken.
    assert (Hrun : forall (p : Product.t) w0 row0,
               Product.id p = Product.id self ->
               quantity <= Product.stock p ->
               find_product (db w0) (Product.id self) = Returned row0 ->
               exists w1,
                 Product_reduce_stock p quantity w0
                 = (Returned (true, Product.with_stock p (Product.stock p - quantity)), w1)
                 /\ find_product (db w1) (Product.id self)
                    = Returned (Product.with_stock row0 (Product.stock p - quantity))
                 /\ (forall pk, pk <> Product.id self ->
                                find_product (db w1) pk = find_product (db w0) pk)).
    { intros p w0 row0 Hid Hq H0. unfold Product_reduce_stock.
      destruct (Z.geb_spec (Product.stock p) quantity) as [_|Hlt]; [|lia].
      cbv zeta. rewrite <- Hid in H0 |- *.
      destruct (Product_save_stock_stored
                  (Product.with_stock p (Product.stock p - quantity)) row0 w0 H0)
        as (w1 & Hsave & Hst & Hoth & _).
      exists w1. unfold bind. rewrite Hsave. split; [reflexivity|].
      split; [exact Hst | exact Hoth]. }
    destruct (Hrun self w row eq_refl Hle Hrow) as (w1 & H1 & Hst1 & Hoth1).
    exists w1. split; [exact H1|]. split; [exact Hst1|]. split; [unfold left_in_stock; lia|].
    split; [exact Hoth1|]. split.
    + intros Hagain.
      destruct (Hrun taken w1 _ eq_refl Hagain Hst1) as (w2 & H2 & Hst2 & _).
      exists w2. split.
      * rewrite H2. destruct self; reflexivity.
      * rewrite Hst2. destruct row; reflexivity.
    + intros other Hid Hstock.
      assert (Hq : quantity <= Product.stock other) by lia.
      destruct (Hrun other w1 _ Hid Hq Hst1) as (w2 & H2 & Hst2 & _).
      exists w2. rewrite Hstock in H2, Hst2. split; [exact H2|].
      rewrite Hst2. destruct row; reflexivity.
Qed.

(** The pen is read at 10.  Taking 4 on the instance puts the row at 6, and
    taking 4 again on that instance puts it at 2; taking 4 on another
    instance of the first read leaves it at 6; 11 are refused. *)
Lemma reduce_stock_works_on_the_instance_witness :
  Product_reduce_stock Fixtures.pen 11 Fixtures.shop
  = (Returned (false, Fixtures.pen), Fixtures.shop)
  /\ exists w1 w2 w2',
      Product_reduce_stock Fixtures.pen 4 Fixtures.shop
      = (Returned (true, Product.with_stock Fixtures.pen 6), w1)
      /\ Product_reduce_stock (Product.with_stock Fixtures.pen 6) 4 w1
         = (Returned (true, Product.with_stock Fixtures.pen 2), w2)
      /\ find_product (db w2) 1 = Returned (Product.with_stock Fixtures.pen 2)
      /\ Product_reduce_stock Fixtures.pen 4 w1
         = (Returned (true, Product.with_stock Fixtures.pen 6), w2')
      /\ find_product (db w2') 1 = Returned (Product.with_stock Fixtures.pen 6).
Proof.
  split.
  - apply (proj1 (reduce_stock_works_on_the_instance
                    Fixtures.pen Fixtures.pen 11 Fixtures.shop eq_refl)).
    cbn. lia.
  - destruct (proj2 (reduce_stock_works_on_the_instance
                       Fixtures.pen Fixtures.pen 4 Fixtures.shop eq_refl))
      as (w1 & H1 & _ & _ & _ & Hsame & Hother).
    + cbn. lia.
    + destruct Hsame as (w2 & H2 & Hst2); [cbn; lia|].
      destruct (Hother Fixtures.pen eq_refl eq_refl) as (w2' & H2' & Hst2').
      exists w1, w2, w2'. repeat split; assumption.
Defined.

(** X21.  [Product.increase_stock] with the quantity that
    [Product.reduce_stock] took, on the instance that took it, puts the
    stored stock back to what the instance had read and gives the instance
    back as it was; no other product is touched. *)
Theorem reduce_then_increase_restores_stock :
  forall (self row : Product.t) (quantity : Z) (w : World),
    find_product (db w) (Product.id self) = Returned row ->
    quantity <= Product.stock self ->
    exists taken w1 w2,
      Product_reduce_stock self quantity w = (Returned (true, taken), w1)
      /\ Product_increase_stock taken quantity w1 = (Returned self, w2)
      /\ find_product (db w2) (Product.id self)
         = Returned (Product.with_stock row (Product.stock self))
      /\ (forall pk, pk <> Product.id self ->
                     find_product (db w2) pk = find_product (db w) pk).
Proof.
  intros self row quantity w Hrow Hle.
  set (taken := Product.with_stock self (Product.stock self - quantity)).
  destruct (Product_save_stock_stored taken row w Hrow) as (w1 & Hsave & Hst & Hoth & _).
  assert (Hback : Product.with_stock taken (Product.stock taken + quantity) = self).
  { unfold taken. destruct self. unfold Product.with_stock.
    cbn [Product.id Product.name Product.sku Product.price Product.stock
         Product.is_active].
    f_equal. lia. }
  change (Product.id taken) with (Product.id self) in Hst.
  assert (Hst' : find_product (db w1) (Product.id self)
                 = Returned (Product.with_stock row (Product.stock taken))) by exact Hst.
  destruct (Product_save_stock_stored self _ w1 Hst') as (w2 & Hsave2 & Hst2 & Hoth2 & _).
  exists taken, w1, w2. repeat split.
  - unfold Product_reduce_stock.
    destruct (Z.geb_spec (Product.stock self) quantity) as [_|Hlt]; [|lia].
    cbv zeta. fold taken. unfold bind. rewrite Hsave. reflexivity.
  - unfold Product_increase_stock. cbv zeta. rewrite Hback.
    unfold bind. rewrite Hsave2. reflexivity.
  - rewrite Hst2. destruct row; reflexivity.
  - intros pk Hne. rewrite (Hoth2 pk Hne). apply (Hoth pk Hne).
Qed.

(** Three inks taken and put back: the row is the ink again. *)
Lemma reduce_then_increase_restores_stock_witness :
  exists taken w1 w2,
    Product_reduce_stock Fixtures.ink 3 Fixtures.shop = (Returned (true, taken), w1)
    /\ Product_increase_stock taken 3 w1 = (Returned Fixtures.ink, w2)
    /\ find_product (db w2) 2 = Returned Fixtures.ink.
Proof.
  destruct (reduce_then_increase_restores_stock
              Fixtures.ink Fixtures.ink 3 Fixtures.shop eq_refl)
    as (taken & w1 & w2 & H1 & H2 & Hst & _).
  - cbn. lia.
  - exists taken, w1, w2. split; [exact H1|]. split; [exact H2 | exact Hst].
Defined.

(** * The generated order numbers *)

(** Reading a decimal numeral back, zeros in front or not. *)
Lemma read_zero_padded (k : nat) (d : Decimal.uint) :
  d <> Decimal.Nil ->
  option_map Z.of_uint
             (NilEmpty.uint_of_string (replicate k "0" ++ NilEmpty.string_of_uint d))
  = Some (Z.of_uint d).
Proof.
  intros Hd. induction k as [|k IH].
  - cbn [replicate append]. rewrite NilEmpty.usu. reflexivity.
  - cbn [replicate append NilEmpty.uint_of_string].
    destruct (NilEmpty.uint_of_string (replicate k "0" ++ NilEmpty.string_of_uint d))
      as [u|]; [|discriminate IH].
    cbn in IH |- *. exact IH.
Qed.

Lemma str_Z_nonneg (z : Z) :
  0 <= z ->
  exists d, d <> Decimal.Nil /\ str_Z z = NilEmpty.string_of_uint d /\ Z.of_uint d = z.
Proof.
  intros Hz. unfold str_Z. destruct z as [|p|p]; [| |lia].
  - exists (Decimal.D0 Decimal.Nil). repeat split. discriminate.
  - exists (Pos.to_uint p). split; [apply DecimalPos.Unsigned.to_uint_nonnil|].
    split.
    + cbn. unfold NilZero.string_of_uint.
      destruct (Pos.to_uint p) eqn:E; try reflexivity.
      exfalso. apply (DecimalPos.Unsigned.to_uint_nonnil p E).
    + pose proof (DecimalZ.of_to (Z.pos p)) as H. cbn in H. exact H.
Qed.

Lemma rjust_zeros_inj (n : nat) (a b : Z) :
  0 <= a -> 0 <= b ->
  rjust n "0" (str_Z a) = rjust n "0" (str_Z b) -> a = b.
Proof.
  intros Ha Hb H. unfold rjust in H.
  destruct (str_Z_nonneg a Ha) as (da & Hda & Ea & Za).
  destruct (str_Z_nonneg b Hb) as (db0 & Hdb & Eb & Zb).
  rewrite Ea, Eb in H.
  pose proof (read_zero_padded (n - String.length (NilEmpty.string_of_uint da)) da Hda)
    as Ra.
  pose proof (read_zero_padded (n - String.length (NilEmpty.string_of_uint db0)) db0 Hdb)
    as Rb.
  rewrite H, Rb in Ra. inversion Ra. lia.
Qed.

Lemma rjust_zeros_head (n : nat) (z : Z) :
  0 <= z -> exists c r, rjust n "0" (str_Z z) = String c r /\ is_digit c = true.
Proof.
  intros Hz. unfold rjust.
  destruct (n - String.length (str_Z z))%nat as [|k].
  - cbn [replicate append]. destruct (str_Z_head z) as (c & r & E & [Hc | Hc]).
    + eauto.
    + exfalso. subst c. destruct (str_Z_nonneg z Hz) as (d & _ & Ed & _).
      assert (Hd : is_digit "-" = true).
      { apply (string_of_uint_digits d). rewrite <- Ed, E. cbn [has_char].
        rewrite Ascii.eqb_refl. reflexivity. }
      discriminate Hd.
  - cbn [replicate append]. eauto.
Qed.

Lemma format_06d_inj (a b : Z) : format_06d a = format_06d b -> a = b.
Proof.
  unfold format_06d.
  destruct (Z.ltb_spec a 0) as [Ha|Ha], (Z.ltb_spec b 0) as [Hb|Hb]; intros H.
  - cbn [append] in H. inversion H as [H0].
    apply rjust_zeros_inj in H0; lia.
  - destruct (rjust_zeros_head 6 b Hb) as (c & r & E & Hc). rewrite E in H.
    cbn [append] in H. inversion H; subst c. discriminate Hc.
  - destruct (rjust_zeros_head 6 a Ha) as (c & r & E & Hc). rewrite E in H.
    cbn [append] in H. inversion H; subst c. discriminate Hc.
  - apply (rjust_zeros_inj 6); assumption.
Qed.

(** X22.  The numbers that [Order.save] generates tell the orders apart:
    two orders created without a number, in whatever states of the tables,
    that were given different keys come back with different order numbers. *)
Theorem generated_order_numbers_are_distinct :
  forall (a b created_a created_b : Order.t) (wa wa' wb wb' : World),
    Order.order_number a = "" ->
    Order.order_number b = "" ->
    Order_objects_create a wa = (Returned created_a, wa') ->
    Order_objects_create b wb = (Returned created_b, wb') ->
    Order.id created_a <> Order.id created_b ->
    Order.order_number created_a <> Order.order_number created_b.
Proof.
  intros a b ca cb wa wa' wb wb' Ha Hb Hca Hcb Hid Hnum. apply Hid.
  destruct (Order_objects_create_run a wa Ha) as (ra & sa & Ea & _).
  destruct (Order_objects_create_run b wb Hb) as (rb & sb & Eb & _).
  cbv zeta in Ea, Eb. rewrite Ea in Hca. rewrite Eb in Hcb.
  injection Hca as Hoa _. injection Hcb as Hob _.
  rewrite <- Hoa, <- Hob in Hnum |- *.
  cbn [Order.order_number Order.with_order_number Order.id Order.with_id] in Hnum |- *.
  cbn [append] in Hnum. inversion Hnum as [H0].
  apply format_06d_inj, H0.
Qed.

(** Alice's order created before and after her checkout: keys 1 and 2,
    numbers ORD-000001 and ORD-000002. *)
Lemma generated_order_numbers_are_distinct_witness :
  exists (created_a created_b : Order.t) (wa wb : World),
    Order_objects_create Fixtures.draft Fixtures.shop_with_cart = (Returned created_a, wa)
    /\ Order_objects_create Fixtures.draft Fixtures.shop_after_checkout
       = (Returned created_b, wb)
    /\ Order.order_number created_a <> Order.order_number created_b.
Proof.
  eexists. eexists. eexists. eexists.
  split; [vm_compute; reflexivity|]. split; [vm_compute; reflexivity|].
  apply (generated_order_numbers_are_distinct
           Fixtures.draft Fixtures.draft _ _
           Fixtures.shop_with_cart _ Fixtures.shop_after_checkout _
           eq_refl eq_refl eq_refl eq_refl).
  cbn. discriminate.
Defined.

(** * The number of items of an order *)

Lemma made_from_quantities (order : Order.t) (d : DB) (items : list CartItem.t)
      (added : list OrderItem.t) :
  Forall2 (made_from order d) items added ->
  fold_right (fun i acc => OrderItem.quantity i + acc) 0 added
  = fold_right (fun i acc => CartItem.quantity i + acc) 0 items.
Proof.
  induction 1 as [|i oi items added (_ & _ & Hq & _) _ IH]; [reflexivity|].
  cbn [fold_right]. rewrite Hq, IH. reflexivity.
Qed.

(** X23.  A checkout that went through, by the REST view or by the AJAX
    view, in a shop where no order item points at the key the order takes,
    leaves an order whose [total_items] is the [total_items] the cart had,
    and a cart whose [total_items] is 0. *)
Theorem checkout_keeps_the_item_count :
  forall (user : User.t) (cart : Cart.t) (order : Order.t) (w w' : World),
    checkout_succeeded user w order w' ->
    next_order_key_unused (db w) ->
    objects_get "Cart" (fun c => Cart.user c =? User.id user) (carts (db w))
    = Returned cart ->
    Order_total_items order (db w') = Cart_total_items cart (db w)
    /\ Cart_total_items cart (db w') = 0.
Proof.
  intros user cart order w w' Hdone Hunused Hcart.
  apply checkout_succeeded_checked_out in Hdone.
  destruct Hdone as (cart0 & rows & added & history & next_history & Hcart0 & _ & _
                     & Hdb & _ & Hid & _ & Hmade).
  rewrite Hcart in Hcart0. inversion Hcart0; subst cart0.
  unfold Order_total_items, Cart_total_items, Order_items, Cart_items.
  rewrite Hdb. cbn [order_items cart_items after_checkout]. split.
  - rewrite filter_app.
    assert (Hold : filter (fun i => OrderItem.order i =? Order.id order)
                          (order_items (db w)) = []).
    { apply (filter_key_absent OrderItem.order). intros Hin.
      apply in_map_iff in Hin. destruct Hin as (oi & E & Hin).
      apply (Hunused oi Hin). rewrite E. exact Hid. }
    rewrite Hold. cbn [app]. rewrite (proj1 (proj2 (made_from_total _ _ _ _ Hmade))).
    apply (made_from_quantities _ _ _ _ Hmade).
  - rewrite filter_complement. reflexivity.
Qed.

(** Alice's cart of two pens and three inks: five items in her order, by
    either view, and none left in the cart. *)
Lemma checkout_keeps_the_item_count_witness :
  (Order_total_items Fixtures.order_1 (db Fixtures.shop_after_checkout) = 5
   /\ Cart_total_items Fixtures.alice_cart (db Fixtures.shop_after_checkout) = 0)
  /\ Order_total_items Fixtures.api_order_1 (db Fixtures.shop_after_api_checkout)
     = Cart_total_items Fixtures.alice_cart (db Fixtures.shop_with_cart).
Proof.
  split.
  - refine (checkout_keeps_the_item_count
              Fixtures.alice Fixtures.alice_cart Fixtures.order_1
              Fixtures.shop_with_cart Fixtures.shop_after_checkout
              (rest_checkout _ _ _ _ Fixtures.shipping _) _ eq_refl).
    + vm_compute. reflexivity.
    + intros oi [].
  - refine (proj1 (checkout_keeps_the_item_count
                     Fixtures.alice Fixtures.alice_cart Fixtures.api_order_1
                     Fixtures.shop_with_cart Fixtures.shop_after_api_checkout
                     (ajax_checkout _ _ _ _ Fixtures.form Fixtures.alice_cart _ _ _)
                     _ eq_refl)).
    + reflexivity.
    + discriminate.
    + vm_compute. reflexivity.
    + intros oi [].
Defined.

(** * The routes of orders/urls.py *)

Lemma strip_prefix_Some (text path tail : string) :
  OrdersUrls.strip_prefix text path = Some tail -> path = text ++ tail.
Proof.
  revert path. induction text as [|a t IH]; intros path H.
  - cbn in H. inversion H. reflexivity.
  - destruct path as [|b p]; [discriminate H|]. cbn [OrdersUrls.strip_prefix] in H.
    destruct (Ascii.eqb_spec a b) as [->|]; [|discriminate H].
    cbn [append]. f_equal. apply IH, H.
Qed.

Lemma match_literal (text path : string) (kwargs : list (string * string)) :
  OrdersUrls.match_route [OrdersUrls.Literal text] path = Some kwargs -> path = text.
Proof.
  cbn [OrdersUrls.match_route].
  destruct (OrdersUrls.strip_prefix text path) as [tail|] eqn:E; [|discriminate].
  apply strip_prefix_Some in E. destruct tail; [|discriminate].
  intros _. rewrite E. apply append_nil_r.
Qed.

(** X24.  The resolver of orders/urls.py reaches eleven of its sixteen
    views.  [<str:order_number>/] is tried before [admin/], and
    [admin/<str:order_number>/] before the four admin utility routes, so no
    path resolves to the admin order list, the statistics, the recent or the
    pending orders, or the bulk status update. *)
Theorem urls_reach_eleven_views :
  forall name : string,
    (exists path kwargs, OrdersUrls.resolve path = Some (name, kwargs))
    <-> In name [ "cart"; "add_to_cart"; "clear_cart"; "cart_item"; "order_list";
                  "create_order"; "order_detail"; "user_order_summary";
                  "admin_order_detail"; "update_order_status";
                  "update_payment_status" ].
Proof.
  intros name. split.
  - intros (path & kwargs & H).
    unfold OrdersUrls.resolve, OrdersUrls.urlpatterns in H.
    cbn [OrdersUrls.first_match] in H.
    repeat lazymatch type of H with
           | match ?m with Some _ => _ | None => _ end = _ =>
             let E := fresh "E" in
             destruct m eqn:E;
               [ inversion H; subst name;
                 solve [ cbn [In]; tauto
                       | apply match_literal in E; subst path;
                         match goal with
                         | E' : OrdersUrls.match_route _ _ = None |- _ =>
                           vm_compute in E'; discriminate E'
                         end ]
               | ]
           end.
    discriminate H.
  - cbn [In].
    intros [<-|[<-|[<-|[<-|[<-|[<-|[<-|[<-|[<-|[<-|[<-|[]]]]]]]]]]]].
    + exists "cart/". eexists. reflexivity.
    + exists "cart/add/". eexists. reflexivity.
    + exists "cart/clear/". eexists. reflexivity.
    + exists "cart/items/12/". eexists. reflexivity.
    + exists "". eexists. reflexivity.
    + exists "create/". eexists. reflexivity.
    + exists "ORD-000001/". eexists. reflexivity.
    + exists "user/summary/". eexists. reflexivity.
    + exists "admin/ORD-000001/". eexists. reflexivity.
    + exists "admin/ORD-000001/status/". eexists. reflexivity.
    + exists "admin/ORD-000001/payment/". eexists. reflexivity.
Qed.

(** [admin/bulk-update-status/] goes to the detail view of the order numbered
    bulk-update-status. *)
Lemma urls_reach_eleven_views_witness :
  OrdersUrls.resolve "admin/bulk-update-status/"
  = Some ("admin_order_detail", [("order_number", "bulk-update-status")])
  /\ In "admin_order_detail"
        [ "cart"; "add_to_cart"; "clear_cart"; "cart_item"; "order_list";
          "create_order"; "order_detail"; "user_order_summary";
          "admin_order_detail"; "update_order_status"; "update_payment_status" ].
Proof.
  split; [reflexivity|].
  apply (proj1 (urls_reach_eleven_views "admin_order_detail")).
  exists "admin/bulk-update-status/". eexists. reflexivity.
Defined.

Lemma take_while_segment (x tail : string) :
  has_char "/" x = false ->
  OrdersUrls.take_while (fun c => negb (Ascii.eqb c "/")) (x ++ String "/" tail)
  = (x, String "/" tail).
Proof.
  induction x as [|c x IH]; intros H.
  - reflexivity.
  - cbn [has_char] in H. apply orb_false_iff in H. destruct H as [Hc Hx].
    cbn [append OrdersUrls.take_while]. rewrite Hc. cbn [negb].
    rewrite (IH Hx). reflexivity.
Qed.

(** A literal route that starts with a segment and a slash takes a one-segment
    path only when the path is that segment. *)
Lemma strip_prefix_segment (seg rest x : string) :
  has_char "/" seg = false -> has_char "/" x = false ->
  x <> seg ->
  OrdersUrls.strip_prefix (seg ++ String "/" rest) (x ++ String "/" "") = None.
Proof.
  intros Hseg Hx Hne.
  destruct (OrdersUrls.strip_prefix (seg ++ String "/" rest) (x ++ String "/" ""))
    as [tail|] eqn:E; [|reflexivity].
  apply strip_prefix_Some in E. rewrite append_assoc in E. cbn [append] in E.
  destruct (split_at_char "/" x seg "" (rest ++ tail) Hx Hseg E) as [Heq _].
  contradiction.
Qed.

(** X25.  Below [api/orders/], a path of one segment other than cart and
    create goes to [OrderDetailView] with the segment for order number, admin
    included; and a path of admin and one more segment goes to
    [AdminOrderDetailView] with that segment for order number, whatever the
    segment: statistics, recent, pending and bulk-update-status as well. *)
Theorem one_segment_is_an_order_number :
  forall x : string,
    x <> "" ->
    has_char "/" x = false ->
    (x <> "cart" -> x <> "create" ->
     OrdersUrls.resolve (x ++ "/") = Some ("order_detail", [("order_number", x)]))
    /\ OrdersUrls.resolve ("admin/" ++ x ++ "/")
       = Some ("admin_order_detail", [("order_number", x)]).
Proof.
  intros x Hne Hx. split.
  - intros Hcart Hcreate.
    unfold OrdersUrls.resolve, OrdersUrls.urlpatterns.
    cbn [OrdersUrls.first_match OrdersUrls.match_route].
    rewrite (strip_prefix_segment "cart" "" x eq_refl Hx Hcart
             : OrdersUrls.strip_prefix "cart/" (x ++ "/") = None).
    rewrite (strip_prefix_segment "cart" "add/" x eq_refl Hx Hcart
             : OrdersUrls.strip_prefix "cart/add/" (x ++ "/") = None).
    rewrite (strip_prefix_segment "cart" "clear/" x eq_refl Hx Hcart
             : OrdersUrls.strip_prefix "cart/clear/" (x ++ "/") = None).
    rewrite (strip_prefix_segment "cart" "items/" x eq_refl Hx Hcart
             : OrdersUrls.strip_prefix "cart/items/" (x ++ "/") = None).
    rewrite (strip_prefix_segment "create" "" x eq_refl Hx Hcreate
             : OrdersUrls.strip_prefix "create/" (x ++ "/") = None).
    cbn [OrdersUrls.strip_prefix].
    rewrite (take_while_segment x "" Hx).
    destruct x as [|c x]; [contradiction|].
    cbn [append OrdersUrls.strip_prefix]. rewrite Ascii.eqb_refl.
    cbn [OrdersUrls.match_route option_map]. reflexivity.
  - unfold OrdersUrls.resolve, OrdersUrls.urlpatterns.
    cbn [OrdersUrls.first_match OrdersUrls.match_route append
         OrdersUrls.strip_prefix OrdersUrls.take_while].
    cbn [Ascii.eqb Bool.eqb negb option_map].
    rewrite (take_while_segment x "" Hx).
    destruct x as [|c x]; [contradiction|].
    cbn [append OrdersUrls.strip_prefix OrdersUrls.match_route Ascii.eqb Bool.eqb
         option_map].
    reflexivity.
Qed.

(** [admin/] is order number admin for [OrderDetailView];
    [admin/statistics/] is order number statistics for
    [AdminOrderDetailView]. *)
Lemma one_segment_is_an_order_number_witness :
  OrdersUrls.resolve "admin/" = Some ("order_detail", [("order_number", "admin")])
  /\ OrdersUrls.resolve "admin/statistics/"
     = Some ("admin_order_detail", [("order_number", "statistics")]).
Proof.
  split.
  - apply (proj1 (one_segment_is_an_order_number "admin" ltac:(discriminate) eq_refl));
      discriminate.
  - apply (proj2 (one_segment_is_an_order_number "statistics" ltac:(discriminate)
                                                 eq_refl)).
Defined.
